(** * MNIST_CUDA: the layer engine of [src/layer.cu]

    A shallow embedding of the layer classes of [src/layer.cu] (optimizer
    kernels, parameter materialisation, persistence, the softmax head) and
    the properties the specification states about them.

    Modelling conventions.
    - [float] values are idealised as real numbers [R]: rounding, overflow
      and NaN are outside the model, so every formula is read as the
      mathematical formula it denotes.
    - [int] values that only count or index are [nat]; the Adam step counter
      is a [Z] with its 32-bit wrap-around written out; status codes are [Z].
    - Device and host buffers are [list R]; [a !!! i] reads [a[i]] and
      [<[i:=x]> a] writes it.
    - A CUDA kernel launch is the sequential run of its threads in block and
      thread order, each thread running the grid-stride loop of the source;
      [launch_device] has the [unsigned int] and [size_t] arithmetic of the
      loop, [launch] is the same loop over the natural numbers.
    - Calls into cuBLAS/cuDNN/CUDA runtime are assumed to succeed
      ([checkCudaErrors] and friends never fire). *)

From Stdlib Require Import Reals Lra Lia ZArith.
From stdpp Require Import base list gmap strings pretty.

#[global] Instance R_inhabited : Inhabited R := populate 0%R.

Set Default Proof Using "Type".

(** ** 32-bit [int] arithmetic *)

Definition INT_MIN : Z := (- 2 ^ 31)%Z.
Definition INT_MAX : Z := (2 ^ 31 - 1)%Z.

(** Two's complement reduction of a mathematical integer to [int]. *)
Definition wrap_int (z : Z) : Z := ((z + 2 ^ 31) mod 2 ^ 32 - 2 ^ 31)%Z.

(** Reduction to [unsigned int], the type of [blockIdx.x], [blockDim.x],
    [threadIdx.x] and [gridDim.x], and to the 64-bit [size_t]. *)
Definition wrap_unsigned (z : Z) : Z := (z mod 2 ^ 32)%Z.
Definition wrap_size_t (z : Z) : Z := (z mod 2 ^ 64)%Z.

(** ** CUDA grid-stride loops and kernel launches *)

Section KernelLaunch.
Context {St : Type}.
(** The loop body, for one value of the loop variable [i]. *)
Variable body : nat → St → St.

(** [CUDA_1D_KERNEL_LOOP(i, n)], lines 17-19, with the arithmetic of the
    device: [for (size_t i = start; i < n; i += stride)], where the [int]
    count [n] is converted to [size_t] for the comparison and [i += stride]
    wraps around at 2^64. *)
Fixpoint CUDA_1D_KERNEL_LOOP (fuel : nat) (n stride i : Z) (s : St) : St :=
  match fuel with
  | O => s
  | S fuel' =>
      if (i <? wrap_size_t n)%Z
      then CUDA_1D_KERNEL_LOOP fuel' n stride (wrap_size_t (i + stride))
             (body (Z.to_nat i) s)
      else s
  end.

(** [kernel <<< gridDim, blockDim >>> (n, ...)] on the device: the first
    index [blockIdx.x * blockDim.x + threadIdx.x] and the stride
    [blockDim.x * gridDim.x] are computed in [unsigned int] and then widened
    to [size_t].  The fuel is the count as the comparison sees it: with a
    count that is not negative, a thread with a positive stride leaves its
    loop within that many iterations. *)
Definition launch_device (gridDim blockDim : nat) (n : Z) (s : St) : St :=
  foldl (λ s blockIdx,
    foldl (λ s threadIdx,
             let start :=
               wrap_unsigned
                 (Z.of_nat blockIdx * Z.of_nat blockDim + Z.of_nat threadIdx) in
             let stride := wrap_unsigned (Z.of_nat blockDim * Z.of_nat gridDim) in
             CUDA_1D_KERNEL_LOOP (Z.to_nat (wrap_size_t n)) n stride start s)
      s (seq 0 blockDim))
    s (seq 0 gridDim).

(** The same loop over the natural numbers, without wrap-around. *)
Fixpoint kernel_loop (fuel n stride i : nat) (s : St) : St :=
  match fuel with
  | O => s
  | S fuel' =>
      if (i <? n)%nat
      then kernel_loop fuel' n stride (i + stride) (body i s)
      else s
  end.

(** The thread [threadIdx] of block [blockIdx]: it starts at
    [blockIdx.x * blockDim.x + threadIdx.x] and strides by
    [blockDim.x * gridDim.x], both taken over the natural numbers; this is
    the loop of [launch_device] as long as the launch has fewer than 2^32
    threads and [n] fits [int].  [n] iterations always suffice. *)
Definition thread_run (gridDim blockDim n blockIdx threadIdx : nat) (s : St) : St :=
  kernel_loop n n (blockDim * gridDim) (blockIdx * blockDim + threadIdx) s.

(** [kernel <<< gridDim, blockDim >>> (n, ...)] over the natural numbers. *)
Definition launch (gridDim blockDim n : nat) (s : St) : St :=
  foldl (λ s b, foldl (λ s t, thread_run gridDim blockDim n b t s) s (seq 0 blockDim))
        s (seq 0 gridDim).

(** The values the loop variable takes, in order. *)
Fixpoint loop_indices (fuel n stride i : nat) : list nat :=
  match fuel with
  | O => []
  | S fuel' =>
      if (i <? n)%nat then i :: loop_indices fuel' n stride (i + stride) else []
  end.

Definition schedule (gridDim blockDim n : nat) : list nat :=
  seq 0 gridDim ≫= λ b, seq 0 blockDim ≫= λ t,
    loop_indices n n (blockDim * gridDim) (b * blockDim + t).

Definition run_indices (l : list nat) (s : St) : St := foldl (λ s i, body i s) s l.
End KernelLaunch.

(** ** The optimizer kernels *)

Local Open Scope R_scope.

(** The three device arrays an Adam launch writes: [m], [v] and [w]. *)
Definition adam_state : Type := list R * list R * list R.

(** Body of [adam_update], lines 42-48. *)
Definition adam_body (step : Z) (g : list R) (beta1 beta2 eps_hat lr : R)
    (i : nat) (s : adam_state) : adam_state :=
  let '(m, v, w) := s in
  let m := <[i := m !!! i * beta1 + g !!! i * (1 - beta1)]> m in
  let v := <[i := v !!! i * beta2 + g !!! i * g !!! i * (1 - beta2)]> v in
  let mi := m !!! i / (1 - powerRZ beta1 (wrap_int (step + 1))) in
  let vi := v !!! i / (1 - powerRZ beta2 (wrap_int (step + 1))) in
  let w := <[i := w !!! i - lr * mi / (sqrt vi + eps_hat)]> w in
  (m, v, w).

(** [adam_update <<< gridDim, blockDim >>> (N, step, m, v, w, g, beta1, beta2, eps_hat, lr)]. *)
Definition adam_update (gridDim blockDim : nat) (N : nat) (step : Z)
    (m v w g : list R) (beta1 beta2 eps_hat lr : R) : adam_state :=
  launch (adam_body step g beta1 beta2 eps_hat lr) gridDim blockDim N (m, v, w).

(** The two device arrays an RMSProp launch writes: [m] and [w]. *)
Definition rmsprop_state : Type := list R * list R.

(** Body of [rmsprop_update], lines 61-64. *)
Definition rmsprop_body (g : list R) (decay eps_hat lr : R)
    (i : nat) (s : rmsprop_state) : rmsprop_state :=
  let '(m, w) := s in
  let m := <[i := m !!! i + (1 - decay) * (g !!! i * g !!! i - m !!! i)]> m in
  let w := <[i := w !!! i - lr * g !!! i / sqrt (eps_hat + m !!! i)]> w in
  (m, w).

(** [rmsprop_update <<< gridDim, blockDim >>> (N, m, w, g, decay, eps_hat, lr)]. *)
Definition rmsprop_update (gridDim blockDim : nat) (N : nat)
    (m w g : list R) (decay eps_hat lr : R) : rmsprop_state :=
  launch (rmsprop_body g decay eps_hat lr) gridDim blockDim N (m, w).

(** What one cell of [m], [v], [w] becomes under Adam. *)
Definition adam_cell (step : Z) (beta1 beta2 eps_hat lr : R) (gi : R)
    (c : R * R * R) : R * R * R :=
  let '(mi, vi, wi) := c in
  let m' := mi * beta1 + gi * (1 - beta1) in
  let v' := vi * beta2 + gi * gi * (1 - beta2) in
  (m', v',
   wi - lr * (m' / (1 - powerRZ beta1 (wrap_int (step + 1))))
        / (sqrt (v' / (1 - powerRZ beta2 (wrap_int (step + 1)))) + eps_hat)).

(** What one cell of [m], [w] becomes under RMSProp. *)
Definition rmsprop_cell (decay eps_hat lr : R) (gi : R) (c : R * R) : R * R :=
  let '(mi, wi) := c in
  let m' := mi + (1 - decay) * (gi * gi - mi) in
  (m', wi - lr * gi / sqrt (eps_hat + m')).

(** How the launch lemmas look at the kernel states: the cells at one index,
    and whether an index lies inside the buffers. *)
Definition adam_read (s : adam_state) (i : nat) : R * R * R :=
  (s.1.1 !!! i, s.1.2 !!! i, s.2 !!! i).

Definition adam_ok (i : nat) (s : adam_state) : Prop :=
  (i < length s.1.1 ∧ i < length s.1.2 ∧ i < length s.2)%nat.

Definition rmsprop_read (s : rmsprop_state) (i : nat) : R * R :=
  (s.1 !!! i, s.2 !!! i).

Definition rmsprop_ok (i : nat) (s : rmsprop_state) : Prop :=
  (i < length s.1 ∧ i < length s.2)%nat.

(** ** The [add] kernel *)

(** [array_c[i] = array_a[i] + array_b[i]] for an [int] index [i]; an index
    outside [array_c] leaves it as it is. *)
Definition add_body (array_a array_b : list R) (i : Z) (array_c : list R) : list R :=
  if (0 <=? i)%Z
  then <[Z.to_nat i := array_a !!! Z.to_nat i + array_b !!! Z.to_nat i]> array_c
  else array_c.

(** The loop of [add], line 25: [for (int i = tid; i < size; i += step)],
    with the [int] addition wrapping around. *)
Fixpoint add_loop (fuel : nat) (array_a array_b : list R) (size step i : Z)
    (array_c : list R) : list R :=
  match fuel with
  | O => array_c
  | S fuel' =>
      if (i <? size)%Z
      then add_loop fuel' array_a array_b size step (wrap_int (i + step))
             (add_body array_a array_b i array_c)
      else array_c
  end.

(** [add <<< gridDim, blockDim >>> (array_a, array_b, array_c, size)], lines
    21-28.  [tid] and [step] are the [int] values of the unsigned products;
    a thread with a positive stride leaves its loop within [size]
    iterations. *)
Definition add (gridDim blockDim : nat) (array_a array_b array_c : list R) (size : Z)
    : list R :=
  foldl (λ c blockIdx,
    foldl (λ c threadIdx,
             let tid := wrap_int (Z.of_nat (blockIdx * blockDim + threadIdx)) in
             let step := wrap_int (Z.of_nat (blockDim * gridDim)) in
             add_loop (Z.to_nat size) array_a array_b size step tid c)
      c (seq 0 blockDim))
    array_c (seq 0 gridDim).

Local Close Scope R_scope.

(** * The layer engine *)

Section LayerEngine.

(** ** What the source takes from outside [layer.cu] *)

(** The content of freshly allocated memory, cell by cell: [new float[n]]
    and [cudaMalloc] initialise nothing. *)
Variable uninit : nat → R.

(** The launch constants [BLOCK_DIM] and [BLOCK_DIM_1D]; their definitions
    are in a header that is not under src/. *)
Variable BLOCK_DIM : nat.
Variable BLOCK_DIM_1D : nat.

(** The C++ standard library's random engine: [std::mt19937 gen(seed)] and
    one draw [dis(gen)] of [std::uniform_real_distribution<> dis(a, b)]. *)
Variable engine : Type.
Variable mt19937 : Z → engine.
Variable uniform_real_distribution : R → R → engine → R * engine.

(** The default argument of [init_weight_bias], declared in layer.h. *)
Variable default_seed : Z.

(** ** Blobs *)

Inductive DeviceType : Type := host | cuda.

(** Modelled from the spec: the [Blob] class of blob.h, which is not under
    src/ (section 4.1, Tensor), with its methods below.  A blob has a shape
    (N,C,H,W) and two buffers of N*C*H*W elements, one on the host and one
    on the device, with no implicit coherence. *)
Record Blob : Type := mkBlob {
  blob_n : nat;
  blob_c : nat;
  blob_h : nat;
  blob_w : nat;
  h_ptr_ : list R;
  d_ptr_ : list R;
}.

Definition set_h_ptr_ x (r : Blob) : Blob :=
  mkBlob (blob_n r) (blob_c r) (blob_h r) (blob_w r) x (d_ptr_ r).

Definition set_d_ptr_ x (r : Blob) : Blob :=
  mkBlob (blob_n r) (blob_c r) (blob_h r) (blob_w r) (h_ptr_ r) x.

Definition shape : Type := nat * nat * nat * nat.

Definition Blob_shape (b : Blob) : shape := (blob_n b, blob_c b, blob_h b, blob_w b).

(** [size()] is the element count of one batch item, [len() = N * size()]. *)
Definition Blob_size (b : Blob) : nat := blob_c b * blob_h b * blob_w b.

Definition Blob_len (b : Blob) : nat := blob_n b * Blob_size b.

Definition fresh_buffer (len : nat) : list R := uninit <$> seq 0 len.

(** [new Blob<float>(n, c, h, w)]. *)
Definition Blob_new (n c h w : nat) : Blob :=
  mkBlob n c h w (fresh_buffer (n * (c * h * w))) (fresh_buffer (n * (c * h * w))).

Definition Blob_of_shape (s : shape) : Blob :=
  let '(n, c, h, w) := s in Blob_new n c h w.

(** [reset(shape)] reallocates only if the shape differs. *)
Definition Blob_reset (b : Blob) (s : shape) : Blob :=
  if decide (Blob_shape b = s) then b else Blob_of_shape s.

(** [to(target)]: a one-directional copy towards [target]. *)
Definition Blob_to (target : DeviceType) (b : Blob) : Blob :=
  match target with
  | host => set_h_ptr_ (d_ptr_ b) b
  | cuda => set_d_ptr_ (h_ptr_ b) b
  end.

(** Both buffers hold exactly [len()] elements. *)
Definition Blob_wf (b : Blob) : Prop :=
  length (h_ptr_ b) = Blob_len b ∧ length (d_ptr_ b) = Blob_len b.

(** ** The world around a layer *)

(** Blobs the caller owns (inputs, targets) are reached through pointers. *)
Definition ptr : Type := nat.

Record World : Type := mkWorld {
  (** what was written to [std::cout], oldest first *)
  stdout : list string;
  (** the parameter files, by path *)
  files : gmap string (list R);
  (** paths that cannot be opened for writing *)
  write_denied : string → bool;
  (** the caller's blobs *)
  heap : gmap ptr Blob;
  (** the values [std::random_device] returns, and how many were taken *)
  random_device : nat → Z;
  rd_calls : nat;
}.

Definition set_stdout x (r : World) : World :=
  mkWorld x (files r) (write_denied r) (heap r) (random_device r) (rd_calls r).

Definition set_files x (r : World) : World :=
  mkWorld (stdout r) x (write_denied r) (heap r) (random_device r) (rd_calls r).

Definition set_heap x (r : World) : World :=
  mkWorld (stdout r) (files r) (write_denied r) x (random_device r) (rd_calls r).

Definition set_rd_calls x (r : World) : World :=
  mkWorld (stdout r) (files r) (write_denied r) (heap r) (random_device r) x.

(** How a call ends: it returns, the process leaves through [exit(status)],
    an [assert] fails, or a null pointer is dereferenced. *)
Inductive Result (A : Type) : Type :=
  | Ok (a : A) (W : World)
  | Exit (status : Z) (W : World)
  | Abort (W : World)
  | Fault.

#[global] Arguments Ok {A} a W.
#[global] Arguments Exit {A} status W.
#[global] Arguments Abort {A} W.
#[global] Arguments Fault {A}.

Definition M (A : Type) : Type := World → Result A.

Definition ret {A} (a : A) : M A := λ W, Ok a W.

Definition bind {A B} (c : M A) (k : A → M B) : M B :=
  λ W, match c W with
       | Ok a W' => k a W'
       | Exit status W' => Exit status W'
       | Abort W' => Abort W'
       | Fault => Fault
       end.

Notation "'let*' x ':=' c 'in' k" := (bind c (λ x, k))
  (at level 10, x pattern, c at level 100, k at level 200).

(** [p->...] on a pointer field that may be null. *)
Definition deref {A} (p : option A) : M A :=
  λ W, match p with Some a => Ok a W | None => Fault end.

(** [*p] on a caller's blob; a pointer to no blob is a fault. *)
Definition load (p : ptr) : M Blob :=
  λ W, match heap W !! p with Some b => Ok b W | None => Fault end.

Definition store (p : ptr) (b : Blob) : M unit :=
  λ W, Ok tt (set_heap (<[p := b]> (heap W)) W).

(** [std::cout << s]. *)
Definition print (s : string) : M unit :=
  λ W, Ok tt (set_stdout (stdout W ++ [s]) W).

(** [exit(status)]. *)
Definition exit {A} (status : Z) : M A := λ W, Exit status W.

(** [assert(c)]. *)
Definition assert (c : bool) : M unit := λ W, if c then Ok tt W else Abort W.

(** [rd()] on a [std::random_device]. *)
Definition rd : M Z :=
  λ W, Ok (random_device W (rd_calls W)) (set_rd_calls (S (rd_calls W)) W).

(** Modelled from the spec: [Blob::file_read] and [Blob::file_write] of
    blob.h, which is not under src/ (section 4.1): the element buffer is
    restored from, or dumped to, a flat sequence of floats; reading fails
    when the file is missing or its size is not [len()].  A failure is any
    nonzero status, here [-1]; the dumped buffer is the device one and a
    read fills both buffers. *)
Definition Blob_file_read (path : string) (b : Blob) : M (Z * Blob) :=
  λ W, match files W !! path with
       | Some data =>
           if decide (length data = Blob_len b)
           then Ok (0%Z, set_d_ptr_ data (set_h_ptr_ data b)) W
           else Ok ((-1)%Z, b) W
       | None => Ok ((-1)%Z, b) W
       end.

Definition Blob_file_write (path : string) (b : Blob) : M Z :=
  λ W, if write_denied W path
       then Ok (-1)%Z W
       else Ok 0%Z (set_files (<[path := d_ptr_ b]> (files W)) W).

(** ** cuBLAS and CUDA runtime calls *)

(** [cublasSaxpy(n, alpha, x, 1, y, 1)]: [y[i] = alpha * x[i] + y[i]]. *)
Definition cublasSaxpy (n : nat) (alpha : R) (x y : list R) : list R :=
  foldl (λ y i, <[i := (alpha * x !!! i + y !!! i)%R]> y) y (seq 0 n).

(** [cublasSscal(n, alpha, x, 1)]: [x[i] = alpha * x[i]]. *)
Definition cublasSscal (n : nat) (alpha : R) (x : list R) : list R :=
  foldl (λ x i, <[i := (alpha * x !!! i)%R]> x) x (seq 0 n).

Definition sum_n (f : nat → R) (k : nat) : R :=
  foldl (λ acc l, (acc + f l)%R) 0%R (seq 0 k).

(** [cublasSgemm(transa, transb, m, n, k, alpha, A, lda, B, ldb, beta, C, ldc)]:
    [C = alpha * op(A) * op(B) + beta * C] on column-major matrices. *)
Definition cublasSgemm (transa transb : bool) (m n k : nat) (alpha : R)
    (A : list R) (lda : nat) (B : list R) (ldb : nat) (beta : R)
    (C : list R) (ldc : nat) : list R :=
  let opA i l := if transa then A !!! (l + i * lda) else A !!! (i + l * lda) in
  let opB l j := if transb then B !!! (j + l * ldb) else B !!! (l + j * ldb) in
  foldl (λ C j,
    foldl (λ C i,
      <[i + j * ldc :=
          (alpha * sum_n (λ l, opA i l * opB l j)%R k + beta * C !!! (i + j * ldc)%nat)%R]> C)
      C (seq 0 m))
    C (seq 0 n).

(** [cudaMemcpy(dst, src, count * sizeof(float), ...)]; a copy that runs
    past the end of either buffer is a fault. *)
Definition cudaMemcpy (dst src : list R) (count : nat) : M (list R) :=
  λ W, if decide (count ≤ length dst ∧ count ≤ length src)
       then Ok (take count src ++ drop count dst) W
       else Fault.

(** The [CudaContext] constants [one], [zero], [minus_one] of helper.h. *)
Definition cuda_one : R := 1%R.
Definition cuda_zero : R := 0%R.
Definition cuda_minus_one : R := (-1)%R.

(** ** The [Layer] base class *)

(** The data members of [Layer] that [layer.cu] reads and writes; a null
    pointer is [None].  The layer owns its parameter, gradient and output
    blobs; [input_] points to a blob of the caller.  A tensor descriptor is
    the shape its blob had when [tensor()] was called. *)
Record Layer : Type := mkLayer {
  name_ : string;
  input_ : option ptr;
  output_ : option Blob;
  grad_input_ : option Blob;
  input_desc_ : option shape;
  output_desc_ : option shape;
  batch_size_ : nat;
  freeze_ : bool;
  load_pretrain_ : bool;
  gradient_stop_ : bool;
  weights_ : option Blob;
  biases_ : option Blob;
  weights_m_ : option Blob;
  weights_v_ : option Blob;
  biases_m_ : option Blob;
  biases_v_ : option Blob;
  grad_weights_ : option Blob;
  grad_biases_ : option Blob;
}.

Definition set_input_ x (r : Layer) : Layer :=
  mkLayer (name_ r) x (output_ r) (grad_input_ r) (input_desc_ r) (output_desc_ r)
    (batch_size_ r) (freeze_ r) (load_pretrain_ r) (gradient_stop_ r) (weights_ r)
    (biases_ r) (weights_m_ r) (weights_v_ r) (biases_m_ r) (biases_v_ r)
    (grad_weights_ r) (grad_biases_ r).

Definition set_output_ x (r : Layer) : Layer :=
  mkLayer (name_ r) (input_ r) x (grad_input_ r) (input_desc_ r) (output_desc_ r)
    (batch_size_ r) (freeze_ r) (load_pretrain_ r) (gradient_stop_ r) (weights_ r)
    (biases_ r) (weights_m_ r) (weights_v_ r) (biases_m_ r) (biases_v_ r)
    (grad_weights_ r) (grad_biases_ r).

Definition set_grad_input_ x (r : Layer) : Layer :=
  mkLayer (name_ r) (input_ r) (output_ r) x (input_desc_ r) (output_desc_ r)
    (batch_size_ r) (freeze_ r) (load_pretrain_ r) (gradient_stop_ r) (weights_ r)
    (biases_ r) (weights_m_ r) (weights_v_ r) (biases_m_ r) (biases_v_ r)
    (grad_weights_ r) (grad_biases_ r).

Definition set_input_desc_ x (r : Layer) : Layer :=
  mkLayer (name_ r) (input_ r) (output_ r) (grad_input_ r) x (output_desc_ r)
    (batch_size_ r) (freeze_ r) (load_pretrain_ r) (gradient_stop_ r) (weights_ r)
    (biases_ r) (weights_m_ r) (weights_v_ r) (biases_m_ r) (biases_v_ r)
    (grad_weights_ r) (grad_biases_ r).

Definition set_output_desc_ x (r : Layer) : Layer :=
  mkLayer (name_ r) (input_ r) (output_ r) (grad_input_ r) (input_desc_ r) x
    (batch_size_ r) (freeze_ r) (load_pretrain_ r) (gradient_stop_ r) (weights_ r)
    (biases_ r) (weights_m_ r) (weights_v_ r) (biases_m_ r) (biases_v_ r)
    (grad_weights_ r) (grad_biases_ r).

Definition set_batch_size_ x (r : Layer) : Layer :=
  mkLayer (name_ r) (input_ r) (output_ r) (grad_input_ r) (input_desc_ r)
    (output_desc_ r) x (freeze_ r) (load_pretrain_ r) (gradient_stop_ r) (weights_ r)
    (biases_ r) (weights_m_ r) (weights_v_ r) (biases_m_ r) (biases_v_ r)
    (grad_weights_ r) (grad_biases_ r).

Definition set_weights_ x (r : Layer) : Layer :=
  mkLayer (name_ r) (input_ r) (output_ r) (grad_input_ r) (input_desc_ r)
    (output_desc_ r) (batch_size_ r) (freeze_ r) (load_pretrain_ r) (gradient_stop_ r) x
    (biases_ r) (weights_m_ r) (weights_v_ r) (biases_m_ r) (biases_v_ r)
    (grad_weights_ r) (grad_biases_ r).

Definition set_biases_ x (r : Layer) : Layer :=
  mkLayer (name_ r) (input_ r) (output_ r) (grad_input_ r) (input_desc_ r)
    (output_desc_ r) (batch_size_ r) (freeze_ r) (load_pretrain_ r) (gradient_stop_ r)
    (weights_ r) x (weights_m_ r) (weights_v_ r) (biases_m_ r) (biases_v_ r)
    (grad_weights_ r) (grad_biases_ r).

Definition set_weights_m_ x (r : Layer) : Layer :=
  mkLayer (name_ r) (input_ r) (output_ r) (grad_input_ r) (input_desc_ r)
    (output_desc_ r) (batch_size_ r) (freeze_ r) (load_pretrain_ r) (gradient_stop_ r)
    (weights_ r) (biases_ r) x (weights_v_ r) (biases_m_ r) (biases_v_ r)
    (grad_weights_ r) (grad_biases_ r).

Definition set_weights_v_ x (r : Layer) : Layer :=
  mkLayer (name_ r) (input_ r) (output_ r) (grad_input_ r) (input_desc_ r)
    (output_desc_ r) (batch_size_ r) (freeze_ r) (load_pretrain_ r) (gradient_stop_ r)
    (weights_ r) (biases_ r) (weights_m_ r) x (biases_m_ r) (biases_v_ r)
    (grad_weights_ r) (grad_biases_ r).

Definition set_biases_m_ x (r : Layer) : Layer :=
  mkLayer (name_ r) (input_ r) (output_ r) (grad_input_ r) (input_desc_ r)
    (output_desc_ r) (batch_size_ r) (freeze_ r) (load_pretrain_ r) (gradient_stop_ r)
    (weights_ r) (biases_ r) (weights_m_ r) (weights_v_ r) x (biases_v_ r)
    (grad_weights_ r) (grad_biases_ r).

Definition set_biases_v_ x (r : Layer) : Layer :=
  mkLayer (name_ r) (input_ r) (output_ r) (grad_input_ r) (input_desc_ r)
    (output_desc_ r) (batch_size_ r) (freeze_ r) (load_pretrain_ r) (gradient_stop_ r)
    (weights_ r) (biases_ r) (weights_m_ r) (weights_v_ r) (biases_m_ r) x
    (grad_weights_ r) (grad_biases_ r).

(** [for (int i = 0; i < b->len(); i++) b->ptr()[i] = 0.f;] *)
Definition fill_zero (b : Blob) : Blob :=
  set_h_ptr_ (foldl (λ h i, <[i := 0%R]> h) (h_ptr_ b) (seq 0 (Blob_len b))) b.

(** [for (int i = 0; i < b->len(); i++) b->ptr()[i] = static_cast<float>(dis(gen));] *)
Definition fill_uniform (lo hi : R) (gen : engine) (b : Blob) : Blob * engine :=
  let '(h, gen) :=
    foldl (λ '(h, gen) i,
             let '(x, gen) := uniform_real_distribution lo hi gen in (<[i := x]> h, gen))
          (h_ptr_ b, gen) (seq 0 (Blob_len b)) in
  (set_h_ptr_ h b, gen).

(** [Layer::init_weight_bias(seed)], lines 93-131. *)
Definition init_weight_bias (seed : Z) (L : Layer) : M Layer :=
  match weights_ L, biases_ L with
  | Some weights, Some biases =>
      let* s := (if decide (seed = 0%Z) then rd else ret seed) in
      let gen := mt19937 s in
      let* input := deref (input_ L) in
      let* input := load input in
      let range := sqrt (6 / INR (Blob_size input)) in
      let weights := (fill_uniform (- range) range gen weights).1 in
      let biases := fill_zero biases in
      let* weights_m := deref (weights_m_ L) in
      let weights_m := fill_zero weights_m in
      let* weights_v := deref (weights_v_ L) in
      let weights_v := fill_zero weights_v in
      let* biases_m := deref (biases_m_ L) in
      let biases_m := fill_zero biases_m in
      let* biases_v := deref (biases_v_ L) in
      let biases_v := fill_zero biases_v in
      let L := set_weights_ (Some (Blob_to cuda weights)) L in
      let L := set_biases_ (Some (Blob_to cuda biases)) L in
      let L := set_weights_m_ (Some (Blob_to cuda weights_m)) L in
      let L := set_weights_v_ (Some (Blob_to cuda weights_v)) L in
      let L := set_biases_m_ (Some (Blob_to cuda biases_m)) L in
      let L := set_biases_v_ (Some (Blob_to cuda biases_v)) L in
      let* _ := print (".. initialized " +:+ name_ L +:+ " layer ..") in
      ret L
  | _, _ => ret L
  end.

(** [Layer::update_weights_biases(learning_rate)], lines 133-174. *)
Definition update_weights_biases (learning_rate : R) (L : Layer) : Layer :=
  let eps := (-1 * learning_rate)%R in
  let L :=
    match weights_ L, grad_weights_ L with
    | Some w, Some gw =>
        set_weights_
          (Some (set_d_ptr_ (cublasSaxpy (Blob_len w) eps (d_ptr_ gw) (d_ptr_ w)) w)) L
    | _, _ => L
    end in
  match biases_ L, grad_biases_ L with
  | Some b, Some gb =>
      set_biases_
        (Some (set_d_ptr_ (cublasSaxpy (Blob_len b) eps (d_ptr_ gb) (d_ptr_ b)) b)) L
  | _, _ => L
  end.

(** [Layer::update_weights_biases_with_adam], lines 176-216. *)
Definition update_weights_biases_with_adam
    (learning_rate beta1 beta2 eps_hat : R) (step : Z) (L : Layer) : M Layer :=
  let* L :=
    match weights_ L, grad_weights_ L with
    | Some w, Some gw =>
        let* wm := deref (weights_m_ L) in
        let* wv := deref (weights_v_ L) in
        let '(m, v, w') :=
          adam_update 16 BLOCK_DIM_1D (Blob_len w) step
            (d_ptr_ wm) (d_ptr_ wv) (d_ptr_ w) (d_ptr_ gw)
            beta1 beta2 eps_hat learning_rate in
        ret (set_weights_ (Some (set_d_ptr_ w' w))
               (set_weights_v_ (Some (set_d_ptr_ v wv))
                  (set_weights_m_ (Some (set_d_ptr_ m wm)) L)))
    | _, _ => ret L
    end in
  match biases_ L, grad_biases_ L with
  | Some b, Some gb =>
      let* bm := deref (biases_m_ L) in
      let* bv := deref (biases_v_ L) in
      let '(m, v, b') :=
        adam_update 16 BLOCK_DIM_1D (Blob_len b) step
          (d_ptr_ bm) (d_ptr_ bv) (d_ptr_ b) (d_ptr_ gb)
          beta1 beta2 eps_hat learning_rate in
      ret (set_biases_ (Some (set_d_ptr_ b' b))
             (set_biases_v_ (Some (set_d_ptr_ v bv))
                (set_biases_m_ (Some (set_d_ptr_ m bm)) L)))
  | _, _ => ret L
  end.

(** The launch both branches of [update_weights_biases_with_rmsprop] make,
    lines 231-232 and 247-248: in each branch the arguments are the weight
    blobs. *)
Definition rmsprop_launch_on_weights
    (learning_rate decay eps_hat : R) (L : Layer) : M Layer :=
  let* w := deref (weights_ L) in
  let* wm := deref (weights_m_ L) in
  let* gw := deref (grad_weights_ L) in
  let '(m, w') :=
    rmsprop_update BLOCK_DIM BLOCK_DIM_1D (Blob_len w)
      (d_ptr_ wm) (d_ptr_ w) (d_ptr_ gw) decay eps_hat learning_rate in
  ret (set_weights_ (Some (set_d_ptr_ w' w))
         (set_weights_m_ (Some (set_d_ptr_ m wm)) L)).

(** [Layer::update_weights_biases_with_rmsprop], lines 218-255. *)
Definition update_weights_biases_with_rmsprop
    (learning_rate decay eps_hat : R) (L : Layer) : M Layer :=
  let* L :=
    match weights_ L, grad_weights_ L with
    | Some _, Some _ => rmsprop_launch_on_weights learning_rate decay eps_hat L
    | _, _ => ret L
    end in
  match biases_ L, grad_biases_ L with
  | Some _, Some _ => rmsprop_launch_on_weights learning_rate decay eps_hat L
  | _, _ => ret L
  end.

(** [Layer::load_parameter], lines 267-282. *)
Definition load_parameter (L : Layer) : M (Z * Layer) :=
  let* w := deref (weights_ L) in
  let* (st, w) := Blob_file_read (name_ L +:+ ".bin") w in
  let L := set_weights_ (Some w) L in
  if decide (st ≠ 0%Z) then ret ((-1)%Z, L) else
  let* b := deref (biases_ L) in
  let* (st, b) := Blob_file_read (name_ L +:+ ".bias.bin") b in
  let L := set_biases_ (Some b) L in
  if decide (st ≠ 0%Z) then ret ((-2)%Z, L) else
  let* _ := print (".. loaded " +:+ name_ L +:+ " pretrain parameter..") in
  ret (0%Z, L).

(** [Layer::save_parameter], lines 284-306. *)
Definition save_parameter (L : Layer) : M Z :=
  let* _ := print (".. saving " +:+ name_ L +:+ " parameter ..") in
  let* st :=
    match weights_ L with
    | Some w => Blob_file_write (name_ L +:+ ".bin") w
    | None => ret 0%Z
    end in
  if decide (st ≠ 0%Z) then ret (-1)%Z else
  let* st :=
    match biases_ L with
    | Some b => Blob_file_write (name_ L +:+ ".bias.bin") b
    | None => ret 0%Z
    end in
  if decide (st ≠ 0%Z) then ret (-2)%Z else
  let* _ := print " done .." in
  ret 0%Z.

(** [EXIT_FAILURE]. *)
Definition EXIT_FAILURE : Z := 1%Z.

(** [Layer::get_loss] and [Layer::get_accuracy], lines 257-265: the
    assertion is always false. *)
Definition Layer_get_loss (target : ptr) (L : Layer) : M R :=
  let* _ := assert false in ret (IZR EXIT_FAILURE).

Definition Layer_get_accuracy (target : ptr) (L : Layer) : M Z :=
  let* _ := assert false in ret EXIT_FAILURE.

(** ** The shared materialisation step *)

(** The block that ends the rebinding branch of [Linear::forward] (lines
    363-373), [Conv2D::forward] (lines 797-807) and
    [FusedBatchNormalization::forward] (lines 1170-1180). *)
Definition materialize_parameters (L : Layer) : M Layer :=
  if load_pretrain_ L && negb (freeze_ L) then
    let* (st, L) := load_parameter L in
    if decide (st ≠ 0%Z) then
      let* _ := print "error occurred.." in exit (-1)%Z
    else ret L
  else if negb (freeze_ L) then init_weight_bias default_seed L
  else ret L.

(** ** [Linear] *)

Record Linear : Type := mkLinear {
  linear_base : Layer;
  input_size_ : nat;
  output_size_ : nat;
  d_one_vec : option (list R);
}.

Definition set_linear_base x (r : Linear) : Linear :=
  mkLinear x (input_size_ r) (output_size_ r) (d_one_vec r).

Definition set_input_size_ x (r : Linear) : Linear :=
  mkLinear (linear_base r) x (output_size_ r) (d_one_vec r).

Definition set_d_one_vec x (r : Linear) : Linear :=
  mkLinear (linear_base r) (input_size_ r) (output_size_ r) x.

(** [init_one_vec <<< gridDim, blockDim >>> (d_one_vec, length)], lines 322-328:
    one thread per cell, no loop. *)
Definition init_one_vec (gridDim blockDim : nat) (d : list R) (length : nat) : list R :=
  foldl (λ d b,
    foldl (λ d t, let i := b * blockDim + t in
                  if (length <=? i)%nat then d else <[i := 1%R]> d)
      d (seq 0 blockDim))
    d (seq 0 gridDim).

(** The rebinding test every [forward] makes:
    [input_ == nullptr || batch_size_ != input->n()]. *)
Definition rebind_needed (L : Layer) (input : Blob) : bool :=
  bool_decide (input_ L = None) || negb (batch_size_ L =? blob_n input)%nat.

(** [Linear::forward], lines 332-344: the parameter blobs are allocated on
    the first call. *)
Definition Linear_allocate_parameters (x : Blob) (L : Linear) : Linear :=
  match weights_ (linear_base L) with
  | None =>
      let input_size := blob_c x * blob_h x * blob_w x in
      let out := output_size_ L in
      let B := linear_base L in
      let B := set_weights_ (Some (Blob_new 1 1 input_size out)) B in
      let B := set_biases_ (Some (Blob_new 1 1 out 1)) B in
      let B := set_weights_m_ (Some (Blob_new 1 1 input_size out)) B in
      let B := set_weights_v_ (Some (Blob_new 1 1 input_size out)) B in
      let B := set_biases_m_ (Some (Blob_new 1 1 out 1)) B in
      let B := set_biases_v_ (Some (Blob_new 1 1 out 1)) B in
      set_linear_base B (set_input_size_ input_size L)
  | Some _ => L
  end.

(** [Linear::forward], lines 347-374: on the first call and when the batch
    size changes the layer is bound to the input, the output buffer and the
    vector of ones are sized, and the parameters are materialised. *)
Definition Linear_rebind (input : ptr) (x : Blob) (L : Linear) : M Linear :=
  if rebind_needed (linear_base L) x then
    let B := linear_base L in
    let B := set_input_ (Some input) B in
    let B := set_batch_size_ (blob_n x) B in
    let batch := batch_size_ B in
    let output :=
      match output_ B with
      | None => Blob_new batch (output_size_ L) 1 1
      | Some o => Blob_reset o (batch, output_size_ L, 1, 1)
      end in
    let B := set_output_ (Some output) B in
    let ones :=
      init_one_vec ((batch + BLOCK_DIM_1D - 1) / BLOCK_DIM_1D) BLOCK_DIM_1D
        (fresh_buffer batch) batch in
    let L := set_d_one_vec (Some ones) L in
    let* B := materialize_parameters B in
    ret (set_linear_base B L)
  else ret L.

(** [Linear::forward], lines 376-405: the two matrix products. *)
Definition Linear_compute (L : Linear) : M Linear :=
  let B := linear_base L in
  let* weights := deref (weights_ B) in
  let* biases := deref (biases_ B) in
  let* bound := deref (input_ B) in
  let* bound := load bound in
  let* output := deref (output_ B) in
  let* ones := deref (d_one_vec L) in
  (* output = weights^T * input (without biases) *)
  let y :=
    cublasSgemm true false (output_size_ L) (batch_size_ B) (input_size_ L)
      cuda_one (d_ptr_ weights) (input_size_ L) (d_ptr_ bound) (input_size_ L)
      cuda_zero (d_ptr_ output) (output_size_ L) in
  (* output += biases * d_one_vec^T *)
  let y :=
    cublasSgemm false false (output_size_ L) (batch_size_ B) 1
      cuda_one (d_ptr_ biases) (output_size_ L) ones 1
      cuda_one y (output_size_ L) in
  ret (set_linear_base (set_output_ (Some (set_d_ptr_ y output)) B) L).

(** [Linear::forward], lines 330-406. *)
Definition Linear_forward (input : ptr) (L : Linear) : M Linear :=
  let* x := load input in
  let L := Linear_allocate_parameters x L in
  let* L := Linear_rebind input x L in
  Linear_compute L.

(** ** [Conv2D] *)

(** What the source takes from cuDNN for a convolution.  A convolution
    descriptor is the triple (padding, stride, dilation) it was set to in
    the constructor; an algorithm is its enumeration value.
    - the forward convolution
      [cudnnConvolutionForward(alpha, xDesc, x, wDesc, w, convDesc, algo,
      workSpace, workSpaceSizeInBytes, beta, yDesc, y)] and the bias
      broadcast [cudnnAddTensor];
    - the three algorithm queries: with cuDNN 8 the [_v7] functions, which
      fill the performance results for the requested count, best first;
      otherwise the functions that return the fastest algorithm;
    - the scratch size each chosen algorithm needs;
    - the cuDNN major version and (cuDNN 8) the algorithm counts. *)
Definition conv_desc : Type := nat * nat * nat.
Variable cudnnConvolutionForward :
  R → shape → list R → shape → list R → conv_desc → nat → option (list R) → nat →
  R → shape → list R → list R.
Variable cudnnAddTensor : shape → list R → shape → list R → list R.
Variable cudnnGetConvolutionForwardAlgorithm_v7 :
  shape → shape → conv_desc → shape → nat → list nat.
Variable cudnnGetConvolutionBackwardFilterAlgorithm_v7 :
  shape → shape → conv_desc → shape → nat → list nat.
Variable cudnnGetConvolutionBackwardDataAlgorithm_v7 :
  shape → shape → conv_desc → shape → nat → list nat.
Variable cudnnGetConvolutionForwardAlgorithm : shape → shape → conv_desc → shape → nat.
Variable cudnnGetConvolutionBackwardFilterAlgorithm :
  shape → shape → conv_desc → shape → nat.
Variable cudnnGetConvolutionBackwardDataAlgorithm :
  shape → shape → conv_desc → shape → nat.
Variable cudnnGetConvolutionForwardWorkspaceSize :
  shape → shape → conv_desc → shape → nat → nat.
Variable cudnnGetConvolutionBackwardFilterWorkspaceSize :
  shape → shape → conv_desc → shape → nat → nat.
Variable cudnnGetConvolutionBackwardDataWorkspaceSize :
  shape → shape → conv_desc → shape → nat → nat.
Variable CUDNN_MAJOR : nat.
Variable cudnnGetConvolutionForwardAlgorithmMaxCount : nat.
Variable cudnnGetConvolutionBackwardFilterAlgorithmMaxCount : nat.
Variable cudnnGetConvolutionBackwardDataAlgorithmMaxCount : nat.

Record Conv2D : Type := mkConv2D {
  conv_base : Layer;
  out_channels_ : nat;
  kernel_size_ : nat;
  stride_ : nat;
  padding_ : nat;
  dilation_ : nat;
  filter_desc_ : option shape;
  bias_desc_ : option shape;
  conv_fwd_algo_ : nat;
  conv_bwd_filter_algo_ : nat;
  conv_bwd_data_algo_ : nat;
  output_size4_ : shape;
  workspace_size : nat;
  d_workspace : option (list R);
}.

Definition set_conv_base x (r : Conv2D) : Conv2D :=
  mkConv2D x (out_channels_ r) (kernel_size_ r) (stride_ r) (padding_ r) (dilation_ r)
    (filter_desc_ r) (bias_desc_ r) (conv_fwd_algo_ r) (conv_bwd_filter_algo_ r)
    (conv_bwd_data_algo_ r) (output_size4_ r) (workspace_size r) (d_workspace r).

Definition set_filter_desc_ x (r : Conv2D) : Conv2D :=
  mkConv2D (conv_base r) (out_channels_ r) (kernel_size_ r) (stride_ r) (padding_ r)
    (dilation_ r) x (bias_desc_ r) (conv_fwd_algo_ r) (conv_bwd_filter_algo_ r)
    (conv_bwd_data_algo_ r) (output_size4_ r) (workspace_size r) (d_workspace r).

Definition set_bias_desc_ x (r : Conv2D) : Conv2D :=
  mkConv2D (conv_base r) (out_channels_ r) (kernel_size_ r) (stride_ r) (padding_ r)
    (dilation_ r) (filter_desc_ r) x (conv_fwd_algo_ r) (conv_bwd_filter_algo_ r)
    (conv_bwd_data_algo_ r) (output_size4_ r) (workspace_size r) (d_workspace r).

Definition set_conv_fwd_algo_ x (r : Conv2D) : Conv2D :=
  mkConv2D (conv_base r) (out_channels_ r) (kernel_size_ r) (stride_ r) (padding_ r)
    (dilation_ r) (filter_desc_ r) (bias_desc_ r) x (conv_bwd_filter_algo_ r)
    (conv_bwd_data_algo_ r) (output_size4_ r) (workspace_size r) (d_workspace r).

Definition set_conv_bwd_filter_algo_ x (r : Conv2D) : Conv2D :=
  mkConv2D (conv_base r) (out_channels_ r) (kernel_size_ r) (stride_ r) (padding_ r)
    (dilation_ r) (filter_desc_ r) (bias_desc_ r) (conv_fwd_algo_ r) x
    (conv_bwd_data_algo_ r) (output_size4_ r) (workspace_size r) (d_workspace r).

Definition set_conv_bwd_data_algo_ x (r : Conv2D) : Conv2D :=
  mkConv2D (conv_base r) (out_channels_ r) (kernel_size_ r) (stride_ r) (padding_ r)
    (dilation_ r) (filter_desc_ r) (bias_desc_ r) (conv_fwd_algo_ r)
    (conv_bwd_filter_algo_ r) x (output_size4_ r) (workspace_size r) (d_workspace r).

Definition set_output_size4_ x (r : Conv2D) : Conv2D :=
  mkConv2D (conv_base r) (out_channels_ r) (kernel_size_ r) (stride_ r) (padding_ r)
    (dilation_ r) (filter_desc_ r) (bias_desc_ r) (conv_fwd_algo_ r)
    (conv_bwd_filter_algo_ r) (conv_bwd_data_algo_ r) x (workspace_size r)
    (d_workspace r).

Definition set_workspace_size x (r : Conv2D) : Conv2D :=
  mkConv2D (conv_base r) (out_channels_ r) (kernel_size_ r) (stride_ r) (padding_ r)
    (dilation_ r) (filter_desc_ r) (bias_desc_ r) (conv_fwd_algo_ r)
    (conv_bwd_filter_algo_ r) (conv_bwd_data_algo_ r) (output_size4_ r) x
    (d_workspace r).

Definition set_d_workspace x (r : Conv2D) : Conv2D :=
  mkConv2D (conv_base r) (out_channels_ r) (kernel_size_ r) (stride_ r) (padding_ r)
    (dilation_ r) (filter_desc_ r) (bias_desc_ r) (conv_fwd_algo_ r)
    (conv_bwd_filter_algo_ r) (conv_bwd_data_algo_ r) (output_size4_ r)
    (workspace_size r) x.

(** [conv_desc_], set once in the constructor (lines 672-674). *)
Definition conv_desc_ (L : Conv2D) : conv_desc := (padding_ L, stride_ L, dilation_ L).

(** [cudnnGetConvolution2dForwardOutputDim] for a square kernel with equal
    padding, stride and dilation in both directions. *)
Definition cudnnGetConvolution2dForwardOutputDim
    (padding stride dilation : nat) (input filter : shape) : shape :=
  let '(n, _, h, w) := input in
  let '(k, _, r, s) := filter in
  (n, k,
   1 + (h + 2 * padding - ((r - 1) * dilation + 1)) / stride,
   1 + (w + 2 * padding - ((s - 1) * dilation + 1)) / stride).

(** The line [set_workspace] prints before each algorithm query (cuDNN 8). *)
Definition algorithm_count_line (name kind : string) (count : nat) : string :=
  name +:+ ": Available Algorithm Count [" +:+ kind +:+ "]: " +:+ pretty count.

(** [Conv2D::set_workspace], lines 686-755. *)
Definition set_workspace (L : Conv2D) : M Conv2D :=
  let* xd := deref (input_desc_ (conv_base L)) in
  let* yd := deref (output_desc_ (conv_base L)) in
  let* wd := deref (filter_desc_ L) in
  let cd := conv_desc_ L in
  let name := name_ (conv_base L) in
  (* forward *)
  let* algo :=
    if decide (CUDNN_MAJOR = 8) then
      let algo_max_count := cudnnGetConvolutionForwardAlgorithmMaxCount in
      let* _ := print (algorithm_count_line name "FWD" algo_max_count) in
      ret (cudnnGetConvolutionForwardAlgorithm_v7 xd wd cd yd algo_max_count !!! 0)
    else ret (cudnnGetConvolutionForwardAlgorithm xd wd cd yd) in
  let L := set_conv_fwd_algo_ algo L in
  let temp_size := cudnnGetConvolutionForwardWorkspaceSize xd wd cd yd (conv_fwd_algo_ L) in
  let L := set_workspace_size (workspace_size L `max` temp_size) L in
  (* bwd - filter *)
  let* algo :=
    if decide (CUDNN_MAJOR = 8) then
      let algo_max_count := cudnnGetConvolutionBackwardFilterAlgorithmMaxCount in
      let* _ := print (algorithm_count_line name "BWD-filter" algo_max_count) in
      ret (cudnnGetConvolutionBackwardFilterAlgorithm_v7 xd yd cd wd algo_max_count !!! 0)
    else ret (cudnnGetConvolutionBackwardFilterAlgorithm xd yd cd wd) in
  let L := set_conv_bwd_filter_algo_ algo L in
  let temp_size :=
    cudnnGetConvolutionBackwardFilterWorkspaceSize xd yd cd wd (conv_bwd_filter_algo_ L) in
  let L := set_workspace_size (workspace_size L `max` temp_size) L in
  (* bwd - data *)
  let* algo :=
    if decide (CUDNN_MAJOR = 8) then
      let algo_max_count := cudnnGetConvolutionBackwardDataAlgorithmMaxCount in
      let* _ := print (algorithm_count_line name "BWD-data" algo_max_count) in
      ret (cudnnGetConvolutionBackwardDataAlgorithm_v7 wd yd cd xd algo_max_count !!! 0)
    else ret (cudnnGetConvolutionBackwardDataAlgorithm wd yd cd xd) in
  let L := set_conv_bwd_data_algo_ algo L in
  let temp_size :=
    cudnnGetConvolutionBackwardDataWorkspaceSize wd yd cd xd (conv_bwd_data_algo_ L) in
  let L := set_workspace_size (workspace_size L `max` temp_size) L in
  if decide (0 < workspace_size L)
  then ret (set_d_workspace (Some (fresh_buffer (workspace_size L))) L)
  else ret L.

(** [Conv2D::forward], lines 759-774: the parameter blobs are allocated on
    the first call. *)
Definition Conv2D_allocate_parameters (x : Blob) (L : Conv2D) : Conv2D :=
  match weights_ (conv_base L) with
  | None =>
      let k := kernel_size_ L in
      let out := out_channels_ L in
      let B := conv_base L in
      let B := set_weights_ (Some (Blob_new out (blob_c x) k k)) B in
      let B := set_biases_ (Some (Blob_new 1 out 1 1)) B in
      let B := set_weights_m_ (Some (Blob_new out (blob_c x) k k)) B in
      let B := set_weights_v_ (Some (Blob_new out (blob_c x) k k)) B in
      let B := set_biases_m_ (Some (Blob_new 1 out 1 1)) B in
      let B := set_biases_v_ (Some (Blob_new 1 out 1 1)) B in
      set_bias_desc_ (Some (1, out, 1, 1))
        (set_filter_desc_ (Some (out, blob_c x, k, k)) (set_conv_base B L))
  | Some _ => L
  end.

(** [Conv2D::forward], lines 777-808: on the first call and when the batch
    size changes the layer is bound to the input, the output buffer and the
    workspace are sized, and the parameters are materialised. *)
Definition Conv2D_rebind (input : ptr) (x : Blob) (L : Conv2D) : M Conv2D :=
  if rebind_needed (conv_base L) x then
    let B := conv_base L in
    let B := set_input_ (Some input) B in
    let B := set_input_desc_ (Some (Blob_shape x)) B in
    let B := set_batch_size_ (blob_n x) B in
    let* wd := deref (filter_desc_ L) in
    let dims :=
      cudnnGetConvolution2dForwardOutputDim (padding_ L) (stride_ L) (dilation_ L)
        (Blob_shape x) wd in
    let L := set_output_size4_ dims L in
    let output :=
      match output_ B with
      | None => Blob_of_shape dims
      | Some o => Blob_reset o dims
      end in
    let B := set_output_ (Some output) B in
    let B := set_output_desc_ (Some (Blob_shape output)) B in
    let* L := set_workspace (set_conv_base B L) in
    let* B := materialize_parameters (conv_base L) in
    ret (set_conv_base B L)
  else ret L.

(** [Conv2D::forward], lines 810-818: the convolution and the bias. *)
Definition Conv2D_compute (L : Conv2D) : M Conv2D :=
  let B := conv_base L in
  let* weights := deref (weights_ B) in
  let* biases := deref (biases_ B) in
  let* bound := deref (input_ B) in
  let* bound := load bound in
  let* output := deref (output_ B) in
  let* xd := deref (input_desc_ B) in
  let* yd := deref (output_desc_ B) in
  let* wd := deref (filter_desc_ L) in
  let* bd := deref (bias_desc_ L) in
  let y :=
    cudnnConvolutionForward cuda_one xd (d_ptr_ bound) wd (d_ptr_ weights)
      (conv_desc_ L) (conv_fwd_algo_ L) (d_workspace L) (workspace_size L)
      cuda_zero yd (d_ptr_ output) in
  let y := cudnnAddTensor bd (d_ptr_ biases) yd y in
  ret (set_conv_base (set_output_ (Some (set_d_ptr_ y output)) B) L).

(** [Conv2D::forward], lines 757-828. *)
Definition Conv2D_forward (input : ptr) (L : Conv2D) : M Conv2D :=
  let* x := load input in
  let L := Conv2D_allocate_parameters x L in
  let* L := Conv2D_rebind input x L in
  Conv2D_compute L.

(** ** [Softmax] *)

(** The class adds no data member that the modelled methods use beyond the
    loss object, so a [Softmax] is its [Layer] part. *)

(** The channel-wise softmax of the element at flat index [idx] of an NCHW
    tensor: [exp(x[n,c,h,w]) / sum over c' of exp(x[n,c',h,w])]. *)
Definition softmax_channel (s : shape) (x : list R) (idx : nat) : R :=
  let '(_, c, h, w) := s in
  let hw := h * w in
  let chw := c * hw in
  let first := idx / chw * chw + idx mod hw in
  (exp (x !!! idx) / sum_n (λ k, exp (x !!! (first + k * hw)%nat)) c)%R.

(** [cudnnSoftmaxForward(ACCURATE, MODE_CHANNEL, alpha, xDesc, x, beta, yDesc, y)]:
    [y = alpha * softmax(x) + beta * y]. *)
Definition cudnnSoftmaxForward (alpha : R) (xDesc : shape) (x : list R)
    (beta : R) (yDesc : shape) (y : list R) : list R :=
  let '(n, c, h, w) := xDesc in
  foldl (λ y i, <[i := (alpha * softmax_channel xDesc x i + beta * y !!! i)%R]> y)
        y (seq 0 (n * (c * h * w))).

(** [Softmax::forward], lines 543-572. *)
Definition Softmax_forward (input : ptr) (L : Layer) : M Layer :=
  let* x := load input in
  let L :=
    if rebind_needed L x then
      let L := set_input_ (Some input) L in
      let L := set_input_desc_ (Some (Blob_shape x)) L in
      let L := set_batch_size_ (blob_n x) L in
      let output :=
        match output_ L with
        | None => Blob_of_shape (Blob_shape x)
        | Some o => Blob_reset o (Blob_shape x)
        end in
      let L := set_output_ (Some output) L in
      set_output_desc_ (Some (Blob_shape output)) L
    else L in
  let* xd := deref (input_desc_ L) in
  let* yd := deref (output_desc_ L) in
  let* output := deref (output_ L) in
  let y := cudnnSoftmaxForward cuda_one xd (d_ptr_ x) cuda_zero yd (d_ptr_ output) in
  ret (set_output_ (Some (set_d_ptr_ y output)) L).

(** [Softmax::backward], lines 574-608. *)
Definition Softmax_backward (target : ptr) (L : Layer) : M Layer :=
  let* t := load target in
  let* L :=
    if bool_decide (grad_input_ L = None) || negb (batch_size_ L =? blob_n t)%nat then
      let* bound := deref (input_ L) in
      let* bound := load bound in
      match grad_input_ L with
      | None => ret (set_grad_input_ (Some (Blob_of_shape (Blob_shape bound))) L)
      | Some g => ret (set_grad_input_ (Some (Blob_reset g (Blob_shape bound))) L)
      end
    else ret L in
  let* grad := deref (grad_input_ L) in
  let* output := deref (output_ L) in
  (* set grad_input_ as predict *)
  let* d := cudaMemcpy (d_ptr_ grad) (d_ptr_ output) (Blob_len output) in
  (* set grad_input_ = predict - target *)
  let d := cublasSaxpy (Blob_len t) cuda_minus_one (d_ptr_ t) d in
  (* normalize the grad_output by the batch size *)
  let grad_output_size := blob_n t * blob_c t * blob_h t * blob_w t in
  let scale := (1 / INR (blob_n t))%R in
  let d := cublasSscal grad_output_size scale d in
  ret (set_grad_input_ (Some (set_d_ptr_ d grad)) L).

(** The body of the inner loop of [get_accuracy], lines 635-638, for the
    batch element that starts at [first]. *)
Definition argmax_step (h_output h_target : list R) (first : nat)
    (idx : nat * nat) (i : nat) : nat * nat :=
  let '(idx_output, idx_target) := idx in
  (if Rgt_dec (h_output !!! (first + i)) (h_output !!! (first + idx_output))
   then i else idx_output,
   if Rgt_dec (h_target !!! (first + i)) (h_target !!! (first + idx_target))
   then i else idx_target).

(** The outer loop of [get_accuracy], lines 630-643. *)
Definition count_hits (h_output h_target : list R) (batch_size output_size : nat) : Z :=
  foldl (λ hit_count b,
           let '(idx_output, idx_target) :=
             foldl (argmax_step h_output h_target (b * output_size)) (0, 0) (seq 1 9) in
           if decide (idx_output = idx_target) then (hit_count + 1)%Z else hit_count)
        0%Z (seq 0 batch_size).

(** [Softmax::get_accuracy], lines 614-646.  The two [to(host)] calls
    refresh the host copies of the prediction and of the caller's target. *)
Definition Softmax_get_accuracy (target : ptr) (L : Layer) : M (Z * Layer) :=
  let* output := deref (output_ L) in
  let batch_size := blob_n output in
  let output_size := Blob_size output in
  let* t := load target in
  let* _ := assert (batch_size =? blob_n t)%nat in
  let* _ := assert (output_size =? Blob_size t)%nat in
  (* get predicts and targets *)
  let output := Blob_to host output in
  let L := set_output_ (Some output) L in
  let t := Blob_to host t in
  let* _ := store target t in
  ret (count_hits (h_ptr_ output) (h_ptr_ t) batch_size output_size, L).

(** ** [FusedBatchNormalization] *)

(** What the source takes from cuDNN for batch normalisation: the
    descriptor [cudnnDeriveBNTensorDescriptor] derives for scale, bias, mean
    and variance from the input descriptor and the mode, and
    [cudnnBatchNormalizationForwardTraining(mode, alpha, beta, xDesc, x,
    yDesc, y, bnScaleBiasMeanVarDesc, bnScale, bnBias,
    exponentialAverageFactor, resultRunningMean, resultRunningVariance,
    epsilon, resultSaveMean, resultSaveInvVariance)], which reads scale and
    bias and returns the output and the four statistics buffers. *)
Variable cudnnDeriveBNTensorDescriptor : shape → nat → shape.
Variable cudnnBatchNormalizationForwardTraining :
  nat → R → R → shape → list R → shape → list R → shape → list R → list R →
  R → option (list R) → option (list R) → R → option (list R) → option (list R) →
  list R * option (list R) * option (list R) * option (list R) * option (list R).

(** The members [layer.cu] reads and writes; [mode_] is the enumeration
    value of the mode and [epison] the epsilon member, under its name in the
    source. *)
Record FusedBatchNormalization : Type := mkFusedBatchNormalization {
  bn_base : Layer;
  size_ : nat;
  mode_ : nat;
  epison : R;
  bnScaleBiasMeanVarDesc_ : option shape;
  resultRunningMean_ : option (list R);
  resultRunningVariance_ : option (list R);
  resultSaveMean_ : option (list R);
  resultSaveInvVariance_ : option (list R);
}.

Definition set_bn_base x (r : FusedBatchNormalization) : FusedBatchNormalization :=
  mkFusedBatchNormalization x (size_ r) (mode_ r) (epison r) (bnScaleBiasMeanVarDesc_ r)
    (resultRunningMean_ r) (resultRunningVariance_ r) (resultSaveMean_ r)
    (resultSaveInvVariance_ r).

Definition set_size_ x (r : FusedBatchNormalization) : FusedBatchNormalization :=
  mkFusedBatchNormalization (bn_base r) x (mode_ r) (epison r)
    (bnScaleBiasMeanVarDesc_ r) (resultRunningMean_ r) (resultRunningVariance_ r)
    (resultSaveMean_ r) (resultSaveInvVariance_ r).

Definition set_bnScaleBiasMeanVarDesc_ x (r : FusedBatchNormalization) : FusedBatchNormalization :=
  mkFusedBatchNormalization (bn_base r) (size_ r) (mode_ r) (epison r) x
    (resultRunningMean_ r) (resultRunningVariance_ r) (resultSaveMean_ r)
    (resultSaveInvVariance_ r).

Definition set_resultRunningMean_ x (r : FusedBatchNormalization) : FusedBatchNormalization :=
  mkFusedBatchNormalization (bn_base r) (size_ r) (mode_ r) (epison r)
    (bnScaleBiasMeanVarDesc_ r) x (resultRunningVariance_ r) (resultSaveMean_ r)
    (resultSaveInvVariance_ r).

Definition set_resultRunningVariance_ x (r : FusedBatchNormalization) : FusedBatchNormalization :=
  mkFusedBatchNormalization (bn_base r) (size_ r) (mode_ r) (epison r)
    (bnScaleBiasMeanVarDesc_ r) (resultRunningMean_ r) x (resultSaveMean_ r)
    (resultSaveInvVariance_ r).

Definition set_resultSaveMean_ x (r : FusedBatchNormalization) : FusedBatchNormalization :=
  mkFusedBatchNormalization (bn_base r) (size_ r) (mode_ r) (epison r)
    (bnScaleBiasMeanVarDesc_ r) (resultRunningMean_ r) (resultRunningVariance_ r) x
    (resultSaveInvVariance_ r).

Definition set_resultSaveInvVariance_ x (r : FusedBatchNormalization) : FusedBatchNormalization :=
  mkFusedBatchNormalization (bn_base r) (size_ r) (mode_ r) (epison r)
    (bnScaleBiasMeanVarDesc_ r) (resultRunningMean_ r) (resultRunningVariance_ r)
    (resultSaveMean_ r) x.

(** [FusedBatchNormalization::forward], lines 1138-1148: the parameter
    blobs are allocated on the first call. *)
Definition FusedBatchNormalization_allocate_parameters
    (x : Blob) (L : FusedBatchNormalization) : FusedBatchNormalization :=
  match weights_ (bn_base L) with
  | None =>
      let size := blob_c x in
      let B := bn_base L in
      let B := set_weights_ (Some (Blob_new 1 size 1 1)) B in
      let B := set_biases_ (Some (Blob_new 1 size 1 1)) B in
      let B := set_weights_m_ (Some (Blob_new 1 size 1 1)) B in
      let B := set_weights_v_ (Some (Blob_new 1 size 1 1)) B in
      let B := set_biases_m_ (Some (Blob_new 1 size 1 1)) B in
      let B := set_biases_v_ (Some (Blob_new 1 size 1 1)) B in
      set_bn_base B (set_size_ size L)
  | Some _ => L
  end.

(** [FusedBatchNormalization::forward], lines 1150-1181: on the first call
    and when the batch size changes the layer is bound to the input, the
    output buffer is sized, the four statistics buffers are allocated
    anew, and the parameters are materialised. *)
Definition FusedBatchNormalization_rebind
    (input : ptr) (x : Blob) (L : FusedBatchNormalization) : M FusedBatchNormalization :=
  if rebind_needed (bn_base L) x then
    let B := bn_base L in
    let B := set_input_ (Some input) B in
    let B := set_batch_size_ (blob_n x) B in
    let B := set_input_desc_ (Some (Blob_shape x)) B in
    let output :=
      match output_ B with
      | None => Blob_of_shape (Blob_shape x)
      | Some o => Blob_reset o (Blob_shape x)
      end in
    let B := set_output_ (Some output) B in
    let B := set_output_desc_ (Some (Blob_shape output)) B in
    let L := set_resultRunningMean_ (Some (fresh_buffer (size_ L))) L in
    let L := set_resultRunningVariance_ (Some (fresh_buffer (size_ L))) L in
    let L := set_resultSaveMean_ (Some (fresh_buffer (size_ L))) L in
    let L := set_resultSaveInvVariance_ (Some (fresh_buffer (size_ L))) L in
    let L :=
      set_bnScaleBiasMeanVarDesc_
        (Some (cudnnDeriveBNTensorDescriptor (Blob_shape x) (mode_ L))) L in
    let* B := materialize_parameters B in
    ret (set_bn_base B L)
  else ret L.

(** [FusedBatchNormalization::forward], lines 1183-1190: the normalisation
    in training mode. *)
Definition FusedBatchNormalization_compute
    (L : FusedBatchNormalization) : M FusedBatchNormalization :=
  let B := bn_base L in
  let* xd := deref (input_desc_ B) in
  let* bound := deref (input_ B) in
  let* bound := load bound in
  let* yd := deref (output_desc_ B) in
  let* output := deref (output_ B) in
  let* bd := deref (bnScaleBiasMeanVarDesc_ L) in
  let* weights := deref (weights_ B) in
  let* biases := deref (biases_ B) in
  let '(y, running_mean, running_variance, save_mean, save_inv_variance) :=
    cudnnBatchNormalizationForwardTraining (mode_ L) cuda_one cuda_zero
      xd (d_ptr_ bound) yd (d_ptr_ output) bd (d_ptr_ weights) (d_ptr_ biases)
      cuda_one (resultRunningMean_ L) (resultRunningVariance_ L)
      (epison L) (resultSaveMean_ L) (resultSaveInvVariance_ L) in
  let L := set_resultRunningMean_ running_mean L in
  let L := set_resultRunningVariance_ running_variance L in
  let L := set_resultSaveMean_ save_mean L in
  let L := set_resultSaveInvVariance_ save_inv_variance L in
  ret (set_bn_base (set_output_ (Some (set_d_ptr_ y output)) B) L).

(** [FusedBatchNormalization::forward], lines 1136-1201. *)
Definition FusedBatchNormalization_forward
    (input : ptr) (L : FusedBatchNormalization) : M FusedBatchNormalization :=
  let* x := load input in
  let L := FusedBatchNormalization_allocate_parameters x L in
  let* L := FusedBatchNormalization_rebind input x L in
  FusedBatchNormalization_compute L.

(** ** [Linear::backward] *)

Definition set_grad_weights_ x (r : Layer) : Layer :=
  mkLayer (name_ r) (input_ r) (output_ r) (grad_input_ r) (input_desc_ r)
    (output_desc_ r) (batch_size_ r) (freeze_ r) (load_pretrain_ r) (gradient_stop_ r)
    (weights_ r) (biases_ r) (weights_m_ r) (weights_v_ r) (biases_m_ r) (biases_v_ r)
    x (grad_biases_ r).

Definition set_grad_biases_ x (r : Layer) : Layer :=
  mkLayer (name_ r) (input_ r) (output_ r) (grad_input_ r) (input_desc_ r)
    (output_desc_ r) (batch_size_ r) (freeze_ r) (load_pretrain_ r) (gradient_stop_ r)
    (weights_ r) (biases_ r) (weights_m_ r) (weights_v_ r) (biases_m_ r) (biases_v_ r)
    (grad_weights_ r) x.

(** [cublasSgemv(trans, m, n, alpha, A, lda, x, 1, beta, y, 1)]:
    [y = alpha * op(A) * x + beta * y] for a column-major [m] by [n]
    matrix [A]. *)
Definition cublasSgemv (trans : bool) (m n : nat) (alpha : R)
    (A : list R) (lda : nat) (x : list R) (beta : R) (y : list R) : list R :=
  if trans then
    foldl (λ y j,
      <[j := (alpha * sum_n (λ i, A !!! (i + j * lda)%nat * x !!! i)%R m
              + beta * y !!! j)%R]> y)
      y (seq 0 n)
  else
    foldl (λ y i,
      <[i := (alpha * sum_n (λ j, A !!! (i + j * lda)%nat * x !!! j)%R n
              + beta * y !!! i)%R]> y)
      y (seq 0 m).

(** [Linear::backward], lines 409-421: the gradient blobs are allocated on
    the first call; the layer is bound to the caller's gradient blob on the
    first call and when the batch size differs.  [grad_output_] is the data
    member of [Layer] that only the backward passes use: a pointer to the
    caller's gradient blob; it is threaded beside the layer. *)
Definition Linear_backward_bind (grad_output : ptr) (dy : Blob) (B : Layer)
    (grad_output_ : option ptr) : M (Layer * option ptr) :=
  let* B :=
    match grad_weights_ B with
    | None =>
        let* weights := deref (weights_ B) in
        let* biases := deref (biases_ B) in
        ret (set_grad_biases_ (Some (Blob_of_shape (Blob_shape biases)))
               (set_grad_weights_ (Some (Blob_of_shape (Blob_shape weights))) B))
    | Some _ => ret B
    end in
  if bool_decide (grad_input_ B = None) || negb (batch_size_ B =? blob_n dy)%nat then
    let* bound := deref (input_ B) in
    let* bound := load bound in
    match grad_input_ B with
    | None =>
        ret (set_grad_input_ (Some (Blob_of_shape (Blob_shape bound))) B,
             Some grad_output)
    | Some g =>
        ret (set_grad_input_ (Some (Blob_reset g (Blob_shape bound))) B,
             Some grad_output)
    end
  else ret (B, grad_output_).

(** [Linear::backward], lines 423-452: the three products, all of them on
    the blob [grad_output_] points to. *)
Definition Linear_backward_compute (L : Linear) (B : Layer) (grad_output_ : option ptr)
    : M Layer :=
  let* dy := deref grad_output_ in
  let* dy := load dy in
  let* ones := deref (d_one_vec L) in
  (* db = (dy) * d_one_vec *)
  let* grad_biases := deref (grad_biases_ B) in
  let db :=
    cublasSgemv false (output_size_ L) (batch_size_ B)
      cuda_one (d_ptr_ dy) (output_size_ L) ones
      cuda_zero (d_ptr_ grad_biases) in
  let B := set_grad_biases_ (Some (set_d_ptr_ db grad_biases)) B in
  (* dw = x * (dy)^T *)
  let* bound := deref (input_ B) in
  let* bound := load bound in
  let* grad_weights := deref (grad_weights_ B) in
  let dw :=
    cublasSgemm false true (input_size_ L) (output_size_ L) (batch_size_ B)
      cuda_one (d_ptr_ bound) (input_size_ L) (d_ptr_ dy) (output_size_ L)
      cuda_zero (d_ptr_ grad_weights) (input_size_ L) in
  let B := set_grad_weights_ (Some (set_d_ptr_ dw grad_weights)) B in
  (* dx = W * dy *)
  if gradient_stop_ B then ret B else
    let* weights := deref (weights_ B) in
    let* grad_input := deref (grad_input_ B) in
    let dx :=
      cublasSgemm false false (input_size_ L) (batch_size_ B) (output_size_ L)
        cuda_one (d_ptr_ weights) (input_size_ L) (d_ptr_ dy) (output_size_ L)
        cuda_zero (d_ptr_ grad_input) (input_size_ L) in
    ret (set_grad_input_ (Some (set_d_ptr_ dx grad_input)) B).

(** [Linear::backward], lines 408-464. *)
Definition Linear_backward (grad_output : ptr) (L : Linear) (grad_output_ : option ptr)
    : M (Linear * option ptr) :=
  let* dy := load grad_output in
  let* (B, grad_output_) :=
    Linear_backward_bind grad_output dy (linear_base L) grad_output_ in
  let* B := Linear_backward_compute L B grad_output_ in
  ret (set_linear_base B L, grad_output_).

(** ** Layer states the methods are called in *)

(** The state of a [Softmax] layer about to see tensors of shape [s]:
    buffers it owns are well formed, a gradient buffer, once allocated, has
    room for a tensor of shape [s], and a layer bound at this batch size
    holds the descriptors and the output buffer of that shape. *)
Definition Softmax_ready (W : World) (L : Layer) (s : shape) : Prop :=
  (∀ o, output_ L = Some o → Blob_wf o) ∧
  (∀ g, grad_input_ L = Some g →
     Blob_wf g ∧ (Blob_len (Blob_of_shape s) ≤ Blob_len g)%nat) ∧
  (∀ p, input_ L = Some p → batch_size_ L = s.1.1.1 →
     input_desc_ L = Some s ∧ output_desc_ L = Some s ∧
     (∃ o, output_ L = Some o ∧ Blob_shape o = s) ∧
     (∃ b, heap W !! p = Some b ∧ Blob_shape b = s)).

(** ** What the accuracy count is compared with *)

(** The argmax of one array over the ten classes of the batch element that
    starts at [first], as the inner loop of [get_accuracy] finds it. *)
Definition argmax10 (h : list R) (first : nat) : nat :=
  foldl (λ idx i,
           if Rgt_dec (h !!! (first + i)) (h !!! (first + idx)) then i else idx)
        0 (seq 1 9).

(** [idx] is the argmax over the [k] classes of the batch element that
    starts at [first]: it is a class, no class has a larger value, and it
    is the first class with that value. *)
Definition is_argmax (h : list R) (first k idx : nat) : Prop :=
  idx < k ∧
  (∀ j, j < k → (h !!! (first + j)%nat <= h !!! (first + idx)%nat)%R) ∧
  (∀ j, j < idx → (h !!! (first + j)%nat < h !!! (first + idx)%nat)%R).

(** The number of batch elements on which two class assignments agree. *)
Definition matches (batch_size : nat) (a b : nat → nat) : Z :=
  Z.of_nat (length (filter (λ i, a i = b i) (seq 0 batch_size))).

(** ** What parameter initialisation is compared with *)

(** The first [n] draws of [dis(gen)] with [dis(lo, hi)], and the engine
    after them. *)
Fixpoint draws (lo hi : R) (gen : engine) (n : nat) : list R * engine :=
  match n with
  | O => ([], gen)
  | S n =>
      let '(x, gen) := uniform_real_distribution lo hi gen in
      let '(xs, gen) := draws lo hi gen n in
      (x :: xs, gen)
  end.

(** The pseudorandom weight values that an engine seeded with [s] yields
    for [len] weights of a layer with [fan_in] input features. *)
Definition initial_weights (s : Z) (fan_in len : nat) : list R :=
  let range := sqrt (6 / INR fan_in) in
  (draws (- range) range (mt19937 s) len).1.

(** What [std::uniform_real_distribution] promises: a value in [[a, b)]. *)
Definition uniform_in_range : Prop :=
  ∀ (a b : R) (gen : engine),
    (a < b)%R →
    (a <= (uniform_real_distribution a b gen).1 < b)%R.

(** A layer whose six parameter blobs are allocated, and bound to the
    caller's blob [input] at [p]. *)
Definition materialised (W : World) (L : Layer)
    (w b wm wv bm bv : Blob) (p : ptr) (input : Blob) : Prop :=
  weights_ L = Some w ∧ biases_ L = Some b ∧
  weights_m_ L = Some wm ∧ weights_v_ L = Some wv ∧
  biases_m_ L = Some bm ∧ biases_v_ L = Some bv ∧
  Blob_wf w ∧ Blob_wf b ∧ Blob_wf wm ∧ Blob_wf wv ∧ Blob_wf bm ∧ Blob_wf bv ∧
  input_ L = Some p ∧ heap W !! p = Some input.

(** The blob [b] with both buffers set to [values]. *)
Definition with_values (values : list R) (b : Blob) : Blob :=
  set_d_ptr_ values (set_h_ptr_ values b).

(** The layer [init_weight_bias] leaves behind when it draws from an engine
    seeded with [s]. *)
Definition initialised (s : Z) (L : Layer)
    (w b wm wv bm bv : Blob) (input : Blob) : Layer :=
  let zero (b : Blob) := with_values (replicate (Blob_len b) 0%R) b in
  set_biases_v_ (Some (zero bv))
    (set_biases_m_ (Some (zero bm))
       (set_weights_v_ (Some (zero wv))
          (set_weights_m_ (Some (zero wm))
             (set_biases_ (Some (zero b))
                (set_weights_
                   (Some (with_values
                            (initial_weights s (Blob_size input) (Blob_len w)) w))
                   L))))).

(** ** Parameters and layer states *)

(** The parameter set of a layer: weights, biases and the four optimizer
    accumulators. *)
Definition parameters (L : Layer)
    : option Blob * option Blob * option Blob * option Blob * option Blob * option Blob :=
  (weights_ L, biases_ L, weights_m_ L, weights_v_ L, biases_m_ L, biases_v_ L).

(** The line [init_weight_bias] prints. *)
Definition initialized_line (L : Layer) : string :=
  ".. initialized " +:+ name_ L +:+ " layer ..".

(** The world after [init_weight_bias(seed)] ran once on [L]. *)
Definition after_init (seed : Z) (L : Layer) (W : World) : World :=
  let W1 := if decide (seed = 0%Z) then set_rd_calls (S (rd_calls W)) W else W in
  set_stdout (stdout W1 ++ [initialized_line L]) W1.

(** The seed the engine of [init_weight_bias(seed)] gets in world [W]. *)
Definition engine_seed (seed : Z) (W : World) : Z :=
  if decide (seed = 0%Z) then random_device W (rd_calls W) else seed.

(** The gradient blobs of a layer. *)
Definition gradients (L : Layer) : option Blob * option Blob * option Blob :=
  (grad_weights_ L, grad_biases_ L, grad_input_ L).

(** The base part of a layer after a [forward] call: the six parameter
    blobs are allocated, the layer is bound to a blob of the caller, and it
    owns an output buffer for [batch_size_] items. *)
Definition Layer_ready (W : World) (B : Layer) : Prop :=
  ∃ w b wm wv bm bv p input out,
    materialised W B w b wm wv bm bv p input ∧
    output_ B = Some out ∧ blob_n out = batch_size_ B.

(** A [Linear] layer after a [forward] call: besides, the vector of ones is
    allocated. *)
Definition Linear_ready (W : World) (L : Linear) : Prop :=
  Layer_ready W (linear_base L) ∧ ∃ ones, d_one_vec L = Some ones.

(** A [Conv2D] layer after a [forward] call: besides, the four descriptors
    are set. *)
Definition Conv2D_ready (W : World) (L : Conv2D) : Prop :=
  Layer_ready W (conv_base L) ∧
  ∃ xd yd wd bd,
    input_desc_ (conv_base L) = Some xd ∧ output_desc_ (conv_base L) = Some yd ∧
    filter_desc_ L = Some wd ∧ bias_desc_ L = Some bd.

(** A [FusedBatchNormalization] layer after a [forward] call: besides, the
    three descriptors are set. *)
Definition FusedBatchNormalization_ready (W : World) (L : FusedBatchNormalization) : Prop :=
  Layer_ready W (bn_base L) ∧
  ∃ xd yd bd,
    input_desc_ (bn_base L) = Some xd ∧ output_desc_ (bn_base L) = Some yd ∧
    bnScaleBiasMeanVarDesc_ L = Some bd.

(** The base part of a layer that has seen no call: nothing is allocated or
    bound. *)
Definition Layer_fresh (B : Layer) : Prop :=
  weights_ B = None ∧ input_ B = None ∧ output_ B = None.

(** ** When parameter files can be read and written *)

(** The file at [path] exists and holds exactly the elements of [b]. *)
Definition readable (W : World) (path : string) (b : Blob) : Prop :=
  ∃ data, files W !! path = Some data ∧ length data = Blob_len b.

(** A pretrained-parameter load of [L] fails: the weight file or the bias
    file cannot be read into its blob. *)
Definition load_fails (W : World) (L : Layer) : Prop :=
  (∃ w, weights_ L = Some w ∧ ¬ readable W (name_ L +:+ ".bin") w) ∨
  (∃ b, biases_ L = Some b ∧ ¬ readable W (name_ L +:+ ".bias.bin") b).

(** A parameter save of [L] fails: a file that has to be written cannot be
    opened. *)
Definition save_fails (W : World) (L : Layer) : Prop :=
  (weights_ L ≠ None ∧ write_denied W (name_ L +:+ ".bin") = true) ∨
  (biases_ L ≠ None ∧ write_denied W (name_ L +:+ ".bias.bin") = true).

(** The six parameter blobs are allocated. *)
Definition allocated (L : Layer) (w b wm wv bm bv : Blob) : Prop :=
  weights_ L = Some w ∧ biases_ L = Some b ∧
  weights_m_ L = Some wm ∧ weights_v_ L = Some wv ∧
  biases_m_ L = Some bm ∧ biases_v_ L = Some bv ∧
  Blob_wf w ∧ Blob_wf b ∧ Blob_wf wm ∧ Blob_wf wv ∧ Blob_wf bm ∧ Blob_wf bv.

(** The base part of a [Linear] layer once [forward] has bound it to the
    input [x] at [input], before the parameters are materialised. *)
Definition Linear_bound_base (input : ptr) (x : Blob) (L : Linear) : Layer :=
  let B := set_batch_size_ (blob_n x) (set_input_ (Some input) (linear_base L)) in
  let output :=
    match output_ B with
    | None => Blob_new (blob_n x) (output_size_ L) 1 1
    | Some o => Blob_reset o (blob_n x, output_size_ L, 1, 1)
    end in
  set_output_ (Some output) B.

(** [freeze()] and [unfreeze()] of layer.h set the flag. *)
Definition set_freeze_ x (r : Layer) : Layer :=
  mkLayer (name_ r) (input_ r) (output_ r) (grad_input_ r) (input_desc_ r)
    (output_desc_ r) (batch_size_ r) x (load_pretrain_ r) (gradient_stop_ r)
    (weights_ r) (biases_ r) (weights_m_ r) (weights_v_ r) (biases_m_ r)
    (biases_v_ r) (grad_weights_ r) (grad_biases_ r).

(** The result of a call, with [f] applied to the returned value. *)
Definition Result_map {A B} (f : A → B) (r : Result A) : Result B :=
  match r with
  | Ok a W => Ok (f a) W
  | Exit status W => Exit status W
  | Abort W => Abort W
  | Fault => Fault
  end.

(** [forward] called on each input in turn. *)
Fixpoint forward_all {T} (forward : ptr → T → M T) (inputs : list ptr) (L : T) : M T :=
  match inputs with
  | [] => ret L
  | input :: inputs =>
      let* L := forward input L in
      forward_all forward inputs L
  end.

(** ** [Conv2D] states *)

(** The algorithms [set_workspace] stores: with cuDNN 8 the first of the
    performance results for the full algorithm count, otherwise the fastest
    algorithm. *)
Definition forward_algorithm (cd : conv_desc) (xd wd yd : shape) : nat :=
  if decide (CUDNN_MAJOR = 8)
  then cudnnGetConvolutionForwardAlgorithm_v7 xd wd cd yd
         cudnnGetConvolutionForwardAlgorithmMaxCount !!! 0%nat
  else cudnnGetConvolutionForwardAlgorithm xd wd cd yd.

Definition backward_filter_algorithm (cd : conv_desc) (xd wd yd : shape) : nat :=
  if decide (CUDNN_MAJOR = 8)
  then cudnnGetConvolutionBackwardFilterAlgorithm_v7 xd yd cd wd
         cudnnGetConvolutionBackwardFilterAlgorithmMaxCount !!! 0%nat
  else cudnnGetConvolutionBackwardFilterAlgorithm xd yd cd wd.

Definition backward_data_algorithm (cd : conv_desc) (xd wd yd : shape) : nat :=
  if decide (CUDNN_MAJOR = 8)
  then cudnnGetConvolutionBackwardDataAlgorithm_v7 wd yd cd xd
         cudnnGetConvolutionBackwardDataAlgorithmMaxCount !!! 0%nat
  else cudnnGetConvolutionBackwardDataAlgorithm wd yd cd xd.

(** What [set_workspace] prints for a layer called [name]. *)
Definition workspace_report (name : string) : list string :=
  if decide (CUDNN_MAJOR = 8) then
    [algorithm_count_line name "FWD" cudnnGetConvolutionForwardAlgorithmMaxCount;
     algorithm_count_line name "BWD-filter"
       cudnnGetConvolutionBackwardFilterAlgorithmMaxCount;
     algorithm_count_line name "BWD-data"
       cudnnGetConvolutionBackwardDataAlgorithmMaxCount]
  else [].

(** The world after [set_workspace] ran on a layer called [name]. *)
Definition after_set_workspace (name : string) (W : World) : World :=
  set_stdout (stdout W ++ workspace_report name) W.

(** The base part of a [Conv2D] layer once [forward] has bound it to the
    input [x] at [input], before the parameters are materialised. *)
Definition Conv2D_bound_base (input : ptr) (x : Blob) (wd : shape) (L : Conv2D) : Layer :=
  let B := set_batch_size_ (blob_n x)
             (set_input_desc_ (Some (Blob_shape x))
                (set_input_ (Some input) (conv_base L))) in
  let dims :=
    cudnnGetConvolution2dForwardOutputDim (padding_ L) (stride_ L) (dilation_ L)
      (Blob_shape x) wd in
  let output :=
    match output_ B with
    | None => Blob_of_shape dims
    | Some o => Blob_reset o dims
    end in
  set_output_desc_ (Some (Blob_shape output)) (set_output_ (Some output) B).

(** The base part of a [FusedBatchNormalization] layer once [forward] has
    bound it to the input [x] at [input], before the parameters are
    materialised. *)
Definition FusedBatchNormalization_bound_base
    (input : ptr) (x : Blob) (L : FusedBatchNormalization) : Layer :=
  let B := set_input_desc_ (Some (Blob_shape x))
             (set_batch_size_ (blob_n x) (set_input_ (Some input) (bn_base L))) in
  let output :=
    match output_ B with
    | None => Blob_of_shape (Blob_shape x)
    | Some o => Blob_reset o (Blob_shape x)
    end in
  set_output_desc_ (Some (Blob_shape output)) (set_output_ (Some output) B).

(** ** Parameter materialisation across [forward] calls *)

(** The layer [load_parameter] leaves behind when the weight file holds
    [dw] and the bias file [db], and the line it prints. *)
Definition loaded (L : Layer) (w b : Blob) (dw db : list R) : Layer :=
  set_biases_ (Some (with_values db b)) (set_weights_ (Some (with_values dw w)) L).

Definition loaded_line (L : Layer) : string :=
  ".. loaded " +:+ name_ L +:+ " pretrain parameter..".

(** How the [forward] of a layer class treats the parameters, for a layer
    [L] called in world [W] on the blob [x] at [input] and then on
    [inputs], all of the batch size of [x].  [rebound] is the base part of
    [L] once [forward] has allocated the parameter blobs and bound the
    layer to [x], and [W0] the world at that point.
    - When the call rebinds (first call, or another batch size), the
      parameters and the world it leaves, or the way it fails, are those of
      the materialisation step run on [rebound] in [W0]; otherwise the
      parameters and the world are kept.
    - Further calls at that batch size leave the parameters and the world
      of the first.
    - The rebound layer has the flags and the name of [L]; its six
      parameter blobs are allocated, and they are those of [L] once [L] has
      them.
    - A call leaves the gradient blobs untouched, and an output buffer for
      the batch of [x]. *)
Definition forward_materialises {T} (base : T → Layer) (forward : ptr → T → M T)
    (W : World) (L : T) (input : ptr) (x : Blob) (inputs : list ptr)
    (rebound : Layer) (W0 : World) : Prop :=
  Result_map (λ L', parameters (base L')) (forward input L W)
  = (if rebind_needed (base L) x
     then Result_map parameters (materialize_parameters rebound W0)
     else Ok (parameters (base L)) W) ∧
  Result_map (λ L', parameters (base L')) (forward_all forward (input :: inputs) L W)
  = Result_map (λ L', parameters (base L')) (forward input L W) ∧
  (freeze_ rebound = freeze_ (base L) ∧
   load_pretrain_ rebound = load_pretrain_ (base L) ∧
   name_ rebound = name_ (base L) ∧
   (∃ w b wm wv bm bv, allocated rebound w b wm wv bm bv) ∧
   (weights_ (base L) ≠ None → parameters rebound = parameters (base L))) ∧
  ∀ L' W', forward input L W = Ok L' W' →
    gradients (base L') = gradients (base L) ∧
    ∃ out, output_ (base L') = Some out ∧ blob_n out = blob_n x.

(** ** Concrete layers and worlds *)

(** A stand-in for the random engine that satisfies the contract of the
    distribution: every draw is the midpoint of the interval. *)
Definition midpoint_draw (a b : R) (gen : Z) : R * Z := (((a + b) / 2)%R, gen).

(** Another stand-in, whose state counts the draws: every draw lies a
    quarter of the way into the interval. *)
Definition quarter_draw (a b : R) (gen : Z) : R * Z :=
  (((3 * a + b) / 4)%R, (gen + 1)%Z).

(** A blob of shape (n,1,1,1) with the same values on host and device. *)
Definition vector_blob (values : list R) : Blob :=
  mkBlob (length values) 1 1 1 values values.

(** A layer that has seen no call: every pointer is null. *)
Definition new_layer (name : string) (freeze load_pretrain : bool) : Layer :=
  mkLayer name None None None None None 0 freeze load_pretrain false
    None None None None None None None None.

(** A [Linear] layer with one input and one output feature, bound at batch
    size 2 to the blob at address 0, with weight 5 and bias 7 and a
    gradient of 1 for each. *)
Definition trained_base (freeze : bool) : Layer :=
  mkLayer "fc" (Some 0%nat) (Some (mkBlob 2 1 1 1 [0; 0] [0; 0])%R) None None None
    2 freeze false false
    (Some (mkBlob 1 1 1 1 [5] [5])%R) (Some (mkBlob 1 1 1 1 [7] [7])%R)
    (Some (mkBlob 1 1 1 1 [0] [0])%R) (Some (mkBlob 1 1 1 1 [0] [0])%R)
    (Some (mkBlob 1 1 1 1 [0] [0])%R) (Some (mkBlob 1 1 1 1 [0] [0])%R)
    (Some (mkBlob 1 1 1 1 [1] [1])%R) (Some (mkBlob 1 1 1 1 [1] [1])%R).

Definition trained_linear (freeze : bool) : Linear :=
  mkLinear (trained_base freeze) 1 1 (Some [1; 1]%R).

(** A world with a batch of two inputs at address 0, a batch of three at
    address 1, no parameter file, and an empty output. *)
Definition two_batches : World :=
  mkWorld [] ∅ (λ _, false)
    (<[0%nat := vector_blob [1; 2]%R]> (<[1%nat := vector_blob [1; 2; 3]%R]> ∅))
    (λ _, 42%Z) 0.

(** Two samples over three classes: logits at address 0, one-hot targets at
    address 1. *)
Definition toy_logits : Blob := mkBlob 2 3 1 1 [1; 2; 3; 1; 1; 1]%R [1; 2; 3; 1; 1; 1]%R.
Definition toy_target : Blob := mkBlob 2 3 1 1 [0; 0; 1; 1; 0; 0]%R [0; 0; 1; 1; 0; 0]%R.

Definition toy_batch : World :=
  mkWorld [] ∅ (λ _, false)
    (<[0%nat := toy_logits]> (<[1%nat := toy_target]> ∅)) (λ _, 42%Z) 0.

(** Two samples over ten classes: the first is classified as its target
    says, the second is not. *)
Definition digits_prediction : Blob :=
  mkBlob 2 10 1 1
    [0; 0; 0; 1; 0; 0; 0; 0; 0; 0;  0; 1; 0; 0; 0; 0; 0; 0; 0; 0]%R
    [0; 0; 0; 1; 0; 0; 0; 0; 0; 0;  0; 1; 0; 0; 0; 0; 0; 0; 0; 0]%R.

Definition digits_target : Blob :=
  mkBlob 2 10 1 1
    [0; 0; 0; 1; 0; 0; 0; 0; 0; 0;  0; 0; 0; 0; 0; 0; 0; 1; 0; 0]%R
    [0; 0; 0; 1; 0; 0; 0; 0; 0; 0;  0; 0; 0; 0; 0; 0; 0; 1; 0; 0]%R.

Definition digits_layer : Layer :=
  mkLayer "softmax" (Some 0%nat) (Some digits_prediction) None None None
    2 false false false None None None None None None None None.

Definition digits_world : World :=
  mkWorld [] ∅ (λ _, false) (<[1%nat := digits_target]> ∅) (λ _, 42%Z) 0.

(** A 1x1 [Conv2D] layer with one input and one output channel in the same
    state: bound at batch size 2 to the blob at address 0. *)
Definition trained_conv (freeze : bool) : Conv2D :=
  mkConv2D
    (set_output_desc_ (Some (2, 1, 1, 1))
       (set_input_desc_ (Some (2, 1, 1, 1)) (trained_base freeze)))
    1 1 1 0 1 (Some (1, 1, 1, 1)) (Some (1, 1, 1, 1)) 0 0 0 (2, 1, 1, 1) 0 None.

(** A [Linear] layer with one output feature that has seen no call. *)
Definition new_linear (freeze load_pretrain : bool) : Linear :=
  mkLinear (new_layer "fc" freeze load_pretrain) 0 1 None.

(** ** [Linear] between calls *)

(** A [Linear] layer that has seen no call: nothing is allocated or bound. *)
Definition Linear_fresh (L : Linear) : Prop :=
  weights_ (linear_base L) = None ∧ input_ (linear_base L) = None ∧
  output_ (linear_base L) = None.

(** A [Linear] layer after a [forward] call that bound it to the blob [x]:
    weights of [input_size_ * output_size_] cells, [output_size_] biases,
    an output buffer for the batch of [x], and one [1] per sample in
    [d_one_vec]. *)
Definition Linear_bound (W : World) (L : Linear) (x : Blob) : Prop :=
  ∃ w b wm wv bm bv p out,
    materialised W (linear_base L) w b wm wv bm bv p x ∧
    Blob_len w = (input_size_ L * output_size_ L)%nat ∧
    Blob_len b = output_size_ L ∧
    Blob_wf x ∧ Blob_size x = input_size_ L ∧
    batch_size_ (linear_base L) = blob_n x ∧
    output_ (linear_base L) = Some out ∧ Blob_wf out ∧
    Blob_shape out = (blob_n x, output_size_ L, 1%nat, 1%nat) ∧
    d_one_vec L = Some (replicate (blob_n x) 1%R).

(** The output buffer holds [W^T x + b] for every sample of [x]: row [j] of
    the result for sample [n] is the product of column [j] of the weights
    with the sample, plus bias [j]. *)
Definition Linear_output_affine (L : Linear) (x : Blob) : Prop :=
  ∃ w b out,
    weights_ (linear_base L) = Some w ∧ biases_ (linear_base L) = Some b ∧
    output_ (linear_base L) = Some out ∧
    ∀ n j, (n < blob_n x)%nat → (j < output_size_ L)%nat →
      d_ptr_ out !!! (j + n * output_size_ L)%nat
      = (sum_n (λ l, d_ptr_ w !!! (l + j * input_size_ L)%nat
                     * d_ptr_ x !!! (l + n * input_size_ L)%nat)%R
           (input_size_ L)
         + d_ptr_ b !!! j)%R.

(** The gradient blobs of a [Linear] layer after a [backward] call that
    bound it to the caller's gradient blob [dy]. *)
Definition Linear_grads (W : World) (L : Linear) (grad_output_ : option ptr)
    (x dy : Blob) : Prop :=
  ∃ gw gb gi q,
    grad_weights_ (linear_base L) = Some gw ∧ grad_biases_ (linear_base L) = Some gb ∧
    grad_input_ (linear_base L) = Some gi ∧
    Blob_wf gw ∧ Blob_wf gb ∧ Blob_wf gi ∧
    Blob_len gw = (input_size_ L * output_size_ L)%nat ∧
    Blob_len gb = output_size_ L ∧
    Blob_len gi = (blob_n x * input_size_ L)%nat ∧
    grad_output_ = Some q ∧ heap W !! q = Some dy.

(** No gradient blob is allocated yet. *)
Definition Linear_no_grads (L : Linear) : Prop :=
  grad_weights_ (linear_base L) = None ∧ grad_biases_ (linear_base L) = None ∧
  grad_input_ (linear_base L) = None.

(** What [backward] leaves in the parameter gradients for the input [x] and
    the incoming gradient [dy]: [db[j]] is the sum over the samples of
    [dy[j]], and [dw[l, j]] the sum over the samples of [x[l] * dy[j]]. *)
Definition Linear_parameter_gradients (L : Linear) (x dy : Blob) : Prop :=
  ∃ gw gb,
    grad_weights_ (linear_base L) = Some gw ∧ grad_biases_ (linear_base L) = Some gb ∧
    (∀ j, (j < output_size_ L)%nat →
       d_ptr_ gb !!! j
       = sum_n (λ n, d_ptr_ dy !!! (j + n * output_size_ L)%nat) (blob_n x)) ∧
    (∀ l j, (l < input_size_ L)%nat → (j < output_size_ L)%nat →
       d_ptr_ gw !!! (l + j * input_size_ L)%nat
       = sum_n (λ n, d_ptr_ x !!! (l + n * input_size_ L)%nat
                     * d_ptr_ dy !!! (j + n * output_size_ L)%nat)%R
           (blob_n x)).

(** What [backward] leaves in the input gradient: [dx[l]] of sample [n] is
    the sum over the output features [j] of [weights[l, j] * dy[j]]. *)
Definition Linear_input_gradient (L : Linear) (x dy : Blob) : Prop :=
  ∃ w gi,
    weights_ (linear_base L) = Some w ∧ grad_input_ (linear_base L) = Some gi ∧
    ∀ n l, (n < blob_n x)%nat → (l < input_size_ L)%nat →
      d_ptr_ gi !!! (l + n * input_size_ L)%nat
      = sum_n (λ j, d_ptr_ w !!! (l + j * input_size_ L)%nat
                    * d_ptr_ dy !!! (j + n * output_size_ L)%nat)%R
          (output_size_ L).

(** ** More concrete layers and worlds *)

(** A blob of shape (1,1,1,1) holding [v] on host and device. *)
Definition scalar_blob (v : R) : Blob := mkBlob 1 1 1 1 [v] [v].

(** A second, longer batch for the softmax head: three samples over three
    classes, logits at address 2 and targets at address 3, beside the two
    samples of [toy_batch]. *)
Definition toy_logits3 : Blob :=
  mkBlob 3 3 1 1 [1; 2; 3; 1; 1; 1; 3; 2; 1]%R [1; 2; 3; 1; 1; 1; 3; 2; 1]%R.
Definition toy_target3 : Blob :=
  mkBlob 3 3 1 1 [0; 0; 1; 1; 0; 0; 0; 1; 0]%R [0; 0; 1; 1; 0; 0; 0; 1; 0]%R.

Definition toy_growing_batches : World :=
  mkWorld [] ∅ (λ _, false)
    (<[0%nat := toy_logits]> (<[1%nat := toy_target]>
       (<[2%nat := toy_logits3]> (<[3%nat := toy_target3]> ∅))))
    (λ _, 42%Z) 0.

(** A world in which only the weight file of the layer "fc" exists. *)
Definition weight_file_only : World :=
  mkWorld [] (<["fc.bin" := [9%R]]> ∅) (λ _, false) ∅ (λ _, 42%Z) 0.

(** A world in which the bias file of the layer "fc" cannot be written. *)
Definition bias_file_denied : World :=
  mkWorld [] ∅ (λ path, bool_decide (path = "fc.bias.bin")) ∅ (λ _, 42%Z) 0.

(** A world with two batches of two inputs, at addresses 0 and 1. *)
Definition two_inputs : World :=
  mkWorld [] ∅ (λ _, false)
    (<[0%nat := vector_blob [1; 2]%R]> (<[1%nat := vector_blob [3; 4]%R]> ∅))
    (λ _, 42%Z) 0.

(** A [Linear] layer with one input and one output feature after its first
    [forward] on the blob at address 0: weight 5, bias 7, no gradient blob
    yet. *)
Definition forwarded_linear (gradient_stop : bool) : Linear :=
  mkLinear
    (mkLayer "fc" (Some 0%nat) (Some (mkBlob 2 1 1 1 [12; 17] [12; 17])%R) None None None
       2 false false gradient_stop
       (Some (mkBlob 1 1 1 1 [5] [5])%R) (Some (mkBlob 1 1 1 1 [7] [7])%R)
       (Some (mkBlob 1 1 1 1 [0] [0])%R) (Some (mkBlob 1 1 1 1 [0] [0])%R)
       (Some (mkBlob 1 1 1 1 [0] [0])%R) (Some (mkBlob 1 1 1 1 [0] [0])%R)
       None None)
    1 1 (Some [1; 1]%R).

(** A [Conv2D] layer with one output channel and a 1x1 kernel, and a
    [FusedBatchNormalization] layer, that have seen no call. *)
Definition new_conv (freeze load_pretrain : bool) : Conv2D :=
  mkConv2D (new_layer "conv" freeze load_pretrain) 1 1 1 0 1 None None 0 0 0
    (0, 0, 0, 0)%nat 0 None.

Definition new_bn (freeze load_pretrain : bool) : FusedBatchNormalization :=
  mkFusedBatchNormalization (new_layer "bn" freeze load_pretrain) 0 0 (1 / 100000)%R
    None None None None None.

(** A [FusedBatchNormalization] layer over one channel in the state of
    [trained_base]: bound at batch size 2 to the blob at address 0. *)
Definition trained_bn (freeze : bool) : FusedBatchNormalization :=
  mkFusedBatchNormalization
    (set_output_desc_ (Some (2, 1, 1, 1))
       (set_input_desc_ (Some (2, 1, 1, 1)) (trained_base freeze)))
    1 0 (1 / 100000)%R (Some (1, 1, 1, 1)%nat) None None None None.

(** An unfrozen layer with pretrained-load set, holding the weight 5 and
    the bias 7, and a world whose parameter files hold the weight 9 and the
    bias 8. *)
Definition pretrained_base : Layer :=
  mkLayer "fc" (Some 0%nat) (Some (mkBlob 2 1 1 1 [0; 0] [0; 0])%R) None None None
    2 false true false
    (Some (mkBlob 1 1 1 1 [5] [5])%R) (Some (mkBlob 1 1 1 1 [7] [7])%R)
    (Some (mkBlob 1 1 1 1 [0] [0])%R) (Some (mkBlob 1 1 1 1 [0] [0])%R)
    (Some (mkBlob 1 1 1 1 [0] [0])%R) (Some (mkBlob 1 1 1 1 [0] [0])%R)
    None None.

Definition parameter_files : World :=
  mkWorld [] (<["fc.bin" := [9%R]]> (<["fc.bias.bin" := [8%R]]> ∅)) (λ _, false)
    ∅ (λ _, 42%Z) 0.

(** * Properties *)

(** ** Facts about the loop and the launch *)

Section KernelLaunchFacts.
Context {St : Type}.
Variable body : nat → St → St.

Lemma kernel_loop_indices fuel n stride i s :
  kernel_loop body fuel n stride i s
  = run_indices body (loop_indices fuel n stride i) s.
Proof.
  revert i s. induction fuel as [|fuel IH]; intros i s; simpl; [done|].
  destruct (i <? n)%nat; [|done]. by rewrite IH.
Qed.

Lemma run_indices_app l k s :
  run_indices body (l ++ k) s = run_indices body k (run_indices body l s).
Proof. unfold run_indices. apply foldl_app. Qed.

Lemma launch_schedule gridDim blockDim n s :
  launch body gridDim blockDim n s
  = run_indices body (schedule gridDim blockDim n) s.
Proof.
  unfold launch, schedule.
  generalize (seq 0 gridDim) as bs. intros bs. revert s.
  induction bs as [|b bs IH]; intros s; csimpl; [done|].
  rewrite run_indices_app, IH. f_equal.
  generalize (seq 0 blockDim) as ts. intros ts. revert s.
  induction ts as [|t ts IHt]; intros s; csimpl; [done|].
  rewrite run_indices_app, IHt. f_equal.
  unfold thread_run. apply kernel_loop_indices.
Qed.

(** The loop stops by itself: fuel beyond [n] changes nothing. *)
Lemma loop_indices_fuel fuel n stride i :
  0 < stride → n ≤ fuel + i →
  loop_indices (S fuel) n stride i = loop_indices fuel n stride i.
Proof.
  intros Hs. revert i. induction fuel as [|fuel IH]; intros i Hn.
  - simpl. destruct (Nat.ltb_spec i n); [lia|done].
  - change (loop_indices (S (S fuel)) n stride i)
      with (if (i <? n)%nat then i :: loop_indices (S fuel) n stride (i + stride) else []).
    change (loop_indices (S fuel) n stride i)
      with (if (i <? n)%nat then i :: loop_indices fuel n stride (i + stride) else []).
    destruct (i <? n)%nat; [|done]. rewrite IH by lia. done.
Qed.

Lemma kernel_loop_fuel fuel n stride i s :
  0 < stride → n ≤ fuel →
  kernel_loop body fuel n stride i s = kernel_loop body n n stride i s.
Proof.
  intros Hs Hf. rewrite !kernel_loop_indices. f_equal.
  induction Hf as [|fuel Hf IH]; [done|].
  rewrite loop_indices_fuel by lia. done.
Qed.
End KernelLaunchFacts.

Lemma loop_indices_elem fuel n stride i j :
  j ∈ loop_indices fuel n stride i →
  j < n ∧ ∃ k, k < fuel ∧ j = i + k * stride.
Proof.
  revert i. induction fuel as [|fuel IH]; intros i; simpl; [by intros ?%elem_of_nil|].
  destruct (Nat.ltb_spec i n) as [Hi|Hi]; [|by intros ?%elem_of_nil].
  intros [->|Hj]%elem_of_cons.
  - split; [done|]. exists 0. lia.
  - destruct (IH _ Hj) as (? & k & ? & ->). split; [done|]. exists (S k). lia.
Qed.

Lemma loop_indices_complete fuel n stride i k :
  k < fuel → i + k * stride < n → i + k * stride ∈ loop_indices fuel n stride i.
Proof.
  revert i k. induction fuel as [|fuel IH]; intros i k Hk Hn; [lia|]. simpl.
  destruct (Nat.ltb_spec i n) as [Hi|Hi]; [|lia].
  destruct k as [|k].
  - replace (i + 0 * stride) with i by lia. apply elem_of_cons. by left.
  - apply elem_of_cons. right.
    replace (i + S k * stride) with ((i + stride) + k * stride) by lia.
    apply IH; lia.
Qed.

Lemma loop_indices_NoDup fuel n stride i :
  0 < stride → NoDup (loop_indices fuel n stride i).
Proof.
  intros Hs. revert i. induction fuel as [|fuel IH]; intros i; simpl; [constructor|].
  destruct (i <? n)%nat; [|constructor].
  constructor; [|apply IH].
  intros (_ & k & _ & Hk)%loop_indices_elem. lia.
Qed.

(** Thread [(b, t)] visits exactly the indices below [n] that are congruent
    to its global thread id modulo the total number of threads. *)
Lemma thread_indices gridDim blockDim n b t j :
  b < gridDim → t < blockDim →
  j ∈ loop_indices n n (blockDim * gridDim) (b * blockDim + t)
  ↔ j < n ∧ j mod (blockDim * gridDim) = b * blockDim + t.
Proof.
  intros Hb Ht.
  assert (b * blockDim + t < blockDim * gridDim) as Hlt by nia.
  split.
  - intros (Hj & k & _ & ->)%loop_indices_elem. split; [done|].
    rewrite Nat.Div0.mod_add. by apply Nat.mod_small.
  - intros [Hj Hmod].
    pose proof (Nat.div_mod_eq j (blockDim * gridDim)) as Hdm.
    rewrite Hmod in Hdm.
    replace j with ((b * blockDim + t) + (j / (blockDim * gridDim)) * (blockDim * gridDim))
      by lia.
    apply loop_indices_complete; [|lia].
    assert (j / (blockDim * gridDim) ≤ j) by (apply Nat.Div0.div_le_upper_bound; nia).
    lia.
Qed.

Lemma schedule_elem gridDim blockDim n j :
  0 < gridDim → 0 < blockDim →
  j ∈ schedule gridDim blockDim n ↔ j < n.
Proof.
  intros HG HB. unfold schedule. rewrite list_elem_of_bind. split.
  - intros (b & (t & Hj & _)%list_elem_of_bind & _).
    by apply loop_indices_elem in Hj as [? _].
  - intros Hj.
    assert (j mod (blockDim * gridDim) < blockDim * gridDim) as Hm
      by (apply Nat.mod_upper_bound; nia).
    set (tid := j mod (blockDim * gridDim)) in *.
    exists (tid / blockDim). split.
    + apply list_elem_of_bind. exists (tid mod blockDim). split.
      * apply thread_indices.
        -- apply Nat.Div0.div_lt_upper_bound; lia.
        -- apply Nat.mod_upper_bound; lia.
        -- split; [done|]. fold tid.
           pose proof (Nat.div_mod_eq tid blockDim). lia.
      * apply elem_of_seq. split; [lia|]. simpl. apply Nat.mod_upper_bound; lia.
    + apply elem_of_seq. split; [lia|]. simpl.
      apply Nat.Div0.div_lt_upper_bound; lia.
Qed.

Lemma schedule_NoDup gridDim blockDim n : NoDup (schedule gridDim blockDim n).
Proof.
  unfold schedule.
  destruct (decide (0 < blockDim * gridDim)) as [Hpos|Hz].
  2:{ assert (gridDim = 0 ∨ blockDim = 0) as [->| ->] by lia; simpl; [constructor|].
      induction (seq 0 gridDim); csimpl; [constructor|done]. }
  apply NoDup_bind; [| |apply NoDup_seq].
  - intros b1 b2 j [_ Hb1]%elem_of_seq [_ Hb2]%elem_of_seq.
    intros (t1 & Hj1 & [_ Ht1]%elem_of_seq)%list_elem_of_bind
           (t2 & Hj2 & [_ Ht2]%elem_of_seq)%list_elem_of_bind.
    simpl in *.
    apply thread_indices in Hj1 as [_ H1]; [|done..].
    apply thread_indices in Hj2 as [_ H2]; [|done..].
    nia.
  - intros b [_ Hb]%elem_of_seq. simpl in Hb.
    apply NoDup_bind; [| |apply NoDup_seq].
    + intros t1 t2 j [_ Ht1]%elem_of_seq [_ Ht2]%elem_of_seq Hj1 Hj2. simpl in *.
      apply thread_indices in Hj1 as [_ H1]; [|done..].
      apply thread_indices in Hj2 as [_ H2]; [|done..].
      lia.
    + intros t _. by apply loop_indices_NoDup.
Qed.

(** ** Kernels whose body touches only cell [i] *)

Section Pointwise.
Context {St A : Type}.
Variable body : nat → St → St.
(** [read s i] is what the kernel state holds for index [i], [f i] is the
    per-cell update, and [ok i s] says that index [i] is inside the
    buffers of [s]. *)
Variable read : St → nat → A.
Variable f : nat → A → A.
Variable ok : nat → St → Prop.
Hypothesis body_ok : ∀ i j s, ok j s → ok j (body i s).
Hypothesis body_same : ∀ i s, ok i s → read (body i s) i = f i (read s i).
Hypothesis body_other : ∀ i j s, i ≠ j → read (body i s) j = read s j.

Lemma run_indices_pointwise l s j :
  NoDup l → (∀ i, i ∈ l → ok i s) →
  read (run_indices body l s) j
  = if decide (j ∈ l) then f j (read s j) else read s j.
Proof using body_ok body_same body_other.
  clear - body_ok body_same body_other.
  intros Hnd. revert s. induction Hnd as [|i l Hi Hnd IH]; intros s Hok.
  - unfold run_indices; simpl. destruct (decide (j ∈ [])) as [Hj|]; [|done].
    by apply elem_of_nil in Hj.
  - change (run_indices body (i :: l) s) with (run_indices body l (body i s)).
    rewrite IH.
    2:{ intros k Hk. apply body_ok, Hok. by right. }
    destruct (decide (j = i)) as [->|Hne].
    + rewrite decide_False by done. rewrite decide_True by (by left).
      apply body_same, Hok. by left.
    + rewrite body_other by done.
      case_decide as Hj.
      * rewrite decide_True by (by right). done.
      * rewrite decide_False; [done|]. by intros [?|?]%elem_of_cons.
Qed.

Lemma launch_pointwise gridDim blockDim n s j :
  0 < gridDim → 0 < blockDim → (∀ i, i < n → ok i s) →
  read (launch body gridDim blockDim n s) j
  = if decide (j < n) then f j (read s j) else read s j.
Proof using body_ok body_same body_other.
  clear - body_ok body_same body_other.
  intros HG HB Hok. rewrite launch_schedule, run_indices_pointwise.
  - pose proof (schedule_elem gridDim blockDim n j HG HB) as Hel.
    repeat case_decide; tauto.
  - apply schedule_NoDup.
  - intros i Hi. apply Hok. by apply (schedule_elem gridDim blockDim n i).
Qed.

Lemma run_indices_preserves (P : St → Prop) l s :
  (∀ i s, P s → P (body i s)) → P s → P (run_indices body l s).
Proof.
  intros HP. revert s. induction l as [|i l IH]; intros s Hs; [done|].
  apply IH, HP, Hs.
Qed.
End Pointwise.

Lemma launch_preserves {St} (body : nat → St → St) (P : St → Prop) gridDim blockDim n s :
  (∀ i s, P s → P (body i s)) → P s → P (launch body gridDim blockDim n s).
Proof.
  intros HP Hs. rewrite launch_schedule.
  revert s Hs. induction (schedule gridDim blockDim n) as [|i l IH]; intros s Hs; [done|].
  apply IH, HP, Hs.
Qed.

Local Open Scope R_scope.

Lemma adam_update_cell gridDim blockDim N step m v w g beta1 beta2 eps_hat lr j :
  (0 < gridDim)%nat → (0 < blockDim)%nat →
  (N ≤ length m)%nat → (N ≤ length v)%nat → (N ≤ length w)%nat →
  adam_read (adam_update gridDim blockDim N step m v w g beta1 beta2 eps_hat lr) j
  = if decide (j < N)%nat
    then adam_cell step beta1 beta2 eps_hat lr (g !!! j) (m !!! j, v !!! j, w !!! j)
    else (m !!! j, v !!! j, w !!! j).
Proof.
  intros HG HB Hm Hv Hw. unfold adam_update.
  rewrite (launch_pointwise _ adam_read
             (λ i, adam_cell step beta1 beta2 eps_hat lr (g !!! i)) adam_ok); try done.
  - intros i k [[m0 v0] w0] (?&?&?). unfold adam_ok; simpl.
    rewrite !length_insert. done.
  - intros i [[m0 v0] w0] (?&?&?). simpl in *. unfold adam_read; simpl.
    rewrite !list_lookup_total_insert_eq by done. done.
  - intros i k [[m0 v0] w0] Hne. unfold adam_read; simpl.
    rewrite !list_lookup_total_insert_ne by done. done.
  - intros i Hi. unfold adam_ok; simpl. lia.
Qed.

Lemma adam_update_length gridDim blockDim N step m v w g beta1 beta2 eps_hat lr :
  let r := adam_update gridDim blockDim N step m v w g beta1 beta2 eps_hat lr in
  length r.1.1 = length m ∧ length r.1.2 = length v ∧ length r.2 = length w.
Proof.
  unfold adam_update.
  apply (launch_preserves _
           (λ s : adam_state,
              length s.1.1 = length m ∧ length s.1.2 = length v ∧ length s.2 = length w));
    [|done].
  intros i [[m0 v0] w0] (?&?&?). simpl in *. rewrite !length_insert. done.
Qed.

Lemma rmsprop_update_cell gridDim blockDim N m w g decay eps_hat lr j :
  (0 < gridDim)%nat → (0 < blockDim)%nat →
  (N ≤ length m)%nat → (N ≤ length w)%nat →
  rmsprop_read (rmsprop_update gridDim blockDim N m w g decay eps_hat lr) j
  = if decide (j < N)%nat
    then rmsprop_cell decay eps_hat lr (g !!! j) (m !!! j, w !!! j)
    else (m !!! j, w !!! j).
Proof.
  intros HG HB Hm Hw. unfold rmsprop_update.
  rewrite (launch_pointwise _ rmsprop_read
             (λ i, rmsprop_cell decay eps_hat lr (g !!! i)) rmsprop_ok); try done.
  - intros i k [m0 w0] (?&?). unfold rmsprop_ok; simpl.
    rewrite !length_insert. done.
  - intros i [m0 w0] (?&?). simpl in *. unfold rmsprop_read; simpl.
    rewrite !list_lookup_total_insert_eq by done. done.
  - intros i k [m0 w0] Hne. unfold rmsprop_read; simpl.
    rewrite !list_lookup_total_insert_ne by done. done.
  - intros i Hi. unfold rmsprop_ok; simpl. lia.
Qed.

Lemma rmsprop_update_length gridDim blockDim N m w g decay eps_hat lr :
  let r := rmsprop_update gridDim blockDim N m w g decay eps_hat lr in
  length r.1 = length m ∧ length r.2 = length w.
Proof.
  unfold rmsprop_update.
  apply (launch_preserves _
           (λ s : rmsprop_state, length s.1 = length m ∧ length s.2 = length w));
    [|done].
  intros i [m0 w0] (?&?). simpl in *. rewrite !length_insert. done.
Qed.


(** ** The result monad *)

Lemma bind_Ok {A B} (c : M A) (k : A → M B) W a W' :
  c W = Ok a W' → bind c k W = k a W'.
Proof. unfold bind. by intros ->. Qed.

Lemma bind_Exit {A B} (c : M A) (k : A → M B) W status W' :
  c W = Exit status W' → bind c k W = Exit status W'.
Proof. unfold bind. by intros ->. Qed.

Lemma Result_map_Ok {A B} (f : A → B) (r : Result A) (v : B) (W : World) :
  Result_map f r = Ok v W → ∃ a, r = Ok a W ∧ f a = v.
Proof. destruct r as [a W'| | |]; simpl; intros [= <- <-]. by exists a. Qed.

(** ** Library calls, element by element *)

Section ElementwiseFold.
Variable f : nat → R → R.

(** A loop [for i < n: a[i] = f(i, a[i])] over a buffer of at least [n] cells. *)
Lemma foldl_insert_lookup (n : nat) (a : list R) (j : nat) :
  (n ≤ length a)%nat →
  foldl (λ a i, <[i := f i (a !!! i)]> a) a (seq 0 n) !!! j
  = if decide (j < n)%nat then f j (a !!! j) else a !!! j.
Proof.
  intros Hn.
  change (foldl (λ a i, <[i := f i (a !!! i)]> a) a (seq 0 n))
    with (run_indices (λ i a, <[i := f i (a !!! i)]> a) (seq 0 n) a).
  rewrite (run_indices_pointwise _ (λ (a : list R) i, a !!! i) f
             (λ i (a : list R), (i < length a)%nat)).
  - destruct (decide (j < n)%nat) as [Hj|Hj];
      [rewrite decide_True|rewrite decide_False]; try done; rewrite elem_of_seq; lia.
  - intros i k s Hk. by rewrite length_insert.
  - intros i s Hi. by apply list_lookup_total_insert_eq.
  - intros i k s Hne. by apply list_lookup_total_insert_ne.
  - apply NoDup_seq.
  - intros i [_ Hi]%elem_of_seq. lia.
Qed.

Lemma foldl_insert_length (l : list nat) (a : list R) :
  length (foldl (λ a i, <[i := f i (a !!! i)]> a) a l) = length a.
Proof.
  revert a. induction l as [|i l IH]; intros a; simpl; [done|].
  by rewrite IH, length_insert.
Qed.
End ElementwiseFold.

Lemma cublasSaxpy_lookup n alpha x y j :
  (n ≤ length y)%nat →
  cublasSaxpy n alpha x y !!! j
  = if decide (j < n)%nat then (alpha * x !!! j + y !!! j)%R else y !!! j.
Proof. apply (foldl_insert_lookup (λ i yi, (alpha * x !!! i + yi)%R)). Qed.

Lemma cublasSaxpy_length n alpha x y : length (cublasSaxpy n alpha x y) = length y.
Proof. apply (foldl_insert_length (λ i yi, (alpha * x !!! i + yi)%R)). Qed.

Lemma cublasSscal_lookup n alpha x j :
  (n ≤ length x)%nat →
  cublasSscal n alpha x !!! j
  = if decide (j < n)%nat then (alpha * x !!! j)%R else x !!! j.
Proof. apply (foldl_insert_lookup (λ i xi, (alpha * xi)%R)). Qed.

Lemma cublasSscal_length n alpha x : length (cublasSscal n alpha x) = length x.
Proof. apply (foldl_insert_length (λ i xi, (alpha * xi)%R)). Qed.

Lemma cudnnSoftmaxForward_lookup alpha xDesc x beta yDesc y j :
  let '(n, c, h, w) := xDesc in
  (n * (c * h * w) ≤ length y)%nat →
  cudnnSoftmaxForward alpha xDesc x beta yDesc y !!! j
  = if decide (j < n * (c * h * w))%nat
    then (alpha * softmax_channel xDesc x j + beta * y !!! j)%R
    else y !!! j.
Proof.
  destruct xDesc as [[[n c] h] w]. unfold cudnnSoftmaxForward.
  apply (foldl_insert_lookup
           (λ i yi, (alpha * softmax_channel (n, c, h, w) x i + beta * yi)%R)).
Qed.

Lemma cudnnSoftmaxForward_length alpha xDesc x beta yDesc y :
  length (cudnnSoftmaxForward alpha xDesc x beta yDesc y) = length y.
Proof.
  destruct xDesc as [[[n c] h] w]. unfold cudnnSoftmaxForward.
  apply (foldl_insert_length
           (λ i yi, (alpha * softmax_channel (n, c, h, w) x i + beta * yi)%R)).
Qed.

(** ** Blobs *)

Arguments cudnnSoftmaxForward : simpl never.
Arguments softmax_channel : simpl never.
Arguments cublasSaxpy : simpl never.
Arguments cublasSscal : simpl never.
Arguments cublasSgemm : simpl never.
Arguments fresh_buffer : simpl never.
Arguments Blob_len : simpl never.
Arguments Blob_size : simpl never.
Arguments Blob_shape : simpl never.
Arguments Blob_new : simpl never.
Arguments Blob_of_shape : simpl never.
Arguments Blob_reset : simpl never.

Lemma set_d_ptr_wf d b : length d = Blob_len b → Blob_wf b → Blob_wf (set_d_ptr_ d b).
Proof. intros Hd [Hh _]. split; [exact Hh|exact Hd]. Qed.

Lemma set_h_ptr_wf h b : length h = Blob_len b → Blob_wf b → Blob_wf (set_h_ptr_ h b).
Proof. intros Hh [_ Hd]. split; [exact Hh|exact Hd]. Qed.

Lemma fresh_buffer_length len : length (fresh_buffer len) = len.
Proof. unfold fresh_buffer. by rewrite length_fmap, length_seq. Qed.

Lemma Blob_new_wf n c h w : Blob_wf (Blob_new n c h w).
Proof. unfold Blob_wf, Blob_new, Blob_len, Blob_size; simpl.
  rewrite fresh_buffer_length. split; lia. Qed.

Lemma Blob_of_shape_wf s : Blob_wf (Blob_of_shape s).
Proof. destruct s as [[[n c] h] w]. apply Blob_new_wf. Qed.

Lemma Blob_of_shape_shape s : Blob_shape (Blob_of_shape s) = s.
Proof. by destruct s as [[[n c] h] w]. Qed.

Lemma Blob_reset_wf b s : Blob_wf b → Blob_wf (Blob_reset b s).
Proof. unfold Blob_reset. case_decide; [done|]. intros _. apply Blob_of_shape_wf. Qed.

Lemma Blob_reset_shape b s : Blob_shape (Blob_reset b s) = s.
Proof. unfold Blob_reset. case_decide; [done|]. apply Blob_of_shape_shape. Qed.

Lemma Blob_len_shape b1 b2 : Blob_shape b1 = Blob_shape b2 → Blob_len b1 = Blob_len b2.
Proof. unfold Blob_shape, Blob_len, Blob_size. intros [= -> -> -> ->]. done. Qed.

(** ** [Softmax]: forward, then backward *)

Lemma rebind_needed_false L x :
  rebind_needed L x = false → ∃ p, input_ L = Some p ∧ batch_size_ L = blob_n x.
Proof.
  unfold rebind_needed. intros [H1 H2]%orb_false_elim.
  apply bool_decide_eq_false in H1. apply negb_false_iff, Nat.eqb_eq in H2.
  destruct (input_ L) as [p|]; [|done]. by exists p.
Qed.

(** [forward] reads neither the gradient buffer nor its size: the part of
    [Softmax_ready] about the output buffer and the bound input is enough
    for it. *)
Lemma Softmax_forward_run W L input x :
  heap W !! input = Some x → Blob_wf x →
  (∀ o, output_ L = Some o → Blob_wf o) →
  (∀ p, input_ L = Some p → batch_size_ L = (Blob_shape x).1.1.1 →
     input_desc_ L = Some (Blob_shape x) ∧ output_desc_ L = Some (Blob_shape x) ∧
     (∃ o, output_ L = Some o ∧ Blob_shape o = Blob_shape x) ∧
     (∃ b, heap W !! p = Some b ∧ Blob_shape b = Blob_shape x)) →
  ∃ L1 out,
    Softmax_forward input L W = Ok L1 W ∧
    output_ L1 = Some out ∧ Blob_wf out ∧ Blob_shape out = Blob_shape x ∧
    (∀ i, (i < Blob_len x)%nat →
          d_ptr_ out !!! i = softmax_channel (Blob_shape x) (d_ptr_ x) i) ∧
    grad_input_ L1 = grad_input_ L ∧
    batch_size_ L1 = blob_n x ∧
    (∃ p b, input_ L1 = Some p ∧ heap W !! p = Some b ∧ Blob_shape b = Blob_shape x) ∧
    input_desc_ L1 = Some (Blob_shape x) ∧ output_desc_ L1 = Some (Blob_shape x).
Proof.
  intros Hx Hwfx Hout Hbound.
  assert (∀ (o : Blob) (L' : Layer),
            Blob_wf o → Blob_shape o = Blob_shape x →
            input_desc_ L' = Some (Blob_shape x) → output_desc_ L' = Some (Blob_shape x) →
            output_ L' = Some o →
            ∃ L1 out,
              (let* xd := deref (input_desc_ L') in
               let* yd := deref (output_desc_ L') in
               let* output := deref (output_ L') in
               let y := cudnnSoftmaxForward cuda_one xd (d_ptr_ x) cuda_zero yd
                          (d_ptr_ output) in
               ret (set_output_ (Some (set_d_ptr_ y output)) L')) W = Ok L1 W ∧
              L1 = set_output_ (Some out) L' ∧ Blob_wf out ∧
              Blob_shape out = Blob_shape x ∧
              (∀ i, (i < Blob_len x)%nat →
                    d_ptr_ out !!! i = softmax_channel (Blob_shape x) (d_ptr_ x) i))
    as Hrun.
  { intros o L' Hwfo Hso Hxd Hyd Ho.
    eexists _, _. unfold bind, deref, ret. rewrite Hxd, Hyd, Ho.
    split; [reflexivity|]. split; [reflexivity|].
    destruct Hwfo as [Hho Hdo].
    assert (Blob_len o = Blob_len x) as Hlen by by apply Blob_len_shape.
    split; [|split; [done|]].
    - apply set_d_ptr_wf; [|done]. by rewrite cudnnSoftmaxForward_length.
    - intros i Hi. simpl.
      pose proof (cudnnSoftmaxForward_lookup cuda_one (Blob_shape x) (d_ptr_ x)
                    cuda_zero (Blob_shape x) (d_ptr_ o) i) as Hl.
      unfold Blob_shape at 1 in Hl.
      unfold Blob_len, Blob_size in *.
      rewrite Hl by lia. rewrite decide_True by lia.
      unfold cuda_one, cuda_zero. ring. }
  unfold Softmax_forward, bind, load. rewrite Hx.
  destruct (rebind_needed L x) eqn:Hre.
  - set (o := match output_ L with
              | Some o => Blob_reset o (Blob_shape x)
              | None => Blob_of_shape (Blob_shape x)
              end).
    assert (Blob_wf o ∧ Blob_shape o = Blob_shape x) as [Hwfo Hso].
    { subst o. destruct (output_ L) as [o|] eqn:Ho.
      - split; [apply Blob_reset_wf; eauto|apply Blob_reset_shape].
      - split; [apply Blob_of_shape_wf|apply Blob_of_shape_shape]. }
    set (L' := set_output_desc_ (Some (Blob_shape o))
                 (set_output_ (Some o)
                    (set_batch_size_ (blob_n x)
                       (set_input_desc_ (Some (Blob_shape x))
                          (set_input_ (Some input) L))))).
    destruct (Hrun o L') as (L1 & out & Heq & -> & Hwf & Hs & Hval);
      [done|done|done|simpl; by rewrite Hso|done|].
    exists (set_output_ (Some out) L'), out. split; [exact Heq|]. simpl.
    repeat (split; [done|]). split; [by exists input, x|]. by rewrite Hso.
  - apply rebind_needed_false in Hre as (p & Hp & Hb).
    destruct (Hbound p Hp Hb) as (Hxd & Hyd & (o & Ho & Hso) & (b & Hpb & Hsb)).
    edestruct (Hrun o L) as (L1 & out & Heq & -> & Hwf & Hs & Hval); [eauto|done..|].
    exists (set_output_ (Some out) L), out. split; [exact Heq|]. simpl.
    repeat (split; [done|]). split; [by exists p, b|]. done.
Qed.

Lemma Softmax_forward_spec W L input x :
  heap W !! input = Some x → Blob_wf x →
  Softmax_ready W L (Blob_shape x) →
  ∃ L1 out,
    Softmax_forward input L W = Ok L1 W ∧
    output_ L1 = Some out ∧ Blob_wf out ∧ Blob_shape out = Blob_shape x ∧
    (∀ i, (i < Blob_len x)%nat →
          d_ptr_ out !!! i = softmax_channel (Blob_shape x) (d_ptr_ x) i) ∧
    grad_input_ L1 = grad_input_ L ∧
    batch_size_ L1 = blob_n x ∧
    (∃ p b, input_ L1 = Some p ∧ heap W !! p = Some b ∧ Blob_shape b = Blob_shape x) ∧
    input_desc_ L1 = Some (Blob_shape x) ∧ output_desc_ L1 = Some (Blob_shape x).
Proof.
  intros Hx Hwfx (Hout & _ & Hbound). by apply Softmax_forward_run.
Qed.

Lemma Softmax_backward_spec W L target t out s :
  heap W !! target = Some t → Blob_wf t → Blob_shape t = s →
  output_ L = Some out → Blob_wf out → Blob_shape out = s →
  batch_size_ L = blob_n t →
  (∀ g, grad_input_ L = Some g → Blob_wf g ∧ (Blob_len t ≤ Blob_len g)%nat) →
  (∃ p b, input_ L = Some p ∧ heap W !! p = Some b ∧ Blob_shape b = s) →
  ∃ grad,
    Softmax_backward target L W
      = Ok (set_grad_input_ (Some grad) L) W ∧
    Blob_wf grad ∧ (Blob_len t ≤ Blob_len grad)%nat ∧
    (grad_input_ L = None → Blob_shape grad = s) ∧
    ∀ i, (i < Blob_len t)%nat →
         d_ptr_ grad !!! i
         = ((d_ptr_ out !!! i - d_ptr_ t !!! i) / INR (blob_n t))%R.
Proof.
  intros Ht Hwft Hst Hout Hwfo Hso Hbatch Hgrad (p & b & Hp & Hpb & Hsb).
  assert (Blob_len out = Blob_len t) as Hlo by (apply Blob_len_shape; congruence).
  assert (∀ (g : Blob) (L' : Layer),
            Blob_wf g → (Blob_len t ≤ Blob_len g)%nat → output_ L' = Some out →
            grad_input_ L' = Some g →
            ∃ grad,
              (let* grad := deref (grad_input_ L') in
               let* output := deref (output_ L') in
               let* d := cudaMemcpy (d_ptr_ grad) (d_ptr_ output) (Blob_len output) in
               let d := cublasSaxpy (Blob_len t) cuda_minus_one (d_ptr_ t) d in
               let grad_output_size := (blob_n t * blob_c t * blob_h t * blob_w t)%nat in
               let scale := (1 / INR (blob_n t))%R in
               let d := cublasSscal grad_output_size scale d in
               ret (set_grad_input_ (Some (set_d_ptr_ d grad)) L')) W
              = Ok (set_grad_input_ (Some grad) L') W ∧
              Blob_wf grad ∧ Blob_shape grad = Blob_shape g ∧
              ∀ i, (i < Blob_len t)%nat →
                   d_ptr_ grad !!! i
                   = ((d_ptr_ out !!! i - d_ptr_ t !!! i) / INR (blob_n t))%R) as Hrun.
  { intros g L' Hwfg Hlg Ho Hg.
    destruct Hwfg as [Hhg Hdg]. destruct Hwfo as [_ Hdo].
    assert ((blob_n t * blob_c t * blob_h t * blob_w t)%nat = Blob_len t) as Hsz
      by (unfold Blob_len, Blob_size; lia).
    eexists. unfold bind, deref, ret, cudaMemcpy. rewrite Hg, Ho.
    rewrite decide_True by lia.
    split; [reflexivity|].
    rewrite <- Hdo, firstn_all, Hsz.
    assert (length (d_ptr_ out ++ drop (length (d_ptr_ out)) (d_ptr_ g))
            = Blob_len g) as Hlen
      by (rewrite length_app, length_drop; lia).
    split; [|split; [done|]].
    - apply set_d_ptr_wf; [|done].
      rewrite cublasSscal_length, cublasSaxpy_length. lia.
    - intros i Hi. simpl.
      rewrite cublasSscal_lookup by (rewrite cublasSaxpy_length; lia).
      rewrite decide_True by done.
      rewrite cublasSaxpy_lookup by lia.
      rewrite decide_True by done.
      rewrite lookup_total_app_l by lia.
      unfold cuda_minus_one, Rdiv. ring. }
  unfold Softmax_backward.
  erewrite bind_Ok by (unfold load; rewrite Ht; reflexivity).
  destruct (grad_input_ L) as [g|] eqn:Hg.
  - assert ((batch_size_ L =? blob_n t)%nat = true) as -> by by apply Nat.eqb_eq.
    rewrite bool_decide_eq_false_2 by done. simpl.
    destruct (Hgrad g eq_refl) as [Hwfg Hlg].
    erewrite bind_Ok by reflexivity.
    destruct (Hrun g L Hwfg Hlg Hout Hg) as (grad & Heq & Hwf & Hs & Hval).
    exists grad. split; [exact Heq|]. split; [done|].
    split; [rewrite (Blob_len_shape grad g) by done; done|done].
  - rewrite bool_decide_eq_true_2 by done. simpl.
    erewrite bind_Ok
      by (unfold bind, deref, load; rewrite Hp, Hpb; reflexivity).
    set (L' := set_grad_input_ (Some (Blob_of_shape (Blob_shape b))) L).
    assert (Blob_len (Blob_of_shape (Blob_shape b)) = Blob_len t) as Hlb
      by (apply Blob_len_shape; rewrite Blob_of_shape_shape; congruence).
    destruct (Hrun (Blob_of_shape (Blob_shape b)) L')
      as (grad & Heq & Hwf & Hs & Hval);
      [apply Blob_of_shape_wf|lia|done|done|].
    exists grad. split; [exact Heq|]. split; [done|].
    rewrite Blob_of_shape_shape in Hs.
    split; [rewrite (Blob_len_shape grad b) by done;
            rewrite <- (Blob_len_shape (Blob_of_shape (Blob_shape b)) b)
              by apply Blob_of_shape_shape; lia|].
    split; [congruence|done].
Qed.

(** ** [Softmax::get_accuracy] *)

Lemma argmax_step_split h_output h_target first l a b :
  foldl (argmax_step h_output h_target first) (a, b) l
  = (foldl (λ idx i, if Rgt_dec (h_output !!! (first + i)%nat)
                                (h_output !!! (first + idx)%nat) then i else idx) a l,
     foldl (λ idx i, if Rgt_dec (h_target !!! (first + i)%nat)
                                (h_target !!! (first + idx)%nat) then i else idx) b l).
Proof.
  revert a b. induction l as [|i l IH]; intros a b; simpl; [done|]. by rewrite IH.
Qed.

Lemma argmax_scan h first k :
  is_argmax h first (S k)
    (foldl (λ idx i, if Rgt_dec (h !!! (first + i)%nat) (h !!! (first + idx)%nat)
                     then i else idx) 0%nat (seq 1 k)).
Proof.
  induction k as [|k IH].
  - simpl. split; [lia|]. split.
    + intros j Hj. replace j with 0%nat by lia. lra.
    + intros j Hj. lia.
  - rewrite seq_S, foldl_snoc. simpl.
    destruct IH as (Hlt & Hmax & Hfirst).
    set (idx := foldl _ _ _) in *.
    destruct (Rgt_dec (h !!! (first + S k)%nat) (h !!! (first + idx)%nat)) as [Hgt|Hle].
    + split; [lia|]. split.
      * intros j Hj. destruct (decide (j = S k)) as [->|]; [lra|].
        specialize (Hmax j ltac:(lia)). lra.
      * intros j Hj. specialize (Hmax j ltac:(lia)). lra.
    + split; [lia|]. split; [|done].
      intros j Hj. destruct (decide (j = S k)) as [->|]; [lra|].
      apply Hmax. lia.
Qed.

Lemma argmax10_is_argmax h first : is_argmax h first 10 (argmax10 h first).
Proof. apply (argmax_scan h first 9). Qed.

(** The argmax is determined by the three conditions. *)
Lemma is_argmax_unique h first k i j :
  is_argmax h first k i → is_argmax h first k j → i = j.
Proof.
  intros (Hi & Hmi & Hfi) (Hj & Hmj & Hfj).
  destruct (lt_eq_lt_dec i j) as [[Hlt| ->]|Hlt]; [|done|].
  - specialize (Hfj i Hlt). specialize (Hmi j Hj). lra.
  - specialize (Hfi j Hlt). specialize (Hmj i Hi). lra.
Qed.

Lemma count_hits_matches h_output h_target batch_size output_size :
  count_hits h_output h_target batch_size output_size
  = matches batch_size (λ b, argmax10 h_output (b * output_size))
                       (λ b, argmax10 h_target (b * output_size)).
Proof.
  unfold count_hits, matches.
  rewrite <- (Z.add_0_l (Z.of_nat _)).
  generalize 0%Z as acc. generalize (seq 0 batch_size) as l.
  induction l as [|b l IH]; intros acc; [simpl; lia|].
  cbn [foldl]. rewrite argmax_step_split. fold (argmax10 h_output (b * output_size)).
  fold (argmax10 h_target (b * output_size)).
  rewrite IH, filter_cons.
  repeat case_decide; simpl; try done; lia.
Qed.

(** ** [Layer::init_weight_bias] *)

Lemma fill_zero_values b :
  Blob_wf b → Blob_to cuda (fill_zero b) = with_values (replicate (Blob_len b) 0) b.
Proof.
  intros [Hh Hd]. unfold fill_zero, with_values, Blob_to; simpl.
  assert (foldl (λ h i, <[i := 0]> h) (h_ptr_ b) (seq 0 (Blob_len b))
          = replicate (Blob_len b) 0) as ->; [|done].
  apply (list_eq_same_length _ _ (Blob_len b)).
  - by rewrite length_replicate.
  - by rewrite (foldl_insert_length (λ _ _, 0)).
  - intros i x y Hi Hx Hy.
    apply lookup_replicate in Hy as [-> _].
    pose proof (foldl_insert_lookup (λ _ _, 0) (Blob_len b) (h_ptr_ b) i ltac:(lia))
      as Hl.
    rewrite decide_True in Hl by done.
    rewrite list_lookup_total_alt, Hx in Hl. done.
Qed.

Lemma fill_uniform_fold lo hi n k h gen :
  (k + n ≤ length h)%nat →
  foldl (λ '(h, gen) i,
           let '(x, gen) := uniform_real_distribution lo hi gen in (<[i := x]> h, gen))
        (h, gen) (seq k n)
  = (take k h ++ (draws lo hi gen n).1 ++ drop (k + n) h, (draws lo hi gen n).2).
Proof.
  revert k h gen. induction n as [|n IH]; intros k h gen Hk.
  - simpl. by rewrite Nat.add_0_r, take_drop.
  - cbn [seq foldl draws].
    destruct (uniform_real_distribution lo hi gen) as [x gen'].
    rewrite IH by (rewrite length_insert; lia).
    destruct (draws lo hi gen' n) as [xs gen'']. simpl.
    f_equal.
    assert (is_Some (h !! k)) as [y Hy] by (apply lookup_lt_is_Some; lia).
    rewrite (take_S_r _ _ x) by (apply list_lookup_insert_eq; lia).
    rewrite take_insert_ge by lia.
    rewrite drop_insert_lt by lia.
    rewrite <- app_assoc. simpl. replace (k + S n)%nat with (S (k + n)) by lia. done.
Qed.

Lemma fill_uniform_values lo hi gen b :
  Blob_wf b →
  Blob_to cuda (fill_uniform lo hi gen b).1
  = with_values (draws lo hi gen (Blob_len b)).1 b.
Proof.
  intros [Hh Hd]. unfold fill_uniform.
  rewrite (fill_uniform_fold lo hi (Blob_len b) 0 (h_ptr_ b) gen) by lia.
  simpl. rewrite drop_ge by lia. by rewrite app_nil_r.
Qed.

Lemma draws_length lo hi gen n : length (draws lo hi gen n).1 = n.
Proof.
  revert gen. induction n as [|n IH]; intros gen; simpl; [done|].
  destruct (uniform_real_distribution lo hi gen) as [x gen'].
  specialize (IH gen'). destruct (draws lo hi gen' n) as [xs gen'']. simpl in *.
  by rewrite IH.
Qed.

(** The run of [init_weight_bias] on a materialised layer. *)
Lemma init_weight_bias_run W L seed w b wm wv bm bv p input :
  materialised W L w b wm wv bm bv p input →
  init_weight_bias seed L W
  = Ok (initialised (engine_seed seed W) L w b wm wv bm bv input) (after_init seed L W).
Proof.
  intros (Hw & Hb & Hwm & Hwv & Hbm & Hbv & Fw & Fb & Fwm & Fwv & Fbm & Fbv & Hp & Hin).
  unfold after_init, engine_seed, initialized_line.
  set (s := if decide (seed = 0%Z) then random_device W (rd_calls W) else seed).
  set (W1 := if decide (seed = 0%Z) then set_rd_calls (S (rd_calls W)) W else W).
  unfold init_weight_bias. rewrite Hw, Hb.
  assert (heap W1 = heap W) as HW1 by (subst W1; by case_decide).
  erewrite (bind_Ok _ _ W s W1) by (subst s W1; by case_decide).
  erewrite bind_Ok by (unfold deref; rewrite Hp; reflexivity).
  erewrite bind_Ok by (unfold load; rewrite HW1, Hin; reflexivity).
  erewrite bind_Ok by (unfold deref; rewrite Hwm; reflexivity).
  erewrite bind_Ok by (unfold deref; rewrite Hwv; reflexivity).
  erewrite bind_Ok by (unfold deref; rewrite Hbm; reflexivity).
  erewrite bind_Ok by (unfold deref; rewrite Hbv; reflexivity).
  erewrite bind_Ok by reflexivity.
  rewrite !fill_zero_values, fill_uniform_values by done.
  reflexivity.
Qed.

(** ** Persistence *)

Lemma Blob_file_read_readable W path b :
  readable W path b →
  ∃ data, files W !! path = Some data ∧
          Blob_file_read path b W = Ok (0%Z, with_values data b) W.
Proof.
  intros (data & Hf & Hlen). exists data. split; [done|].
  unfold Blob_file_read. rewrite Hf, decide_True by done. done.
Qed.

Lemma Blob_file_read_unreadable W path b :
  ¬ readable W path b → Blob_file_read path b W = Ok ((-1)%Z, b) W.
Proof.
  intros Hno. unfold Blob_file_read.
  destruct (files W !! path) as [data|] eqn:Hf; [|done].
  case_decide as Hlen; [|done]. destruct Hno. by exists data.
Qed.

Lemma readable_dec W path b : readable W path b ∨ ¬ readable W path b.
Proof.
  unfold readable. destruct (files W !! path) as [data|]; [|right; by intros (?&?&?)].
  destruct (decide (length data = Blob_len b)); [left; by exists data|].
  right. intros (d & [= <-] & ?). done.
Qed.

(** A failing [load_parameter] returns [-1] or [-2] and leaves the world as
    it was. *)
Lemma load_parameter_fails W L w b :
  weights_ L = Some w → biases_ L = Some b → load_fails W L →
  ∃ st L', load_parameter L W = Ok (st, L') W ∧ (st = (-1)%Z ∨ st = (-2)%Z).
Proof.
  intros Hw Hb Hfail. unfold load_parameter.
  erewrite bind_Ok by (unfold deref; rewrite Hw; reflexivity).
  destruct (readable_dec W (name_ L +:+ ".bin") w) as [Hrw|Hrw].
  - destruct (Blob_file_read_readable _ _ _ Hrw) as (data & _ & Hread).
    erewrite bind_Ok by exact Hread. cbv beta iota zeta.
    rewrite decide_False by (intros ?; done).
    erewrite bind_Ok by (unfold deref; simpl; rewrite Hb; reflexivity).
    assert (¬ readable W (name_ L +:+ ".bias.bin") b) as Hrb.
    { destruct Hfail as [(w' & Hw' & ?)|(b' & Hb' & ?)]; [|congruence].
      rewrite Hw in Hw'. injection Hw' as <-. done. }
    erewrite bind_Ok by (apply Blob_file_read_unreadable, Hrb). cbv beta iota zeta.
    rewrite decide_True by done. eexists _, _. split; [reflexivity|]. by right.
  - erewrite bind_Ok by (apply Blob_file_read_unreadable, Hrw). cbv beta iota zeta.
    rewrite decide_True by done. eexists _, _. split; [reflexivity|]. by left.
Qed.

(** [save_parameter] always returns; a failing one returns [-1] or [-2]. *)
Lemma save_parameter_returns W L :
  ∃ st W', save_parameter L W = Ok st W' ∧
           (st = 0%Z ∨ st = (-1)%Z ∨ st = (-2)%Z) ∧
           (save_fails W L → st ≠ 0%Z).
Proof.
  unfold save_parameter, save_fails.
  erewrite bind_Ok by reflexivity.
  set (W0 := set_stdout _ W).
  assert (write_denied W0 = write_denied W) as Hwd by done.
  destruct (weights_ L) as [w|] eqn:Hw.
  - unfold bind at 1, Blob_file_write at 1. rewrite Hwd.
    destruct (write_denied W (name_ L +:+ ".bin")) eqn:Hdw.
    + rewrite decide_True by done. eexists _, _. split; [reflexivity|].
      split; [by right; left|done].
    + rewrite decide_False by (intros ?; done).
      destruct (biases_ L) as [b|] eqn:Hb.
      * unfold bind at 1, Blob_file_write at 1. simpl.
        destruct (write_denied W (name_ L +:+ ".bias.bin")) eqn:Hdb.
        -- rewrite decide_True by done. eexists _, _. split; [reflexivity|].
           split; [by right; right|done].
        -- rewrite decide_False by (intros ?; done).
           eexists _, _. split; [reflexivity|].
           split; [by left|]. intros [[_ ?]|[_ ?]]; congruence.
      * erewrite bind_Ok by reflexivity. rewrite decide_False by (intros ?; done).
        eexists _, _. split; [reflexivity|].
        split; [by left|]. intros [[_ ?]|[? _]]; congruence.
  - erewrite bind_Ok by reflexivity. rewrite decide_False by (intros ?; done).
    destruct (biases_ L) as [b|] eqn:Hb.
    + unfold bind at 1, Blob_file_write at 1. rewrite Hwd.
      destruct (write_denied W (name_ L +:+ ".bias.bin")) eqn:Hdb.
      * rewrite decide_True by done. eexists _, _. split; [reflexivity|].
        split; [by right; right|done].
      * rewrite decide_False by (intros ?; done).
        eexists _, _. split; [reflexivity|].
        split; [by left|]. intros [[? _]|[_ ?]]; congruence.
    + erewrite bind_Ok by reflexivity. rewrite decide_False by (intros ?; done).
      eexists _, _. split; [reflexivity|].
      split; [by left|]. intros [[? _]|[? _]]; congruence.
Qed.

(** ** The materialisation step *)

Lemma materialize_parameters_frozen W L :
  freeze_ L = true → materialize_parameters L W = Ok L W.
Proof.
  intros Hf. unfold materialize_parameters. rewrite Hf, andb_false_r. done.
Qed.

Lemma materialize_parameters_fresh W L :
  freeze_ L = false → load_pretrain_ L = false →
  materialize_parameters L W = init_weight_bias default_seed L W.
Proof. intros Hf Hl. unfold materialize_parameters. by rewrite Hf, Hl. Qed.

Lemma materialize_parameters_exit W L w b :
  load_pretrain_ L = true → freeze_ L = false →
  weights_ L = Some w → biases_ L = Some b → load_fails W L →
  materialize_parameters L W
  = Exit (-1) (set_stdout (stdout W ++ ["error occurred.."]) W).
Proof.
  intros Hl Hf Hw Hb Hfail. unfold materialize_parameters. rewrite Hl, Hf. simpl.
  destruct (load_parameter_fails W L w b Hw Hb Hfail) as (st & L' & Hload & Hst).
  erewrite bind_Ok by exact Hload. cbv beta iota zeta.
  rewrite decide_True by (destruct Hst as [-> | ->]; done).
  reflexivity.
Qed.

(** ** [Linear::forward] *)

Lemma Linear_allocate_parameters_keeps x L w :
  weights_ (linear_base L) = Some w → Linear_allocate_parameters x L = L.
Proof. intros Hw. unfold Linear_allocate_parameters. by rewrite Hw. Qed.

Lemma Linear_allocate_parameters_fresh x L :
  weights_ (linear_base L) = None →
  let input_size := (blob_c x * blob_h x * blob_w x)%nat in
  let out := output_size_ L in
  let L0 := Linear_allocate_parameters x L in
  allocated (linear_base L0)
    (Blob_new 1 1 input_size out) (Blob_new 1 1 out 1)
    (Blob_new 1 1 input_size out) (Blob_new 1 1 input_size out)
    (Blob_new 1 1 out 1) (Blob_new 1 1 out 1) ∧
  input_ (linear_base L0) = input_ (linear_base L) ∧
  batch_size_ (linear_base L0) = batch_size_ (linear_base L) ∧
  output_ (linear_base L0) = output_ (linear_base L) ∧
  freeze_ (linear_base L0) = freeze_ (linear_base L) ∧
  load_pretrain_ (linear_base L0) = load_pretrain_ (linear_base L) ∧
  name_ (linear_base L0) = name_ (linear_base L) ∧
  output_size_ L0 = output_size_ L.
Proof.
  intros Hw. unfold Linear_allocate_parameters. rewrite Hw. simpl.
  repeat split; try done; apply Blob_new_wf.
Qed.

Lemma Linear_compute_run W L w b p xin out ones :
  weights_ (linear_base L) = Some w → biases_ (linear_base L) = Some b →
  input_ (linear_base L) = Some p → heap W !! p = Some xin →
  output_ (linear_base L) = Some out → d_one_vec L = Some ones →
  ∃ y, Linear_compute L W
       = Ok (set_linear_base
               (set_output_ (Some (set_d_ptr_ y out)) (linear_base L)) L) W.
Proof.
  intros Hw Hb Hp Hx Ho H1. unfold Linear_compute.
  erewrite bind_Ok by (unfold deref; rewrite Hw; reflexivity).
  erewrite bind_Ok by (unfold deref; rewrite Hb; reflexivity).
  erewrite bind_Ok by (unfold deref; rewrite Hp; reflexivity).
  erewrite bind_Ok by (unfold load; rewrite Hx; reflexivity).
  erewrite bind_Ok by (unfold deref; rewrite Ho; reflexivity).
  erewrite bind_Ok by (unfold deref; rewrite H1; reflexivity).
  eexists. reflexivity.
Qed.

Lemma Linear_rebind_run W L input x :
  rebind_needed (linear_base L) x = true →
  Linear_rebind input x L W
  = (let* B := materialize_parameters (Linear_bound_base input x L) in
     ret (set_linear_base B
            (set_d_one_vec
               (Some (init_one_vec ((blob_n x + BLOCK_DIM_1D - 1) / BLOCK_DIM_1D)
                        BLOCK_DIM_1D (fresh_buffer (blob_n x)) (blob_n x))) L))) W.
Proof. intros Hre. unfold Linear_rebind. rewrite Hre. reflexivity. Qed.

Lemma Linear_allocate_parameters_frame x L :
  let L0 := Linear_allocate_parameters x L in
  input_ (linear_base L0) = input_ (linear_base L) ∧
  batch_size_ (linear_base L0) = batch_size_ (linear_base L) ∧
  output_ (linear_base L0) = output_ (linear_base L) ∧
  freeze_ (linear_base L0) = freeze_ (linear_base L) ∧
  load_pretrain_ (linear_base L0) = load_pretrain_ (linear_base L) ∧
  name_ (linear_base L0) = name_ (linear_base L) ∧
  output_size_ L0 = output_size_ L.
Proof.
  unfold Linear_allocate_parameters.
  destruct (weights_ (linear_base L)); simpl; by split_and!.
Qed.

Lemma after_init_heap seed L W : heap (after_init seed L W) = heap W.
Proof. unfold after_init. by case_decide. Qed.

(** ** The update methods *)

(** The plain update on the weights: [w[i] - lr * g[i]] for every element. *)
Lemma update_weights_biases_weights lr L w gw :
  weights_ L = Some w → grad_weights_ L = Some gw → Blob_wf w →
  ∃ w', weights_ (update_weights_biases lr L) = Some w' ∧
        Blob_shape w' = Blob_shape w ∧
        ∀ i, (i < Blob_len w)%nat →
             d_ptr_ w' !!! i = d_ptr_ w !!! i - lr * d_ptr_ gw !!! i.
Proof.
  intros Hw Hg [_ Hd]. unfold update_weights_biases. rewrite Hw, Hg.
  eexists. split.
  - destruct (biases_ _) as [b|] eqn:Hb; [destruct (grad_biases_ _) as [gb|] eqn:Hgb|];
      simpl; reflexivity.
  - split; [done|]. intros i Hi. simpl.
    rewrite cublasSaxpy_lookup by lia. rewrite decide_True by done. ring.
Qed.

(** None of the three update methods looks at the freeze flag. *)
Lemma update_weights_biases_ignores_freeze lr f L :
  update_weights_biases lr (set_freeze_ f L)
  = set_freeze_ f (update_weights_biases lr L).
Proof.
  unfold update_weights_biases.
  destruct L as [? ? ? ? ? ? ? ? ? ? w b ? ? ? ? gw gb]; simpl.
  destruct w, gw; simpl; destruct b, gb; reflexivity.
Qed.

Lemma update_weights_biases_with_adam_ignores_freeze lr beta1 beta2 eps step f L W :
  update_weights_biases_with_adam lr beta1 beta2 eps step (set_freeze_ f L) W
  = Result_map (set_freeze_ f)
      (update_weights_biases_with_adam lr beta1 beta2 eps step L W).
Proof.
  unfold update_weights_biases_with_adam, bind, deref, ret. simpl.
  destruct (weights_ L) as [w|], (grad_weights_ L) as [gw|],
           (weights_m_ L) as [wm|], (weights_v_ L) as [wv|]; simpl;
    repeat match goal with
           | |- context [adam_update ?a ?b ?c ?d ?e ?g ?h ?i ?j ?k ?l ?m] =>
               destruct (adam_update a b c d e g h i j k l m) as [[? ?] ?]; simpl
           end;
    destruct (biases_ L) as [b|], (grad_biases_ L) as [gb|],
             (biases_m_ L) as [bm|], (biases_v_ L) as [bv|]; simpl;
    repeat match goal with
           | |- context [adam_update ?a ?b ?c ?d ?e ?g ?h ?i ?j ?k ?l ?m] =>
               destruct (adam_update a b c d e g h i j k l m) as [[? ?] ?]; simpl
           end;
    reflexivity.
Qed.

Lemma rmsprop_launch_on_weights_ignores_freeze lr decay eps f L W :
  rmsprop_launch_on_weights lr decay eps (set_freeze_ f L) W
  = Result_map (set_freeze_ f) (rmsprop_launch_on_weights lr decay eps L W).
Proof.
  unfold rmsprop_launch_on_weights, bind, deref, ret. simpl.
  destruct (weights_ L) as [w|], (weights_m_ L) as [wm|],
           (grad_weights_ L) as [gw|]; simpl; try reflexivity.
  destruct (rmsprop_update _ _ _ _ _ _ _ _ _) as [? ?]. reflexivity.
Qed.

(** What one RMSProp launch on the weight blobs leaves untouched. *)
Lemma rmsprop_launch_on_weights_frame lr decay eps L W L' W' :
  rmsprop_launch_on_weights lr decay eps L W = Ok L' W' →
  W' = W ∧ biases_ L' = biases_ L ∧ biases_m_ L' = biases_m_ L ∧
  grad_weights_ L' = grad_weights_ L ∧ grad_biases_ L' = grad_biases_ L ∧
  freeze_ L' = freeze_ L.
Proof.
  unfold rmsprop_launch_on_weights, bind, deref, ret.
  destruct (weights_ L) as [w|] eqn:Hw, (weights_m_ L) as [wm|] eqn:Hwm,
           (grad_weights_ L) as [gw|] eqn:Hgw; try done.
  destruct (rmsprop_update _ _ _ _ _ _ _ _ _) as [? ?].
  intros [= <- <-]. simpl. split_and!; congruence.
Qed.

Lemma update_weights_biases_with_rmsprop_ignores_freeze lr decay eps f L W :
  update_weights_biases_with_rmsprop lr decay eps (set_freeze_ f L) W
  = Result_map (set_freeze_ f) (update_weights_biases_with_rmsprop lr decay eps L W).
Proof.
  unfold update_weights_biases_with_rmsprop.
  assert (∀ L0 : Layer,
            (match weights_ (set_freeze_ f L0), grad_weights_ (set_freeze_ f L0) with
             | Some _, Some _ => rmsprop_launch_on_weights lr decay eps (set_freeze_ f L0)
             | _, _ => ret (set_freeze_ f L0)
             end) W
            = Result_map (set_freeze_ f)
                ((match weights_ L0, grad_weights_ L0 with
                  | Some _, Some _ => rmsprop_launch_on_weights lr decay eps L0
                  | _, _ => ret L0
                  end) W)) as Hfirst.
  { intros L0. simpl.
    destruct (weights_ L0), (grad_weights_ L0); try reflexivity.
    apply rmsprop_launch_on_weights_ignores_freeze. }
  unfold bind. rewrite Hfirst.
  destruct ((match weights_ L, grad_weights_ L with
             | Some _, Some _ => rmsprop_launch_on_weights lr decay eps L
             | _, _ => ret L
             end) W) as [L1 W1| | |]; simpl; try reflexivity.
  destruct (biases_ L1), (grad_biases_ L1); try reflexivity.
  apply rmsprop_launch_on_weights_ignores_freeze.
Qed.

Lemma rmsprop_branch_frame lr decay eps (c1 c2 : option Blob) L W L' W' :
  (match c1, c2 with
   | Some _, Some _ => rmsprop_launch_on_weights lr decay eps L
   | _, _ => ret L
   end) W = Ok L' W' →
  W' = W ∧ biases_ L' = biases_ L ∧ biases_m_ L' = biases_m_ L ∧
  grad_weights_ L' = grad_weights_ L ∧ grad_biases_ L' = grad_biases_ L ∧
  freeze_ L' = freeze_ L.
Proof.
  destruct c1, c2; [apply rmsprop_launch_on_weights_frame|..];
    by intros [= <- <-].
Qed.

(** Both branches of the RMSProp update launch the kernel on the weight
    blobs, so the biases and their accumulator come back as they were. *)
Lemma update_weights_biases_with_rmsprop_biases lr decay eps L W L' W' :
  update_weights_biases_with_rmsprop lr decay eps L W = Ok L' W' →
  W' = W ∧ biases_ L' = biases_ L ∧ biases_m_ L' = biases_m_ L.
Proof.
  unfold update_weights_biases_with_rmsprop, bind.
  destruct ((match weights_ L, grad_weights_ L with
             | Some _, Some _ => rmsprop_launch_on_weights lr decay eps L
             | _, _ => ret L
             end) W) as [L1 W1| | |] eqn:H1; try done.
  apply rmsprop_branch_frame in H1 as (-> & Hb1 & Hbm1 & _).
  intros H2. apply rmsprop_branch_frame in H2 as (-> & Hb2 & Hbm2 & _).
  split; [done|]. split; congruence.
Qed.

(** One RMSProp launch on the weight blobs, cell by cell. *)
Lemma rmsprop_launch_on_weights_run lr decay eps L W w wm gw :
  (0 < BLOCK_DIM)%nat → (0 < BLOCK_DIM_1D)%nat →
  weights_ L = Some w → weights_m_ L = Some wm → grad_weights_ L = Some gw →
  Blob_wf w → Blob_wf wm → Blob_len wm = Blob_len w →
  ∃ w' wm',
    rmsprop_launch_on_weights lr decay eps L W
    = Ok (set_weights_ (Some w') (set_weights_m_ (Some wm') L)) W ∧
    Blob_wf w' ∧ Blob_wf wm' ∧ Blob_len w' = Blob_len w ∧ Blob_len wm' = Blob_len w ∧
    ∀ i, (i < Blob_len w)%nat →
         (d_ptr_ wm' !!! i, d_ptr_ w' !!! i)
         = rmsprop_cell decay eps lr (d_ptr_ gw !!! i) (d_ptr_ wm !!! i, d_ptr_ w !!! i).
Proof.
  intros HB HB1 Hw Hwm Hgw [Hhw Hdw] [Hhwm Hdwm] Hlen.
  unfold rmsprop_launch_on_weights.
  erewrite bind_Ok by (unfold deref; rewrite Hw; reflexivity).
  erewrite bind_Ok by (unfold deref; rewrite Hwm; reflexivity).
  erewrite bind_Ok by (unfold deref; rewrite Hgw; reflexivity).
  pose proof (rmsprop_update_cell BLOCK_DIM BLOCK_DIM_1D (Blob_len w)
                (d_ptr_ wm) (d_ptr_ w) (d_ptr_ gw) decay eps lr) as Hcell.
  pose proof (rmsprop_update_length BLOCK_DIM BLOCK_DIM_1D (Blob_len w)
                (d_ptr_ wm) (d_ptr_ w) (d_ptr_ gw) decay eps lr) as Hl.
  destruct (rmsprop_update _ _ _ _ _ _ _ _ _) as [m' w'].
  simpl in Hl. destruct Hl as [Hlm Hlw].
  eexists _, _. split; [reflexivity|].
  split; [by apply set_d_ptr_wf; [lia|]|].
  split; [by apply set_d_ptr_wf; [lia|]|].
  split; [done|]. split; [done|].
  intros i Hi. specialize (Hcell i HB HB1 ltac:(lia) ltac:(lia)).
  rewrite decide_True in Hcell by done. exact Hcell.
Qed.

(** ** [Conv2D::forward] *)

Lemma set_workspace_run W L xd yd wd :
  input_desc_ (conv_base L) = Some xd → output_desc_ (conv_base L) = Some yd →
  filter_desc_ L = Some wd →
  ∃ L',
    set_workspace L W = Ok L' (after_set_workspace (name_ (conv_base L)) W) ∧
    conv_base L' = conv_base L ∧ filter_desc_ L' = filter_desc_ L ∧
    bias_desc_ L' = bias_desc_ L ∧ padding_ L' = padding_ L ∧
    stride_ L' = stride_ L ∧ dilation_ L' = dilation_ L ∧
    out_channels_ L' = out_channels_ L ∧ kernel_size_ L' = kernel_size_ L.
Proof.
  intros Hxd Hyd Hwd. unfold set_workspace, after_set_workspace, workspace_report.
  erewrite bind_Ok by (unfold deref; rewrite Hxd; reflexivity).
  erewrite bind_Ok by (unfold deref; rewrite Hyd; reflexivity).
  erewrite bind_Ok by (unfold deref; rewrite Hwd; reflexivity).
  destruct (decide (CUDNN_MAJOR = 8%nat)) as [H8|H8].
  - unfold bind, print, ret. simpl.
    rewrite <- !app_assoc. simpl.
    case_decide; eexists; (split; [reflexivity|done]).
  - unfold bind, ret. simpl. rewrite app_nil_r.
    assert (set_stdout (stdout W) W = W) as -> by by destruct W.
    case_decide; eexists; (split; [reflexivity|done]).
Qed.

Lemma Conv2D_allocate_parameters_keeps x L w :
  weights_ (conv_base L) = Some w → Conv2D_allocate_parameters x L = L.
Proof. intros Hw. unfold Conv2D_allocate_parameters. by rewrite Hw. Qed.

Lemma Conv2D_compute_run W L w b p xin out xd yd wd bd :
  weights_ (conv_base L) = Some w → biases_ (conv_base L) = Some b →
  input_ (conv_base L) = Some p → heap W !! p = Some xin →
  output_ (conv_base L) = Some out →
  input_desc_ (conv_base L) = Some xd → output_desc_ (conv_base L) = Some yd →
  filter_desc_ L = Some wd → bias_desc_ L = Some bd →
  ∃ y, Conv2D_compute L W
       = Ok (set_conv_base (set_output_ (Some (set_d_ptr_ y out)) (conv_base L)) L) W.
Proof.
  intros Hw Hb Hp Hx Ho Hxd Hyd Hwd Hbd. unfold Conv2D_compute.
  erewrite bind_Ok by (unfold deref; rewrite Hw; reflexivity).
  erewrite bind_Ok by (unfold deref; rewrite Hb; reflexivity).
  erewrite bind_Ok by (unfold deref; rewrite Hp; reflexivity).
  erewrite bind_Ok by (unfold load; rewrite Hx; reflexivity).
  erewrite bind_Ok by (unfold deref; rewrite Ho; reflexivity).
  erewrite bind_Ok by (unfold deref; rewrite Hxd; reflexivity).
  erewrite bind_Ok by (unfold deref; rewrite Hyd; reflexivity).
  erewrite bind_Ok by (unfold deref; rewrite Hwd; reflexivity).
  erewrite bind_Ok by (unfold deref; rewrite Hbd; reflexivity).
  eexists. reflexivity.
Qed.

(** The rebinding branch up to the materialisation step. *)
Lemma Conv2D_rebind_run W L input x wd :
  rebind_needed (conv_base L) x = true → filter_desc_ L = Some wd →
  ∃ L1,
    Conv2D_rebind input x L W
    = (let* B := materialize_parameters (Conv2D_bound_base input x wd L) in
       ret (set_conv_base B L1)) (after_set_workspace (name_ (conv_base L)) W) ∧
    filter_desc_ L1 = filter_desc_ L ∧ bias_desc_ L1 = bias_desc_ L.
Proof.
  intros Hre Hwd. unfold Conv2D_rebind. rewrite Hre.
  erewrite bind_Ok by (unfold deref; rewrite Hwd; reflexivity).
  set (B1 := Conv2D_bound_base input x wd L).
  set (L0 := set_conv_base _ (set_output_size4_ _ L)).
  assert (conv_base L0 = B1) as HB by reflexivity.
  destruct (set_workspace_run W L0 (Blob_shape x)
              (Blob_shape match output_ (conv_base L) with
                          | Some o =>
                              Blob_reset o
                                (cudnnGetConvolution2dForwardOutputDim (padding_ L)
                                   (stride_ L) (dilation_ L) (Blob_shape x) wd)
                          | None =>
                              Blob_of_shape
                                (cudnnGetConvolution2dForwardOutputDim (padding_ L)
                                   (stride_ L) (dilation_ L) (Blob_shape x) wd)
                          end) wd)
    as (L1 & Hws & HB1 & Hf1 & Hb1 & _); [reflexivity|reflexivity|exact Hwd|].
  exists L1. split; [|split; [by rewrite Hf1|by rewrite Hb1]].
  erewrite bind_Ok by exact Hws.
  rewrite HB1, HB. reflexivity.
Qed.

(** The state [Softmax_ready] describes is kept by a forward and backward
    pass at that shape. *)
Lemma Softmax_ready_preserved W L input target x t L1 L2 :
  heap W !! input = Some x → heap W !! target = Some t →
  Blob_wf x → Blob_wf t → Blob_shape t = Blob_shape x →
  Softmax_ready W L (Blob_shape x) →
  Softmax_forward input L W = Ok L1 W → Softmax_backward target L1 W = Ok L2 W →
  Softmax_ready W L2 (Blob_shape x).
Proof.
  intros Hx Ht Hwfx Hwft Hshape Hready Hfwd Hbwd.
  destruct (Softmax_forward_spec W L input x Hx Hwfx Hready)
    as (L1' & out & Hfwd' & Hout & Hwfo & Hso & Hval & Hg1 & Hb1 & Hin1 & Hxd & Hyd).
  rewrite Hfwd in Hfwd'. injection Hfwd' as <-.
  assert (Blob_len (Blob_of_shape (Blob_shape x)) = Blob_len t) as Hlt
    by (apply Blob_len_shape; rewrite Blob_of_shape_shape; congruence).
  destruct (Softmax_backward_spec W L1 target t out (Blob_shape x))
    as (grad & Hbwd' & Hwfg & Hlg & Hsg & Hgrad); try done.
  { rewrite Hb1. unfold Blob_shape in Hshape. by injection Hshape. }
  { rewrite Hg1, <- Hlt. by destruct Hready as (_ & ? & _). }
  rewrite Hbwd in Hbwd'. injection Hbwd' as ->.
  destruct Hin1 as (p & b & Hp & Hpb & Hsb).
  unfold Softmax_ready. simpl. split_and!.
  - intros o Ho. congruence.
  - intros g [= <-]. split; [done|lia].
  - intros p' Hp' _. split_and!; [done|done|by exists out|].
    exists b. split; congruence.
Qed.

(** A layer ready for one shape is ready for any shape of another batch size
    that needs no more room: a smaller last batch is covered. *)
Lemma Softmax_ready_smaller_batch W L s s' :
  Softmax_ready W L s → batch_size_ L ≠ s'.1.1.1 →
  (Blob_len (Blob_of_shape s') ≤ Blob_len (Blob_of_shape s))%nat →
  Softmax_ready W L s'.
Proof.
  intros (Hout & Hgrad & _) Hbatch Hlen. unfold Softmax_ready. split_and!.
  - exact Hout.
  - intros g Hg. destruct (Hgrad g Hg). split; [done|lia].
  - intros p _ Hb. done.
Qed.

(** [backward] reallocates the gradient buffer only when [batch_size_]
    differs from the target's batch size, and [forward] has already set
    [batch_size_]: a buffer allocated for a smaller batch is kept, and the
    copy of the prediction runs past its end. *)
Lemma Softmax_backward_stale_gradient_buffer W L target t g out :
  heap W !! target = Some t → batch_size_ L = blob_n t →
  grad_input_ L = Some g → output_ L = Some out →
  (length (d_ptr_ g) < Blob_len out)%nat →
  Softmax_backward target L W = Fault.
Proof.
  intros Ht Hb Hg Ho Hlen. unfold Softmax_backward.
  erewrite bind_Ok by (unfold load; rewrite Ht; reflexivity).
  rewrite Hg, Hb, Nat.eqb_refl. rewrite bool_decide_eq_false_2 by done. simpl.
  erewrite bind_Ok by reflexivity.
  erewrite bind_Ok by (unfold deref; rewrite Hg; reflexivity).
  erewrite bind_Ok by (unfold deref; rewrite Ho; reflexivity).
  unfold bind, cudaMemcpy. rewrite decide_False by lia. done.
Qed.

(** ** The materialisation step inside [forward] *)

Lemma load_parameter_run W L w b dw db :
  weights_ L = Some w → biases_ L = Some b →
  files W !! (name_ L +:+ ".bin") = Some dw → length dw = Blob_len w →
  files W !! (name_ L +:+ ".bias.bin") = Some db → length db = Blob_len b →
  load_parameter L W
  = Ok (0%Z, loaded L w b dw db) (set_stdout (stdout W ++ [loaded_line L]) W).
Proof.
  intros Hw Hb Hfw Hlw Hfb Hlb. unfold load_parameter.
  erewrite bind_Ok by (unfold deref; rewrite Hw; reflexivity).
  erewrite bind_Ok
    by (unfold Blob_file_read; rewrite Hfw, decide_True by done; reflexivity).
  cbv beta iota zeta. rewrite decide_False by (intros ?; done).
  erewrite bind_Ok by (unfold deref; simpl; rewrite Hb; reflexivity).
  erewrite bind_Ok
    by (unfold Blob_file_read; simpl; rewrite Hfb, decide_True by done; reflexivity).
  cbv beta iota zeta. rewrite decide_False by (intros ?; done).
  reflexivity.
Qed.

(** On an unfrozen layer with pretrained-load whose two files can be read,
    the step loads weights and biases and leaves the accumulators. *)
Lemma materialize_parameters_loads W L w b dw db :
  freeze_ L = false → load_pretrain_ L = true →
  weights_ L = Some w → biases_ L = Some b →
  files W !! (name_ L +:+ ".bin") = Some dw → length dw = Blob_len w →
  files W !! (name_ L +:+ ".bias.bin") = Some db → length db = Blob_len b →
  materialize_parameters L W
  = Ok (loaded L w b dw db) (set_stdout (stdout W ++ [loaded_line L]) W).
Proof.
  intros Hfr Hld Hw Hb Hfw Hlw Hfb Hlb. unfold materialize_parameters.
  rewrite Hfr, Hld. simpl.
  erewrite bind_Ok by (by apply load_parameter_run).
  cbv beta iota zeta. rewrite decide_False by (intros ?; done). reflexivity.
Qed.

(** Whatever the flags, a materialisation step that returns leaves the six
    parameter blobs allocated and touches nothing else of the layer, and
    nothing of the caller's blobs. *)
Lemma materialize_parameters_frame W B w b wm wv bm bv p xin :
  materialised W B w b wm wv bm bv p xin →
  match materialize_parameters B W with
  | Ok B1 W1 =>
      (∃ w1 b1 wm1 wv1 bm1 bv1, materialised W1 B1 w1 b1 wm1 wv1 bm1 bv1 p xin) ∧
      output_ B1 = output_ B ∧ batch_size_ B1 = batch_size_ B ∧
      input_desc_ B1 = input_desc_ B ∧ output_desc_ B1 = output_desc_ B ∧
      gradients B1 = gradients B ∧ heap W1 = heap W
  | _ => True
  end.
Proof.
  intros Hmat.
  pose proof Hmat as (Hw & Hb & Hwm & Hwv & Hbm & Hbv & Fw & Fb & Fwm & Fwv & Fbm & Fbv
                      & Hp & Hx).
  destruct (freeze_ B) eqn:Hfr.
  - rewrite materialize_parameters_frozen by done.
    split; [by exists w, b, wm, wv, bm, bv|done].
  - destruct (load_pretrain_ B) eqn:Hld.
    + destruct (files W !! (name_ B +:+ ".bin")) as [dw|] eqn:Hfw.
      2:{ rewrite (materialize_parameters_exit W B w b); try done.
          left. exists w. split; [done|]. intros (d & Hd & _). congruence. }
      destruct (decide (length dw = Blob_len w)) as [Hlw|Hlw].
      2:{ rewrite (materialize_parameters_exit W B w b); try done.
          left. exists w. split; [done|]. intros (d & Hd & Hl). congruence. }
      destruct (files W !! (name_ B +:+ ".bias.bin")) as [db|] eqn:Hfb.
      2:{ rewrite (materialize_parameters_exit W B w b); try done.
          right. exists b. split; [done|]. intros (d & Hd & _). congruence. }
      destruct (decide (length db = Blob_len b)) as [Hlb|Hlb].
      2:{ rewrite (materialize_parameters_exit W B w b); try done.
          right. exists b. split; [done|]. intros (d & Hd & Hl). congruence. }
      rewrite (materialize_parameters_loads W B w b dw db) by done.
      split; [|done].
      exists (with_values dw w), (with_values db b), wm, wv, bm, bv.
      unfold materialised, loaded. simpl. split_and!; try done.
      all: split; simpl; done.
    + rewrite materialize_parameters_fresh by done.
      rewrite (init_weight_bias_run W B default_seed w b wm wv bm bv p xin Hmat).
      split; [|split_and!; try done; apply after_init_heap].
      eexists _, _, _, _, _, _.
      unfold materialised. rewrite after_init_heap. unfold initialised. simpl.
      split_and!; try done.
      all: unfold with_values; split; simpl; rewrite ?length_replicate; try done.
      all: unfold initial_weights; by rewrite draws_length.
Qed.

(** ** Calls one after another *)

Lemma Layer_ready_set_output W B out y :
  Layer_ready W B → output_ B = Some out →
  Layer_ready W (set_output_ (Some (set_d_ptr_ y out)) B).
Proof.
  intros (w & b & wm & wv & bm & bv & p & xin & out0 & Hmat & Ho & Hn) Hout.
  exists w, b, wm, wv, bm, bv, p, xin, (set_d_ptr_ y out).
  split; [exact Hmat|]. split; [reflexivity|]. simpl. congruence.
Qed.

(** What every layer class shares: calls at the batch size the layer is
    bound to keep the parameters and print nothing, however many there
    are, so that the parameters after a run of calls at one batch size are
    those after the first. *)
Section ForwardCalls.
Context {T : Type}.
Variable base : T → Layer.
Variable forward : ptr → T → M T.
Variable ready : World → T → Prop.
Hypothesis ready_output :
  ∀ W L, ready W L →
    ∃ out, output_ (base L) = Some out ∧ blob_n out = batch_size_ (base L).
Hypothesis forward_keeps :
  ∀ W L input x,
    heap W !! input = Some x → ready W L → rebind_needed (base L) x = false →
    ∃ L', forward input L W = Ok L' W ∧
          parameters (base L') = parameters (base L) ∧
          gradients (base L') = gradients (base L) ∧
          input_ (base L') = input_ (base L) ∧
          batch_size_ (base L') = batch_size_ (base L) ∧
          ready W L'.

Lemma forward_all_keeps W L inputs n :
  ready W L → input_ (base L) ≠ None → batch_size_ (base L) = n →
  (∀ p, p ∈ inputs → ∃ x, heap W !! p = Some x ∧ blob_n x = n) →
  ∃ L', forward_all forward inputs L W = Ok L' W ∧
        parameters (base L') = parameters (base L).
Proof using forward_keeps.
  revert L. induction inputs as [|input inputs IH]; intros L Hready Hin Hn Hall.
  - by exists L.
  - destruct (Hall input) as (x & Hx & Hnx); [by left|].
    assert (rebind_needed (base L) x = false) as Hre.
    { unfold rebind_needed. rewrite bool_decide_eq_false_2 by done.
      rewrite Hn, Hnx, Nat.eqb_refl. done. }
    destruct (forward_keeps W L input x Hx Hready Hre)
      as (L1 & Hfwd & Hpar & _ & Hin1 & Hn1 & Hready1).
    destruct (IH L1) as (L' & Hall' & Hpar'); [done|congruence|congruence| |].
    { intros p Hp. apply Hall. by right. }
    exists L'. split; [|congruence].
    simpl. erewrite bind_Ok by exact Hfwd. exact Hall'.
Qed.

Lemma forward_materialises_intro W L input x inputs rebound W0 :
  heap W !! input = Some x →
  (∀ p, p ∈ inputs → ∃ x', heap W !! p = Some x' ∧ blob_n x' = blob_n x) →
  (rebind_needed (base L) x = false → ready W L) →
  (rebind_needed (base L) x = true →
   match materialize_parameters rebound W0 with
   | Ok B1 W1 =>
       ∃ L', forward input L W = Ok L' W1 ∧
             parameters (base L') = parameters B1 ∧
             gradients (base L') = gradients (base L) ∧
             input_ (base L') ≠ None ∧
             batch_size_ (base L') = blob_n x ∧
             ready W1 L' ∧ heap W1 = heap W
   | Exit status W1 => forward input L W = Exit status W1
   | Abort W1 => forward input L W = Abort W1
   | Fault => forward input L W = Fault
   end) →
  freeze_ rebound = freeze_ (base L) →
  load_pretrain_ rebound = load_pretrain_ (base L) →
  name_ rebound = name_ (base L) →
  (∃ w b wm wv bm bv, allocated rebound w b wm wv bm bv) →
  (weights_ (base L) ≠ None → parameters rebound = parameters (base L)) →
  forward_materialises base forward W L input x inputs rebound W0.
Proof using ready_output forward_keeps.
  intros Hx Hall Hkeep Hrebind Hfr Hld Hname Halloc Hpar.
  assert (match forward input L W with
          | Ok L1 W1 =>
              gradients (base L1) = gradients (base L) ∧
              input_ (base L1) ≠ None ∧ batch_size_ (base L1) = blob_n x ∧
              ready W1 L1 ∧ heap W1 = heap W
          | _ => True
          end) as Hcall.
  { destruct (rebind_needed (base L) x) eqn:Hre.
    - specialize (Hrebind eq_refl).
      destruct (materialize_parameters rebound W0) as [B1 W1|st W1|W1|].
      + destruct Hrebind as (L' & -> & _ & ? & ? & ? & ? & ?). done.
      + by rewrite Hrebind.
      + by rewrite Hrebind.
      + by rewrite Hrebind.
    - destruct (rebind_needed_false _ _ Hre) as (p & Hp & Hn).
      destruct (forward_keeps W L input x Hx (Hkeep eq_refl) Hre)
        as (L' & -> & _ & ? & ? & ? & ?).
      split_and!; try done; congruence. }
  unfold forward_materialises. split_and!.
  - destruct (rebind_needed (base L) x) eqn:Hre.
    + specialize (Hrebind eq_refl).
      destruct (materialize_parameters rebound W0) as [B1 W1|st W1|W1|].
      * destruct Hrebind as (L' & -> & Hpar' & _). simpl. by rewrite Hpar'.
      * by rewrite Hrebind.
      * by rewrite Hrebind.
      * by rewrite Hrebind.
    + destruct (forward_keeps W L input x Hx (Hkeep eq_refl) Hre)
        as (L' & -> & Hpar' & _). simpl. by rewrite Hpar'.
  - simpl. unfold bind.
    destruct (forward input L W) as [L1 W1|st W1|W1|]; try done.
    destruct Hcall as (_ & Hin1 & Hn1 & Hready1 & Hheap).
    destruct (forward_all_keeps W1 L1 inputs (blob_n x)) as (L' & -> & Hpar');
      try done.
    + intros p Hp. rewrite Hheap. by apply Hall.
    + simpl. by rewrite Hpar'.
  - exact Hfr.
  - exact Hld.
  - exact Hname.
  - exact Halloc.
  - exact Hpar.
  - intros L' W' Hfwd. rewrite Hfwd in Hcall.
    destruct Hcall as (Hg & _ & Hn1 & Hready1 & _).
    split; [exact Hg|].
    destruct (ready_output W' L' Hready1) as (out & Ho & Hno).
    exists out. split; [exact Ho|congruence].
Qed.

End ForwardCalls.

(** ** [Linear::forward] and the materialisation step *)

Lemma Linear_ready_output W L :
  Linear_ready W L →
  ∃ out, output_ (linear_base L) = Some out ∧ blob_n out = batch_size_ (linear_base L).
Proof.
  intros [(w & b & wm & wv & bm & bv & p & xin & out & _ & Ho & Hn) _]. by exists out.
Qed.

(** A call at the batch size the layer is bound to: nothing but the output
    values changes, and nothing is printed. *)
Lemma Linear_forward_keeps W L input x :
  heap W !! input = Some x → Linear_ready W L →
  rebind_needed (linear_base L) x = false →
  ∃ L', Linear_forward input L W = Ok L' W ∧
        parameters (linear_base L') = parameters (linear_base L) ∧
        gradients (linear_base L') = gradients (linear_base L) ∧
        input_ (linear_base L') = input_ (linear_base L) ∧
        batch_size_ (linear_base L') = batch_size_ (linear_base L) ∧
        Linear_ready W L'.
Proof.
  intros Hx [Hready (ones & H1)] Hre.
  pose proof Hready as (w & b & wm & wv & bm & bv & p & xin & out & Hmat & Ho & Hn).
  destruct Hmat as (Hw & Hb & _ & _ & _ & _ & _ & _ & _ & _ & _ & _ & Hp & Hin).
  unfold Linear_forward.
  erewrite bind_Ok by (unfold load; rewrite Hx; reflexivity).
  rewrite (Linear_allocate_parameters_keeps x L w Hw).
  erewrite bind_Ok by (unfold Linear_rebind; rewrite Hre; reflexivity).
  destruct (Linear_compute_run W L w b p xin out ones) as (y & Hrun); try done.
  eexists. split; [exact Hrun|]. simpl. split_and!; try done.
  split; [by apply Layer_ready_set_output|by exists ones].
Qed.

(** A call that rebinds, be it the first call or a call at another batch
    size: it ends as the materialisation step on the rebound layer ends,
    and when that returns, with the parameters the step left. *)
Lemma Linear_forward_rebinds W L input x w b wm wv bm bv :
  heap W !! input = Some x → rebind_needed (linear_base L) x = true →
  allocated (linear_base (Linear_allocate_parameters x L)) w b wm wv bm bv →
  match materialize_parameters
          (Linear_bound_base input x (Linear_allocate_parameters x L)) W with
  | Ok B1 W1 =>
      ∃ L', Linear_forward input L W = Ok L' W1 ∧
            parameters (linear_base L') = parameters B1 ∧
            gradients (linear_base L') = gradients (linear_base L) ∧
            input_ (linear_base L') ≠ None ∧
            batch_size_ (linear_base L') = blob_n x ∧
            Linear_ready W1 L' ∧ heap W1 = heap W
  | Exit status W1 => Linear_forward input L W = Exit status W1
  | Abort W1 => Linear_forward input L W = Abort W1
  | Fault => Linear_forward input L W = Fault
  end.
Proof.
  intros Hx Hre Halloc.
  pose proof (Linear_allocate_parameters_frame x L) as Hframe.
  assert (gradients (linear_base (Linear_allocate_parameters x L))
          = gradients (linear_base L)) as Hgrad
    by (unfold Linear_allocate_parameters; by destruct (weights_ (linear_base L))).
  set (L0 := Linear_allocate_parameters x L) in *. simpl in Hframe.
  destruct Hframe as (Hi0 & Hb0 & Ho0 & Hf0 & Hl0 & Hn0 & Hs0).
  destruct Halloc as (Hw & Hb & Hwm & Hwv & Hbm & Hbv & Fw & Fb & Fwm & Fwv & Fbm & Fbv).
  assert (rebind_needed (linear_base L0) x = true) as Hre0
    by (unfold rebind_needed in *; by rewrite Hi0, Hb0).
  set (B0 := Linear_bound_base input x L0).
  assert (materialised W B0 w b wm wv bm bv input x) as Hmat
    by (subst B0; unfold materialised, Linear_bound_base; simpl; split_and!; done).
  assert (∃ out0, output_ B0 = Some out0 ∧ blob_n out0 = blob_n x) as (out0 & Ho & Hno).
  { subst B0. unfold Linear_bound_base. simpl. eexists. split; [reflexivity|].
    destruct (output_ (linear_base L0)) as [o|]; [|done].
    pose proof (Blob_reset_shape o (blob_n x, output_size_ L0, 1%nat, 1%nat)) as Hs.
    unfold Blob_shape in Hs. by injection Hs. }
  assert (batch_size_ B0 = blob_n x) as Hbatch by done.
  assert (gradients B0 = gradients (linear_base L)) as Hgrad0
    by (rewrite <- Hgrad; done).
  pose proof (materialize_parameters_frame W B0 w b wm wv bm bv input x Hmat) as Hstep.
  set (ones := init_one_vec ((blob_n x + BLOCK_DIM_1D - 1) / BLOCK_DIM_1D)
                 BLOCK_DIM_1D (fresh_buffer (blob_n x)) (blob_n x)).
  assert (Linear_forward input L W
          = match materialize_parameters B0 W with
            | Ok B1 W1 =>
                Linear_compute (set_linear_base B1 (set_d_one_vec (Some ones) L0)) W1
            | Exit status W1 => Exit status W1
            | Abort W1 => Abort W1
            | Fault => Fault
            end) as ->.
  { unfold Linear_forward.
    erewrite bind_Ok by (unfold load; rewrite Hx; reflexivity).
    fold L0. unfold bind at 1. rewrite Linear_rebind_run by done. fold B0.
    unfold bind, ret. by destruct (materialize_parameters B0 W). }
  destruct (materialize_parameters B0 W) as [B1 W1|st W1|W1|]; try done.
  destruct Hstep as ((w1 & b1 & wm1 & wv1 & bm1 & bv1 & Hmat1) & Ho1 & Hb1 & _ & _
                     & Hg1 & Hheap).
  pose proof Hmat1 as (Hw1 & Hbi1 & _ & _ & _ & _ & _ & _ & _ & _ & _ & _ & Hp1 & Hx1).
  set (L2 := set_linear_base B1 _).
  edestruct (Linear_compute_run W1 L2 w1 b1 input x out0)
    as (y & Hrun); [exact Hw1|exact Hbi1|exact Hp1|exact Hx1|simpl; congruence
                   |reflexivity|].
  eexists. split; [exact Hrun|]. simpl. split_and!; try done.
  - by rewrite <- Hgrad0, <- Hg1.
  - by rewrite Hp1.
  - split; [|by eexists].
    apply Layer_ready_set_output; [|congruence].
    exists w1, b1, wm1, wv1, bm1, bv1, input, x, out0.
    split; [exact Hmat1|]. split; congruence.
Qed.

Lemma Linear_forward_materialises W L input x inputs :
  heap W !! input = Some x →
  (∀ p, p ∈ inputs → ∃ x', heap W !! p = Some x' ∧ blob_n x' = blob_n x) →
  Layer_fresh (linear_base L) ∨ Linear_ready W L →
  forward_materialises linear_base Linear_forward W L input x inputs
    (Linear_bound_base input x (Linear_allocate_parameters x L)) W.
Proof.
  intros Hx Hall Hstate.
  pose proof (Linear_allocate_parameters_frame x L) as Hframe. simpl in Hframe.
  destruct Hframe as (Hi0 & Hb0 & Ho0 & Hf0 & Hl0 & Hn0 & Hs0).
  assert (∃ w b wm wv bm bv,
            allocated (linear_base (Linear_allocate_parameters x L)) w b wm wv bm bv)
    as (w & b & wm & wv & bm & bv & Halloc).
  { destruct Hstate as [(Hw & _ & _)|[Hready _]].
    - destruct (Linear_allocate_parameters_fresh x L Hw) as (Halloc & _).
      by eexists _, _, _, _, _, _.
    - destruct Hready as (w & b & wm & wv & bm & bv & p & xin & out & Hmat & _).
      destruct Hmat as (Hw & ? & ? & ? & ? & ? & ? & ? & ? & ? & ? & ? & _).
      rewrite (Linear_allocate_parameters_keeps x L w Hw).
      exists w, b, wm, wv, bm, bv. by split_and!. }
  apply (forward_materialises_intro linear_base Linear_forward Linear_ready
           Linear_ready_output Linear_forward_keeps); try done.
  - intros Hre. destruct Hstate as [(_ & Hin & _)|Hready]; [|done].
    unfold rebind_needed in Hre. rewrite Hin in Hre. done.
  - intros Hre. by eapply Linear_forward_rebinds.
  - by exists w, b, wm, wv, bm, bv.
  - intros Hw. destruct (weights_ (linear_base L)) as [w'|] eqn:Hw'; [|done].
    by rewrite (Linear_allocate_parameters_keeps x L w' Hw').
Qed.

(** ** [Conv2D::forward] and the materialisation step *)

Lemma Conv2D_ready_output W L :
  Conv2D_ready W L →
  ∃ out, output_ (conv_base L) = Some out ∧ blob_n out = batch_size_ (conv_base L).
Proof.
  intros [(w & b & wm & wv & bm & bv & p & xin & out & _ & Ho & Hn) _]. by exists out.
Qed.

Lemma Conv2D_allocate_parameters_frame x L :
  let L0 := Conv2D_allocate_parameters x L in
  input_ (conv_base L0) = input_ (conv_base L) ∧
  batch_size_ (conv_base L0) = batch_size_ (conv_base L) ∧
  output_ (conv_base L0) = output_ (conv_base L) ∧
  freeze_ (conv_base L0) = freeze_ (conv_base L) ∧
  load_pretrain_ (conv_base L0) = load_pretrain_ (conv_base L) ∧
  name_ (conv_base L0) = name_ (conv_base L) ∧
  gradients (conv_base L0) = gradients (conv_base L).
Proof.
  unfold Conv2D_allocate_parameters.
  destruct (weights_ (conv_base L)); simpl; by split_and!.
Qed.

Lemma Conv2D_allocate_parameters_fresh x L :
  weights_ (conv_base L) = None →
  let k := kernel_size_ L in
  let out := out_channels_ L in
  let L0 := Conv2D_allocate_parameters x L in
  allocated (conv_base L0)
    (Blob_new out (blob_c x) k k) (Blob_new 1 out 1 1)
    (Blob_new out (blob_c x) k k) (Blob_new out (blob_c x) k k)
    (Blob_new 1 out 1 1) (Blob_new 1 out 1 1) ∧
  filter_desc_ L0 = Some (out, blob_c x, k, k) ∧
  bias_desc_ L0 = Some (1%nat, out, 1%nat, 1%nat).
Proof.
  intros Hw. unfold Conv2D_allocate_parameters. rewrite Hw. simpl.
  repeat split; try done; apply Blob_new_wf.
Qed.

(** A call at the batch size the layer is bound to. *)
Lemma Conv2D_forward_keeps W L input x :
  heap W !! input = Some x → Conv2D_ready W L →
  rebind_needed (conv_base L) x = false →
  ∃ L', Conv2D_forward input L W = Ok L' W ∧
        parameters (conv_base L') = parameters (conv_base L) ∧
        gradients (conv_base L') = gradients (conv_base L) ∧
        input_ (conv_base L') = input_ (conv_base L) ∧
        batch_size_ (conv_base L') = batch_size_ (conv_base L) ∧
        Conv2D_ready W L'.
Proof.
  intros Hx [Hready (xd & yd & wd & bd & Hxd & Hyd & Hwd & Hbd)] Hre.
  pose proof Hready as (w & b & wm & wv & bm & bv & p & xin & out & Hmat & Ho & Hn).
  destruct Hmat as (Hw & Hb & _ & _ & _ & _ & _ & _ & _ & _ & _ & _ & Hp & Hin).
  unfold Conv2D_forward.
  erewrite bind_Ok by (unfold load; rewrite Hx; reflexivity).
  rewrite (Conv2D_allocate_parameters_keeps x L w Hw).
  erewrite bind_Ok by (unfold Conv2D_rebind; rewrite Hre; reflexivity).
  destruct (Conv2D_compute_run W L w b p xin out xd yd wd bd) as (y & Hrun); try done.
  eexists. split; [exact Hrun|]. simpl. split_and!; try done.
  split; [by apply Layer_ready_set_output|by exists xd, yd, wd, bd].
Qed.

(** A call that rebinds: [set_workspace] prints its report, and the call
    ends as the materialisation step on the rebound layer ends. *)
Lemma Conv2D_forward_rebinds W L input x w b wm wv bm bv wd bd :
  heap W !! input = Some x → rebind_needed (conv_base L) x = true →
  allocated (conv_base (Conv2D_allocate_parameters x L)) w b wm wv bm bv →
  filter_desc_ (Conv2D_allocate_parameters x L) = Some wd →
  bias_desc_ (Conv2D_allocate_parameters x L) = Some bd →
  match materialize_parameters
          (Conv2D_bound_base input x wd (Conv2D_allocate_parameters x L))
          (after_set_workspace (name_ (conv_base L)) W) with
  | Ok B1 W1 =>
      ∃ L', Conv2D_forward input L W = Ok L' W1 ∧
            parameters (conv_base L') = parameters B1 ∧
            gradients (conv_base L') = gradients (conv_base L) ∧
            input_ (conv_base L') ≠ None ∧
            batch_size_ (conv_base L') = blob_n x ∧
            Conv2D_ready W1 L' ∧ heap W1 = heap W
  | Exit status W1 => Conv2D_forward input L W = Exit status W1
  | Abort W1 => Conv2D_forward input L W = Abort W1
  | Fault => Conv2D_forward input L W = Fault
  end.
Proof.
  intros Hx Hre Halloc Hwd Hbd.
  pose proof (Conv2D_allocate_parameters_frame x L) as Hframe.
  set (L0 := Conv2D_allocate_parameters x L) in *. simpl in Hframe.
  destruct Hframe as (Hi0 & Hb0 & Ho0 & Hf0 & Hl0 & Hn0 & Hgrad).
  destruct Halloc as (Hw & Hb & Hwm & Hwv & Hbm & Hbv & Fw & Fb & Fwm & Fwv & Fbm & Fbv).
  assert (rebind_needed (conv_base L0) x = true) as Hre0
    by (unfold rebind_needed in *; by rewrite Hi0, Hb0).
  destruct (Conv2D_rebind_run W L0 input x wd Hre0 Hwd) as (L1 & Hrebind & Hf1 & Hb1).
  rewrite Hn0 in Hrebind.
  set (W0 := after_set_workspace (name_ (conv_base L)) W) in *.
  set (B0 := Conv2D_bound_base input x wd L0) in *.
  assert (heap W0 = heap W) as Hheap0 by reflexivity.
  assert (materialised W0 B0 w b wm wv bm bv input x) as Hmat
    by (subst B0; unfold materialised, Conv2D_bound_base; simpl; split_and!; done).
  assert (∃ out0, output_ B0 = Some out0 ∧ blob_n out0 = blob_n x) as (out0 & Ho & Hno).
  { set (dims := cudnnGetConvolution2dForwardOutputDim (padding_ L0) (stride_ L0)
                   (dilation_ L0) (Blob_shape x) wd).
    assert (∀ o, Blob_shape o = dims → blob_n o = blob_n x) as Hdims.
    { intros o Hs. subst dims.
      unfold cudnnGetConvolution2dForwardOutputDim, Blob_shape in Hs.
      destruct wd as [[[k c] r] s']. by injection Hs. }
    exists (match output_ (conv_base L0) with
            | None => Blob_of_shape dims
            | Some o => Blob_reset o dims
            end).
    split; [reflexivity|]. apply Hdims.
    destruct (output_ (conv_base L0)) as [o|];
      [apply Blob_reset_shape|apply Blob_of_shape_shape]. }
  assert (batch_size_ B0 = blob_n x) as Hbatch by done.
  assert (gradients B0 = gradients (conv_base L)) as Hgrad0
    by (rewrite <- Hgrad; done).
  assert (∃ xd yd, input_desc_ B0 = Some xd ∧ output_desc_ B0 = Some yd)
    as (xd & yd & Hxd & Hyd) by (by eexists _, _).
  pose proof (materialize_parameters_frame W0 B0 w b wm wv bm bv input x Hmat) as Hstep.
  assert (Conv2D_forward input L W
          = match materialize_parameters B0 W0 with
            | Ok B1 W1 => Conv2D_compute (set_conv_base B1 L1) W1
            | Exit status W1 => Exit status W1
            | Abort W1 => Abort W1
            | Fault => Fault
            end) as ->.
  { unfold Conv2D_forward.
    erewrite bind_Ok by (unfold load; rewrite Hx; reflexivity).
    fold L0. unfold bind at 1. rewrite Hrebind.
    unfold bind, ret. by destruct (materialize_parameters B0 W0). }
  destruct (materialize_parameters B0 W0) as [B1 W1|st W1|W1|]; try done.
  destruct Hstep as ((w1 & b1 & wm1 & wv1 & bm1 & bv1 & Hmat1) & Ho1 & Hbs1 & Hxd1 & Hyd1
                     & Hg1 & Hheap).
  pose proof Hmat1 as (Hw1 & Hbi1 & _ & _ & _ & _ & _ & _ & _ & _ & _ & _ & Hp1 & Hx1).
  edestruct (Conv2D_compute_run W1 (set_conv_base B1 L1) w1 b1 input x out0 xd yd wd bd)
    as (y & Hrun);
    [exact Hw1|exact Hbi1|exact Hp1|exact Hx1|simpl; congruence|simpl; congruence
    |simpl; congruence|simpl; congruence|simpl; congruence|].
  eexists. split; [exact Hrun|]. simpl. split_and!; try done.
  - by rewrite <- Hgrad0, <- Hg1.
  - by rewrite Hp1.
  - split.
    + apply Layer_ready_set_output; [|congruence].
      exists w1, b1, wm1, wv1, bm1, bv1, input, x, out0.
      split; [exact Hmat1|]. split; congruence.
    + exists xd, yd, wd, bd. simpl. split_and!; congruence.
Qed.

Lemma Conv2D_forward_materialises W L input x inputs wd :
  heap W !! input = Some x →
  (∀ p, p ∈ inputs → ∃ x', heap W !! p = Some x' ∧ blob_n x' = blob_n x) →
  Layer_fresh (conv_base L) ∨ Conv2D_ready W L →
  filter_desc_ (Conv2D_allocate_parameters x L) = Some wd →
  forward_materialises conv_base Conv2D_forward W L input x inputs
    (Conv2D_bound_base input x wd (Conv2D_allocate_parameters x L))
    (after_set_workspace (name_ (conv_base L)) W).
Proof.
  intros Hx Hall Hstate Hwd.
  pose proof (Conv2D_allocate_parameters_frame x L) as Hframe. simpl in Hframe.
  destruct Hframe as (Hi0 & Hb0 & Ho0 & Hf0 & Hl0 & Hn0 & Hgrad).
  assert (∃ w b wm wv bm bv bd,
            allocated (conv_base (Conv2D_allocate_parameters x L)) w b wm wv bm bv ∧
            bias_desc_ (Conv2D_allocate_parameters x L) = Some bd)
    as (w & b & wm & wv & bm & bv & bd & Halloc & Hbd).
  { destruct Hstate as [(Hw & _ & _)|[Hready Hdesc]].
    - destruct (Conv2D_allocate_parameters_fresh x L Hw) as (Halloc & _ & Hbd).
      by eexists _, _, _, _, _, _, _.
    - destruct Hready as (w & b & wm & wv & bm & bv & p & xin & out & Hmat & _).
      destruct Hdesc as (xd & yd & wd' & bd & _ & _ & _ & Hbd).
      destruct Hmat as (Hw & ? & ? & ? & ? & ? & ? & ? & ? & ? & ? & ? & _).
      rewrite (Conv2D_allocate_parameters_keeps x L w Hw).
      exists w, b, wm, wv, bm, bv, bd. by split_and!. }
  apply (forward_materialises_intro conv_base Conv2D_forward Conv2D_ready
           Conv2D_ready_output Conv2D_forward_keeps); try done.
  - intros Hre. destruct Hstate as [(_ & Hin & _)|Hready]; [|done].
    unfold rebind_needed in Hre. rewrite Hin in Hre. done.
  - intros Hre. by eapply Conv2D_forward_rebinds.
  - by exists w, b, wm, wv, bm, bv.
  - intros Hw. destruct (weights_ (conv_base L)) as [w'|] eqn:Hw'; [|done].
    by rewrite (Conv2D_allocate_parameters_keeps x L w' Hw').
Qed.

(** ** [FusedBatchNormalization::forward] and the materialisation step *)

Lemma FusedBatchNormalization_ready_output W L :
  FusedBatchNormalization_ready W L →
  ∃ out, output_ (bn_base L) = Some out ∧ blob_n out = batch_size_ (bn_base L).
Proof.
  intros [(w & b & wm & wv & bm & bv & p & xin & out & _ & Ho & Hn) _]. by exists out.
Qed.

Lemma FusedBatchNormalization_allocate_parameters_keeps x L w :
  weights_ (bn_base L) = Some w → FusedBatchNormalization_allocate_parameters x L = L.
Proof. intros Hw. unfold FusedBatchNormalization_allocate_parameters. by rewrite Hw. Qed.

Lemma FusedBatchNormalization_allocate_parameters_frame x L :
  let L0 := FusedBatchNormalization_allocate_parameters x L in
  input_ (bn_base L0) = input_ (bn_base L) ∧
  batch_size_ (bn_base L0) = batch_size_ (bn_base L) ∧
  output_ (bn_base L0) = output_ (bn_base L) ∧
  freeze_ (bn_base L0) = freeze_ (bn_base L) ∧
  load_pretrain_ (bn_base L0) = load_pretrain_ (bn_base L) ∧
  name_ (bn_base L0) = name_ (bn_base L) ∧
  gradients (bn_base L0) = gradients (bn_base L).
Proof.
  unfold FusedBatchNormalization_allocate_parameters.
  destruct (weights_ (bn_base L)); simpl; by split_and!.
Qed.

Lemma FusedBatchNormalization_allocate_parameters_fresh x L :
  weights_ (bn_base L) = None →
  let size := blob_c x in
  allocated (bn_base (FusedBatchNormalization_allocate_parameters x L))
    (Blob_new 1 size 1 1) (Blob_new 1 size 1 1) (Blob_new 1 size 1 1)
    (Blob_new 1 size 1 1) (Blob_new 1 size 1 1) (Blob_new 1 size 1 1).
Proof.
  intros Hw. unfold FusedBatchNormalization_allocate_parameters. rewrite Hw. simpl.
  repeat split; try done; apply Blob_new_wf.
Qed.

Lemma FusedBatchNormalization_compute_run W L w b p xin out xd yd bd :
  weights_ (bn_base L) = Some w → biases_ (bn_base L) = Some b →
  input_ (bn_base L) = Some p → heap W !! p = Some xin →
  output_ (bn_base L) = Some out →
  input_desc_ (bn_base L) = Some xd → output_desc_ (bn_base L) = Some yd →
  bnScaleBiasMeanVarDesc_ L = Some bd →
  ∃ y L1,
    FusedBatchNormalization_compute L W
    = Ok (set_bn_base (set_output_ (Some (set_d_ptr_ y out)) (bn_base L)) L1) W ∧
    bnScaleBiasMeanVarDesc_ L1 = bnScaleBiasMeanVarDesc_ L.
Proof.
  intros Hw Hb Hp Hx Ho Hxd Hyd Hbd. unfold FusedBatchNormalization_compute.
  erewrite bind_Ok by (unfold deref; rewrite Hxd; reflexivity).
  erewrite bind_Ok by (unfold deref; rewrite Hp; reflexivity).
  erewrite bind_Ok by (unfold load; rewrite Hx; reflexivity).
  erewrite bind_Ok by (unfold deref; rewrite Hyd; reflexivity).
  erewrite bind_Ok by (unfold deref; rewrite Ho; reflexivity).
  erewrite bind_Ok by (unfold deref; rewrite Hbd; reflexivity).
  erewrite bind_Ok by (unfold deref; rewrite Hw; reflexivity).
  erewrite bind_Ok by (unfold deref; rewrite Hb; reflexivity).
  destruct (cudnnBatchNormalizationForwardTraining _ _ _ _ _ _ _ _ _ _ _ _ _ _ _ _)
    as [[[[y rm] rv] sm] sv].
  eexists _, _. split; [reflexivity|]. done.
Qed.

(** A call at the batch size the layer is bound to. *)
Lemma FusedBatchNormalization_forward_keeps W L input x :
  heap W !! input = Some x → FusedBatchNormalization_ready W L →
  rebind_needed (bn_base L) x = false →
  ∃ L', FusedBatchNormalization_forward input L W = Ok L' W ∧
        parameters (bn_base L') = parameters (bn_base L) ∧
        gradients (bn_base L') = gradients (bn_base L) ∧
        input_ (bn_base L') = input_ (bn_base L) ∧
        batch_size_ (bn_base L') = batch_size_ (bn_base L) ∧
        FusedBatchNormalization_ready W L'.
Proof.
  intros Hx [Hready (xd & yd & bd & Hxd & Hyd & Hbd)] Hre.
  pose proof Hready as (w & b & wm & wv & bm & bv & p & xin & out & Hmat & Ho & Hn).
  destruct Hmat as (Hw & Hb & _ & _ & _ & _ & _ & _ & _ & _ & _ & _ & Hp & Hin).
  unfold FusedBatchNormalization_forward.
  erewrite bind_Ok by (unfold load; rewrite Hx; reflexivity).
  rewrite (FusedBatchNormalization_allocate_parameters_keeps x L w Hw).
  erewrite bind_Ok
    by (unfold FusedBatchNormalization_rebind; rewrite Hre; reflexivity).
  destruct (FusedBatchNormalization_compute_run W L w b p xin out xd yd bd)
    as (y & L1 & Hrun & Hbd1); try done.
  eexists. split; [exact Hrun|]. simpl. split_and!; try done.
  split; [by apply Layer_ready_set_output|].
  exists xd, yd, bd. simpl. split_and!; congruence.
Qed.

(** A call that rebinds ends as the materialisation step on the rebound
    layer ends. *)
Lemma FusedBatchNormalization_forward_rebinds W L input x w b wm wv bm bv :
  heap W !! input = Some x → rebind_needed (bn_base L) x = true →
  allocated (bn_base (FusedBatchNormalization_allocate_parameters x L))
    w b wm wv bm bv →
  match materialize_parameters
          (FusedBatchNormalization_bound_base input x
             (FusedBatchNormalization_allocate_parameters x L)) W with
  | Ok B1 W1 =>
      ∃ L', FusedBatchNormalization_forward input L W = Ok L' W1 ∧
            parameters (bn_base L') = parameters B1 ∧
            gradients (bn_base L') = gradients (bn_base L) ∧
            input_ (bn_base L') ≠ None ∧
            batch_size_ (bn_base L') = blob_n x ∧
            FusedBatchNormalization_ready W1 L' ∧ heap W1 = heap W
  | Exit status W1 => FusedBatchNormalization_forward input L W = Exit status W1
  | Abort W1 => FusedBatchNormalization_forward input L W = Abort W1
  | Fault => FusedBatchNormalization_forward input L W = Fault
  end.
Proof.
  intros Hx Hre Halloc.
  pose proof (FusedBatchNormalization_allocate_parameters_frame x L) as Hframe.
  set (L0 := FusedBatchNormalization_allocate_parameters x L) in *. simpl in Hframe.
  destruct Hframe as (Hi0 & Hb0 & Ho0 & Hf0 & Hl0 & Hn0 & Hgrad).
  destruct Halloc as (Hw & Hb & Hwm & Hwv & Hbm & Hbv & Fw & Fb & Fwm & Fwv & Fbm & Fbv).
  assert (rebind_needed (bn_base L0) x = true) as Hre0
    by (unfold rebind_needed in *; by rewrite Hi0, Hb0).
  set (B0 := FusedBatchNormalization_bound_base input x L0).
  assert (materialised W B0 w b wm wv bm bv input x) as Hmat
    by (subst B0; unfold materialised, FusedBatchNormalization_bound_base; simpl;
        split_and!; done).
  assert (∃ out0, output_ B0 = Some out0 ∧ blob_n out0 = blob_n x) as (out0 & Ho & Hno).
  { exists (match output_ (bn_base L0) with
            | None => Blob_of_shape (Blob_shape x)
            | Some o => Blob_reset o (Blob_shape x)
            end).
    split; [reflexivity|].
    assert (∀ o, Blob_shape o = Blob_shape x → blob_n o = blob_n x) as Hn
      by (intros o Hs; unfold Blob_shape in Hs; by injection Hs).
    apply Hn. destruct (output_ (bn_base L0)) as [o|];
      [apply Blob_reset_shape|apply Blob_of_shape_shape]. }
  assert (batch_size_ B0 = blob_n x) as Hbatch by done.
  assert (gradients B0 = gradients (bn_base L)) as Hgrad0
    by (rewrite <- Hgrad; done).
  assert (∃ xd yd, input_desc_ B0 = Some xd ∧ output_desc_ B0 = Some yd)
    as (xd & yd & Hxd & Hyd) by (by eexists _, _).
  pose proof (materialize_parameters_frame W B0 w b wm wv bm bv input x Hmat) as Hstep.
  set (L1 := set_bnScaleBiasMeanVarDesc_
               (Some (cudnnDeriveBNTensorDescriptor (Blob_shape x) (mode_ L0)))
               (set_resultSaveInvVariance_ (Some (fresh_buffer (size_ L0)))
                  (set_resultSaveMean_ (Some (fresh_buffer (size_ L0)))
                     (set_resultRunningVariance_ (Some (fresh_buffer (size_ L0)))
                        (set_resultRunningMean_ (Some (fresh_buffer (size_ L0)))
                           L0))))).
  assert (FusedBatchNormalization_forward input L W
          = match materialize_parameters B0 W with
            | Ok B1 W1 => FusedBatchNormalization_compute (set_bn_base B1 L1) W1
            | Exit status W1 => Exit status W1
            | Abort W1 => Abort W1
            | Fault => Fault
            end) as ->.
  { unfold FusedBatchNormalization_forward.
    erewrite bind_Ok by (unfold load; rewrite Hx; reflexivity).
    fold L0. unfold bind at 1. unfold FusedBatchNormalization_rebind. rewrite Hre0.
    change (materialize_parameters _) with (materialize_parameters B0).
    unfold bind, ret. by destruct (materialize_parameters B0 W). }
  destruct (materialize_parameters B0 W) as [B1 W1|st W1|W1|]; try done.
  destruct Hstep as ((w1 & b1 & wm1 & wv1 & bm1 & bv1 & Hmat1) & Ho1 & Hbs1 & Hxd1 & Hyd1
                     & Hg1 & Hheap).
  pose proof Hmat1 as (Hw1 & Hbi1 & _ & _ & _ & _ & _ & _ & _ & _ & _ & _ & Hp1 & Hx1).
  edestruct (FusedBatchNormalization_compute_run W1 (set_bn_base B1 L1)
               w1 b1 input x out0 xd yd)
    as (y & L2 & Hrun & Hbd2);
    [exact Hw1|exact Hbi1|exact Hp1|exact Hx1|simpl; congruence|simpl; congruence
    |simpl; congruence|reflexivity|].
  eexists. split; [exact Hrun|]. simpl. split_and!; try done.
  - by rewrite <- Hgrad0, <- Hg1.
  - by rewrite Hp1.
  - split.
    + apply Layer_ready_set_output; [|congruence].
      exists w1, b1, wm1, wv1, bm1, bv1, input, x, out0.
      split; [exact Hmat1|]. split; congruence.
    + eexists xd, yd, _. simpl. split_and!; [congruence|congruence|].
      rewrite Hbd2. reflexivity.
Qed.

Lemma FusedBatchNormalization_forward_materialises W L input x inputs :
  heap W !! input = Some x →
  (∀ p, p ∈ inputs → ∃ x', heap W !! p = Some x' ∧ blob_n x' = blob_n x) →
  Layer_fresh (bn_base L) ∨ FusedBatchNormalization_ready W L →
  forward_materialises bn_base FusedBatchNormalization_forward W L input x inputs
    (FusedBatchNormalization_bound_base input x
       (FusedBatchNormalization_allocate_parameters x L)) W.
Proof.
  intros Hx Hall Hstate.
  pose proof (FusedBatchNormalization_allocate_parameters_frame x L) as Hframe.
  simpl in Hframe.
  destruct Hframe as (Hi0 & Hb0 & Ho0 & Hf0 & Hl0 & Hn0 & Hgrad).
  assert (∃ w b wm wv bm bv,
            allocated (bn_base (FusedBatchNormalization_allocate_parameters x L))
              w b wm wv bm bv)
    as (w & b & wm & wv & bm & bv & Halloc).
  { destruct Hstate as [(Hw & _ & _)|[Hready _]].
    - pose proof (FusedBatchNormalization_allocate_parameters_fresh x L Hw) as Halloc.
      by eexists _, _, _, _, _, _.
    - destruct Hready as (w & b & wm & wv & bm & bv & p & xin & out & Hmat & _).
      destruct Hmat as (Hw & ? & ? & ? & ? & ? & ? & ? & ? & ? & ? & ? & _).
      rewrite (FusedBatchNormalization_allocate_parameters_keeps x L w Hw).
      exists w, b, wm, wv, bm, bv. by split_and!. }
  apply (forward_materialises_intro bn_base FusedBatchNormalization_forward
           FusedBatchNormalization_ready FusedBatchNormalization_ready_output
           FusedBatchNormalization_forward_keeps); try done.
  - intros Hre. destruct Hstate as [(_ & Hin & _)|Hready]; [|done].
    unfold rebind_needed in Hre. rewrite Hin in Hre. done.
  - intros Hre. by eapply FusedBatchNormalization_forward_rebinds.
  - by exists w, b, wm, wv, bm, bv.
  - intros Hw. destruct (weights_ (bn_base L)) as [w'|] eqn:Hw'; [|done].
    by rewrite (FusedBatchNormalization_allocate_parameters_keeps x L w' Hw').
Qed.

(** ** The Adam update of a layer *)

(** Unlike the RMSProp update, the Adam update passes the bias blobs to its
    second launch: weights and biases both receive the rule once. *)
Lemma update_weights_biases_with_adam_cells
    W L lr beta1 beta2 eps step w wm wv gw b bm bv gb :
  (0 < BLOCK_DIM_1D)%nat →
  weights_ L = Some w → weights_m_ L = Some wm → weights_v_ L = Some wv →
  grad_weights_ L = Some gw →
  biases_ L = Some b → biases_m_ L = Some bm → biases_v_ L = Some bv →
  grad_biases_ L = Some gb →
  Blob_wf w → Blob_wf wm → Blob_wf wv → Blob_wf b → Blob_wf bm → Blob_wf bv →
  Blob_len wm = Blob_len w → Blob_len wv = Blob_len w →
  Blob_len bm = Blob_len b → Blob_len bv = Blob_len b →
  ∃ L' w' wm' wv' b' bm' bv',
    update_weights_biases_with_adam lr beta1 beta2 eps step L W = Ok L' W ∧
    weights_ L' = Some w' ∧ weights_m_ L' = Some wm' ∧ weights_v_ L' = Some wv' ∧
    biases_ L' = Some b' ∧ biases_m_ L' = Some bm' ∧ biases_v_ L' = Some bv' ∧
    (∀ i, (i < Blob_len w)%nat →
          (d_ptr_ wm' !!! i, d_ptr_ wv' !!! i, d_ptr_ w' !!! i)
          = adam_cell step beta1 beta2 eps lr (d_ptr_ gw !!! i)
              (d_ptr_ wm !!! i, d_ptr_ wv !!! i, d_ptr_ w !!! i)) ∧
    (∀ i, (i < Blob_len b)%nat →
          (d_ptr_ bm' !!! i, d_ptr_ bv' !!! i, d_ptr_ b' !!! i)
          = adam_cell step beta1 beta2 eps lr (d_ptr_ gb !!! i)
              (d_ptr_ bm !!! i, d_ptr_ bv !!! i, d_ptr_ b !!! i)).
Proof.
  intros HB Hw Hwm Hwv Hgw Hb Hbm Hbv Hgb [_ Fw] [_ Fwm] [_ Fwv] [_ Fb] [_ Fbm] [_ Fbv]
         Hlwm Hlwv Hlbm Hlbv.
  pose proof (adam_update_cell 16 BLOCK_DIM_1D (Blob_len w) step
                (d_ptr_ wm) (d_ptr_ wv) (d_ptr_ w) (d_ptr_ gw) beta1 beta2 eps lr)
    as Hcw.
  pose proof (adam_update_cell 16 BLOCK_DIM_1D (Blob_len b) step
                (d_ptr_ bm) (d_ptr_ bv) (d_ptr_ b) (d_ptr_ gb) beta1 beta2 eps lr)
    as Hcb.
  unfold update_weights_biases_with_adam, bind, deref, ret.
  rewrite Hw, Hgw, Hwm, Hwv.
  destruct (adam_update 16 BLOCK_DIM_1D (Blob_len w) step _ _ _ _ _ _ _ _)
    as [[m' v'] w'].
  simpl. rewrite Hb, Hgb, Hbm, Hbv.
  destruct (adam_update 16 BLOCK_DIM_1D (Blob_len b) step _ _ _ _ _ _ _ _)
    as [[bm' bv'] b'].
  eexists _, _, _, _, _, _, _. split; [reflexivity|]. simpl.
  split_and!; try reflexivity.
  - intros i Hi. specialize (Hcw i ltac:(lia) HB ltac:(lia) ltac:(lia) ltac:(lia)).
    rewrite decide_True in Hcw by done. exact Hcw.
  - intros i Hi. specialize (Hcb i ltac:(lia) HB ltac:(lia) ltac:(lia) ltac:(lia)).
    rewrite decide_True in Hcb by done. exact Hcb.
Qed.

(** ** The optimizer kernels, element by element *)

(** C2. One launch of [adam_update] replaces, for every index [i] below [N]
    and independently of every other index, [m[i]] by
    [beta1*m[i] + (1-beta1)*g[i]], [v[i]] by [beta2*v[i] + (1-beta2)*g[i]^2],
    and then [w[i]] by
    [w[i] - lr*(m[i]/(1-beta1^(step+1))) / (sqrt(v[i]/(1-beta2^(step+1))) + eps)],
    with the new [m[i]] and [v[i]]. *)
Theorem adam_update_elementwise
    (gridDim blockDim N : nat) (step : Z) (m v w g : list R)
    (beta1 beta2 eps lr : R) (i : nat) :
  (0 < gridDim)%nat → (0 < blockDim)%nat →
  (N ≤ length m)%nat → (N ≤ length v)%nat → (N ≤ length w)%nat →
  (N ≤ length g)%nat →
  (INT_MIN ≤ step < INT_MAX)%Z →
  (i < N)%nat →
  let '(m', v', w') := adam_update gridDim blockDim N step m v w g beta1 beta2 eps lr in
  m' !!! i = beta1 * m !!! i + (1 - beta1) * g !!! i ∧
  v' !!! i = beta2 * v !!! i + (1 - beta2) * (g !!! i) ^ 2 ∧
  w' !!! i = w !!! i
             - lr * (m' !!! i / (1 - powerRZ beta1 (step + 1)))
               / (sqrt (v' !!! i / (1 - powerRZ beta2 (step + 1))) + eps).
Proof.
  intros HG HB Hm Hv Hw _ Hstep Hi.
  pose proof (adam_update_cell gridDim blockDim N step m v w g beta1 beta2 eps lr i
                HG HB Hm Hv Hw) as Hcell.
  destruct (adam_update gridDim blockDim N step m v w g beta1 beta2 eps lr)
    as [[m' v'] w'].
  rewrite decide_True in Hcell by done.
  unfold adam_read, adam_cell in Hcell; simpl in Hcell.
  assert (wrap_int (step + 1) = (step + 1)%Z) as Hwrap.
  { unfold wrap_int, INT_MIN, INT_MAX in *.
    rewrite Z.mod_small by lia. lia. }
  rewrite Hwrap in Hcell.
  injection Hcell as Hm' Hv' Hw'.
  split; [rewrite Hm'; ring|]. split; [rewrite Hv'; ring|].
  rewrite Hw', Hm', Hv'. done.
Qed.

(** C9. With [decay = 1] one launch of [rmsprop_update] leaves the moving
    average as it was and moves every weight below [N] by
    [lr*g/sqrt(eps + m_prev)]. *)
Theorem rmsprop_update_decay_one
    (gridDim blockDim N : nat) (m w g : list R) (eps lr : R) :
  (0 < gridDim)%nat → (0 < blockDim)%nat →
  (N ≤ length m)%nat → (N ≤ length w)%nat → (N ≤ length g)%nat →
  let '(m', w') := rmsprop_update gridDim blockDim N m w g 1 eps lr in
  m' = m ∧
  ∀ i, (i < N)%nat → w' !!! i = w !!! i - lr * g !!! i / sqrt (eps + m !!! i).
Proof.
  intros HG HB Hm Hw _.
  pose proof (rmsprop_update_cell gridDim blockDim N m w g 1 eps lr) as Hcell.
  pose proof (rmsprop_update_length gridDim blockDim N m w g 1 eps lr) as Hlen.
  destruct (rmsprop_update gridDim blockDim N m w g 1 eps lr) as [m' w'].
  simpl in Hlen. destruct Hlen as [Hlm Hlw].
  assert (∀ j, m' !!! j = m !!! j) as Hsame.
  { intros j. specialize (Hcell j HG HB Hm Hw).
    unfold rmsprop_read, rmsprop_cell in Hcell; simpl in Hcell.
    case_decide; injection Hcell as -> _; [ring|done]. }
  split.
  - apply (list_eq_same_length _ _ (length m)); [done..|].
    intros j x y Hj Hx Hy.
    specialize (Hsame j).
    rewrite !list_lookup_total_alt, Hx, Hy in Hsame. done.
  - intros i Hi. specialize (Hcell i HG HB Hm Hw).
    unfold rmsprop_read, rmsprop_cell in Hcell; simpl in Hcell.
    rewrite decide_True in Hcell by done.
    injection Hcell as _ ->.
    replace (m !!! i + (1 - 1) * (g !!! i * g !!! i - m !!! i)) with (m !!! i) by ring.
    done.
Qed.

(** ** The softmax head *)

(** X25. From a layer whose gradient buffer is unallocated or has room for
    the target (the state [Softmax_ready] describes: a new layer, and a
    layer that has only seen batches at least as long), [Softmax::forward]
    on a batch of logits followed by [Softmax::backward] on a target of the
    same shape returns a gradient tensor whose element at every index of the
    target is [(softmax(logits) - target) / batch_size], where
    [softmax(logits)] is the output the forward call left in the layer and
    [batch_size] is the target's N dimension.  The gradient tensor has the
    target's shape when this call allocates it; one kept from an earlier call
    is at least as long. *)
Theorem Softmax_backward_gradient
    (W : World) (L : Layer) (input target : ptr) (x t : Blob) :
  heap W !! input = Some x → heap W !! target = Some t →
  Blob_wf x → Blob_wf t → Blob_shape t = Blob_shape x →
  Softmax_ready W L (Blob_shape x) →
  ∃ L1 L2 prediction grad,
    Softmax_forward input L W = Ok L1 W ∧
    output_ L1 = Some prediction ∧
    (∀ i, (i < Blob_len x)%nat →
          d_ptr_ prediction !!! i = softmax_channel (Blob_shape x) (d_ptr_ x) i) ∧
    Softmax_backward target L1 W = Ok L2 W ∧
    grad_input_ L2 = Some grad ∧
    Blob_wf grad ∧ (Blob_len t ≤ Blob_len grad)%nat ∧
    (grad_input_ L = None → Blob_shape grad = Blob_shape t) ∧
    ∀ i, (i < Blob_len t)%nat →
         d_ptr_ grad !!! i
         = (d_ptr_ prediction !!! i - d_ptr_ t !!! i) / INR (blob_n t).
Proof.
  intros Hx Ht Hwfx Hwft Hshape Hready.
  destruct (Softmax_forward_spec W L input x Hx Hwfx Hready)
    as (L1 & out & Hfwd & Hout & Hwfo & Hso & Hval & Hg1 & Hb1 & Hin1 & _ & _).
  assert (Blob_len (Blob_of_shape (Blob_shape x)) = Blob_len t) as Hlt
    by (apply Blob_len_shape; rewrite Blob_of_shape_shape; congruence).
  destruct (Softmax_backward_spec W L1 target t out (Blob_shape x))
    as (grad & Hbwd & Hwfg & Hlg & Hsg & Hgrad); try done.
  - rewrite Hb1. unfold Blob_shape in Hshape. by injection Hshape.
  - rewrite Hg1, <- Hlt. by destruct Hready as (_ & ? & _).
  - exists L1, (set_grad_input_ (Some grad) L1), out, grad.
    repeat (split; [done|]).
    split; [intros Hnone; rewrite Hshape; apply Hsg; congruence|done].
Qed.

(** C7. On a prediction and a target of equal shape, [Softmax::get_accuracy]
    takes, for each batch element, the argmax over the ten classes of the
    prediction and of the target, and returns the number of batch elements
    on which the two indices agree: an integer count between 0 and the batch
    size, not a rate. *)
Theorem Softmax_get_accuracy_hit_count
    (W : World) (L : Layer) (target : ptr) (prediction t : Blob) :
  output_ L = Some prediction → heap W !! target = Some t →
  Blob_wf prediction → Blob_wf t →
  Blob_shape t = Blob_shape prediction →
  (10 ≤ Blob_size prediction)%nat →
  ∃ (hit_count : Z) (L' : Layer) (W' : World) (class_p class_t : nat → nat),
    Softmax_get_accuracy target L W = Ok (hit_count, L') W' ∧
    (∀ b, (b < blob_n prediction)%nat →
       is_argmax (d_ptr_ prediction) (b * Blob_size prediction) 10 (class_p b) ∧
       is_argmax (d_ptr_ t) (b * Blob_size prediction) 10 (class_t b)) ∧
    hit_count = matches (blob_n prediction) class_p class_t ∧
    (0 ≤ hit_count ≤ Z.of_nat (blob_n prediction))%Z.
Proof.
  intros Hout Ht _ _ Hshape _.
  assert (blob_n t = blob_n prediction ∧ Blob_size t = Blob_size prediction)
    as [Hn Hsize].
  { unfold Blob_shape in Hshape. injection Hshape as Hn Hc Hh Hw.
    unfold Blob_size. by rewrite Hn, Hc, Hh, Hw. }
  set (class_p := λ b, argmax10 (d_ptr_ prediction) (b * Blob_size prediction)).
  set (class_t := λ b, argmax10 (d_ptr_ t) (b * Blob_size prediction)).
  exists (matches (blob_n prediction) class_p class_t),
         (set_output_ (Some (Blob_to host prediction)) L),
         (set_heap (<[target := Blob_to host t]> (heap W)) W),
         class_p, class_t.
  split; [|split; [|split; [done|]]].
  - unfold Softmax_get_accuracy.
    erewrite bind_Ok by (unfold deref; rewrite Hout; reflexivity).
    erewrite bind_Ok by (unfold load; rewrite Ht; reflexivity).
    erewrite bind_Ok by (unfold assert; rewrite Hn, Nat.eqb_refl; reflexivity).
    erewrite bind_Ok by (unfold assert; rewrite Hsize, Nat.eqb_refl; reflexivity).
    erewrite bind_Ok by reflexivity.
    unfold ret. rewrite count_hits_matches. reflexivity.
  - intros b _. split; apply argmax10_is_argmax.
  - unfold matches. split; [lia|].
    apply Nat2Z.inj_le.
    etrans; [apply length_filter|]. by rewrite length_seq.
Qed.

(** ** Parameter initialisation *)

(** The weight written at index [i] is the draw made after [i] earlier
    draws. *)
Lemma draws_lookup lo hi gen n i :
  (i < n)%nat →
  (draws lo hi gen n).1 !!! i
  = (uniform_real_distribution lo hi (draws lo hi gen i).2).1.
Proof.
  revert gen i. induction n as [|n IH]; intros gen i Hi; [lia|].
  simpl. destruct (uniform_real_distribution lo hi gen) as [x gen1] eqn:Hx.
  destruct i as [|i].
  - destruct (draws lo hi gen1 n) as [xs gen2]. simpl. by rewrite Hx.
  - specialize (IH gen1 i ltac:(lia)). simpl. rewrite Hx.
    destruct (draws lo hi gen1 n) as [xs gen2].
    destruct (draws lo hi gen1 i) as [ys gen3]. simpl in *. exact IH.
Qed.

(** C6. On an unfrozen layer without pretrained-load the materialisation
    step is [init_weight_bias], and [init_weight_bias] fills the weights
    with the successive draws of [uniform_real_distribution(-range, range)]
    on the engine it has seeded: weight [i] is the draw made after [i]
    earlier draws, with [range = sqrt(6 / fan_in)] and [fan_in] the size of
    one input item.  By the contract of the distribution every weight lies
    in [[-range, range]].  Every bias and every element of the four
    optimizer accumulators is set to 0.  The values are on the host and on
    the device. *)
Theorem init_weight_bias_values
    (W : World) (L : Layer) (seed : Z) (w b wm wv bm bv : Blob)
    (p : ptr) (input : Blob) :
  uniform_in_range →
  materialised W L w b wm wv bm bv p input →
  (0 < Blob_size input)%nat →
  let range := sqrt (6 / INR (Blob_size input)) in
  let zero (b : Blob) := with_values (replicate (Blob_len b) 0) b in
  let gen := mt19937 (engine_seed seed W) in
  (freeze_ L = false → load_pretrain_ L = false →
   materialize_parameters L W = init_weight_bias default_seed L W) ∧
  ∃ L' W' values,
    init_weight_bias seed L W = Ok L' W' ∧
    weights_ L' = Some (with_values values w) ∧
    values = (draws (- range) range gen (Blob_len w)).1 ∧
    length values = Blob_len w ∧
    (∀ i, (i < Blob_len w)%nat →
       values !!! i
       = (uniform_real_distribution (- range) range
            (draws (- range) range gen i).2).1 ∧
       - range <= values !!! i <= range) ∧
    biases_ L' = Some (zero b) ∧
    weights_m_ L' = Some (zero wm) ∧ weights_v_ L' = Some (zero wv) ∧
    biases_m_ L' = Some (zero bm) ∧ biases_v_ L' = Some (zero bv).
Proof.
  intros Hdis Hmat Hsize range zero gen. split.
  - intros Hfreeze Hload. unfold materialize_parameters. by rewrite Hfreeze, Hload.
  - rewrite (init_weight_bias_run W L seed w b wm wv bm bv p input Hmat).
    eexists _, _, _. split; [reflexivity|]. simpl.
    split; [reflexivity|].
    unfold initial_weights. fold range gen.
    split; [reflexivity|].
    split; [apply draws_length|].
    split; [|done].
    intros i Hi. split; [by apply draws_lookup|].
    assert (0 < range) as Hrange.
    { subst range. apply sqrt_lt_R0. apply Rdiv_lt_0_compat; [lra|].
      apply lt_0_INR. lia. }
    rewrite draws_lookup by done.
    destruct (Hdis (- range) range (draws (- range) range gen i).2); lra.
Qed.

(** C10. A nonzero seed fixes the weights: two layers whose weight blobs
    have the same number of elements and whose inputs have the same feature
    size receive identical weights from [init_weight_bias(seed)], namely the
    stream of the engine seeded with [seed].  With seed 0 the engine is
    seeded with the next value of the hardware random device instead, so
    the weights are the stream of that value and depend on it. *)
Theorem init_weight_bias_seed
    (W1 W2 : World) (L1 L2 : Layer) (seed : Z)
    (w1 b1 wm1 wv1 bm1 bv1 w2 b2 wm2 wv2 bm2 bv2 : Blob)
    (p1 p2 : ptr) (input1 input2 : Blob) :
  materialised W1 L1 w1 b1 wm1 wv1 bm1 bv1 p1 input1 →
  materialised W2 L2 w2 b2 wm2 wv2 bm2 bv2 p2 input2 →
  Blob_len w1 = Blob_len w2 →
  Blob_size input1 = Blob_size input2 →
  (seed ≠ 0%Z →
   ∃ L1' W1' L2' W2' values,
     init_weight_bias seed L1 W1 = Ok L1' W1' ∧
     init_weight_bias seed L2 W2 = Ok L2' W2' ∧
     weights_ L1' = Some (with_values values w1) ∧
     weights_ L2' = Some (with_values values w2) ∧
     values = initial_weights seed (Blob_size input1) (Blob_len w1) ∧
     rd_calls W1' = rd_calls W1 ∧ rd_calls W2' = rd_calls W2) ∧
  (∃ L1' W1',
     init_weight_bias 0 L1 W1 = Ok L1' W1' ∧
     weights_ L1' =
       Some (with_values
               (initial_weights (random_device W1 (rd_calls W1))
                  (Blob_size input1) (Blob_len w1)) w1) ∧
     rd_calls W1' = S (rd_calls W1)).
Proof.
  intros Hm1 Hm2 Hlen Hsize. split.
  - intros Hseed.
    rewrite (init_weight_bias_run W1 L1 seed _ _ _ _ _ _ _ _ Hm1).
    rewrite (init_weight_bias_run W2 L2 seed _ _ _ _ _ _ _ _ Hm2).
    unfold engine_seed, after_init. rewrite !decide_False by done.
    eexists _, _, _, _, _. split; [reflexivity|]. split; [reflexivity|].
    simpl. rewrite <- Hlen, <- Hsize. done.
  - rewrite (init_weight_bias_run W1 L1 0 _ _ _ _ _ _ _ _ Hm1).
    unfold engine_seed, after_init. rewrite !decide_True by done.
    eexists _, _. split; [reflexivity|]. done.
Qed.

(** ** The optimizer updates of a layer *)

(** One RMSProp update of a layer that owns weights and biases with
    gradients launches the kernel twice on the weight blobs: the weights and
    their accumulator receive the rule twice, the biases and their
    accumulator are returned as they were. *)
Lemma update_weights_biases_with_rmsprop_weights_twice
    (W : World) (L : Layer) (lr decay eps : R) (w wm gw b gb : Blob) :
  (0 < BLOCK_DIM)%nat → (0 < BLOCK_DIM_1D)%nat →
  weights_ L = Some w → weights_m_ L = Some wm → grad_weights_ L = Some gw →
  biases_ L = Some b → grad_biases_ L = Some gb →
  Blob_wf w → Blob_wf wm → Blob_len wm = Blob_len w →
  ∃ L' w' wm',
    update_weights_biases_with_rmsprop lr decay eps L W = Ok L' W ∧
    biases_ L' = Some b ∧ biases_m_ L' = biases_m_ L ∧
    weights_ L' = Some w' ∧ weights_m_ L' = Some wm' ∧
    ∀ i, (i < Blob_len w)%nat →
         (d_ptr_ wm' !!! i, d_ptr_ w' !!! i)
         = rmsprop_cell decay eps lr (d_ptr_ gw !!! i)
             (rmsprop_cell decay eps lr (d_ptr_ gw !!! i)
                (d_ptr_ wm !!! i, d_ptr_ w !!! i)).
Proof.
  intros HB HB1 Hw Hwm Hgw Hb Hgb Fw Fwm Hlen.
  destruct (rmsprop_launch_on_weights_run lr decay eps L W w wm gw)
    as (w1 & wm1 & Hrun1 & Fw1 & Fwm1 & Hl1 & Hlm1 & Hcell1); try done.
  set (L1 := set_weights_ (Some w1) (set_weights_m_ (Some wm1) L)) in *.
  destruct (rmsprop_launch_on_weights_run lr decay eps L1 W w1 wm1 gw)
    as (w2 & wm2 & Hrun2 & Fw2 & Fwm2 & Hl2 & Hlm2 & Hcell2); try done.
  { congruence. }
  exists (set_weights_ (Some w2) (set_weights_m_ (Some wm2) L1)), w2, wm2.
  split.
  - unfold update_weights_biases_with_rmsprop. rewrite Hw, Hgw.
    erewrite bind_Ok by exact Hrun1.
    replace (biases_ L1) with (Some b) by done.
    replace (grad_biases_ L1) with (Some gb) by done.
    exact Hrun2.
  - simpl. repeat (split; [done|]).
    intros i Hi. rewrite Hcell2 by lia. rewrite Hcell1 by lia. done.
Qed.

(** The parameters a frozen layer has after a [forward] call are those of
    the rebound layer: the materialisation step did nothing. *)
Lemma frozen_forward_parameters {T} (base : T → Layer) (forward : ptr → T → M T)
    W (L : T) input x inputs rebound W0 :
  forward_materialises base forward W L input x inputs rebound W0 →
  freeze_ (base L) = true →
  ∃ L', forward input L W = Ok L' (if rebind_needed (base L) x then W0 else W) ∧
        parameters (base L')
        = (if rebind_needed (base L) x then parameters rebound
           else parameters (base L)).
Proof.
  intros (Hcall & _ & (Hfr & _) & _) Hfrozen.
  destruct (rebind_needed (base L) x).
  - rewrite materialize_parameters_frozen in Hcall by congruence.
    by apply Result_map_Ok in Hcall.
  - by apply Result_map_Ok in Hcall.
Qed.

(** C5, as the code has it.  On a frozen [Linear], [Conv2D] or
    [FusedBatchNormalization] layer, new or left by earlier calls, the
    materialisation step that [forward] runs does nothing: the call
    returns with the parameter blobs the layer had, or, on the first call,
    with the blobs it has just allocated, which nothing has written.  The
    three update methods do not look at the freeze flag, and the plain
    update moves every weight of a frozen layer by [lr * gradient]. *)
Theorem frozen_forward_keeps_parameters_updates_ignore_freeze
    (W : World) (L : Linear) (C : Conv2D) (F : FusedBatchNormalization)
    (input : ptr) (x : Blob) :
  heap W !! input = Some x →
  Layer_fresh (linear_base L) ∨ Linear_ready W L →
  Layer_fresh (conv_base C) ∨ Conv2D_ready W C →
  Layer_fresh (bn_base F) ∨ FusedBatchNormalization_ready W F →
  freeze_ (linear_base L) = true → freeze_ (conv_base C) = true →
  freeze_ (bn_base F) = true →
  (* forward on the three layer classes *)
  (∃ L', Linear_forward input L W = Ok L' W ∧
         parameters (linear_base L')
         = parameters (linear_base (Linear_allocate_parameters x L))) ∧
  (∃ C', Conv2D_forward input C W
         = Ok C' (if rebind_needed (conv_base C) x
                  then after_set_workspace (name_ (conv_base C)) W else W) ∧
         parameters (conv_base C')
         = parameters (conv_base (Conv2D_allocate_parameters x C))) ∧
  (∃ F', FusedBatchNormalization_forward input F W = Ok F' W ∧
         parameters (bn_base F')
         = parameters (bn_base (FusedBatchNormalization_allocate_parameters x F))) ∧
  (* allocation leaves a layer that has its blobs as it is *)
  (∀ (x : Blob) (L : Linear) (C : Conv2D) (F : FusedBatchNormalization),
     (weights_ (linear_base L) ≠ None → Linear_allocate_parameters x L = L) ∧
     (weights_ (conv_base C) ≠ None → Conv2D_allocate_parameters x C = C) ∧
     (weights_ (bn_base F) ≠ None →
      FusedBatchNormalization_allocate_parameters x F = F)) ∧
  (* the materialisation step by itself, on any frozen layer *)
  (∀ (B : Layer) (W : World),
     freeze_ B = true → materialize_parameters B W = Ok B W) ∧
  (* the update methods *)
  (∀ (B : Layer) (f : bool) (lr beta1 beta2 decay eps : R) (step : Z),
     update_weights_biases lr (set_freeze_ f B)
     = set_freeze_ f (update_weights_biases lr B) ∧
     update_weights_biases_with_adam lr beta1 beta2 eps step (set_freeze_ f B) W
     = Result_map (set_freeze_ f)
         (update_weights_biases_with_adam lr beta1 beta2 eps step B W) ∧
     update_weights_biases_with_rmsprop lr decay eps (set_freeze_ f B) W
     = Result_map (set_freeze_ f)
         (update_weights_biases_with_rmsprop lr decay eps B W)) ∧
  (∀ (B : Layer) (lr : R) (w gw : Blob),
     freeze_ B = true →
     weights_ B = Some w → grad_weights_ B = Some gw → Blob_wf w →
     ∃ w', weights_ (update_weights_biases lr B) = Some w' ∧
           ∀ i, (i < Blob_len w)%nat →
                d_ptr_ w' !!! i = d_ptr_ w !!! i - lr * d_ptr_ gw !!! i).
Proof.
  intros Hx HL HC HF HfrL HfrC HfrF.
  assert (∀ p : ptr, p ∈ @nil ptr →
                     ∃ x', heap W !! p = Some x' ∧ blob_n x' = blob_n x) as Hnone
    by (intros p Hp; by apply elem_of_nil in Hp).
  split_and!.
  - destruct (frozen_forward_parameters linear_base Linear_forward W L input x [] _ _
                (Linear_forward_materialises W L input x [] Hx Hnone HL) HfrL)
      as (L' & Hfwd & Hpar).
    exists L'. split; [by destruct (rebind_needed (linear_base L) x)|].
    rewrite Hpar. destruct (rebind_needed (linear_base L) x) eqn:Hre; [done|].
    destruct HL as [(_ & Hin & _)|[Hready _]].
    + unfold rebind_needed in Hre. by rewrite Hin in Hre.
    + destruct Hready as (w & ? & ? & ? & ? & ? & ? & ? & ? & (Hw & _) & _).
      by rewrite (Linear_allocate_parameters_keeps x L w Hw).
  - assert (∃ wd, filter_desc_ (Conv2D_allocate_parameters x C) = Some wd)
      as (wd & Hwd).
    { destruct HC as [(Hw & _ & _)|[Hready Hdesc]].
      - destruct (Conv2D_allocate_parameters_fresh x C Hw) as (_ & Hwd & _).
        by eexists.
      - destruct Hready as (w & ? & ? & ? & ? & ? & ? & ? & ? & (Hw & _) & _).
        destruct Hdesc as (? & ? & wd & ? & _ & _ & Hwd & _).
        rewrite (Conv2D_allocate_parameters_keeps x C w Hw). by exists wd. }
    destruct (frozen_forward_parameters conv_base Conv2D_forward W C input x [] _ _
                (Conv2D_forward_materialises W C input x [] wd Hx Hnone HC Hwd) HfrC)
      as (C' & Hfwd & Hpar).
    exists C'. split; [exact Hfwd|].
    rewrite Hpar. destruct (rebind_needed (conv_base C) x) eqn:Hre; [done|].
    destruct HC as [(_ & Hin & _)|[Hready _]].
    + unfold rebind_needed in Hre. by rewrite Hin in Hre.
    + destruct Hready as (w & ? & ? & ? & ? & ? & ? & ? & ? & (Hw & _) & _).
      by rewrite (Conv2D_allocate_parameters_keeps x C w Hw).
  - destruct (frozen_forward_parameters bn_base FusedBatchNormalization_forward
                W F input x [] _ _
                (FusedBatchNormalization_forward_materialises W F input x [] Hx Hnone HF)
                HfrF)
      as (F' & Hfwd & Hpar).
    exists F'. split; [by destruct (rebind_needed (bn_base F) x)|].
    rewrite Hpar. destruct (rebind_needed (bn_base F) x) eqn:Hre; [done|].
    destruct HF as [(_ & Hin & _)|[Hready _]].
    + unfold rebind_needed in Hre. by rewrite Hin in Hre.
    + destruct Hready as (w & ? & ? & ? & ? & ? & ? & ? & ? & (Hw & _) & _).
      by rewrite (FusedBatchNormalization_allocate_parameters_keeps x F w Hw).
  - intros x0 L0 C0 F0. split_and!.
    + intros Hw. destruct (weights_ (linear_base L0)) as [w|] eqn:Hw'; [|done].
      by apply (Linear_allocate_parameters_keeps x0 L0 w).
    + intros Hw. destruct (weights_ (conv_base C0)) as [w|] eqn:Hw'; [|done].
      by apply (Conv2D_allocate_parameters_keeps x0 C0 w).
    + intros Hw. destruct (weights_ (bn_base F0)) as [w|] eqn:Hw'; [|done].
      by apply (FusedBatchNormalization_allocate_parameters_keeps x0 F0 w).
  - intros B W0 Hfr. by apply materialize_parameters_frozen.
  - intros B f lr beta1 beta2 decay eps step. split_and!.
    + apply update_weights_biases_ignores_freeze.
    + apply update_weights_biases_with_adam_ignores_freeze.
    + apply update_weights_biases_with_rmsprop_ignores_freeze.
  - intros B lr w gw _ Hw Hgw Fw.
    destruct (update_weights_biases_weights lr B w gw Hw Hgw Fw) as (w' & Hw' & _ & Hval).
    by exists w'.
Qed.

(** ** Failures of parameter files *)

(** C8. When [forward] has to materialise the parameters of an unfrozen
    layer with pretrained-load set and the load fails, the process leaves
    through [exit(-1)]; the same failing [load_parameter], called by itself,
    returns a nonzero status, and so does a failing [save_parameter]: both
    return to the caller. *)
Theorem pretrained_load_failure_exits_explicit_failure_returns
    (W : World) (L : Linear) (input : ptr) (x w b : Blob) :
  heap W !! input = Some x →
  rebind_needed (linear_base L) x = true →
  load_pretrain_ (linear_base L) = true → freeze_ (linear_base L) = false →
  let B := linear_base (Linear_allocate_parameters x L) in
  weights_ B = Some w → biases_ B = Some b →
  load_fails W B →
  Linear_forward input L W
  = Exit (-1) (set_stdout (stdout W ++ ["error occurred.."]) W) ∧
  materialize_parameters B W
  = Exit (-1) (set_stdout (stdout W ++ ["error occurred.."]) W) ∧
  (∃ st B', load_parameter B W = Ok (st, B') W ∧ st ≠ 0%Z) ∧
  (∀ B0 : Layer,
     ∃ st W', save_parameter B0 W = Ok st W' ∧ (save_fails W B0 → st ≠ 0%Z)).
Proof.
  intros Hx Hre Hld Hfr B Hw Hb Hfail.
  pose proof (Linear_allocate_parameters_frame x L) as Hframe.
  simpl in Hframe. fold B in Hframe.
  destruct Hframe as (Hi0 & Hb0 & Ho0 & Hf0 & Hl0 & Hn0 & Hs0).
  split_and!.
  - unfold Linear_forward.
    erewrite bind_Ok by (unfold load; rewrite Hx; reflexivity).
    erewrite bind_Exit; [reflexivity|].
    rewrite Linear_rebind_run
      by (unfold rebind_needed in *; fold B; by rewrite Hi0, Hb0).
    erewrite bind_Exit; [reflexivity|].
    eapply (materialize_parameters_exit W _ w b); try done.
    + unfold Linear_bound_base; simpl. fold B. congruence.
    + unfold Linear_bound_base; simpl. fold B. congruence.
  - eapply (materialize_parameters_exit W B w b); congruence.
  - destruct (load_parameter_fails W B w b Hw Hb Hfail) as (st & B' & Hload & Hst).
    exists st, B'. split; [done|]. by destruct Hst as [-> | ->].
  - intros B0. destruct (save_parameter_returns W B0) as (st & W' & Hsave & _ & Hst).
    by exists st, W'.
Qed.

(** ** Parameter materialisation across [forward] calls *)

(** C3, as the code has it.  For a [Linear], a [Conv2D] and a
    [FusedBatchNormalization] layer, new or left by earlier calls:
    [forward] allocates the six parameter blobs when the layer has none and
    keeps them afterwards; when it rebinds the layer (on the first call and
    whenever the batch size of the input differs from the bound one) it
    sizes the output buffer for the batch and runs the materialisation step,
    and the parameters and the world it leaves, or its failure, are those
    of that step; at the bound batch size it leaves parameters and world as
    they are, however many calls follow; it never touches a gradient blob.
    The step itself goes by the flags: nothing on a frozen layer, a fresh
    initialisation on an unfrozen layer without pretrained-load (new
    weights, biases and accumulators 0), and on an unfrozen layer with
    pretrained-load weights and biases read from the two parameter files. *)
Theorem forward_materialisation
    (W : World) (L : Linear) (C : Conv2D) (F : FusedBatchNormalization)
    (input : ptr) (x : Blob) (inputs : list ptr) :
  heap W !! input = Some x →
  (∀ p, p ∈ inputs → ∃ x', heap W !! p = Some x' ∧ blob_n x' = blob_n x) →
  Layer_fresh (linear_base L) ∨ Linear_ready W L →
  Layer_fresh (conv_base C) ∨ Conv2D_ready W C →
  Layer_fresh (bn_base F) ∨ FusedBatchNormalization_ready W F →
  (* the three layer classes *)
  forward_materialises linear_base Linear_forward W L input x inputs
    (Linear_bound_base input x (Linear_allocate_parameters x L)) W ∧
  (∃ wd,
     filter_desc_ (Conv2D_allocate_parameters x C) = Some wd ∧
     forward_materialises conv_base Conv2D_forward W C input x inputs
       (Conv2D_bound_base input x wd (Conv2D_allocate_parameters x C))
       (after_set_workspace (name_ (conv_base C)) W)) ∧
  forward_materialises bn_base FusedBatchNormalization_forward W F input x inputs
    (FusedBatchNormalization_bound_base input x
       (FusedBatchNormalization_allocate_parameters x F)) W ∧
  (* the materialisation step, by the flags *)
  (∀ (B : Layer) (W : World),
     freeze_ B = true → materialize_parameters B W = Ok B W) ∧
  (∀ (B : Layer) (W : World) (w b wm wv bm bv : Blob) (p : ptr) (xin : Blob),
     freeze_ B = false → load_pretrain_ B = false →
     materialised W B w b wm wv bm bv p xin →
     materialize_parameters B W
     = Ok (initialised (engine_seed default_seed W) B w b wm wv bm bv xin)
          (after_init default_seed B W)) ∧
  (∀ (B : Layer) (W : World) (w b : Blob) (dw db : list R),
     freeze_ B = false → load_pretrain_ B = true →
     weights_ B = Some w → biases_ B = Some b →
     files W !! (name_ B +:+ ".bin") = Some dw → length dw = Blob_len w →
     files W !! (name_ B +:+ ".bias.bin") = Some db → length db = Blob_len b →
     materialize_parameters B W
     = Ok (loaded B w b dw db) (set_stdout (stdout W ++ [loaded_line B]) W)).
Proof.
  intros Hx Hall HL HC HF. split_and!.
  - by apply Linear_forward_materialises.
  - assert (∃ wd, filter_desc_ (Conv2D_allocate_parameters x C) = Some wd)
      as (wd & Hwd).
    { destruct HC as [(Hw & _ & _)|[Hready Hdesc]].
      - destruct (Conv2D_allocate_parameters_fresh x C Hw) as (_ & Hwd & _).
        by eexists.
      - destruct Hready as (w & ? & ? & ? & ? & ? & ? & ? & ? & (Hw & _) & _).
        destruct Hdesc as (? & ? & wd & ? & _ & _ & Hwd & _).
        rewrite (Conv2D_allocate_parameters_keeps x C w Hw). by exists wd. }
    exists wd. split; [exact Hwd|]. by apply Conv2D_forward_materialises.
  - by apply FusedBatchNormalization_forward_materialises.
  - intros B W0 Hfr. by apply materialize_parameters_frozen.
  - intros B W0 w b wm wv bm bv p xin Hfr Hld Hmat.
    rewrite materialize_parameters_fresh by done.
    exact (init_weight_bias_run W0 B default_seed w b wm wv bm bv p xin Hmat).
  - intros B W0 w b dw db Hfr Hld Hw Hb Hfw Hlw Hfb Hlb.
    by apply materialize_parameters_loads.
Qed.

(** * The rest of [layer.cu] *)

(** ** Helper facts *)

Lemma wrap_int_small z : (INT_MIN ≤ z ≤ INT_MAX)%Z → wrap_int z = z.
Proof.
  unfold wrap_int, INT_MIN, INT_MAX. intros Hz.
  rewrite Z.mod_small by lia. lia.
Qed.

Lemma foldl_ext_in {A B} (f g : A → B → A) (l : list B) (a : A) :
  (∀ a x, x ∈ l → f a x = g a x) → foldl f a l = foldl g a l.
Proof.
  revert a. induction l as [|x l IH]; intros a Hfg; simpl; [done|].
  rewrite Hfg by (by left). apply IH. intros a' y Hy. apply Hfg. by right.
Qed.

Lemma list_eq_lookup_total (l1 l2 : list R) :
  length l1 = length l2 → (∀ i, l1 !!! i = l2 !!! i) → l1 = l2.
Proof.
  intros Hlen Hsame. apply (list_eq_same_length _ _ (length l2)); [done..|].
  intros i x y Hi Hx Hy. specialize (Hsame i).
  rewrite !list_lookup_total_alt, Hx, Hy in Hsame. done.
Qed.

(** A launch in which thread [(b, t)] handles the single index
    [b * blockDim + t] goes through the indices below [gridDim * blockDim]
    in ascending order. *)
Lemma foldl_blocks_threads {St} (body : nat → St → St) (gridDim blockDim : nat) (s : St) :
  foldl (λ s b, foldl (λ s t, body (b * blockDim + t)%nat s) s (seq 0 blockDim))
        s (seq 0 gridDim)
  = run_indices body (seq 0 (gridDim * blockDim)) s.
Proof.
  induction gridDim as [|g IH]; [done|].
  rewrite seq_S, foldl_app, IH. simpl foldl.
  replace (S g * blockDim)%nat with (g * blockDim + blockDim)%nat by lia.
  rewrite seq_app, run_indices_app. simpl.
  generalize (run_indices body (seq 0 (g * blockDim)) s). intros s'.
  replace (seq (g * blockDim) blockDim)
    with (Nat.add (g * blockDim) <$> seq 0 blockDim)
    by (rewrite fmap_add_seq; f_equal; lia).
  unfold run_indices. rewrite foldl_fmap. done.
Qed.

(** ** The grid-stride loop *)

Lemma CUDA_1D_KERNEL_LOOP_kernel_loop {St : Type} (body : nat → St → St)
    fuel n stride i s :
  (0 ≤ i)%Z → (0 ≤ stride)%Z → (0 ≤ n)%Z → (n + stride < 2 ^ 64)%Z →
  CUDA_1D_KERNEL_LOOP body fuel n stride i s
  = kernel_loop body fuel (Z.to_nat n) (Z.to_nat stride) (Z.to_nat i) s.
Proof.
  intros Hi Hstride Hn Hmax. revert i s Hi.
  assert (wrap_size_t n = n) as Hwrap
    by (unfold wrap_size_t; apply Z.mod_small; lia).
  induction fuel as [|fuel IH]; intros i s Hi; simpl; [done|].
  rewrite Hwrap.
  destruct (Z.ltb_spec i n) as [Hlt|Hge].
  - assert ((Z.to_nat i <? Z.to_nat n)%nat = true) as ->
      by (apply Nat.ltb_lt; lia).
    unfold wrap_size_t. rewrite Z.mod_small by lia.
    rewrite IH by lia. f_equal. lia.
  - assert ((Z.to_nat i <? Z.to_nat n)%nat = false) as ->
      by (apply Nat.ltb_ge; lia).
    done.
Qed.

Lemma launch_device_launch {St : Type} (body : nat → St → St)
    gridDim blockDim n s :
  (Z.of_nat (gridDim * blockDim) < 2 ^ 32)%Z → (Z.of_nat n ≤ INT_MAX)%Z →
  launch_device body gridDim blockDim (Z.of_nat n) s
  = launch body gridDim blockDim n s.
Proof.
  intros Hthreads Hn. unfold launch_device, launch.
  apply foldl_ext_in. intros s1 blk [_ Hblk]%elem_of_seq.
  apply foldl_ext_in. intros s2 t [_ Ht]%elem_of_seq. simpl in *.
  assert (blk * blockDim + t < gridDim * blockDim)%nat as Htid by nia.
  cbv zeta. unfold wrap_unsigned.
  rewrite !Z.mod_small by nia.
  assert (wrap_size_t (Z.of_nat n) = Z.of_nat n) as ->
    by (unfold wrap_size_t, INT_MAX in *; apply Z.mod_small; lia).
  rewrite CUDA_1D_KERNEL_LOOP_kernel_loop by (unfold INT_MAX in *; nia).
  unfold thread_run. rewrite !Nat2Z.id. f_equal; lia.
Qed.

(** X1. A launch with at least one block of 1 to 1024 threads, fewer than
    2^32 threads in all and a count [n] that fits [int] runs the loop body
    once for every index below [n] and for no other index: the device loop,
    with its [unsigned int] products and its [size_t] index, is the loop
    over the natural numbers, and the indices the threads visit, taken in
    launch order, are a rearrangement of [0, ..., n-1]. *)
Theorem launch_visits_each_index_once (gridDim blockDim n : nat) :
  (0 < gridDim)%nat → (0 < blockDim ≤ 1024)%nat →
  (Z.of_nat gridDim ≤ INT_MAX)%Z →
  (Z.of_nat (gridDim * blockDim) < 2 ^ 32)%Z →
  (Z.of_nat n ≤ INT_MAX)%Z →
  schedule gridDim blockDim n ≡ₚ seq 0 n ∧
  ∀ (St : Type) (body : nat → St → St) (s : St),
    launch_device body gridDim blockDim (Z.of_nat n) s
    = launch body gridDim blockDim n s ∧
    launch body gridDim blockDim n s
    = run_indices body (schedule gridDim blockDim n) s.
Proof.
  intros HG [HB _] _ Hthreads Hn. split.
  - apply NoDup_Permutation; [apply schedule_NoDup|apply NoDup_seq|].
    intros j. rewrite schedule_elem by done. rewrite elem_of_seq. lia.
  - intros St body s. split; [by apply launch_device_launch|apply launch_schedule].
Qed.

(** ** The [add] kernel *)

Lemma add_loop_kernel_loop fuel a b size step i c :
  (0 ≤ i)%Z → (0 < step)%Z → (size + step ≤ INT_MAX)%Z →
  add_loop fuel a b size step i c
  = kernel_loop (λ k c, <[k := a !!! k + b !!! k]> c)
      fuel (Z.to_nat size) (Z.to_nat step) (Z.to_nat i) c.
Proof.
  intros Hi Hstep Hmax. revert i c Hi.
  induction fuel as [|fuel IH]; intros i c Hi; simpl; [done|].
  destruct (Z.ltb_spec i size) as [Hlt|Hge].
  - assert ((Z.to_nat i <? Z.to_nat size)%nat = true) as ->
      by (apply Nat.ltb_lt; lia).
    rewrite wrap_int_small by (unfold INT_MIN, INT_MAX in *; lia).
    rewrite IH by lia. unfold add_body.
    assert ((0 <=? i)%Z = true) as -> by (apply Z.leb_le; lia).
    f_equal. lia.
  - assert ((Z.to_nat i <? Z.to_nat size)%nat = false) as ->
      by (apply Nat.ltb_ge; lia).
    done.
Qed.

Lemma add_launch gridDim blockDim a b c size :
  (0 < gridDim)%nat → (0 < blockDim)%nat →
  (Z.of_nat (gridDim * blockDim) ≤ INT_MAX)%Z →
  (size + Z.of_nat (gridDim * blockDim) ≤ INT_MAX)%Z →
  add gridDim blockDim a b c size
  = launch (λ k c, <[k := a !!! k + b !!! k]> c) gridDim blockDim (Z.to_nat size) c.
Proof.
  intros HG HB Hthreads Hmax. unfold add, launch.
  apply foldl_ext_in. intros c1 blk [_ Hblk]%elem_of_seq.
  apply foldl_ext_in. intros c2 t [_ Ht]%elem_of_seq. simpl in *.
  assert (blk * blockDim + t < gridDim * blockDim)%nat as Htid by nia.
  cbv zeta.
  rewrite !wrap_int_small by (unfold INT_MIN, INT_MAX in *; lia).
  rewrite add_loop_kernel_loop by lia.
  unfold thread_run. rewrite !Nat2Z.id. done.
Qed.

(** X2. [add] stores [array_a[i] + array_b[i]] in [array_c[i]] for every
    index below [size] and leaves the rest of [array_c] alone; with
    [size <= 0] nothing is written.  The thread count and [size] plus the
    thread count have to fit [int], which the loop variable is. *)
Theorem add_elementwise
    (gridDim blockDim : nat) (array_a array_b array_c : list R) (size : Z) :
  (0 < gridDim)%nat → (0 < blockDim)%nat →
  (Z.of_nat (gridDim * blockDim) ≤ INT_MAX)%Z →
  (size + Z.of_nat (gridDim * blockDim) ≤ INT_MAX)%Z →
  (size ≤ Z.of_nat (length array_a))%Z → (size ≤ Z.of_nat (length array_b))%Z →
  (size ≤ Z.of_nat (length array_c))%Z →
  let array_c' := add gridDim blockDim array_a array_b array_c size in
  length array_c' = length array_c ∧
  ∀ i : nat,
    array_c' !!! i
    = if decide (Z.of_nat i < size)%Z
      then array_a !!! i + array_b !!! i
      else array_c !!! i.
Proof.
  intros HG HB Hthreads Hmax _ _ Hsize. cbv zeta.
  rewrite add_launch by done. split.
  - apply (launch_preserves _ (λ c : list R, length c = length array_c)); [|done].
    intros i c Hc. by rewrite length_insert.
  - intros i.
    rewrite (launch_pointwise _ (λ (c : list R) k, c !!! k)
               (λ k _, array_a !!! k + array_b !!! k)
               (λ k (c : list R), (k < length c)%nat)); try done.
    + destruct (decide (i < Z.to_nat size)%nat);
        [rewrite decide_True by lia|rewrite decide_False by lia]; done.
    + intros k j c Hj. by rewrite length_insert.
    + intros k c Hk. by apply list_lookup_total_insert_eq.
    + intros k j c Hne. by apply list_lookup_total_insert_ne.
    + intros k Hk. lia.
Qed.

(** ** The optimizer kernels: the general rule and the frame *)

(** X3. One launch of [rmsprop_update] replaces, for every index below [N],
    the moving average [m[i]] by [m[i] + (1-decay)*(g[i]^2 - m[i])] and then
    the weight [w[i]] by [w[i] - lr*g[i]/sqrt(eps_hat + m[i])] with the new
    [m[i]]; cells at or beyond [N] and the lengths of both arrays stay. *)
Theorem rmsprop_update_elementwise
    (gridDim blockDim N : nat) (m w g : list R) (decay eps_hat lr : R) :
  (0 < gridDim)%nat → (0 < blockDim)%nat →
  (N ≤ length m)%nat → (N ≤ length w)%nat → (N ≤ length g)%nat →
  let '(m', w') := rmsprop_update gridDim blockDim N m w g decay eps_hat lr in
  length m' = length m ∧ length w' = length w ∧
  (∀ i, (i < N)%nat →
     m' !!! i = m !!! i + (1 - decay) * (g !!! i * g !!! i - m !!! i) ∧
     w' !!! i = w !!! i - lr * g !!! i / sqrt (eps_hat + m' !!! i)) ∧
  (∀ i, (N ≤ i)%nat → m' !!! i = m !!! i ∧ w' !!! i = w !!! i).
Proof.
  intros HG HB Hm Hw _.
  pose proof (rmsprop_update_cell gridDim blockDim N m w g decay eps_hat lr) as Hcell.
  pose proof (rmsprop_update_length gridDim blockDim N m w g decay eps_hat lr) as Hlen.
  destruct (rmsprop_update gridDim blockDim N m w g decay eps_hat lr) as [m' w'].
  simpl in Hlen. destruct Hlen as [Hlm Hlw].
  split; [done|]. split; [done|]. split.
  - intros i Hi. specialize (Hcell i HG HB Hm Hw).
    rewrite decide_True in Hcell by done.
    unfold rmsprop_read, rmsprop_cell in Hcell. simpl in Hcell.
    injection Hcell as Hm' Hw'. rewrite Hw', Hm'. done.
  - intros i Hi. specialize (Hcell i HG HB Hm Hw).
    rewrite decide_False in Hcell by lia.
    unfold rmsprop_read in Hcell. simpl in Hcell.
    injection Hcell as Hm' Hw'. done.
Qed.

(** X4. [adam_update] writes nothing at or beyond index [N]: those cells of
    [m], [v] and [w] and the lengths of the three arrays are as before, so
    that a launch with [N = 0] changes nothing. *)
Theorem adam_update_frame
    (gridDim blockDim N : nat) (step : Z) (m v w g : list R)
    (beta1 beta2 eps_hat lr : R) :
  (0 < gridDim)%nat → (0 < blockDim)%nat →
  (N ≤ length m)%nat → (N ≤ length v)%nat → (N ≤ length w)%nat →
  (N ≤ length g)%nat →
  let '(m', v', w') :=
    adam_update gridDim blockDim N step m v w g beta1 beta2 eps_hat lr in
  length m' = length m ∧ length v' = length v ∧ length w' = length w ∧
  (∀ i, (N ≤ i)%nat → m' !!! i = m !!! i ∧ v' !!! i = v !!! i ∧ w' !!! i = w !!! i) ∧
  (N = 0%nat → m' = m ∧ v' = v ∧ w' = w).
Proof.
  intros HG HB Hm Hv Hw _.
  pose proof (adam_update_cell gridDim blockDim N step m v w g beta1 beta2 eps_hat lr)
    as Hcell.
  pose proof (adam_update_length gridDim blockDim N step m v w g beta1 beta2 eps_hat lr)
    as Hlen.
  destruct (adam_update gridDim blockDim N step m v w g beta1 beta2 eps_hat lr)
    as [[m' v'] w'].
  simpl in Hlen. destruct Hlen as (Hlm & Hlv & Hlw).
  assert (∀ i, (N ≤ i)%nat →
               m' !!! i = m !!! i ∧ v' !!! i = v !!! i ∧ w' !!! i = w !!! i) as Hout.
  { intros i Hi. specialize (Hcell i HG HB Hm Hv Hw).
    rewrite decide_False in Hcell by lia.
    unfold adam_read in Hcell. simpl in Hcell. by injection Hcell. }
  split; [done|]. split; [done|]. split; [done|]. split; [exact Hout|].
  intros ->.
  split_and!; (apply list_eq_lookup_total; [done|]);
    intros i; destruct (Hout i ltac:(lia)) as (H1 & H2 & H3); done.
Qed.

(** ** The vector of ones *)

Lemma init_one_vec_cells gridDim blockDim d length j :
  init_one_vec gridDim blockDim d length !! j
  = if decide (j < length ∧ j < gridDim * blockDim)%nat
    then (λ _, 1) <$> d !! j else d !! j.
Proof.
  unfold init_one_vec.
  rewrite (foldl_blocks_threads
             (λ i d, if (length <=? i)%nat then d else <[i := 1]> d)).
  rewrite (run_indices_pointwise _ (λ (d : list R) i, d !! i)
             (λ i x, if (length <=? i)%nat then x else (λ _, 1) <$> x)
             (λ i (d : list R), True)).
  - destruct (decide (j ∈ seq 0 (gridDim * blockDim))) as [Hin|Hin];
      rewrite elem_of_seq in Hin.
    + destruct (Nat.leb_spec length j);
        [rewrite decide_False by lia|rewrite decide_True by lia]; done.
    + rewrite decide_False by lia. done.
  - done.
  - intros i s _. destruct (length <=? i)%nat; [done|].
    destruct (decide (i < List.length s)%nat) as [Hi|Hi].
    + rewrite list_lookup_insert_eq by done.
      destruct (lookup_lt_is_Some_2 s i Hi) as [x ->]. done.
    + rewrite list_insert_ge by lia. rewrite lookup_ge_None_2 by lia. done.
  - intros i k s Hne. destruct (length <=? i)%nat; [done|].
    by apply list_lookup_insert_ne.
  - apply NoDup_seq.
  - done.
Qed.

(** With a thread for every cell, the kernel fills the buffer with ones. *)
Lemma init_one_vec_covering (gridDim blockDim batch : nat) (d : list R) :
  (batch ≤ gridDim * blockDim)%nat → List.length d = batch →
  init_one_vec gridDim blockDim d batch = replicate batch 1.
Proof.
  intros Hcover Hd. apply list_eq. intros j. rewrite init_one_vec_cells.
  destruct (decide (j < batch)%nat) as [Hj|Hj].
  - (* a cell of the buffer: some thread has this index and writes 1 *)
    rewrite decide_True by lia.
    destruct (lookup_lt_is_Some_2 d j ltac:(lia)) as [x ->].
    simpl. symmetry. by apply lookup_replicate_2.
  - (* past the end: threads with such an index return at once *)
    rewrite decide_False by lia.
    rewrite lookup_ge_None_2 by lia. symmetry.
    apply lookup_replicate_None. lia.
Qed.

(** The block count [(n + block - 1) / block] gives at least [n] threads. *)
Lemma rounded_up_blocks_cover (n block : nat) :
  (0 < block)%nat → (n ≤ (n + block - 1) / block * block)%nat.
Proof.
  intros Hb.
  pose proof (Nat.div_mod_eq (n + block - 1) block) as Hdm.
  pose proof (Nat.mod_upper_bound (n + block - 1) block) as Hmod.
  nia.
Qed.

(** X5. The launch [Linear::forward] makes,
    [init_one_vec <<< (batch + BLOCK_DIM_1D - 1) / BLOCK_DIM_1D, BLOCK_DIM_1D >>>],
    turns a buffer of [batch] cells into [batch] ones, whatever it held: the
    rounded-up block count gives every cell a thread, and the threads past
    the end write nothing. *)
Theorem init_one_vec_all_ones (batch : nat) (d : list R) :
  (0 < BLOCK_DIM_1D)%nat → List.length d = batch →
  init_one_vec ((batch + BLOCK_DIM_1D - 1) / BLOCK_DIM_1D) BLOCK_DIM_1D d batch
  = replicate batch 1.
Proof.
  intros HB Hd. apply init_one_vec_covering; [|exact Hd].
  by apply rounded_up_blocks_cover.
Qed.

(** ** The update methods of [Layer] *)

(** X6. [update_weights_biases] is one step of plain gradient descent on the
    device buffers: every weight and every bias moves by
    [- learning_rate * gradient]; shapes, host buffers and every other
    member of the layer stay as they were. *)
Theorem update_weights_biases_gradient_step
    (learning_rate : R) (L : Layer) (w gw b gb : Blob) :
  weights_ L = Some w → grad_weights_ L = Some gw →
  biases_ L = Some b → grad_biases_ L = Some gb →
  Blob_wf w → Blob_wf gw → Blob_shape gw = Blob_shape w →
  Blob_wf b → Blob_wf gb → Blob_shape gb = Blob_shape b →
  ∃ w' b',
    update_weights_biases learning_rate L
    = set_biases_ (Some b') (set_weights_ (Some w') L) ∧
    Blob_shape w' = Blob_shape w ∧ h_ptr_ w' = h_ptr_ w ∧ Blob_wf w' ∧
    Blob_shape b' = Blob_shape b ∧ h_ptr_ b' = h_ptr_ b ∧ Blob_wf b' ∧
    (∀ i, (i < Blob_len w)%nat →
       d_ptr_ w' !!! i = d_ptr_ w !!! i - learning_rate * d_ptr_ gw !!! i) ∧
    (∀ i, (i < Blob_len b)%nat →
       d_ptr_ b' !!! i = d_ptr_ b !!! i - learning_rate * d_ptr_ gb !!! i).
Proof.
  intros Hw Hgw Hb Hgb Fw _ _ Fb _ _.
  unfold update_weights_biases. rewrite Hw, Hgw. simpl. rewrite Hb, Hgb.
  eexists _, _. split; [reflexivity|].
  pose proof Fw as [_ Hdw]. pose proof Fb as [_ Hdb].
  split_and!; try done.
  - apply set_d_ptr_wf; [|done]. by rewrite cublasSaxpy_length.
  - apply set_d_ptr_wf; [|done]. by rewrite cublasSaxpy_length.
  - intros i Hi. simpl. rewrite cublasSaxpy_lookup by lia.
    rewrite decide_True by done. ring.
  - intros i Hi. simpl. rewrite cublasSaxpy_lookup by lia.
    rewrite decide_True by done. ring.
Qed.

(** X7. A layer that has no parameters, or no gradients yet, goes through
    each of the three update methods unchanged: nothing is launched,
    nothing is printed and no pointer is dereferenced. *)
Theorem update_without_gradients_changes_nothing
    (L : Layer) (W : World) (lr beta1 beta2 decay eps_hat : R) (step : Z) :
  (weights_ L = None ∨ grad_weights_ L = None) →
  (biases_ L = None ∨ grad_biases_ L = None) →
  update_weights_biases lr L = L ∧
  update_weights_biases_with_adam lr beta1 beta2 eps_hat step L W = Ok L W ∧
  update_weights_biases_with_rmsprop lr decay eps_hat L W = Ok L W.
Proof.
  intros Hw Hb.
  split_and!.
  - unfold update_weights_biases.
    destruct Hw as [Hw | Hw], Hb as [Hb | Hb]; rewrite Hw; simpl;
      try (destruct (weights_ L)); simpl; rewrite Hb; simpl;
      try (destruct (biases_ L)); done.
  - unfold update_weights_biases_with_adam.
    destruct Hw as [Hw | Hw], Hb as [Hb | Hb]; rewrite Hw;
      try (destruct (weights_ L));
      (erewrite bind_Ok by reflexivity); rewrite Hb;
      try (destruct (biases_ L)); done.
  - unfold update_weights_biases_with_rmsprop.
    destruct Hw as [Hw | Hw], Hb as [Hb | Hb]; rewrite Hw;
      try (destruct (weights_ L));
      (erewrite bind_Ok by reflexivity); rewrite Hb;
      try (destruct (biases_ L)); done.
Qed.

(** X8. [update_weights_biases_with_adam] launches the Adam kernel once on
    the weight blobs and once on the bias blobs: after the call every weight
    cell and every bias cell, with its two moment cells, holds what the
    Adam rule makes of it and of its gradient. *)
Theorem update_weights_biases_with_adam_updates_both
    (W : World) (L : Layer) (lr beta1 beta2 eps_hat : R) (step : Z)
    (w wm wv gw b bm bv gb : Blob) :
  (0 < BLOCK_DIM_1D)%nat →
  weights_ L = Some w → weights_m_ L = Some wm → weights_v_ L = Some wv →
  grad_weights_ L = Some gw →
  biases_ L = Some b → biases_m_ L = Some bm → biases_v_ L = Some bv →
  grad_biases_ L = Some gb →
  Blob_wf w → Blob_wf wm → Blob_wf wv → Blob_wf b → Blob_wf bm → Blob_wf bv →
  Blob_len wm = Blob_len w → Blob_len wv = Blob_len w →
  Blob_len bm = Blob_len b → Blob_len bv = Blob_len b →
  ∃ L' w' wm' wv' b' bm' bv',
    update_weights_biases_with_adam lr beta1 beta2 eps_hat step L W = Ok L' W ∧
    weights_ L' = Some w' ∧ weights_m_ L' = Some wm' ∧ weights_v_ L' = Some wv' ∧
    biases_ L' = Some b' ∧ biases_m_ L' = Some bm' ∧ biases_v_ L' = Some bv' ∧
    (∀ i, (i < Blob_len w)%nat →
          (d_ptr_ wm' !!! i, d_ptr_ wv' !!! i, d_ptr_ w' !!! i)
          = adam_cell step beta1 beta2 eps_hat lr (d_ptr_ gw !!! i)
              (d_ptr_ wm !!! i, d_ptr_ wv !!! i, d_ptr_ w !!! i)) ∧
    (∀ i, (i < Blob_len b)%nat →
          (d_ptr_ bm' !!! i, d_ptr_ bv' !!! i, d_ptr_ b' !!! i)
          = adam_cell step beta1 beta2 eps_hat lr (d_ptr_ gb !!! i)
              (d_ptr_ bm !!! i, d_ptr_ bv !!! i, d_ptr_ b !!! i)).
Proof.
  intros HB Hw Hwm Hwv Hgw Hb Hbm Hbv Hgb [_ Fw] [_ Fwm] [_ Fwv] [_ Fb] [_ Fbm] [_ Fbv]
         Hlwm Hlwv Hlbm Hlbv.
  (* the first launch, on the weight blobs *)
  pose proof (adam_update_cell 16 BLOCK_DIM_1D (Blob_len w) step
                (d_ptr_ wm) (d_ptr_ wv) (d_ptr_ w) (d_ptr_ gw) beta1 beta2 eps_hat lr)
    as Hcw.
  (* the second launch, on the bias blobs *)
  pose proof (adam_update_cell 16 BLOCK_DIM_1D (Blob_len b) step
                (d_ptr_ bm) (d_ptr_ bv) (d_ptr_ b) (d_ptr_ gb) beta1 beta2 eps_hat lr)
    as Hcb.
  unfold update_weights_biases_with_adam, bind, deref, ret.
  rewrite Hw, Hgw, Hwm, Hwv.
  destruct (adam_update 16 BLOCK_DIM_1D (Blob_len w) step _ _ _ _ _ _ _ _)
    as [[m' v'] w'].
  simpl. rewrite Hb, Hgb, Hbm, Hbv.
  destruct (adam_update 16 BLOCK_DIM_1D (Blob_len b) step _ _ _ _ _ _ _ _)
    as [[bm' bv'] b'].
  eexists _, _, _, _, _, _, _. split; [reflexivity|]. simpl.
  split_and!; try reflexivity.
  - intros i Hi. specialize (Hcw i ltac:(lia) HB ltac:(lia) ltac:(lia) ltac:(lia)).
    rewrite decide_True in Hcw by done. exact Hcw.
  - intros i Hi. specialize (Hcb i ltac:(lia) HB ltac:(lia) ltac:(lia) ltac:(lia)).
    rewrite decide_True in Hcb by done. exact Hcb.
Qed.

(** ** Saving and loading parameters *)

Lemma append_inj_l (s a b : string) : s +:+ a = s +:+ b → a = b.
Proof. induction s as [|c s IH]; simpl; [done|]. intros [= H]. by apply IH. Qed.

(** The weight file and the bias file of a layer are different files. *)
Lemma parameter_paths_differ (name : string) :
  name +:+ ".bin" ≠ name +:+ ".bias.bin".
Proof. intros H%append_inj_l. discriminate. Qed.

(** X9. What [save_parameter] writes, [load_parameter] reads back: after a
    save of a layer, a load into any layer of the same name whose weight
    and bias blobs have the saved sizes returns 0 and fills both buffers of
    both blobs with the saved device values.  The two blobs go to two
    different files, [name.bin] and [name.bias.bin]. *)
Theorem save_parameter_then_load_parameter
    (W : World) (L L0 : Layer) (w b w0 b0 : Blob) :
  weights_ L = Some w → biases_ L = Some b → Blob_wf w → Blob_wf b →
  write_denied W (name_ L +:+ ".bin") = false →
  write_denied W (name_ L +:+ ".bias.bin") = false →
  name_ L0 = name_ L →
  weights_ L0 = Some w0 → biases_ L0 = Some b0 →
  Blob_len w0 = Blob_len w → Blob_len b0 = Blob_len b →
  ∃ W1,
    save_parameter L W = Ok 0%Z W1 ∧
    files W1 = <[name_ L +:+ ".bias.bin" := d_ptr_ b]>
                 (<[name_ L +:+ ".bin" := d_ptr_ w]> (files W)) ∧
    ∃ W2,
      load_parameter L0 W1
      = Ok (0%Z, set_biases_ (Some (with_values (d_ptr_ b) b0))
                   (set_weights_ (Some (with_values (d_ptr_ w) w0)) L0)) W2 ∧
      files W2 = files W1.
Proof.
  intros Hw Hb [_ Fw] [_ Fb] Hdw Hdb Hname Hw0 Hb0 Hlw Hlb.
  eexists. split.
  { unfold save_parameter. erewrite bind_Ok by reflexivity. rewrite Hw.
    erewrite bind_Ok by (unfold Blob_file_write; simpl; rewrite Hdw; reflexivity).
    rewrite decide_False by (intros ?; done). rewrite Hb.
    erewrite bind_Ok by (unfold Blob_file_write; simpl; rewrite Hdb; reflexivity).
    rewrite decide_False by (intros ?; done).
    erewrite bind_Ok by reflexivity. reflexivity. }
  split; [reflexivity|].
  eexists. split.
  - unfold load_parameter. rewrite Hname.
    erewrite bind_Ok by (unfold deref; rewrite Hw0; reflexivity).
    erewrite bind_Ok.
    2:{ unfold Blob_file_read. simpl.
        rewrite lookup_insert_ne by (apply not_eq_sym, parameter_paths_differ).
        rewrite lookup_insert_eq. rewrite decide_True by lia. reflexivity. }
    cbv beta iota zeta. rewrite decide_False by (intros ?; done).
    erewrite bind_Ok by (unfold deref; simpl; rewrite Hb0; reflexivity).
    erewrite bind_Ok.
    2:{ unfold Blob_file_read. simpl. rewrite Hname.
        rewrite lookup_insert_eq. rewrite decide_True by lia. reflexivity. }
    cbv beta iota zeta. rewrite decide_False by (intros ?; done).
    erewrite bind_Ok by reflexivity. simpl. rewrite Hname. reflexivity.
  - reflexivity.
Qed.

(** X10. [load_parameter] is not all-or-nothing: when the weight file can
    be read and the bias file cannot, the call returns [-2] with the weights
    already replaced by the file's content and the biases as they were;
    nothing is printed. *)
Theorem load_parameter_bias_failure_keeps_loaded_weights
    (W : World) (L : Layer) (w b : Blob) (data : list R) :
  weights_ L = Some w → biases_ L = Some b →
  files W !! (name_ L +:+ ".bin") = Some data → length data = Blob_len w →
  ¬ readable W (name_ L +:+ ".bias.bin") b →
  load_parameter L W
  = Ok ((-2)%Z, set_biases_ (Some b) (set_weights_ (Some (with_values data w)) L)) W.
Proof.
  intros Hw Hb Hf Hlen Hrb. unfold load_parameter.
  erewrite bind_Ok by (unfold deref; rewrite Hw; reflexivity).
  erewrite bind_Ok
    by (unfold Blob_file_read; rewrite Hf, decide_True by done; reflexivity).
  cbv beta iota zeta. rewrite decide_False by (intros ?; done).
  erewrite bind_Ok by (unfold deref; simpl; rewrite Hb; reflexivity).
  erewrite bind_Ok by (apply Blob_file_read_unreadable, Hrb).
  cbv beta iota zeta. rewrite decide_True by done. reflexivity.
Qed.

(** X11. [save_parameter] writes what it can: with no parameter blobs it
    writes no file and returns 0 after printing both messages; when the
    weight file is written and the bias file cannot be opened it returns
    [-2], the weight file stays written and the closing message is not
    printed. *)
Theorem save_parameter_partial (W : World) (L : Layer) :
  (weights_ L = None → biases_ L = None →
   save_parameter L W
   = Ok 0%Z (set_stdout (stdout W ++ [".. saving " +:+ name_ L +:+ " parameter ..";
                                       " done .."]) W)) ∧
  (∀ w b, weights_ L = Some w → biases_ L = Some b →
     write_denied W (name_ L +:+ ".bin") = false →
     write_denied W (name_ L +:+ ".bias.bin") = true →
     save_parameter L W
     = Ok (-2)%Z
         (set_files (<[name_ L +:+ ".bin" := d_ptr_ w]> (files W))
            (set_stdout (stdout W ++ [".. saving " +:+ name_ L +:+ " parameter .."]) W))).
Proof.
  split.
  - intros Hw Hb. unfold save_parameter. rewrite Hw, Hb.
    unfold bind, print, ret. simpl. rewrite <- app_assoc. done.
  - intros w b Hw Hb Hdw Hdb. unfold save_parameter. rewrite Hw, Hb.
    erewrite bind_Ok by reflexivity.
    erewrite bind_Ok by (unfold Blob_file_write; simpl; rewrite Hdw; reflexivity).
    rewrite decide_False by (intros ?; done).
    erewrite bind_Ok by (unfold Blob_file_write; simpl; rewrite Hdb; reflexivity).
    rewrite decide_True by done. reflexivity.
Qed.

(** ** The softmax head, beyond one batch size *)

(** X12. [Softmax::backward] sizes its gradient buffer on its first call
    and compares the batch size with the one [forward] has just stored, so
    that it never sizes it again: after a round at one batch size, a round
    on a longer batch of another size gets through [forward], and in
    [backward] the copy of the prediction runs past the end of the gradient
    buffer. *)
Theorem Softmax_backward_after_batch_growth
    (W : World) (L : Layer) (input1 target1 input2 target2 : ptr)
    (x1 t1 x2 t2 : Blob) :
  heap W !! input1 = Some x1 → heap W !! target1 = Some t1 →
  heap W !! input2 = Some x2 → heap W !! target2 = Some t2 →
  Blob_wf x1 → Blob_wf t1 → Blob_wf x2 → Blob_wf t2 →
  Blob_shape t1 = Blob_shape x1 → Blob_shape t2 = Blob_shape x2 →
  Softmax_ready W L (Blob_shape x1) → grad_input_ L = None →
  blob_n x1 ≠ blob_n x2 → (Blob_len x1 < Blob_len x2)%nat →
  ∃ L1 L2 L3,
    Softmax_forward input1 L W = Ok L1 W ∧
    Softmax_backward target1 L1 W = Ok L2 W ∧
    Softmax_forward input2 L2 W = Ok L3 W ∧
    Softmax_backward target2 L3 W = Fault.
Proof.
  intros Hx1 Ht1 Hx2 Ht2 Fx1 Ft1 Fx2 Ft2 Hs1 Hs2 Hready Hnone Hn Hlen.
  destruct (Softmax_forward_spec W L input1 x1 Hx1 Fx1 Hready)
    as (L1 & out & Hfwd & Hout & Hwfo & Hso & _ & Hg1 & Hb1 & Hin1 & Hxd & Hyd).
  assert (Blob_len (Blob_of_shape (Blob_shape x1)) = Blob_len t1) as Hlt
    by (apply Blob_len_shape; rewrite Blob_of_shape_shape; congruence).
  destruct (Softmax_backward_spec W L1 target1 t1 out (Blob_shape x1))
    as (grad & Hbwd & Hwfg & _ & Hsg & _); try done.
  { rewrite Hb1. unfold Blob_shape in Hs1. by injection Hs1. }
  { rewrite Hg1, Hnone. done. }
  specialize (Hsg ltac:(congruence)).
  set (L2 := set_grad_input_ (Some grad) L1) in *.
  assert (rebind_needed L2 x2 = true) as Hre.
  { unfold rebind_needed. subst L2. simpl. rewrite Hb1.
    apply orb_true_iff. right. apply negb_true_iff, Nat.eqb_neq. done. }
  set (out2 := Blob_reset out (Blob_shape x2)).
  set (y := cudnnSoftmaxForward cuda_one (Blob_shape x2) (d_ptr_ x2) cuda_zero
              (Blob_shape out2) (d_ptr_ out2)).
  exists L1, L2.
  exists (set_output_ (Some (set_d_ptr_ y out2))
            (set_output_desc_ (Some (Blob_shape out2))
               (set_output_ (Some out2)
                  (set_batch_size_ (blob_n x2)
                     (set_input_desc_ (Some (Blob_shape x2))
                        (set_input_ (Some input2) L2)))))).
  split; [exact Hfwd|]. split; [exact Hbwd|]. split.
  - unfold Softmax_forward.
    erewrite bind_Ok by (unfold load; rewrite Hx2; reflexivity).
    rewrite Hre. subst L2. simpl. rewrite Hout. reflexivity.
  - eapply (Softmax_backward_stale_gradient_buffer _ _ _ t2 grad); try done.
    + simpl. unfold Blob_shape in Hs2. by injection Hs2.
    + simpl.
      assert (Blob_len (set_d_ptr_ y out2) = Blob_len x2) as ->.
      { apply Blob_len_shape. subst out2.
        transitivity (Blob_shape (Blob_reset out (Blob_shape x2))); [done|].
        apply Blob_reset_shape. }
      destruct Hwfg as [_ ->].
      rewrite (Blob_len_shape grad x1) by done. done.
Qed.


(** ** The convolution workspace *)

(** X14. [Conv2D::set_workspace] stores the three algorithms it asks cuDNN
    for and only ever grows the workspace: the new size is the largest of
    the old size and of what the stored forward, backward-filter and
    backward-data algorithms need.  A buffer is allocated exactly when that
    size is not zero, the three algorithm counts are printed exactly under
    cuDNN 8, and no other member of the layer changes. *)
Theorem set_workspace_grows_only
    (W : World) (L : Conv2D) (xd yd wd : shape) :
  input_desc_ (conv_base L) = Some xd → output_desc_ (conv_base L) = Some yd →
  filter_desc_ L = Some wd →
  let cd := conv_desc_ L in
  let fwd_algo := forward_algorithm cd xd wd yd in
  let bwd_filter_algo := backward_filter_algorithm cd xd wd yd in
  let bwd_data_algo := backward_data_algorithm cd xd wd yd in
  let fwd := cudnnGetConvolutionForwardWorkspaceSize xd wd cd yd fwd_algo in
  let bwd_filter :=
    cudnnGetConvolutionBackwardFilterWorkspaceSize xd yd cd wd bwd_filter_algo in
  let bwd_data :=
    cudnnGetConvolutionBackwardDataWorkspaceSize wd yd cd xd bwd_data_algo in
  ∃ L',
    set_workspace L W = Ok L' (after_set_workspace (name_ (conv_base L)) W) ∧
    conv_fwd_algo_ L' = fwd_algo ∧
    conv_bwd_filter_algo_ L' = bwd_filter_algo ∧
    conv_bwd_data_algo_ L' = bwd_data_algo ∧
    workspace_size L' = ((workspace_size L `max` fwd) `max` bwd_filter) `max` bwd_data ∧
    (workspace_size L ≤ workspace_size L')%nat ∧
    (0 < workspace_size L' →
     d_workspace L' = Some (fresh_buffer (workspace_size L')))%nat ∧
    (workspace_size L' = 0%nat → d_workspace L' = d_workspace L) ∧
    conv_base L' = conv_base L ∧
    out_channels_ L' = out_channels_ L ∧ kernel_size_ L' = kernel_size_ L ∧
    conv_desc_ L' = conv_desc_ L ∧
    filter_desc_ L' = filter_desc_ L ∧ bias_desc_ L' = bias_desc_ L ∧
    output_size4_ L' = output_size4_ L.
Proof.
  intros Hxd Hyd Hwd cd fwd_algo bwd_filter_algo bwd_data_algo fwd bwd_filter bwd_data.
  unfold set_workspace, after_set_workspace, workspace_report.
  erewrite bind_Ok by (unfold deref; rewrite Hxd; reflexivity).
  erewrite bind_Ok by (unfold deref; rewrite Hyd; reflexivity).
  erewrite bind_Ok by (unfold deref; rewrite Hwd; reflexivity).
  subst fwd bwd_filter bwd_data fwd_algo bwd_filter_algo bwd_data_algo.
  unfold forward_algorithm, backward_filter_algorithm, backward_data_algorithm.
  fold cd.
  destruct (decide (CUDNN_MAJOR = 8%nat)) as [H8|H8].
  - unfold bind, print, ret. simpl. rewrite <- !app_assoc. simpl.
    case_decide as Hsz; eexists; (split; [reflexivity|]); simpl in *;
      split_and!; try done; lia.
  - unfold bind, ret. simpl. rewrite app_nil_r.
    assert (set_stdout (stdout W) W = W) as -> by by destruct W.
    case_decide as Hsz; eexists; (split; [reflexivity|]); simpl in *;
      split_and!; try done; lia.
Qed.

(** ** Matrix products, cell by cell *)

(** One column of a matrix product: [m] cells starting at [off]. *)
Lemma foldl_insert_column (G : nat → R → R) (off m : nat) (C : list R) :
  (off + m ≤ length C)%nat →
  let C' := foldl (λ C i, <[(i + off)%nat := G i (C !!! (i + off)%nat)]> C) C (seq 0 m) in
  length C' = length C ∧
  ∀ k, C' !!! k
       = if decide (off ≤ k < off + m)%nat then G (k - off)%nat (C !!! k) else C !!! k.
Proof.
  cbv zeta. induction m as [|m IH]; intros Hlen.
  - simpl. split; [done|]. intros k. rewrite decide_False by lia. done.
  - destruct IH as [IHlen IHk]; [lia|].
    rewrite seq_S, foldl_app. simpl.
    split; [by rewrite length_insert|].
    intros k. destruct (decide (k = m + off)%nat) as [->|Hne].
    + rewrite list_lookup_total_insert_eq by lia.
      rewrite decide_True by lia. rewrite IHk, decide_False by lia.
      f_equal. lia.
    + rewrite list_lookup_total_insert_ne by done. rewrite IHk.
      destruct (decide (off ≤ k < off + m)%nat);
        [rewrite decide_True by lia|rewrite decide_False by lia]; done.
Qed.

(** [cublasSgemm] on a result matrix that lies inside its buffer: cell
    [(i, j)] receives [alpha * (op(A) op(B))(i, j) + beta * C(i, j)], and
    every other cell of the buffer stays. *)
Lemma cublasSgemm_cells transa transb m n k alpha A lda B ldb beta C ldc :
  (m ≤ ldc)%nat → (n * ldc ≤ length C)%nat →
  let C' := cublasSgemm transa transb m n k alpha A lda B ldb beta C ldc in
  length C' = length C ∧
  (∀ i j, (i < m)%nat → (j < n)%nat →
     C' !!! (i + j * ldc)%nat
     = alpha * sum_n (λ l,
                 (if transa then A !!! (l + i * lda)%nat else A !!! (i + l * lda)%nat)
                 * (if transb then B !!! (j + l * ldb)%nat else B !!! (l + j * ldb)%nat))
               k
       + beta * C !!! (i + j * ldc)%nat) ∧
  (∀ c, (∀ i j, (i < m)%nat → (j < n)%nat → c ≠ (i + j * ldc)%nat) →
        C' !!! c = C !!! c).
Proof.
  intros Hm. unfold cublasSgemm. cbv zeta.
  induction n as [|n IH]; intros Hlen.
  - simpl. split; [done|]. split; [intros; lia|done].
  - destruct IH as (IHlen & IHin & IHout); [lia|].
    rewrite seq_S, foldl_app. simpl foldl.
    set (Cn := foldl _ C (seq 0 n)) in *.
    destruct (foldl_insert_column
                (λ i c, alpha * sum_n (λ l,
                   (if transa then A !!! (l + i * lda)%nat else A !!! (i + l * lda)%nat)
                   * (if transb then B !!! (n + l * ldb)%nat else B !!! (l + n * ldb)%nat))
                   k + beta * c)
                (n * ldc)%nat m Cn) as [Hcl Hck]; [rewrite IHlen; nia|].
    cbv beta in Hcl, Hck.
    split; [by rewrite Hcl|]. split.
    + intros i j Hi Hj. rewrite Hck.
      destruct (decide (j = n)) as [->|Hjn].
      * rewrite decide_True by lia.
        replace (i + n * ldc - n * ldc)%nat with i by lia.
        rewrite IHout; [done|]. intros i' j' Hi' Hj'. nia.
      * rewrite decide_False by nia. apply IHin; lia.
    + intros c Hc. rewrite Hck.
      rewrite decide_False.
      * apply IHout. intros i j Hi Hj. apply Hc; lia.
      * intros [H1 H2]. apply (Hc (c - n * ldc)%nat n); lia.
Qed.

Lemma cublasSgemv_cells m n alpha A lda x beta y i :
  (m ≤ length y)%nat →
  cublasSgemv false m n alpha A lda x beta y !!! i
  = if decide (i < m)%nat
    then alpha * sum_n (λ j, A !!! (i + j * lda)%nat * x !!! j) n + beta * y !!! i
    else y !!! i.
Proof.
  apply (foldl_insert_lookup
           (λ i yi, alpha * sum_n (λ j, A !!! (i + j * lda)%nat * x !!! j) n + beta * yi)).
Qed.

Lemma cublasSgemv_length trans m n alpha A lda x beta y :
  length (cublasSgemv trans m n alpha A lda x beta y) = length y.
Proof.
  unfold cublasSgemv. destruct trans.
  - apply (foldl_insert_length
             (λ j yj, alpha * sum_n (λ i, A !!! (i + j * lda)%nat * x !!! i) m + beta * yj)).
  - apply (foldl_insert_length
             (λ i yi, alpha * sum_n (λ j, A !!! (i + j * lda)%nat * x !!! j) n + beta * yi)).
Qed.

Lemma sum_n_ext (f g : nat → R) (k : nat) :
  (∀ l, (l < k)%nat → f l = g l) → sum_n f k = sum_n g k.
Proof.
  intros Hfg. unfold sum_n.
  assert (∀ acc l0, (∀ l, l ∈ l0 → f l = g l) →
            foldl (λ acc l, acc + f l) acc l0 = foldl (λ acc l, acc + g l) acc l0) as H.
  { intros acc l0. revert acc. induction l0 as [|l l0 IH]; intros acc Hl; simpl; [done|].
    rewrite Hl by (by left). apply IH. intros l' Hl'. apply Hl. by right. }
  apply H. intros l [_ Hl]%elem_of_seq. apply Hfg. lia.
Qed.

Arguments cublasSgemv : simpl never.

(** ** [Linear::forward]: the values *)

Lemma sum_n_one (f : nat → R) : sum_n f 1 = f 0%nat.
Proof. unfold sum_n. simpl. ring. Qed.

(** The two matrix products of [forward] on a bound layer. *)
Lemma Linear_compute_affine W L x :
  Linear_bound W L x →
  ∃ L',
    Linear_compute L W = Ok L' W ∧
    Linear_bound W L' x ∧ Linear_output_affine L' x ∧
    parameters (linear_base L') = parameters (linear_base L) ∧
    output_size_ L' = output_size_ L ∧ input_size_ L' = input_size_ L.
Proof.
  intros (w & b & wm & wv & bm & bv & p & out & Hmat & Hlw & Hlb & Fx & Hsx & Hbatch
          & Hout & Fout & Hsout & Hones).
  pose proof Hmat as (Hw & Hb & Hwm & Hwv & Hbm & Hbv & Fw & Fb & Fwm & Fwv & Fbm & Fbv
                      & Hp & Hx).
  unfold Linear_compute.
  erewrite bind_Ok by (unfold deref; rewrite Hw; reflexivity).
  erewrite bind_Ok by (unfold deref; rewrite Hb; reflexivity).
  erewrite bind_Ok by (unfold deref; rewrite Hp; reflexivity).
  erewrite bind_Ok by (unfold load; rewrite Hx; reflexivity).
  erewrite bind_Ok by (unfold deref; rewrite Hout; reflexivity).
  erewrite bind_Ok by (unfold deref; rewrite Hones; reflexivity).
  rewrite Hbatch.
  set (y1 := cublasSgemm true false (output_size_ L) (blob_n x) (input_size_ L)
               cuda_one (d_ptr_ w) (input_size_ L) (d_ptr_ x) (input_size_ L)
               cuda_zero (d_ptr_ out) (output_size_ L)).
  set (y2 := cublasSgemm false false (output_size_ L) (blob_n x) 1
               cuda_one (d_ptr_ b) (output_size_ L) (replicate (blob_n x) 1) 1
               cuda_one y1 (output_size_ L)).
  assert (Blob_len out = (blob_n x * output_size_ L)%nat) as Hlout.
  { unfold Blob_shape in Hsout. injection Hsout as Hn Hc Hh Hw'.
    unfold Blob_len, Blob_size. rewrite Hn, Hc, Hh, Hw'. lia. }
  pose proof Fout as [_ Hdout].
  destruct (cublasSgemm_cells true false (output_size_ L) (blob_n x) (input_size_ L)
              cuda_one (d_ptr_ w) (input_size_ L) (d_ptr_ x) (input_size_ L)
              cuda_zero (d_ptr_ out) (output_size_ L)) as (Hl1 & Hc1 & _); [lia|lia|].
  fold y1 in Hl1, Hc1.
  destruct (cublasSgemm_cells false false (output_size_ L) (blob_n x) 1
              cuda_one (d_ptr_ b) (output_size_ L) (replicate (blob_n x) 1) 1
              cuda_one y1 (output_size_ L)) as (Hl2 & Hc2 & _); [lia|lia|].
  fold y2 in Hl2, Hc2.
  eexists. split; [reflexivity|]. simpl. split_and!.
  - exists w, b, wm, wv, bm, bv, p, (set_d_ptr_ y2 out). simpl.
    split_and!; try done.
    apply set_d_ptr_wf; [lia|done].
  - exists w, b, (set_d_ptr_ y2 out). simpl. split_and!; try done.
    intros n j Hn Hj. rewrite Hc2, Hc1 by done.
    rewrite sum_n_one.
    replace (0 + n * 1)%nat with n by lia.
    replace (j + 0 * output_size_ L)%nat with j by lia.
    rewrite lookup_total_replicate_2 by done.
    unfold cuda_one, cuda_zero. ring.
  - done.
  - done.
  - done.
Qed.

Lemma with_values_wf (values : list R) (b : Blob) :
  length values = Blob_len b → Blob_wf (with_values values b).
Proof. intros Hlen. split; exact Hlen. Qed.

(** The materialisation step without a pretrained load: the six parameter
    blobs stay allocated with their sizes, whether they are initialised
    (unfrozen layer) or left alone (frozen layer). *)
Lemma materialize_parameters_no_load W L w b wm wv bm bv p x :
  materialised W L w b wm wv bm bv p x →
  load_pretrain_ L && negb (freeze_ L) = false →
  ∃ L' W' w' b' wm' wv' bm' bv',
    materialize_parameters L W = Ok L' W' ∧ heap W' = heap W ∧
    materialised W' L' w' b' wm' wv' bm' bv' p x ∧
    Blob_len w' = Blob_len w ∧ Blob_len b' = Blob_len b ∧
    output_ L' = output_ L ∧ batch_size_ L' = batch_size_ L ∧
    grad_weights_ L' = grad_weights_ L ∧ grad_biases_ L' = grad_biases_ L ∧
    grad_input_ L' = grad_input_ L ∧ gradient_stop_ L' = gradient_stop_ L.
Proof.
  intros Hmat Hno.
  pose proof Hmat as (Hw & Hb & Hwm & Hwv & Hbm & Hbv & Fw & Fb & Fwm & Fwv & Fbm & Fbv
                      & Hp & Hx).
  destruct (freeze_ L) eqn:Hfr.
  - exists L, W, w, b, wm, wv, bm, bv.
    split; [by apply materialize_parameters_frozen|]. split_and!; done.
  - assert (load_pretrain_ L = false) as Hlp
      by (destruct (load_pretrain_ L); [discriminate|done]).
    rewrite materialize_parameters_fresh by done.
    rewrite (init_weight_bias_run W L default_seed w b wm wv bm bv p x Hmat).
    exists (initialised (engine_seed default_seed W) L w b wm wv bm bv x),
           (after_init default_seed L W),
           (with_values
              (initial_weights (engine_seed default_seed W) (Blob_size x) (Blob_len w)) w),
           (with_values (replicate (Blob_len b) 0) b),
           (with_values (replicate (Blob_len wm) 0) wm),
           (with_values (replicate (Blob_len wv) 0) wv),
           (with_values (replicate (Blob_len bm) 0) bm),
           (with_values (replicate (Blob_len bv) 0) bv).
    split; [reflexivity|].
    split; [apply after_init_heap|].
    split; [|split_and!; reflexivity].
    unfold materialised. rewrite after_init_heap. unfold initialised. simpl.
    split_and!; try reflexivity; try done;
      apply with_values_wf; rewrite ?length_replicate; try done.
    unfold initial_weights. apply draws_length.
Qed.

(** The rebinding branch of [forward] on a layer whose parameters are
    allocated. *)
Lemma Linear_rebind_bound W L input x w b wm wv bm bv :
  allocated (linear_base L) w b wm wv bm bv →
  Blob_len w = (input_size_ L * output_size_ L)%nat → Blob_len b = output_size_ L →
  (∀ o, output_ (linear_base L) = Some o → Blob_wf o) →
  heap W !! input = Some x → Blob_wf x → Blob_size x = input_size_ L →
  (0 < BLOCK_DIM_1D)%nat →
  load_pretrain_ (linear_base L) && negb (freeze_ (linear_base L)) = false →
  rebind_needed (linear_base L) x = true →
  ∃ L1 W1,
    Linear_rebind input x L W = Ok L1 W1 ∧ heap W1 = heap W ∧
    Linear_bound W1 L1 x ∧
    grad_weights_ (linear_base L1) = grad_weights_ (linear_base L) ∧
    grad_biases_ (linear_base L1) = grad_biases_ (linear_base L) ∧
    grad_input_ (linear_base L1) = grad_input_ (linear_base L) ∧
    (freeze_ (linear_base L) = true →
     parameters (linear_base L1) = parameters (linear_base L) ∧ W1 = W) ∧
    output_size_ L1 = output_size_ L ∧ input_size_ L1 = input_size_ L.
Proof.
  intros Halloc Hlw Hlb Hout Hx Fx Hsx HB Hno Hre.
  pose proof Halloc as (Hw & Hb & Hwm & Hwv & Hbm & Hbv & Fw & Fb & Fwm & Fwv & Fbm & Fbv).
  rewrite Linear_rebind_run by done.
  set (B1 := Linear_bound_base input x L).
  assert (∃ out, output_ B1 = Some out ∧ Blob_wf out ∧
                 Blob_shape out = (blob_n x, output_size_ L, 1%nat, 1%nat))
    as (out & Ho1 & Fo1 & Hso1).
  { subst B1. unfold Linear_bound_base. simpl.
    destruct (output_ (linear_base L)) as [o|] eqn:Ho; eexists; (split; [reflexivity|]).
    - split; [apply Blob_reset_wf; by apply Hout|apply Blob_reset_shape].
    - split; [apply Blob_new_wf|done]. }
  assert (materialised W B1 w b wm wv bm bv input x) as Hmat
    by (subst B1; unfold materialised, Linear_bound_base; simpl; split_and!; done).
  destruct (materialize_parameters_no_load W B1 w b wm wv bm bv input x Hmat)
    as (B2 & W2 & w' & b' & wm' & wv' & bm' & bv' & Hrun & Hheap & Hmat2 & Hlw' & Hlb'
        & Ho2 & Hb2 & Hgw & Hgb & Hgi & _).
  { subst B1. unfold Linear_bound_base. simpl. exact Hno. }
  erewrite bind_Ok by exact Hrun.
  eexists _, _. split; [reflexivity|]. split; [exact Hheap|]. simpl.
  split_and!.
  - exists w', b', wm', wv', bm', bv', input, out. simpl.
    split_and!; try done; try congruence.
    rewrite init_one_vec_covering; [done| |apply fresh_buffer_length].
    by apply rounded_up_blocks_cover.
  - rewrite Hgw. subst B1. unfold Linear_bound_base. done.
  - rewrite Hgb. subst B1. unfold Linear_bound_base. done.
  - rewrite Hgi. subst B1. unfold Linear_bound_base. done.
  - intros Hfr.
    assert (materialize_parameters B1 W = Ok B1 W) as Hfrozen.
    { apply materialize_parameters_frozen. subst B1. unfold Linear_bound_base. done. }
    rewrite Hfrozen in Hrun. injection Hrun as <- <-.
    subst B1. unfold Linear_bound_base, parameters. done.
  - done.
  - done.
Qed.

(** X15. [Linear::forward] leaves [W^T x + b] in the output buffer: for
    every sample [n] of the bound input and every output feature [j], the
    cell [j + n * output_size_] holds the sum over the input features [l]
    of [weights[l + j * input_size_] * x[l + n * input_size_]], plus
    [biases[j]].  This holds on the first call, which allocates and
    initialises the parameters, and on every later call; the input [x] is
    the argument when the call binds the layer (first call or new batch
    size) and the blob bound before otherwise.  The call keeps the layer in
    the state [Linear_bound].  Calls that load pretrained parameters are
    left aside. *)
Theorem Linear_forward_affine
    (W : World) (L : Linear) (input : ptr) (x : Blob) :
  heap W !! input = Some x → Blob_wf x →
  (0 < BLOCK_DIM_1D)%nat →
  load_pretrain_ (linear_base L) && negb (freeze_ (linear_base L)) = false →
  Linear_fresh L ∨ (∃ x0, Linear_bound W L x0 ∧ Blob_size x = input_size_ L) →
  ∃ L' W' bound,
    Linear_forward input L W = Ok L' W' ∧ heap W' = heap W ∧
    Linear_bound W' L' bound ∧ Linear_output_affine L' bound ∧
    output_size_ L' = output_size_ L ∧
    (bound = x ∨
     rebind_needed (linear_base L) x = false ∧ Linear_bound W L bound).
Proof.
  intros Hx Fx HB Hno Hstate. unfold Linear_forward.
  erewrite bind_Ok by (unfold load; rewrite Hx; reflexivity).
  destruct Hstate as [(Hw & Hin & Hout) | (x0 & Hbound & Hsx)].
  - (* first call *)
    set (L0 := Linear_allocate_parameters x L).
    set (input_size := (blob_c x * blob_h x * blob_w x)%nat).
    assert (L0 = set_linear_base
                   (set_biases_v_ (Some (Blob_new 1 1 (output_size_ L) 1))
                      (set_biases_m_ (Some (Blob_new 1 1 (output_size_ L) 1))
                         (set_weights_v_ (Some (Blob_new 1 1 input_size (output_size_ L)))
                            (set_weights_m_
                               (Some (Blob_new 1 1 input_size (output_size_ L)))
                               (set_biases_ (Some (Blob_new 1 1 (output_size_ L) 1))
                                  (set_weights_
                                     (Some (Blob_new 1 1 input_size (output_size_ L)))
                                     (linear_base L)))))))
                   (set_input_size_ input_size L)) as HL0
      by (subst L0; unfold Linear_allocate_parameters; by rewrite Hw).
    destruct (Linear_rebind_bound W L0 input x
                (Blob_new 1 1 input_size (output_size_ L))
                (Blob_new 1 1 (output_size_ L) 1)
                (Blob_new 1 1 input_size (output_size_ L))
                (Blob_new 1 1 input_size (output_size_ L))
                (Blob_new 1 1 (output_size_ L) 1)
                (Blob_new 1 1 (output_size_ L) 1))
      as (L1 & W1 & Hre & Hheap & Hb1 & _ & _ & _ & _ & Hos1 & _); try done.
    + rewrite HL0. unfold allocated. simpl. split_and!; try done; apply Blob_new_wf.
    + rewrite HL0. unfold Blob_len, Blob_size, Blob_new. simpl. lia.
    + rewrite HL0. unfold Blob_len, Blob_size, Blob_new. simpl. lia.
    + rewrite HL0. simpl. rewrite Hout. done.
    + rewrite HL0. done.
    + rewrite HL0. exact Hno.
    + rewrite HL0. unfold rebind_needed. simpl. rewrite Hin. done.
    + erewrite bind_Ok by exact Hre.
      destruct (Linear_compute_affine W1 L1 x Hb1)
        as (L2 & Hrun & Hb2 & Haff & _ & Hos2 & _).
      exists L2, W1, x. split; [exact Hrun|]. split; [exact Hheap|].
      split; [exact Hb2|]. split; [exact Haff|]. split; [|by left].
      rewrite Hos2, Hos1, HL0. done.
  - (* later calls *)
    pose proof Hbound as (w & b & wm & wv & bm & bv & p & out & Hmat & Hlw & Hlb & Fx0
                          & Hsx0 & Hbatch & Hout & Fout & Hsout & Hones).
    pose proof Hmat as (Hw & Hb & Hwm & Hwv & Hbm & Hbv & Fw & Fb & Fwm & Fwv & Fbm & Fbv
                        & Hp & Hx0).
    rewrite (Linear_allocate_parameters_keeps x L w Hw).
    destruct (rebind_needed (linear_base L) x) eqn:Hre.
    + destruct (Linear_rebind_bound W L input x w b wm wv bm bv)
        as (L1 & W1 & Hrun1 & Hheap & Hb1 & _ & _ & _ & _ & Hos1 & _); try done.
      { intros o Ho. rewrite Hout in Ho. by injection Ho as <-. }
      erewrite bind_Ok by exact Hrun1.
      destruct (Linear_compute_affine W1 L1 x Hb1)
        as (L2 & Hrun & Hb2 & Haff & _ & Hos2 & _).
      exists L2, W1, x. split; [exact Hrun|]. split; [exact Hheap|].
      split; [exact Hb2|]. split; [exact Haff|]. split; [|by left].
      by rewrite Hos2, Hos1.
    + erewrite bind_Ok by (unfold Linear_rebind; rewrite Hre; reflexivity).
      destruct (Linear_compute_affine W L x0 Hbound)
        as (L2 & Hrun & Hb2 & Haff & _ & Hos2 & _).
      exists L2, W, x0. split; [exact Hrun|]. split; [done|].
      split; [exact Hb2|]. split; [exact Haff|]. split; [done|]. by right.
Qed.

(** X16. [forward] on a frozen layer neither initialises nor loads its
    parameters: a [Linear] layer that is frozen before its first call
    computes on the parameter blobs as [new] left them, whether or not
    [load_pretrain_] is set, and prints and reads nothing. *)
Theorem Linear_forward_frozen_before_first_call
    (W : World) (L : Linear) (input : ptr) (x : Blob) :
  heap W !! input = Some x → Blob_wf x → (0 < BLOCK_DIM_1D)%nat →
  Linear_fresh L → freeze_ (linear_base L) = true →
  let input_size := (blob_c x * blob_h x * blob_w x)%nat in
  ∃ L',
    Linear_forward input L W = Ok L' W ∧
    weights_ (linear_base L') = Some (Blob_new 1 1 input_size (output_size_ L)) ∧
    biases_ (linear_base L') = Some (Blob_new 1 1 (output_size_ L) 1) ∧
    Linear_output_affine L' x.
Proof.
  intros Hx Fx HB (Hw & Hin & Hout) Hfr input_size. unfold Linear_forward.
  erewrite bind_Ok by (unfold load; rewrite Hx; reflexivity).
  set (L0 := Linear_allocate_parameters x L).
  assert (L0 = set_linear_base
                 (set_biases_v_ (Some (Blob_new 1 1 (output_size_ L) 1))
                    (set_biases_m_ (Some (Blob_new 1 1 (output_size_ L) 1))
                       (set_weights_v_ (Some (Blob_new 1 1 input_size (output_size_ L)))
                          (set_weights_m_
                             (Some (Blob_new 1 1 input_size (output_size_ L)))
                             (set_biases_ (Some (Blob_new 1 1 (output_size_ L) 1))
                                (set_weights_
                                   (Some (Blob_new 1 1 input_size (output_size_ L)))
                                   (linear_base L)))))))
                 (set_input_size_ input_size L)) as HL0
    by (subst L0; unfold Linear_allocate_parameters; by rewrite Hw).
  destruct (Linear_rebind_bound W L0 input x
              (Blob_new 1 1 input_size (output_size_ L))
              (Blob_new 1 1 (output_size_ L) 1)
              (Blob_new 1 1 input_size (output_size_ L))
              (Blob_new 1 1 input_size (output_size_ L))
              (Blob_new 1 1 (output_size_ L) 1)
              (Blob_new 1 1 (output_size_ L) 1))
    as (L1 & W1 & Hre & Hheap & Hb1 & _ & _ & _ & Hfrozen & _); try done.
  - rewrite HL0. unfold allocated. simpl. split_and!; try done; apply Blob_new_wf.
  - rewrite HL0. unfold Blob_len, Blob_size, Blob_new. simpl. lia.
  - rewrite HL0. unfold Blob_len, Blob_size, Blob_new. simpl. lia.
  - rewrite HL0. simpl. rewrite Hout. done.
  - rewrite HL0. done.
  - rewrite HL0. simpl. rewrite Hfr. apply andb_false_r.
  - rewrite HL0. unfold rebind_needed. simpl. rewrite Hin. done.
  - destruct Hfrozen as [Hpar ->]; [by rewrite HL0|].
    erewrite bind_Ok by exact Hre.
    destruct (Linear_compute_affine W L1 x Hb1) as (L2 & Hrun & _ & Haff & Hpar2 & _).
    exists L2. split; [exact Hrun|].
    rewrite Hpar, HL0 in Hpar2. unfold parameters in Hpar2. simpl in Hpar2.
    injection Hpar2 as Hw2 Hb2 _ _ _ _. done.
Qed.

(** X17. At the batch size a [Linear] layer is bound to, [forward] does not
    look at the blob it is given beyond its batch size: the layer keeps the
    pointer of the call that bound it, and two calls that differ only in
    the blob passed give the same result. *)
Theorem Linear_forward_reads_bound_input
    (W : World) (L : Linear) (input1 input2 : ptr) (x1 x2 : Blob) (w : Blob) (p : ptr) :
  weights_ (linear_base L) = Some w → input_ (linear_base L) = Some p →
  heap W !! input1 = Some x1 → heap W !! input2 = Some x2 →
  blob_n x1 = batch_size_ (linear_base L) →
  blob_n x2 = batch_size_ (linear_base L) →
  Linear_forward input1 L W = Linear_forward input2 L W.
Proof.
  intros Hw Hp Hx1 Hx2 Hn1 Hn2.
  assert (∀ input x, heap W !! input = Some x → blob_n x = batch_size_ (linear_base L) →
            Linear_forward input L W = Linear_compute L W) as Hsame.
  { intros input x Hx Hn. unfold Linear_forward.
    erewrite bind_Ok by (unfold load; rewrite Hx; reflexivity).
    rewrite (Linear_allocate_parameters_keeps x L w Hw).
    erewrite bind_Ok; [reflexivity|].
    unfold Linear_rebind, rebind_needed. rewrite Hp, Hn, Nat.eqb_refl. done. }
  rewrite (Hsame input1 x1), (Hsame input2 x2); done.
Qed.

(** ** [Linear::backward] *)

Lemma Blob_of_shape_len (b : Blob) : Blob_len (Blob_of_shape (Blob_shape b)) = Blob_len b.
Proof. apply Blob_len_shape, Blob_of_shape_shape. Qed.

(** The three products of [backward] on a layer whose gradient blobs are
    allocated. *)
Lemma Linear_backward_compute_run W L B x dy q gw gb gi :
  Linear_bound W (set_linear_base B L) x →
  grad_weights_ B = Some gw → grad_biases_ B = Some gb → grad_input_ B = Some gi →
  Blob_wf gw → Blob_wf gb → Blob_wf gi →
  Blob_len gw = (input_size_ L * output_size_ L)%nat →
  Blob_len gb = output_size_ L →
  Blob_len gi = (blob_n x * input_size_ L)%nat →
  heap W !! q = Some dy →
  ∃ B',
    Linear_backward_compute L B (Some q) W = Ok B' W ∧
    Linear_bound W (set_linear_base B' L) x ∧
    Linear_grads W (set_linear_base B' L) (Some q) x dy ∧
    Linear_parameter_gradients (set_linear_base B' L) x dy ∧
    (gradient_stop_ B = false → Linear_input_gradient (set_linear_base B' L) x dy) ∧
    (gradient_stop_ B = true → grad_input_ B' = Some gi) ∧
    parameters B' = parameters B.
Proof.
  intros (w & b & wm & wv & bm & bv & p & out & Hmat & Hlw & Hlb & Fx & Hsx & Hbatch
          & Hout & Fout & Hsout & Hones)
         Hgw Hgb Hgi Fgw Fgb Fgi Hlgw Hlgb Hlgi Hq.
  simpl in *.
  pose proof Hmat as (Hw & Hb & Hwm & Hwv & Hbm & Hbv & Fw & Fb & Fwm & Fwv & Fbm & Fbv
                      & Hp & Hx).
  pose proof Fgw as [_ Hdgw]. pose proof Fgb as [_ Hdgb]. pose proof Fgi as [_ Hdgi].
  unfold Linear_backward_compute.
  erewrite bind_Ok by reflexivity.
  erewrite bind_Ok by (unfold load; rewrite Hq; reflexivity).
  erewrite bind_Ok by (unfold deref; rewrite Hones; reflexivity).
  erewrite bind_Ok by (unfold deref; rewrite Hgb; reflexivity).
  erewrite bind_Ok by (unfold deref; simpl; rewrite Hp; reflexivity).
  erewrite bind_Ok by (unfold load; rewrite Hx; reflexivity).
  erewrite bind_Ok by (unfold deref; simpl; rewrite Hgw; reflexivity).
  simpl. rewrite Hbatch.
  set (db := cublasSgemv false (output_size_ L) (blob_n x) cuda_one (d_ptr_ dy)
               (output_size_ L) (replicate (blob_n x) 1) cuda_zero (d_ptr_ gb)).
  set (dw := cublasSgemm false true (input_size_ L) (output_size_ L) (blob_n x)
               cuda_one (d_ptr_ x) (input_size_ L) (d_ptr_ dy) (output_size_ L)
               cuda_zero (d_ptr_ gw) (input_size_ L)).
  set (dx := cublasSgemm false false (input_size_ L) (blob_n x) (output_size_ L)
               cuda_one (d_ptr_ w) (input_size_ L) (d_ptr_ dy) (output_size_ L)
               cuda_zero (d_ptr_ gi) (input_size_ L)).
  assert (length db = length (d_ptr_ gb)) as Hldb by apply cublasSgemv_length.
  destruct (cublasSgemm_cells false true (input_size_ L) (output_size_ L) (blob_n x)
              cuda_one (d_ptr_ x) (input_size_ L) (d_ptr_ dy) (output_size_ L)
              cuda_zero (d_ptr_ gw) (input_size_ L)) as (Hldw & Hcdw & _); [lia|lia|].
  fold dw in Hldw, Hcdw.
  destruct (cublasSgemm_cells false false (input_size_ L) (blob_n x) (output_size_ L)
              cuda_one (d_ptr_ w) (input_size_ L) (d_ptr_ dy) (output_size_ L)
              cuda_zero (d_ptr_ gi) (input_size_ L)) as (Hldx & Hcdx & _); [lia|lia|].
  fold dx in Hldx, Hcdx.
  assert (Linear_parameter_gradients
            (set_linear_base
               (set_grad_weights_ (Some (set_d_ptr_ dw gw))
                  (set_grad_biases_ (Some (set_d_ptr_ db gb)) B)) L) x dy) as Hpg.
  { exists (set_d_ptr_ dw gw), (set_d_ptr_ db gb). simpl. split_and!; try done.
    - intros j Hj. subst db. rewrite cublasSgemv_cells by lia.
      rewrite decide_True by done.
      rewrite (sum_n_ext _ (λ n, d_ptr_ dy !!! (j + n * output_size_ L)%nat)).
      + unfold cuda_one, cuda_zero. ring.
      + intros l Hl. rewrite lookup_total_replicate_2 by done. ring.
    - intros l j Hl Hj. rewrite Hcdw by done. unfold cuda_one, cuda_zero. ring. }
  destruct (gradient_stop_ B) eqn:Hstop.
  - eexists. split; [reflexivity|]. simpl. split_and!.
    + exists w, b, wm, wv, bm, bv, p, out. simpl.
      split_and!; try done; unfold materialised; simpl; split_and!; done.
    + exists (set_d_ptr_ dw gw), (set_d_ptr_ db gb), gi, q. simpl.
      split_and!; try done; apply set_d_ptr_wf; (lia || done).
    + exact Hpg.
    + done.
    + done.
    + done.
  - erewrite bind_Ok by (unfold deref; simpl; rewrite Hw; reflexivity).
    erewrite bind_Ok by (unfold deref; simpl; rewrite Hgi; reflexivity).
    fold dx.
    eexists. split; [reflexivity|]. simpl. split_and!.
    + exists w, b, wm, wv, bm, bv, p, out. simpl.
      split_and!; try done; unfold materialised; simpl; split_and!; done.
    + exists (set_d_ptr_ dw gw), (set_d_ptr_ db gb), (set_d_ptr_ dx gi), q. simpl.
      split_and!; try done; apply set_d_ptr_wf; (lia || done).
    + exact Hpg.
    + intros _. exists w, (set_d_ptr_ dx gi). simpl. split_and!; try done.
      intros n l Hn Hl. rewrite Hcdx by done. unfold cuda_one, cuda_zero. ring.
    + done.
    + done.
Qed.

(** [backward] on a bound layer, on its first call (no gradient blob yet)
    and on later calls at the same batch size. *)
Lemma Linear_backward_run W L grad_output_ grad_output x dy dy0 :
  Linear_bound W L x →
  heap W !! grad_output = Some dy0 → blob_n dy0 = blob_n x →
  (Linear_no_grads L ∧ dy = dy0) ∨ Linear_grads W L grad_output_ x dy →
  ∃ L' q,
    Linear_backward grad_output L grad_output_ W = Ok (L', Some q) W ∧
    (Linear_no_grads L → q = grad_output) ∧
    (¬ Linear_no_grads L → grad_output_ = Some q) ∧
    Linear_bound W L' x ∧ Linear_grads W L' (Some q) x dy ∧
    Linear_parameter_gradients L' x dy ∧
    (gradient_stop_ (linear_base L) = false → Linear_input_gradient L' x dy) ∧
    (gradient_stop_ (linear_base L) = true →
     grad_input_ (linear_base L')
     = Some (default (Blob_of_shape (Blob_shape x)) (grad_input_ (linear_base L)))) ∧
    parameters (linear_base L') = parameters (linear_base L) ∧
    output_size_ L' = output_size_ L ∧ input_size_ L' = input_size_ L.
Proof.
  intros Hbound Hgo Hn Hstate.
  pose proof Hbound as (w & b & wm & wv & bm & bv & p & out & Hmat & Hlw & Hlb & Fx & Hsx
                        & Hbatch & Hout & Fout & Hsout & Hones).
  pose proof Hmat as (Hw & Hb & Hwm & Hwv & Hbm & Hbv & Fw & Fb & Fwm & Fwv & Fbm & Fbv
                      & Hp & Hx).
  assert (Blob_len x = (blob_n x * input_size_ L)%nat) as Hlx
    by (unfold Blob_len; by rewrite Hsx).
  unfold Linear_backward.
  erewrite bind_Ok by (unfold load; rewrite Hgo; reflexivity).
  destruct Hstate as [[(Hngw & Hngb & Hngi) ->] | Hgrads].
  - (* first call: the gradient blobs are allocated *)
    set (B1 := set_grad_input_ (Some (Blob_of_shape (Blob_shape x)))
                 (set_grad_biases_ (Some (Blob_of_shape (Blob_shape b)))
                    (set_grad_weights_ (Some (Blob_of_shape (Blob_shape w)))
                       (linear_base L)))).
    assert (Linear_backward_bind grad_output dy0 (linear_base L) grad_output_ W
            = Ok (B1, Some grad_output) W) as Hbind.
    { unfold Linear_backward_bind. rewrite Hngw.
      erewrite bind_Ok.
      2:{ erewrite bind_Ok by (unfold deref; rewrite Hw; reflexivity).
          erewrite bind_Ok by (unfold deref; rewrite Hb; reflexivity).
          reflexivity. }
      simpl. rewrite Hngi. simpl.
      erewrite bind_Ok by (unfold deref; rewrite Hp; reflexivity).
      erewrite bind_Ok by (unfold load; rewrite Hx; reflexivity).
      reflexivity. }
    erewrite bind_Ok by exact Hbind. cbv beta iota.
    assert (Linear_bound W (set_linear_base B1 L) x) as Hb1.
    { exists w, b, wm, wv, bm, bv, p, out. subst B1. simpl.
      split_and!; try done; unfold materialised; simpl; split_and!; done. }
    destruct (Linear_backward_compute_run W L B1 x dy0 grad_output
                (Blob_of_shape (Blob_shape w)) (Blob_of_shape (Blob_shape b))
                (Blob_of_shape (Blob_shape x)) Hb1)
      as (B' & Hrun & Hb' & Hg' & Hpg & Hig & Hstop & Hpar); try done;
      try apply Blob_of_shape_wf; try (rewrite Blob_of_shape_len; done).
    erewrite bind_Ok by exact Hrun.
    exists (set_linear_base B' L), grad_output. split; [reflexivity|].
    split_and!; try done.
    + intros Hno. destruct Hno. by split_and!.
    + simpl. intros Hs. rewrite Hstop by done. by rewrite Hngi.
  - (* later calls: nothing is allocated or rebound *)
    destruct Hgrads as (gw & gb & gi & q & Hgw & Hgb & Hgi & Fgw & Fgb & Fgi & Hlgw & Hlgb
                        & Hlgi & -> & Hq).
    assert (Linear_backward_bind grad_output dy0 (linear_base L) (Some q) W
            = Ok (linear_base L, Some q) W) as Hbind.
    { unfold Linear_backward_bind. rewrite Hgw.
      erewrite bind_Ok by reflexivity.
      rewrite Hgi, Hbatch, Hn, Nat.eqb_refl. reflexivity. }
    erewrite bind_Ok by exact Hbind. cbv beta iota.
    destruct (Linear_backward_compute_run W L (linear_base L) x dy q gw gb gi Hbound)
      as (B' & Hrun & Hb' & Hg' & Hpg & Hig & Hstop & Hpar); try done.
    erewrite bind_Ok by exact Hrun.
    exists (set_linear_base B' L), q. split; [reflexivity|].
    split_and!; try done.
    + intros (Hngw & _). congruence.
    + simpl. intros Hs. rewrite Hstop by done. by rewrite Hgi.
Qed.

(** X18. On a bound layer [Linear::backward] leaves in its gradient blobs
    the derivatives of [W^T x + b]: [grad_biases[j]] is the sum over the
    samples [n] of [dy[j + n * output_size_]], [grad_weights[l + j * input_size_]]
    the sum over the samples of [x[l + n * input_size_] * dy[j + n * output_size_]],
    and, unless [gradient_stop_] is set, [grad_input[l + n * input_size_]]
    the sum over the output features [j] of
    [weights[l + j * input_size_] * dy[j + n * output_size_]].  [dy] is the
    gradient blob the layer is bound to: the argument on the first call, and
    on later calls at the same batch size the blob of the first call, whatever
    blob is passed.  The parameters are not touched. *)
Theorem Linear_backward_gradients
    (W : World) (L : Linear) (grad_output_ : option ptr) (grad_output : ptr)
    (x dy dy0 : Blob) :
  Linear_bound W L x →
  heap W !! grad_output = Some dy0 → blob_n dy0 = blob_n x →
  (Linear_no_grads L ∧ dy = dy0) ∨ Linear_grads W L grad_output_ x dy →
  Blob_wf dy → Blob_shape dy = (blob_n x, output_size_ L, 1%nat, 1%nat) →
  ∃ L' q,
    Linear_backward grad_output L grad_output_ W = Ok (L', Some q) W ∧
    heap W !! q = Some dy ∧
    Linear_bound W L' x ∧ Linear_grads W L' (Some q) x dy ∧
    Linear_parameter_gradients L' x dy ∧
    (gradient_stop_ (linear_base L) = false → Linear_input_gradient L' x dy) ∧
    parameters (linear_base L') = parameters (linear_base L) ∧
    output_size_ L' = output_size_ L ∧ input_size_ L' = input_size_ L.
Proof.
  intros Hbound Hgo Hn Hstate _ _.
  destruct (Linear_backward_run W L grad_output_ grad_output x dy dy0 Hbound Hgo Hn Hstate)
    as (L' & q & Hrun & Hq1 & Hq2 & Hb' & Hg' & Hpg & Hig & _ & Hpar & Hos & His).
  exists L', q. split; [exact Hrun|]. split; [|by split_and!].
  destruct Hg' as (_ & _ & _ & q' & _ & _ & _ & _ & _ & _ & _ & _ & _ & [= <-] & Hq).
  exact Hq.
Qed.

(** X19. With [gradient_stop_] set, [Linear::backward] still computes the
    gradients of the weights and of the biases, and returns a [grad_input_]
    blob that it never writes: on the first call the blob is freshly
    allocated with the shape of the input and whatever the allocation
    holds, later it is the blob of the call before. *)
Theorem Linear_backward_gradient_stop
    (W : World) (L : Linear) (grad_output_ : option ptr) (grad_output : ptr)
    (x dy dy0 : Blob) :
  Linear_bound W L x →
  heap W !! grad_output = Some dy0 → blob_n dy0 = blob_n x →
  (Linear_no_grads L ∧ dy = dy0) ∨ Linear_grads W L grad_output_ x dy →
  Blob_wf dy → Blob_shape dy = (blob_n x, output_size_ L, 1%nat, 1%nat) →
  gradient_stop_ (linear_base L) = true →
  ∃ L' q,
    Linear_backward grad_output L grad_output_ W = Ok (L', Some q) W ∧
    Linear_parameter_gradients L' x dy ∧
    grad_input_ (linear_base L')
    = Some (default (Blob_of_shape (Blob_shape x)) (grad_input_ (linear_base L))).
Proof.
  intros Hbound Hgo Hn Hstate _ _ Hstop.
  destruct (Linear_backward_run W L grad_output_ grad_output x dy dy0 Hbound Hgo Hn Hstate)
    as (L' & q & Hrun & _ & _ & _ & _ & Hpg & _ & Hgi & _).
  exists L', q. split; [exact Hrun|]. split; [exact Hpg|]. by apply Hgi.
Qed.

(** X20. A backward pass followed by [update_weights_biases] is one step of
    gradient descent on the layer [y = W^T x + b]: every weight moves by
    [- learning_rate] times the sum over the samples of [x[l] * dy[j]], and
    every bias by [- learning_rate] times the sum over the samples of
    [dy[j]].  The gradient blobs [backward] allocates have the shapes of the
    parameter blobs, so the update covers every parameter cell. *)
Theorem Linear_backward_then_update
    (W : World) (L : Linear) (grad_output_ : option ptr) (grad_output : ptr)
    (x dy dy0 w b : Blob) (learning_rate : R) :
  Linear_bound W L x →
  heap W !! grad_output = Some dy0 → blob_n dy0 = blob_n x →
  (Linear_no_grads L ∧ dy = dy0) ∨ Linear_grads W L grad_output_ x dy →
  Blob_wf dy → Blob_shape dy = (blob_n x, output_size_ L, 1%nat, 1%nat) →
  weights_ (linear_base L) = Some w → biases_ (linear_base L) = Some b →
  ∃ L' q w' b',
    Linear_backward grad_output L grad_output_ W = Ok (L', q) W ∧
    weights_ (update_weights_biases learning_rate (linear_base L')) = Some w' ∧
    biases_ (update_weights_biases learning_rate (linear_base L')) = Some b' ∧
    (∀ l j, (l < input_size_ L)%nat → (j < output_size_ L)%nat →
       d_ptr_ w' !!! (l + j * input_size_ L)%nat
       = d_ptr_ w !!! (l + j * input_size_ L)%nat
         - learning_rate
           * sum_n (λ n, d_ptr_ x !!! (l + n * input_size_ L)%nat
                         * d_ptr_ dy !!! (j + n * output_size_ L)%nat)
               (blob_n x)) ∧
    (∀ j, (j < output_size_ L)%nat →
       d_ptr_ b' !!! j
       = d_ptr_ b !!! j
         - learning_rate
           * sum_n (λ n, d_ptr_ dy !!! (j + n * output_size_ L)%nat) (blob_n x)).
Proof.
  intros Hbound Hgo Hn Hstate _ _ Hw Hb.
  destruct (Linear_backward_run W L grad_output_ grad_output x dy dy0 Hbound Hgo Hn Hstate)
    as (L' & q & Hrun & _ & _ & _ & _ & Hpg & _ & _ & Hpar & Hos & His).
  destruct Hbound as (w0 & b0 & wm & wv & bm & bv & p & out & Hmat & Hlw & Hlb & _).
  destruct Hmat as (Hw0 & Hb0 & _ & _ & _ & _ & [_ Fw] & [_ Fb] & _).
  rewrite Hw in Hw0. injection Hw0 as <-. rewrite Hb in Hb0. injection Hb0 as <-.
  destruct Hpg as (gw & gb & Hgw & Hgb & Hdb & Hdw).
  rewrite Hos, His in *.
  unfold parameters in Hpar. injection Hpar as Hw' Hb' _ _ _ _.
  rewrite Hw in Hw'. rewrite Hb in Hb'.
  exists L', (Some q).
  exists (set_d_ptr_ (cublasSaxpy (Blob_len w) (-1 * learning_rate) (d_ptr_ gw) (d_ptr_ w)) w),
         (set_d_ptr_ (cublasSaxpy (Blob_len b) (-1 * learning_rate) (d_ptr_ gb) (d_ptr_ b)) b).
  split; [exact Hrun|].
  unfold update_weights_biases. rewrite Hw', Hgw. simpl. rewrite Hb', Hgb. simpl.
  split; [done|]. split; [done|]. split.
  - intros l j Hl Hj. rewrite cublasSaxpy_lookup by lia.
    rewrite decide_True by nia. rewrite Hdw by done. ring.
  - intros j Hj. rewrite cublasSaxpy_lookup by lia.
    rewrite decide_True by lia. rewrite Hdb by done. ring.
Qed.

(** ** What initialisation does besides filling the blobs *)

(** X21. [init_weight_bias] returns at once, changing nothing, on a layer
    that lacks a weight or a bias blob.  On a materialised layer it prints
    one line, takes one value from [std::random_device] when the seed is 0
    and none otherwise, and touches neither a file nor a blob of the
    caller. *)
Theorem init_weight_bias_effects (W : World) (L : Layer) (seed : Z) :
  (weights_ L = None ∨ biases_ L = None → init_weight_bias seed L W = Ok L W) ∧
  (∀ w b wm wv bm bv p x,
     materialised W L w b wm wv bm bv p x →
     ∃ L' W',
       init_weight_bias seed L W = Ok L' W' ∧
       stdout W' = stdout W ++ [".. initialized " +:+ name_ L +:+ " layer .."] ∧
       rd_calls W' = (if decide (seed = 0%Z) then S (rd_calls W) else rd_calls W) ∧
       heap W' = heap W ∧ files W' = files W ∧ write_denied W' = write_denied W ∧
       random_device W' = random_device W).
Proof.
  split.
  - intros Hnull. unfold init_weight_bias.
    destruct Hnull as [-> | ->]; [done|]. by destruct (weights_ L).
  - intros w b wm wv bm bv p x Hmat.
    rewrite (init_weight_bias_run W L seed w b wm wv bm bv p x Hmat).
    eexists _, _. split; [reflexivity|].
    unfold after_init, initialized_line. case_decide; simpl; split_and!; done.
Qed.

(** ** [Conv2D::forward] and the bound input *)

(** X22. Like [Linear::forward], [Conv2D::forward] convolves the blob it
    was bound to: at the bound batch size two calls that differ only in the
    blob passed give the same result. *)
Theorem Conv2D_forward_reads_bound_input
    (W : World) (L : Conv2D) (input1 input2 : ptr) (x1 x2 : Blob) (w : Blob) (p : ptr) :
  weights_ (conv_base L) = Some w → input_ (conv_base L) = Some p →
  heap W !! input1 = Some x1 → heap W !! input2 = Some x2 →
  blob_n x1 = batch_size_ (conv_base L) →
  blob_n x2 = batch_size_ (conv_base L) →
  Conv2D_forward input1 L W = Conv2D_forward input2 L W.
Proof.
  intros Hw Hp Hx1 Hx2 Hn1 Hn2.
  assert (∀ input x, heap W !! input = Some x → blob_n x = batch_size_ (conv_base L) →
            Conv2D_forward input L W = Conv2D_compute L W) as Hsame.
  { intros input x Hx Hn. unfold Conv2D_forward.
    erewrite bind_Ok by (unfold load; rewrite Hx; reflexivity).
    rewrite (Conv2D_allocate_parameters_keeps x L w Hw).
    erewrite bind_Ok; [reflexivity|].
    unfold Conv2D_rebind, rebind_needed. rewrite Hp, Hn, Nat.eqb_refl. done. }
  rewrite (Hsame input1 x1), (Hsame input2 x2); done.
Qed.

(** ** [Softmax::forward]: a distribution over the channels *)

Lemma sum_n_S (f : nat → R) (k : nat) : sum_n f (S k) = sum_n f k + f k.
Proof. unfold sum_n. rewrite seq_S, foldl_app. done. Qed.

Lemma sum_n_div (f : nat → R) (d : R) (k : nat) :
  sum_n (λ l, f l / d) k = sum_n f k / d.
Proof.
  induction k as [|k IH].
  - unfold sum_n, Rdiv. simpl. ring.
  - rewrite !sum_n_S, IH. unfold Rdiv. ring.
Qed.

Lemma sum_n_pos (f : nat → R) (k : nat) :
  (0 < k)%nat → (∀ l, (l < k)%nat → 0 < f l) → 0 < sum_n f k.
Proof.
  intros Hk Hf. destruct k as [|k]; [lia|]. clear Hk.
  induction k as [|k IH].
  - rewrite sum_n_S. unfold sum_n at 1. simpl.
    specialize (Hf 0%nat ltac:(lia)). lra.
  - rewrite sum_n_S.
    assert (0 < sum_n f (S k)) by (apply IH; intros l Hl; apply Hf; lia).
    specialize (Hf (S k) ltac:(lia)). lra.
Qed.

(** X23. [Softmax::forward] normalises over the channels: in the output,
    the values of one sample at one position are positive and sum to 1 over
    the channels, whatever the output buffer held before (the call blends
    with [alpha = 1], [beta = 0]). *)
Theorem Softmax_forward_distribution
    (W : World) (L : Layer) (input : ptr) (x : Blob) :
  heap W !! input = Some x → Blob_wf x →
  Softmax_ready W L (Blob_shape x) →
  ∃ L1 out,
    Softmax_forward input L W = Ok L1 W ∧ output_ L1 = Some out ∧
    ∀ n p, (n < blob_n x)%nat → (p < blob_h x * blob_w x)%nat →
      let cell c := (n * (blob_c x * (blob_h x * blob_w x))
                     + c * (blob_h x * blob_w x) + p)%nat in
      (∀ c, (c < blob_c x)%nat → 0 < d_ptr_ out !!! cell c) ∧
      ((0 < blob_c x)%nat → sum_n (λ c, d_ptr_ out !!! cell c) (blob_c x) = 1).
Proof.
  intros Hx Fx Hready.
  destruct (Softmax_forward_spec W L input x Hx Fx Hready)
    as (L1 & out & Hfwd & Hout & _ & _ & Hval & _).
  exists L1, out. split; [exact Hfwd|]. split; [exact Hout|].
  intros n p Hn Hp cell.
  set (hw := (blob_h x * blob_w x)%nat) in *.
  set (chw := (blob_c x * hw)%nat) in *.
  set (S := sum_n (λ k, exp (d_ptr_ x !!! (n * chw + p + k * hw)%nat)) (blob_c x)).
  assert (∀ c, (c < blob_c x)%nat →
            d_ptr_ out !!! cell c = exp (d_ptr_ x !!! cell c) / S) as Hcell.
  { intros c Hc.
    assert (cell c < Blob_len x)%nat as Hlt.
    { unfold Blob_len, Blob_size. subst cell chw hw. cbv beta.
      replace (blob_c x * blob_h x * blob_w x)%nat
        with (blob_c x * (blob_h x * blob_w x))%nat by lia.
      set (hw := (blob_h x * blob_w x)%nat) in *.
      assert (c * hw + p < blob_c x * hw)%nat by nia.
      nia. }
    rewrite (Hval _ Hlt). unfold softmax_channel, Blob_shape. cbv zeta.
    fold hw chw.
    assert (c * hw + p < chw)%nat as Hr by (subst chw; nia).
    assert (cell c `div` chw = n) as ->.
    { subst cell. cbv beta. symmetry.
      apply (Nat.div_unique _ _ _ (c * hw + p)); [exact Hr|lia]. }
    assert (cell c `mod` hw = p) as ->.
    { subst cell. cbv beta. symmetry.
      apply (Nat.mod_unique _ _ (n * blob_c x + c)); [exact Hp|]. subst chw. lia. }
    done. }
  split.
  - intros c Hc. rewrite Hcell by done.
    apply Rdiv_lt_0_compat; [apply exp_pos|].
    apply sum_n_pos; [lia|]. intros l _. apply exp_pos.
  - intros Hc.
    rewrite (sum_n_ext _ (λ c, exp (d_ptr_ x !!! cell c) / S))
      by (intros c Hc'; by apply Hcell).
    rewrite sum_n_div.
    assert (sum_n (λ c, exp (d_ptr_ x !!! cell c)) (blob_c x) = S) as ->.
    { subst S. apply sum_n_ext. intros c _. subst cell. cbv beta.
      do 2 f_equal. lia. }
    apply Rdiv_diag. apply Rgt_not_eq.
    apply sum_n_pos; [done|]. intros l _. apply exp_pos.
Qed.

(** ** [Linear::forward] twice *)

(** Two column-major [m × n] matrices with the same entries are equal. *)
Lemma list_eq_matrix (l1 l2 : list R) (m n : nat) :
  length l1 = (n * m)%nat → length l2 = (n * m)%nat →
  (∀ i j, (i < m)%nat → (j < n)%nat → l1 !!! (i + j * m)%nat = l2 !!! (i + j * m)%nat) →
  l1 = l2.
Proof.
  intros H1 H2 Hsame. apply (list_eq_same_length _ _ (n * m)); [done..|].
  intros c a b Hc Ha Hb.
  assert (0 < m)%nat as Hm by (destruct m; [lia|lia]).
  assert (c `mod` m < m)%nat as Hi by (apply Nat.mod_upper_bound; lia).
  assert (c `div` m < n)%nat as Hj by (apply Nat.Div0.div_lt_upper_bound; lia).
  specialize (Hsame _ _ Hi Hj).
  replace (c `mod` m + c `div` m * m)%nat with c in Hsame
    by (pose proof (Nat.div_mod_eq c m); lia).
  rewrite !list_lookup_total_alt, Ha, Hb in Hsame. done.
Qed.

(** X24. [Linear::forward] does not accumulate: on a layer that is bound and
    whose output already holds the affine image of the bound input, a
    further call at the same batch size leaves the layer and the world as
    they are. The first product overwrites the output ([beta = 0]) and only
    the bias product adds to it. *)
Theorem Linear_forward_idempotent
    (W : World) (L : Linear) (input : ptr) (x xin : Blob) :
  Linear_bound W L x → Linear_output_affine L x →
  heap W !! input = Some xin → blob_n xin = blob_n x →
  Linear_forward input L W = Ok L W.
Proof.
  intros (w & b & wm & wv & bm & bv & p & out & Hmat & Hlw & Hlb & Fx & Hsx & Hbatch
          & Hout & Fout & Hsout & Hones) (w' & b' & out' & Hw' & Hb' & Hout' & Haff)
         Hin Hn.
  pose proof Hmat as (Hw & Hb & _ & _ & _ & _ & _ & _ & _ & _ & _ & _ & Hp & Hx).
  assert (w' = w) as -> by congruence.
  assert (b' = b) as -> by congruence.
  assert (out' = out) as -> by congruence.
  unfold Linear_forward.
  erewrite bind_Ok by (unfold load; rewrite Hin; reflexivity).
  rewrite (Linear_allocate_parameters_keeps xin L w Hw).
  erewrite bind_Ok
    by (unfold Linear_rebind, rebind_needed;
        rewrite Hp, Hn, Hbatch, Nat.eqb_refl; reflexivity).
  unfold Linear_compute.
  erewrite bind_Ok by (unfold deref; rewrite Hw; reflexivity).
  erewrite bind_Ok by (unfold deref; rewrite Hb; reflexivity).
  erewrite bind_Ok by (unfold deref; rewrite Hp; reflexivity).
  erewrite bind_Ok by (unfold load; rewrite Hx; reflexivity).
  erewrite bind_Ok by (unfold deref; rewrite Hout; reflexivity).
  erewrite bind_Ok by (unfold deref; rewrite Hones; reflexivity).
  rewrite Hbatch.
  set (y1 := cublasSgemm true false (output_size_ L) (blob_n x) (input_size_ L)
               cuda_one (d_ptr_ w) (input_size_ L) (d_ptr_ x) (input_size_ L)
               cuda_zero (d_ptr_ out) (output_size_ L)).
  set (y2 := cublasSgemm false false (output_size_ L) (blob_n x) 1
               cuda_one (d_ptr_ b) (output_size_ L) (replicate (blob_n x) 1) 1
               cuda_one y1 (output_size_ L)).
  assert (Blob_len out = (blob_n x * output_size_ L)%nat) as Hlout.
  { unfold Blob_shape in Hsout. injection Hsout as Hn' Hc Hh Hw''.
    unfold Blob_len, Blob_size. rewrite Hn', Hc, Hh, Hw''. lia. }
  pose proof Fout as [_ Hdout].
  destruct (cublasSgemm_cells true false (output_size_ L) (blob_n x) (input_size_ L)
              cuda_one (d_ptr_ w) (input_size_ L) (d_ptr_ x) (input_size_ L)
              cuda_zero (d_ptr_ out) (output_size_ L)) as (Hl1 & Hc1 & _); [lia|lia|].
  fold y1 in Hl1, Hc1.
  destruct (cublasSgemm_cells false false (output_size_ L) (blob_n x) 1
              cuda_one (d_ptr_ b) (output_size_ L) (replicate (blob_n x) 1) 1
              cuda_one y1 (output_size_ L)) as (Hl2 & Hc2 & _); [lia|lia|].
  fold y2 in Hl2, Hc2.
  assert (y2 = d_ptr_ out) as ->.
  { apply (list_eq_matrix _ _ (output_size_ L) (blob_n x)); [lia|lia|].
    intros j n Hj Hnn. rewrite Hc2, Hc1 by done.
    rewrite sum_n_one.
    replace (0 + n * 1)%nat with n by lia.
    replace (j + 0 * output_size_ L)%nat with j by lia.
    rewrite lookup_total_replicate_2 by done.
    rewrite (Haff n j Hnn Hj).
    unfold cuda_one, cuda_zero. ring. }
  unfold ret. f_equal.
  clear -Hout. destruct L as [B ? ? ?]. simpl in *.
  destruct B. simpl in *. subst. destruct out. reflexivity.
Qed.

End LayerEngine.

(** * The properties at concrete inputs *)

Local Open Scope R_scope.

Lemma adam_update_elementwise_witness :
  let '(m', v', w') :=
    adam_update 16 512 2 0 [0; 0] [0; 0] [1; 1] [1; 2]
      (9 / 10) (999 / 1000) (1 / 100000000) (1 / 1000) in
  m' !!! 1%nat = 9 / 10 * [0; 0] !!! 1%nat + (1 - 9 / 10) * [1; 2] !!! 1%nat ∧
  v' !!! 1%nat
  = 999 / 1000 * [0; 0] !!! 1%nat + (1 - 999 / 1000) * ([1; 2] !!! 1%nat) ^ 2 ∧
  w' !!! 1%nat
  = [1; 1] !!! 1%nat
    - 1 / 1000 * (m' !!! 1%nat / (1 - powerRZ (9 / 10) (0 + 1)))
      / (sqrt (v' !!! 1%nat / (1 - powerRZ (999 / 1000) (0 + 1))) + 1 / 100000000).
Proof.
  apply (adam_update_elementwise 16 512 2 0 [0; 0] [0; 0] [1; 1] [1; 2]
           (9 / 10) (999 / 1000) (1 / 100000000) (1 / 1000) 1);
    simpl; unfold INT_MIN, INT_MAX; lia.
Defined.

Lemma rmsprop_update_decay_one_witness :
  let '(m', w') := rmsprop_update 16 512 2 [4; 9] [1; 1] [1; 2] 1 0 (1 / 10) in
  m' = [4; 9] ∧
  ∀ i, (i < 2)%nat →
       w' !!! i = [1; 1] !!! i - 1 / 10 * [1; 2] !!! i / sqrt (0 + [4; 9] !!! i).
Proof.
  apply (rmsprop_update_decay_one 16 512 2 [4; 9] [1; 1] [1; 2] 0 (1 / 10));
    simpl; lia.
Defined.

Lemma Softmax_backward_gradient_witness :
  ∃ L1 L2 prediction grad,
    Softmax_forward (λ _, 0) 0%nat (new_layer "softmax" false false) toy_batch
    = Ok L1 toy_batch ∧
    output_ L1 = Some prediction ∧
    (∀ i, (i < Blob_len toy_logits)%nat →
          d_ptr_ prediction !!! i
          = softmax_channel (Blob_shape toy_logits) (d_ptr_ toy_logits) i) ∧
    Softmax_backward (λ _, 0) 1%nat L1 toy_batch = Ok L2 toy_batch ∧
    grad_input_ L2 = Some grad ∧
    Blob_wf grad ∧ (Blob_len toy_target ≤ Blob_len grad)%nat ∧
    (grad_input_ (new_layer "softmax" false false) = None →
     Blob_shape grad = Blob_shape toy_target) ∧
    ∀ i, (i < Blob_len toy_target)%nat →
         d_ptr_ grad !!! i
         = (d_ptr_ prediction !!! i - d_ptr_ toy_target !!! i) / INR (blob_n toy_target).
Proof.
  apply (Softmax_backward_gradient (λ _, 0) toy_batch (new_layer "softmax" false false)
           0%nat 1%nat toy_logits toy_target).
  - reflexivity.
  - reflexivity.
  - split; reflexivity.
  - split; reflexivity.
  - reflexivity.
  - unfold Softmax_ready. simpl. split_and!; intros; discriminate.
Defined.

(** C1 on a new layer that sees a batch of two samples and then a batch of
    three, each with a target of its shape.  The first round returns the
    gradient of the claim in a tensor of the first target's shape.  In the
    second round [forward] computes the nine predictions and stores the new
    batch size, so [backward], which compares the target's batch size with
    the stored one, keeps the gradient tensor of six cells, and its copy of
    the nine predictions runs past the end of that tensor: no gradient is
    returned for the second batch. *)
Theorem Softmax_backward_overruns_kept_gradient :
  ∃ L1 L2 L3 grad prediction,
    Softmax_forward (λ _, 0) 0%nat (new_layer "softmax" false false) toy_growing_batches
    = Ok L1 toy_growing_batches ∧
    Softmax_backward (λ _, 0) 1%nat L1 toy_growing_batches = Ok L2 toy_growing_batches ∧
    grad_input_ L2 = Some grad ∧ Blob_wf grad ∧
    Blob_shape grad = Blob_shape toy_target ∧
    (∀ i, (i < Blob_len toy_target)%nat →
          d_ptr_ grad !!! i
          = (softmax_channel (Blob_shape toy_logits) (d_ptr_ toy_logits) i
             - d_ptr_ toy_target !!! i) / INR (blob_n toy_target)) ∧
    Softmax_forward (λ _, 0) 2%nat L2 toy_growing_batches = Ok L3 toy_growing_batches ∧
    output_ L3 = Some prediction ∧
    Blob_shape prediction = Blob_shape toy_target3 ∧
    (∀ i, (i < Blob_len toy_logits3)%nat →
          d_ptr_ prediction !!! i
          = softmax_channel (Blob_shape toy_logits3) (d_ptr_ toy_logits3) i) ∧
    batch_size_ L3 = blob_n toy_target3 ∧
    grad_input_ L3 = Some grad ∧
    (Blob_len grad < Blob_len toy_target3)%nat ∧
    Softmax_backward (λ _, 0) 3%nat L3 toy_growing_batches = Fault.
Proof.
  set (W := toy_growing_batches).
  destruct (Softmax_forward_spec (λ _, 0) W (new_layer "softmax" false false)
              0%nat toy_logits)
    as (L1 & out & Hfwd & Hout & Hwfo & Hso & Hval & Hg1 & Hb1 & Hin1 & _).
  { reflexivity. }
  { split; reflexivity. }
  { unfold Softmax_ready. simpl. split_and!; intros; discriminate. }
  destruct (Softmax_backward_spec (λ _, 0) W L1 1%nat toy_target out
              (Blob_shape toy_logits))
    as (grad & Hbwd & Hwfg & _ & Hsg & Hgrad); try done.
  { rewrite Hg1. intros g [=]. }
  specialize (Hsg ltac:(by rewrite Hg1)).
  assert (Blob_len grad = 6%nat) as Hlen
    by (by rewrite (Blob_len_shape grad toy_logits)).
  set (L2 := set_grad_input_ (Some grad) L1) in *.
  destruct (Softmax_forward_run (λ _, 0) W L2 2%nat toy_logits3)
    as (L3 & out3 & Hfwd3 & Hout3 & Hwfo3 & Hso3 & Hval3 & Hg3 & Hb3 & _).
  { reflexivity. }
  { split; reflexivity. }
  { intros o Ho. simpl in Ho. congruence. }
  { intros p _ Hb. simpl in Hb. rewrite Hb1 in Hb. discriminate. }
  exists L1, L2, L3, grad, out3.
  split; [exact Hfwd|]. split; [exact Hbwd|]. split; [done|]. split; [done|].
  split; [done|]. split.
  { intros i Hi. rewrite Hgrad by done. rewrite Hval; [done|exact Hi]. }
  split; [exact Hfwd3|]. split; [done|]. split; [done|]. split; [done|].
  split; [done|]. split; [done|]. split.
  { rewrite Hlen. unfold Blob_len, Blob_size. simpl. lia. }
  eapply (Softmax_backward_stale_gradient_buffer _ W L3 3%nat toy_target3 grad out3);
    try done.
  destruct Hwfg as [_ ->]. rewrite Hlen.
  rewrite (Blob_len_shape out3 toy_logits3) by done.
  unfold Blob_len, Blob_size. simpl. lia.
Qed.

Lemma Softmax_get_accuracy_hit_count_witness :
  ∃ (hit_count : Z) (L' : Layer) (W' : World) (class_p class_t : nat → nat),
    Softmax_get_accuracy 1%nat digits_layer digits_world = Ok (hit_count, L') W' ∧
    (∀ b, (b < blob_n digits_prediction)%nat →
       is_argmax (d_ptr_ digits_prediction) (b * Blob_size digits_prediction) 10
         (class_p b) ∧
       is_argmax (d_ptr_ digits_target) (b * Blob_size digits_prediction) 10
         (class_t b)) ∧
    hit_count = matches (blob_n digits_prediction) class_p class_t ∧
    (0 ≤ hit_count ≤ Z.of_nat (blob_n digits_prediction))%Z.
Proof.
  apply (Softmax_get_accuracy_hit_count digits_world digits_layer 1%nat
           digits_prediction digits_target).
  - reflexivity.
  - reflexivity.
  - split; reflexivity.
  - split; reflexivity.
  - reflexivity.
  - unfold Blob_size. simpl. lia.
Defined.

(** In the examples memory starts zeroed, a block has 512 threads, the
    engine state is its seed and every draw is the midpoint of the range. *)
Local Abbreviation forward :=
  (Linear_forward (λ _, 0) 512 Z (λ s : Z, s) midpoint_draw 0%Z).
Local Abbreviation materialize :=
  (materialize_parameters Z (λ s : Z, s) midpoint_draw 0%Z).
Local Abbreviation fresh_parameters :=
  (initialised Z (λ s : Z, s) midpoint_draw).

(** The convolution of the examples leaves its output buffer as it finds
    it, needs no workspace, and reports cuDNN 8 with 10, 9 and 8 algorithms. *)
Local Abbreviation conv_forward :=
  (Conv2D_forward (λ _, 0) Z (λ s : Z, s) midpoint_draw 0%Z
     (λ _ _ _ _ _ _ _ _ _ _ _ y, y) (λ _ _ _ y, y)
     (λ _ _ _ _ _, [0%nat]) (λ _ _ _ _ _, [0%nat]) (λ _ _ _ _ _, [0%nat])
     (λ _ _ _ _, 0%nat) (λ _ _ _ _, 0%nat) (λ _ _ _ _, 0%nat)
     (λ _ _ _ _ _, 0%nat) (λ _ _ _ _ _, 0%nat) (λ _ _ _ _ _, 0%nat) 8 10 9 8).

(** The batch normalisation of the examples leaves the output and the
    statistics buffers as it finds them, and derives the input descriptor. *)
Local Abbreviation bn_forward :=
  (FusedBatchNormalization_forward (λ _, 0) Z (λ s : Z, s) midpoint_draw 0%Z
     (λ s _, s) (λ _ _ _ _ _ _ y _ _ _ _ rm rv _ sm sv, (y, rm, rv, sm, sv))).
Local Abbreviation materialises :=
  (forward_materialises Z (λ s : Z, s) midpoint_draw 0%Z).

Lemma two_batches_layer_ready freeze : Layer_ready two_batches (trained_base freeze).
Proof.
  unfold Layer_ready, materialised.
  eexists _, _, _, _, _, _, _, _, _.
  split; [|split; reflexivity].
  split_and!; try reflexivity; split; reflexivity.
Qed.

Lemma two_batches_ready freeze : Linear_ready two_batches (trained_linear freeze).
Proof. split; [apply two_batches_layer_ready|by eexists]. Qed.

Lemma two_batches_conv_ready freeze : Conv2D_ready two_batches (trained_conv freeze).
Proof.
  split; [apply (two_batches_layer_ready freeze)|].
  eexists _, _, _, _. split_and!; reflexivity.
Qed.

Lemma two_batches_bn_ready freeze :
  FusedBatchNormalization_ready two_batches (trained_bn freeze).
Proof.
  split; [apply (two_batches_layer_ready freeze)|].
  eexists _, _, _. split_and!; reflexivity.
Qed.

Lemma two_batches_materialised freeze :
  materialised two_batches (trained_base freeze)
    (mkBlob 1 1 1 1 [5] [5]) (mkBlob 1 1 1 1 [7] [7])
    (mkBlob 1 1 1 1 [0] [0]) (mkBlob 1 1 1 1 [0] [0])
    (mkBlob 1 1 1 1 [0] [0]) (mkBlob 1 1 1 1 [0] [0])
    0%nat (vector_blob [1; 2]).
Proof.
  unfold materialised. split_and!; try reflexivity; split; reflexivity.
Qed.

Lemma forward_materialisation_witness :
  (* new layers: a first call and a second one, at batch size 2 *)
  (materialises linear_base forward two_batches (new_linear false false)
     0%nat (vector_blob [1; 2]) [0%nat]
     (Linear_bound_base (λ _, 0) 0%nat (vector_blob [1; 2])
        (Linear_allocate_parameters (λ _, 0) (vector_blob [1; 2])
           (new_linear false false)))
     two_batches ∧
   (∃ wd,
      filter_desc_ (Conv2D_allocate_parameters (λ _, 0) (vector_blob [1; 2])
                      (new_conv false false)) = Some wd ∧
      materialises conv_base conv_forward two_batches (new_conv false false)
        0%nat (vector_blob [1; 2]) [0%nat]
        (Conv2D_bound_base (λ _, 0) 0%nat (vector_blob [1; 2]) wd
           (Conv2D_allocate_parameters (λ _, 0) (vector_blob [1; 2])
              (new_conv false false)))
        (after_set_workspace 8 10 9 8 (name_ (conv_base (new_conv false false)))
           two_batches)) ∧
   materialises bn_base bn_forward two_batches (new_bn false false)
     0%nat (vector_blob [1; 2]) [0%nat]
     (FusedBatchNormalization_bound_base (λ _, 0) 0%nat (vector_blob [1; 2])
        (FusedBatchNormalization_allocate_parameters (λ _, 0) (vector_blob [1; 2])
           (new_bn false false)))
     two_batches) ∧
  (* layers bound at batch size 2, called at batch size 3 *)
  (materialises linear_base forward two_batches (trained_linear false)
     1%nat (vector_blob [1; 2; 3]) [1%nat]
     (Linear_bound_base (λ _, 0) 1%nat (vector_blob [1; 2; 3])
        (Linear_allocate_parameters (λ _, 0) (vector_blob [1; 2; 3])
           (trained_linear false)))
     two_batches ∧
   (∃ wd,
      filter_desc_ (Conv2D_allocate_parameters (λ _, 0) (vector_blob [1; 2; 3])
                      (trained_conv true)) = Some wd ∧
      materialises conv_base conv_forward two_batches (trained_conv true)
        1%nat (vector_blob [1; 2; 3]) [1%nat]
        (Conv2D_bound_base (λ _, 0) 1%nat (vector_blob [1; 2; 3]) wd
           (Conv2D_allocate_parameters (λ _, 0) (vector_blob [1; 2; 3])
              (trained_conv true)))
        (after_set_workspace 8 10 9 8 (name_ (conv_base (trained_conv true)))
           two_batches)) ∧
   materialises bn_base bn_forward two_batches (trained_bn false)
     1%nat (vector_blob [1; 2; 3]) [1%nat]
     (FusedBatchNormalization_bound_base (λ _, 0) 1%nat (vector_blob [1; 2; 3])
        (FusedBatchNormalization_allocate_parameters (λ _, 0) (vector_blob [1; 2; 3])
           (trained_bn false)))
     two_batches) ∧
  (* the materialisation step on a frozen layer, on an unfrozen one, and
     on one with pretrained-load *)
  materialize (trained_base true) two_batches = Ok (trained_base true) two_batches ∧
  materialize (trained_base false) two_batches
  = Ok (fresh_parameters (engine_seed 0 two_batches) (trained_base false)
          (mkBlob 1 1 1 1 [5] [5]) (mkBlob 1 1 1 1 [7] [7])
          (mkBlob 1 1 1 1 [0] [0]) (mkBlob 1 1 1 1 [0] [0])
          (mkBlob 1 1 1 1 [0] [0]) (mkBlob 1 1 1 1 [0] [0]) (vector_blob [1; 2]))
       (after_init 0 (trained_base false) two_batches) ∧
  materialize pretrained_base parameter_files
  = Ok (loaded pretrained_base (mkBlob 1 1 1 1 [5] [5]) (mkBlob 1 1 1 1 [7] [7])
          [9] [8])
       (set_stdout (stdout parameter_files ++ [loaded_line pretrained_base])
          parameter_files).
Proof.
  pose proof (forward_materialisation (λ _, 0) 512 Z (λ s : Z, s) midpoint_draw 0%Z
                (λ _ _ _ _ _ _ _ _ _ _ _ y, y) (λ _ _ _ y, y)
                (λ _ _ _ _ _, [0%nat]) (λ _ _ _ _ _, [0%nat]) (λ _ _ _ _ _, [0%nat])
                (λ _ _ _ _, 0%nat) (λ _ _ _ _, 0%nat) (λ _ _ _ _, 0%nat)
                (λ _ _ _ _ _, 0%nat) (λ _ _ _ _ _, 0%nat) (λ _ _ _ _ _, 0%nat)
                8 10 9 8
                (λ s _, s) (λ _ _ _ _ _ _ y _ _ _ _ rm rv _ sm sv, (y, rm, rv, sm, sv)))
    as Hthm.
  assert (∀ (p0 : ptr) (x0 : Blob),
            two_batches.(heap) !! p0 = Some x0 →
            ∀ p, p ∈ [p0] → ∃ x', heap two_batches !! p = Some x' ∧ blob_n x' = blob_n x0)
    as Hsame.
  { intros p0 x0 Hp0 p Hp. apply list_elem_of_singleton in Hp as ->. by exists x0. }
  destruct (Hthm two_batches (new_linear false false) (new_conv false false)
              (new_bn false false) 0%nat (vector_blob [1; 2]) [0%nat])
    as (HL1 & HC1 & HF1 & _);
    [reflexivity|by apply Hsame|left; by split_and!|left; by split_and!
    |left; by split_and!|].
  destruct (Hthm two_batches (trained_linear false) (trained_conv true)
              (trained_bn false) 1%nat (vector_blob [1; 2; 3]) [1%nat])
    as (HL2 & HC2 & HF2 & Hfrozen & Hfresh & Hload);
    [reflexivity|by apply Hsame|right; apply two_batches_ready
    |right; apply two_batches_conv_ready|right; apply two_batches_bn_ready|].
  split; [by split_and!|]. split; [by split_and!|].
  split_and!.
  - by apply Hfrozen.
  - apply (Hfresh _ _ _ _ _ _ _ _ 0%nat);
      [reflexivity|reflexivity|apply two_batches_materialised].
  - apply Hload; reflexivity.
Defined.

(** C3 fails as stated: a layer holding the bias 7 is called with an input
    that differs from the bound one only in batch size, and comes back with
    the bias 0. *)
Lemma forward_at_new_batch_size_resets_biases :
  ∃ L' W',
    forward 1%nat (trained_linear false) two_batches = Ok L' W' ∧
    biases_ (linear_base (trained_linear false)) = Some (mkBlob 1 1 1 1 [7] [7]) ∧
    biases_ (linear_base L') = Some (mkBlob 1 1 1 1 [0] [0]).
Proof.
  pose proof (Linear_forward_rebinds (λ _, 0) 512 Z (λ s : Z, s) midpoint_draw 0%Z
                two_batches (trained_linear false) 1%nat (vector_blob [1; 2; 3])
                (mkBlob 1 1 1 1 [5] [5]) (mkBlob 1 1 1 1 [7] [7])
                (mkBlob 1 1 1 1 [0] [0]) (mkBlob 1 1 1 1 [0] [0])
                (mkBlob 1 1 1 1 [0] [0]) (mkBlob 1 1 1 1 [0] [0])
                eq_refl eq_refl) as Hcall.
  rewrite materialize_parameters_fresh in Hcall by reflexivity.
  rewrite (init_weight_bias_run Z (λ s : Z, s) midpoint_draw two_batches _ 0%Z
             (mkBlob 1 1 1 1 [5] [5]) (mkBlob 1 1 1 1 [7] [7])
             (mkBlob 1 1 1 1 [0] [0]) (mkBlob 1 1 1 1 [0] [0])
             (mkBlob 1 1 1 1 [0] [0]) (mkBlob 1 1 1 1 [0] [0])
             1%nat (vector_blob [1; 2; 3])) in Hcall
    by (unfold materialised; split_and!; try reflexivity; split; reflexivity).
  destruct Hcall as (L' & Hfwd & Hpar & _).
  { unfold allocated. split_and!; try reflexivity; split; reflexivity. }
  eexists L', _. split; [exact Hfwd|]. split; [reflexivity|].
  unfold parameters in Hpar. injection Hpar as _ Hb _ _ _ _. exact Hb.
Qed.

Lemma frozen_forward_keeps_parameters_updates_ignore_freeze_witness :
  (* frozen before the first call *)
  ((∃ L', forward 0%nat (new_linear true false) two_batches = Ok L' two_batches ∧
          parameters (linear_base L')
          = parameters (linear_base (Linear_allocate_parameters (λ _, 0)
                                       (vector_blob [1; 2]) (new_linear true false)))) ∧
   (∃ C', conv_forward 0%nat (new_conv true false) two_batches
          = Ok C' (if rebind_needed (conv_base (new_conv true false))
                       (vector_blob [1; 2])
                   then after_set_workspace 8 10 9 8
                          (name_ (conv_base (new_conv true false))) two_batches
                   else two_batches) ∧
          parameters (conv_base C')
          = parameters (conv_base (Conv2D_allocate_parameters (λ _, 0)
                                     (vector_blob [1; 2]) (new_conv true false)))) ∧
   (∃ F', bn_forward 0%nat (new_bn true false) two_batches = Ok F' two_batches ∧
          parameters (bn_base F')
          = parameters (bn_base (FusedBatchNormalization_allocate_parameters (λ _, 0)
                                   (vector_blob [1; 2]) (new_bn true false))))) ∧
  (* frozen with parameters, called at another batch size *)
  ((∃ L', forward 1%nat (trained_linear true) two_batches = Ok L' two_batches ∧
          parameters (linear_base L')
          = parameters (linear_base (Linear_allocate_parameters (λ _, 0)
                                       (vector_blob [1; 2; 3]) (trained_linear true)))) ∧
   (∃ C', conv_forward 1%nat (trained_conv true) two_batches
          = Ok C' (if rebind_needed (conv_base (trained_conv true))
                       (vector_blob [1; 2; 3])
                   then after_set_workspace 8 10 9 8
                          (name_ (conv_base (trained_conv true))) two_batches
                   else two_batches) ∧
          parameters (conv_base C')
          = parameters (conv_base (Conv2D_allocate_parameters (λ _, 0)
                                     (vector_blob [1; 2; 3]) (trained_conv true)))) ∧
   (∃ F', bn_forward 1%nat (trained_bn true) two_batches = Ok F' two_batches ∧
          parameters (bn_base F')
          = parameters (bn_base (FusedBatchNormalization_allocate_parameters (λ _, 0)
                                   (vector_blob [1; 2; 3]) (trained_bn true))))) ∧
  Linear_allocate_parameters (λ _, 0) (vector_blob [1; 2; 3]) (trained_linear true)
  = trained_linear true ∧
  materialize (trained_base true) two_batches = Ok (trained_base true) two_batches ∧
  (∃ w', weights_ (update_weights_biases (1 / 10) (trained_base true)) = Some w' ∧
         ∀ i, (i < Blob_len (scalar_blob 5))%nat →
              d_ptr_ w' !!! i
              = d_ptr_ (scalar_blob 5) !!! i - 1 / 10 * d_ptr_ (scalar_blob 1) !!! i).
Proof.
  pose proof (frozen_forward_keeps_parameters_updates_ignore_freeze (λ _, 0) 16 512 Z
                (λ s : Z, s) midpoint_draw 0%Z
                (λ _ _ _ _ _ _ _ _ _ _ _ y, y) (λ _ _ _ y, y)
                (λ _ _ _ _ _, [0%nat]) (λ _ _ _ _ _, [0%nat]) (λ _ _ _ _ _, [0%nat])
                (λ _ _ _ _, 0%nat) (λ _ _ _ _, 0%nat) (λ _ _ _ _, 0%nat)
                (λ _ _ _ _ _, 0%nat) (λ _ _ _ _ _, 0%nat) (λ _ _ _ _ _, 0%nat)
                8 10 9 8
                (λ s _, s) (λ _ _ _ _ _ _ y _ _ _ _ rm rv _ sm sv, (y, rm, rv, sm, sv)))
    as Hthm.
  destruct (Hthm two_batches (new_linear true false) (new_conv true false)
              (new_bn true false) 0%nat (vector_blob [1; 2]))
    as (HL1 & HC1 & HF1 & _);
    [reflexivity|left; by split_and!|left; by split_and!|left; by split_and!
    |reflexivity|reflexivity|reflexivity|].
  destruct (Hthm two_batches (trained_linear true) (trained_conv true)
              (trained_bn true) 1%nat (vector_blob [1; 2; 3]))
    as (HL2 & HC2 & HF2 & Hkeeps & Hstep & _ & Hupdate);
    [reflexivity|right; apply two_batches_ready|right; apply two_batches_conv_ready
    |right; apply two_batches_bn_ready|reflexivity|reflexivity|reflexivity|].
  split; [by split_and!|]. split; [by split_and!|].
  split_and!.
  - by apply (Hkeeps (vector_blob [1; 2; 3]) (trained_linear true) (trained_conv true)
                (trained_bn true)).
  - by apply Hstep.
  - apply Hupdate; try reflexivity. split; reflexivity.
Defined.

(** C5 fails as stated: the plain update of a frozen layer with weight 5
    and gradient 1 changes the weight. *)
Lemma frozen_layer_plain_update_changes_weights :
  freeze_ (trained_base true) = true ∧
  weights_ (trained_base true) = Some (mkBlob 1 1 1 1 [5] [5]) ∧
  ∃ w', weights_ (update_weights_biases (1 / 10) (trained_base true)) = Some w' ∧
        d_ptr_ w' ≠ [5].
Proof.
  split; [reflexivity|]. split; [reflexivity|].
  eexists. split; [reflexivity|].
  unfold cublasSaxpy. simpl. intros [= H]. lra.
Qed.

Lemma quarter_draw_in_range : uniform_in_range Z quarter_draw.
Proof. intros a b gen Hab. simpl. lra. Qed.

Lemma init_weight_bias_values_witness :
  let range := sqrt (6 / INR (Blob_size (vector_blob [1; 2]))) in
  let zero (b : Blob) := with_values (replicate (Blob_len b) 0) b in
  let gen := engine_seed 7 two_batches in
  materialize_parameters Z (λ s : Z, s) quarter_draw 0 (trained_base false) two_batches
  = init_weight_bias Z (λ s : Z, s) quarter_draw 0 (trained_base false) two_batches ∧
  ∃ L' W' values,
    init_weight_bias Z (λ s : Z, s) quarter_draw 7 (trained_base false) two_batches
    = Ok L' W' ∧
    weights_ L' = Some (with_values values (scalar_blob 5)) ∧
    values
    = (draws Z quarter_draw (- range) range gen (Blob_len (scalar_blob 5))).1 ∧
    length values = Blob_len (scalar_blob 5) ∧
    (∀ i, (i < Blob_len (scalar_blob 5))%nat →
       values !!! i
       = (quarter_draw (- range) range
            (draws Z quarter_draw (- range) range gen i).2).1 ∧
       - range <= values !!! i <= range) ∧
    biases_ L' = Some (zero (scalar_blob 7)) ∧
    weights_m_ L' = Some (zero (scalar_blob 0)) ∧
    weights_v_ L' = Some (zero (scalar_blob 0)) ∧
    biases_m_ L' = Some (zero (scalar_blob 0)) ∧
    biases_v_ L' = Some (zero (scalar_blob 0)).
Proof.
  assert (0 < Blob_size (vector_blob [1%R; 2%R]))%nat as Hsize
    by (unfold Blob_size; simpl; lia).
  pose proof (init_weight_bias_values Z (λ s : Z, s) quarter_draw 0%Z two_batches
                (trained_base false) 7%Z
                (scalar_blob 5) (scalar_blob 7) (scalar_blob 0) (scalar_blob 0)
                (scalar_blob 0) (scalar_blob 0) 0%nat (vector_blob [1; 2])
                quarter_draw_in_range (two_batches_materialised false) Hsize) as H.
  cbv zeta in *. destruct H as [Hstep Hvalues].
  split; [by apply Hstep|exact Hvalues].
Defined.

Lemma init_weight_bias_seed_witness :
  (7%Z ≠ 0%Z →
   ∃ L1' W1' L2' W2' values,
     init_weight_bias Z (λ s : Z, s) midpoint_draw 7 (trained_base false) two_batches
     = Ok L1' W1' ∧
     init_weight_bias Z (λ s : Z, s) midpoint_draw 7 (trained_base true) two_batches
     = Ok L2' W2' ∧
     weights_ L1' = Some (with_values values (mkBlob 1 1 1 1 [5] [5])) ∧
     weights_ L2' = Some (with_values values (mkBlob 1 1 1 1 [5] [5])) ∧
     values
     = initial_weights Z (λ s : Z, s) midpoint_draw 7
         (Blob_size (vector_blob [1; 2])) (Blob_len (mkBlob 1 1 1 1 [5] [5])) ∧
     rd_calls W1' = rd_calls two_batches ∧ rd_calls W2' = rd_calls two_batches) ∧
  (∃ L1' W1',
     init_weight_bias Z (λ s : Z, s) midpoint_draw 0 (trained_base false) two_batches
     = Ok L1' W1' ∧
     weights_ L1'
     = Some (with_values
               (initial_weights Z (λ s : Z, s) midpoint_draw
                  (random_device two_batches (rd_calls two_batches))
                  (Blob_size (vector_blob [1; 2]))
                  (Blob_len (mkBlob 1 1 1 1 [5] [5])))
               (mkBlob 1 1 1 1 [5] [5])) ∧
     rd_calls W1' = S (rd_calls two_batches)).
Proof.
  apply (init_weight_bias_seed Z (λ s : Z, s) midpoint_draw two_batches two_batches
           (trained_base false) (trained_base true) 7%Z
           (mkBlob 1 1 1 1 [5] [5]) (mkBlob 1 1 1 1 [7] [7])
           (mkBlob 1 1 1 1 [0] [0]) (mkBlob 1 1 1 1 [0] [0])
           (mkBlob 1 1 1 1 [0] [0]) (mkBlob 1 1 1 1 [0] [0])
           (mkBlob 1 1 1 1 [5] [5]) (mkBlob 1 1 1 1 [7] [7])
           (mkBlob 1 1 1 1 [0] [0]) (mkBlob 1 1 1 1 [0] [0])
           (mkBlob 1 1 1 1 [0] [0]) (mkBlob 1 1 1 1 [0] [0])
           0%nat 0%nat (vector_blob [1; 2]) (vector_blob [1; 2])).
  - apply two_batches_materialised.
  - apply two_batches_materialised.
  - reflexivity.
  - reflexivity.
Defined.

Lemma pretrained_load_failure_exits_explicit_failure_returns_witness :
  let B := linear_base
             (Linear_allocate_parameters (λ _, 0) (vector_blob [1; 2])
                (new_linear false true)) in
  forward 0%nat (new_linear false true) two_batches
  = Exit (-1) (set_stdout (stdout two_batches ++ ["error occurred.."]) two_batches) ∧
  materialize B two_batches
  = Exit (-1) (set_stdout (stdout two_batches ++ ["error occurred.."]) two_batches) ∧
  (∃ st B', load_parameter B two_batches = Ok (st, B') two_batches ∧ st ≠ 0%Z) ∧
  (∀ B0 : Layer,
     ∃ st W', save_parameter B0 two_batches = Ok st W' ∧
              (save_fails two_batches B0 → st ≠ 0%Z)).
Proof.
  apply (pretrained_load_failure_exits_explicit_failure_returns (λ _, 0) 512 Z
           (λ s : Z, s) midpoint_draw 0%Z two_batches (new_linear false true)
           0%nat (vector_blob [1; 2])
           (Blob_new (λ _, 0) 1 1 1 1) (Blob_new (λ _, 0) 1 1 1 1)).
  - reflexivity.
  - reflexivity.
  - reflexivity.
  - reflexivity.
  - reflexivity.
  - reflexivity.
  - left. exists (Blob_new (λ _, 0) 1 1 1 1). split; [reflexivity|].
    intros (data & Hf & _). discriminate Hf.
Defined.

(** C4 on a layer with weight 5, bias 7, zero accumulators and gradients 1,
    updated with [lr = 1], [decay = 0], [eps = 0].  The rule gives the
    accumulators 1, the weight 4 and the bias 6; the code returns the weight
    3, having applied the rule to it twice, and the bias 7 with its
    accumulator still 0. *)
Lemma rmsprop_update_skips_biases :
  rmsprop_cell 0 0 1 1 (0, 5) = (1, 4) ∧
  rmsprop_cell 0 0 1 1 (0, 7) = (1, 6) ∧
  ∃ L' w' wm',
    update_weights_biases_with_rmsprop 16 512 1 0 0 (trained_base false) two_batches
    = Ok L' two_batches ∧
    weights_ L' = Some w' ∧ d_ptr_ w' !!! 0%nat = 3 ∧
    weights_m_ L' = Some wm' ∧ d_ptr_ wm' !!! 0%nat = 1 ∧
    biases_ L' = Some (mkBlob 1 1 1 1 [7] [7]) ∧
    biases_m_ L' = Some (mkBlob 1 1 1 1 [0] [0]).
Proof.
  assert (∀ w, rmsprop_cell 0 0 1 1 (0, w) = (1, w - 1)) as Hfirst.
  { intros w. unfold rmsprop_cell.
    replace (0 + (1 - 0) * (1 * 1 - 0)) with 1 by lra.
    replace (0 + 1) with 1 by lra. rewrite sqrt_1. f_equal. lra. }
  assert (∀ w, rmsprop_cell 0 0 1 1 (1, w) = (1, w - 1)) as Hsecond.
  { intros w. unfold rmsprop_cell.
    replace (1 + (1 - 0) * (1 * 1 - 1)) with 1 by lra.
    replace (0 + 1) with 1 by lra. rewrite sqrt_1. f_equal. lra. }
  split; [rewrite Hfirst; f_equal; lra|]. split; [rewrite Hfirst; f_equal; lra|].
  destruct (update_weights_biases_with_rmsprop_weights_twice 16 512 two_batches
              (trained_base false) 1 0 0
              (mkBlob 1 1 1 1 [5] [5]) (mkBlob 1 1 1 1 [0] [0])
              (mkBlob 1 1 1 1 [1] [1]) (mkBlob 1 1 1 1 [7] [7])
              (mkBlob 1 1 1 1 [1] [1]))
    as (L' & w' & wm' & Hrun & Hb & Hbm & Hw & Hwm & Hcell);
    try reflexivity; try lia; try (split; reflexivity).
  specialize (Hcell 0%nat ltac:(unfold Blob_len, Blob_size; simpl; lia)).
  change ((d_ptr_ wm' !!! 0%nat, d_ptr_ w' !!! 0%nat)
          = rmsprop_cell 0 0 1 1 (rmsprop_cell 0 0 1 1 (0, 5))) in Hcell.
  rewrite Hfirst, Hsecond in Hcell.
  injection Hcell as Hm' Hw'.
  exists L', w', wm'.
  split; [exact Hrun|]. split; [exact Hw|]. split; [rewrite Hw'; lra|].
  split; [exact Hwm|]. split; [rewrite Hm'; lra|].
  split; [exact Hb|]. rewrite Hbm. reflexivity.
Qed.

(** ** The rest of [layer.cu] on concrete inputs *)

Lemma launch_visits_each_index_once_witness :
  schedule 2 3 7 ≡ₚ seq 0 7 ∧
  ∀ (St : Type) (body : nat → St → St) (s : St),
    launch_device body 2 3 (Z.of_nat 7) s = launch body 2 3 7 s ∧
    launch body 2 3 7 s = run_indices body (schedule 2 3 7) s.
Proof.
  apply (launch_visits_each_index_once 2 3 7); unfold INT_MAX; lia.
Defined.

Lemma add_elementwise_witness :
  let array_c' := add 2 2 [1; 2; 3] [10; 20; 30] [0; 0; 0; 7] 3 in
  length array_c' = length [0; 0; 0; 7] ∧
  ∀ i : nat,
    array_c' !!! i
    = if decide (Z.of_nat i < 3)%Z
      then [1; 2; 3] !!! i + [10; 20; 30] !!! i
      else [0; 0; 0; 7] !!! i.
Proof.
  apply (add_elementwise 2 2 [1; 2; 3] [10; 20; 30] [0; 0; 0; 7] 3).
  - lia.
  - lia.
  - unfold INT_MAX. simpl. lia.
  - unfold INT_MAX. simpl. lia.
  - simpl. lia.
  - simpl. lia.
  - simpl. lia.
Defined.

Lemma rmsprop_update_elementwise_witness :
  let '(m', w') := rmsprop_update 1 2 2 [1; 1; 1] [5; 6; 7] [2; 2; 2] (1 / 2) 0 1 in
  length m' = length [1; 1; 1] ∧ length w' = length [5; 6; 7] ∧
  (∀ i, (i < 2)%nat →
     m' !!! i = [1; 1; 1] !!! i
                + (1 - 1 / 2) * ([2; 2; 2] !!! i * [2; 2; 2] !!! i - [1; 1; 1] !!! i) ∧
     w' !!! i = [5; 6; 7] !!! i - 1 * [2; 2; 2] !!! i / sqrt (0 + m' !!! i)) ∧
  (∀ i, (2 ≤ i)%nat → m' !!! i = [1; 1; 1] !!! i ∧ w' !!! i = [5; 6; 7] !!! i).
Proof.
  apply (rmsprop_update_elementwise 1 2 2 [1; 1; 1] [5; 6; 7] [2; 2; 2] (1 / 2) 0 1);
    simpl; lia.
Defined.

Lemma adam_update_frame_witness :
  let '(m', v', w') :=
    adam_update 1 2 1 0 [1; 2] [3; 4] [5; 6] [1; 1] (1 / 2) (1 / 2) 0 1 in
  length m' = length [1; 2] ∧ length v' = length [3; 4] ∧ length w' = length [5; 6] ∧
  (∀ i, (1 ≤ i)%nat →
     m' !!! i = [1; 2] !!! i ∧ v' !!! i = [3; 4] !!! i ∧ w' !!! i = [5; 6] !!! i) ∧
  (1%nat = 0%nat → m' = [1; 2] ∧ v' = [3; 4] ∧ w' = [5; 6]).
Proof.
  apply (adam_update_frame 1 2 1 0 [1; 2] [3; 4] [5; 6] [1; 1] (1 / 2) (1 / 2) 0 1);
    simpl; lia.
Defined.

Lemma init_one_vec_all_ones_witness :
  init_one_vec ((3 + 512 - 1) / 512) 512 [0; 0; 0] 3 = replicate 3 1.
Proof. apply (init_one_vec_all_ones 512 3 [0; 0; 0]); [lia|reflexivity]. Defined.

Lemma update_weights_biases_gradient_step_witness :
  ∃ w' b',
    update_weights_biases (1 / 10) (trained_base false)
    = set_biases_ (Some b') (set_weights_ (Some w') (trained_base false)) ∧
    Blob_shape w' = Blob_shape (scalar_blob 5) ∧
    h_ptr_ w' = h_ptr_ (scalar_blob 5) ∧ Blob_wf w' ∧
    Blob_shape b' = Blob_shape (scalar_blob 7) ∧
    h_ptr_ b' = h_ptr_ (scalar_blob 7) ∧ Blob_wf b' ∧
    (∀ i, (i < Blob_len (scalar_blob 5))%nat →
       d_ptr_ w' !!! i
       = d_ptr_ (scalar_blob 5) !!! i
         - 1 / 10 * d_ptr_ (scalar_blob 1) !!! i) ∧
    (∀ i, (i < Blob_len (scalar_blob 7))%nat →
       d_ptr_ b' !!! i
       = d_ptr_ (scalar_blob 7) !!! i
         - 1 / 10 * d_ptr_ (scalar_blob 1) !!! i).
Proof.
  apply (update_weights_biases_gradient_step (1 / 10) (trained_base false)
           (scalar_blob 5) (scalar_blob 1)
           (scalar_blob 7) (scalar_blob 1));
    try reflexivity; split; reflexivity.
Defined.

Lemma update_without_gradients_changes_nothing_witness :
  update_weights_biases 1 (new_layer "relu" false false)
  = new_layer "relu" false false ∧
  update_weights_biases_with_adam 512 1 (1 / 2) (1 / 2) 0 0
    (new_layer "relu" false false) two_batches
  = Ok (new_layer "relu" false false) two_batches ∧
  update_weights_biases_with_rmsprop 16 512 1 (1 / 2) 0
    (new_layer "relu" false false) two_batches
  = Ok (new_layer "relu" false false) two_batches.
Proof.
  apply (update_without_gradients_changes_nothing 16 512 (new_layer "relu" false false)
           two_batches 1 (1 / 2) (1 / 2) (1 / 2) 0 0%Z);
    left; reflexivity.
Defined.

Lemma update_weights_biases_with_adam_updates_both_witness :
  ∃ L' w' wm' wv' b' bm' bv',
    update_weights_biases_with_adam 512 1 (1 / 2) (1 / 2) 0 0 (trained_base false)
      two_batches
    = Ok L' two_batches ∧
    weights_ L' = Some w' ∧ weights_m_ L' = Some wm' ∧ weights_v_ L' = Some wv' ∧
    biases_ L' = Some b' ∧ biases_m_ L' = Some bm' ∧ biases_v_ L' = Some bv' ∧
    (∀ i, (i < Blob_len (scalar_blob 5))%nat →
       (d_ptr_ wm' !!! i, d_ptr_ wv' !!! i, d_ptr_ w' !!! i)
       = adam_cell 0 (1 / 2) (1 / 2) 0 1 (d_ptr_ (scalar_blob 1) !!! i)
           (d_ptr_ (scalar_blob 0) !!! i,
            d_ptr_ (scalar_blob 0) !!! i,
            d_ptr_ (scalar_blob 5) !!! i)) ∧
    (∀ i, (i < Blob_len (scalar_blob 7))%nat →
       (d_ptr_ bm' !!! i, d_ptr_ bv' !!! i, d_ptr_ b' !!! i)
       = adam_cell 0 (1 / 2) (1 / 2) 0 1 (d_ptr_ (scalar_blob 1) !!! i)
           (d_ptr_ (scalar_blob 0) !!! i,
            d_ptr_ (scalar_blob 0) !!! i,
            d_ptr_ (scalar_blob 7) !!! i)).
Proof.
  apply (update_weights_biases_with_adam_updates_both 512 two_batches (trained_base false)
           1 (1 / 2) (1 / 2) 0 0%Z
           (scalar_blob 5) (scalar_blob 0) (scalar_blob 0)
           (scalar_blob 1)
           (scalar_blob 7) (scalar_blob 0) (scalar_blob 0)
           (scalar_blob 1));
    try reflexivity; try lia; split; reflexivity.
Defined.

Lemma save_parameter_then_load_parameter_witness :
  ∃ W1,
    save_parameter (trained_base false) two_batches = Ok 0%Z W1 ∧
    files W1 = <["fc" +:+ ".bias.bin" := [7]]> (<["fc" +:+ ".bin" := [5]]> ∅) ∧
    ∃ W2,
      load_parameter (trained_base true) W1
      = Ok (0%Z,
            set_biases_ (Some (with_values [7] (scalar_blob 7)))
              (set_weights_ (Some (with_values [5] (scalar_blob 5)))
                 (trained_base true))) W2 ∧
      files W2 = files W1.
Proof.
  apply (save_parameter_then_load_parameter two_batches
           (trained_base false) (trained_base true)
           (scalar_blob 5) (scalar_blob 7)
           (scalar_blob 5) (scalar_blob 7));
    try reflexivity; split; reflexivity.
Defined.

Lemma load_parameter_bias_failure_keeps_loaded_weights_witness :
  load_parameter (trained_base false) weight_file_only
  = Ok ((-2)%Z,
        set_biases_ (Some (scalar_blob 7))
          (set_weights_ (Some (with_values [9] (scalar_blob 5)))
             (trained_base false)))
       weight_file_only.
Proof.
  apply (load_parameter_bias_failure_keeps_loaded_weights weight_file_only
           (trained_base false) (scalar_blob 5) (scalar_blob 7) [9]).
  - reflexivity.
  - reflexivity.
  - reflexivity.
  - reflexivity.
  - intros (data & Hf & _). vm_compute in Hf. discriminate Hf.
Defined.

Lemma save_parameter_partial_witness :
  save_parameter (new_layer "relu" false false) two_batches
  = Ok 0%Z (set_stdout (stdout two_batches
                        ++ [".. saving " +:+ "relu" +:+ " parameter .."; " done .."])
              two_batches) ∧
  save_parameter (trained_base false) bias_file_denied
  = Ok (-2)%Z
      (set_files (<["fc" +:+ ".bin" := [5]]> ∅)
         (set_stdout (stdout bias_file_denied
                      ++ [".. saving " +:+ "fc" +:+ " parameter .."])
            bias_file_denied)).
Proof.
  split.
  - apply (proj1 (save_parameter_partial two_batches (new_layer "relu" false false)));
      reflexivity.
  - apply (proj2 (save_parameter_partial bias_file_denied (trained_base false))
             (scalar_blob 5) (scalar_blob 7)); reflexivity.
Defined.

Lemma Softmax_backward_after_batch_growth_witness :
  ∃ L1 L2 L3,
    Softmax_forward (λ _, 0) 0%nat (new_layer "softmax" false false) toy_growing_batches
    = Ok L1 toy_growing_batches ∧
    Softmax_backward (λ _, 0) 1%nat L1 toy_growing_batches = Ok L2 toy_growing_batches ∧
    Softmax_forward (λ _, 0) 2%nat L2 toy_growing_batches = Ok L3 toy_growing_batches ∧
    Softmax_backward (λ _, 0) 3%nat L3 toy_growing_batches = Fault.
Proof.
  apply (Softmax_backward_after_batch_growth (λ _, 0) toy_growing_batches
           (new_layer "softmax" false false) 0%nat 1%nat 2%nat 3%nat
           toy_logits toy_target toy_logits3 toy_target3);
    try reflexivity; try (split; reflexivity).
  - unfold Softmax_ready. simpl. split_and!; intros; discriminate.
  - simpl. lia.
  - unfold Blob_len, Blob_size. simpl. lia.
Defined.


(** For the workspace: cuDNN 8 with 10, 9 and 8 algorithms, whose best ones
    are 1, 3 and 5 and need 4, 0 and 2 bytes of scratch. *)
Local Abbreviation set_workspace_example :=
  (set_workspace (λ _, 0)
     (λ _ _ _ _ _, [1; 0]%nat) (λ _ _ _ _ _, [3; 0]%nat) (λ _ _ _ _ _, [5; 0]%nat)
     (λ _ _ _ _, 0%nat) (λ _ _ _ _, 0%nat) (λ _ _ _ _, 0%nat)
     (λ _ _ _ _ _, 4%nat) (λ _ _ _ _ _, 0%nat) (λ _ _ _ _ _, 2%nat) 8 10 9 8).

Lemma set_workspace_grows_only_witness :
  ∃ L',
    set_workspace_example (trained_conv false) two_batches
    = Ok L' (after_set_workspace 8 10 9 8 (name_ (conv_base (trained_conv false)))
               two_batches) ∧
    conv_fwd_algo_ L' = 1%nat ∧
    conv_bwd_filter_algo_ L' = 3%nat ∧
    conv_bwd_data_algo_ L' = 5%nat ∧
    workspace_size L'
    = (((workspace_size (trained_conv false) `max` 4) `max` 0) `max` 2)%nat ∧
    (workspace_size (trained_conv false) ≤ workspace_size L')%nat ∧
    ((0 < workspace_size L')%nat →
     d_workspace L' = Some (fresh_buffer (λ _, 0) (workspace_size L'))) ∧
    (workspace_size L' = 0%nat → d_workspace L' = d_workspace (trained_conv false)) ∧
    conv_base L' = conv_base (trained_conv false) ∧
    out_channels_ L' = out_channels_ (trained_conv false) ∧
    kernel_size_ L' = kernel_size_ (trained_conv false) ∧
    conv_desc_ L' = conv_desc_ (trained_conv false) ∧
    filter_desc_ L' = filter_desc_ (trained_conv false) ∧
    bias_desc_ L' = bias_desc_ (trained_conv false) ∧
    output_size4_ L' = output_size4_ (trained_conv false).
Proof.
  apply (set_workspace_grows_only (λ _, 0)
           (λ _ _ _ _ _, [1; 0]%nat) (λ _ _ _ _ _, [3; 0]%nat) (λ _ _ _ _ _, [5; 0]%nat)
           (λ _ _ _ _, 0%nat) (λ _ _ _ _, 0%nat) (λ _ _ _ _, 0%nat)
           (λ _ _ _ _ _, 4%nat) (λ _ _ _ _ _, 0%nat) (λ _ _ _ _ _, 2%nat) 8 10 9 8
           two_batches (trained_conv false)
           (2, 1, 1, 1)%nat (2, 1, 1, 1)%nat (1, 1, 1, 1)%nat); reflexivity.
Defined.

Lemma Linear_forward_affine_witness :
  ∃ L' W' bound,
    forward 0%nat (new_linear false false) two_batches = Ok L' W' ∧
    heap W' = heap two_batches ∧
    Linear_bound W' L' bound ∧ Linear_output_affine L' bound ∧
    output_size_ L' = output_size_ (new_linear false false) ∧
    (bound = vector_blob [1; 2] ∨
     rebind_needed (linear_base (new_linear false false)) (vector_blob [1; 2]) = false ∧
     Linear_bound two_batches (new_linear false false) bound).
Proof.
  apply (Linear_forward_affine (λ _, 0) 512 Z (λ s : Z, s) midpoint_draw 0%Z
           two_batches (new_linear false false) 0%nat (vector_blob [1; 2])).
  - reflexivity.
  - split; reflexivity.
  - lia.
  - reflexivity.
  - left. split_and!; reflexivity.
Defined.

Lemma Linear_forward_frozen_before_first_call_witness :
  ∃ L',
    forward 0%nat (new_linear true true) two_batches = Ok L' two_batches ∧
    weights_ (linear_base L') = Some (Blob_new (λ _, 0) 1 1 (1 * 1 * 1) 1) ∧
    biases_ (linear_base L') = Some (Blob_new (λ _, 0) 1 1 1 1) ∧
    Linear_output_affine L' (vector_blob [1; 2]).
Proof.
  apply (Linear_forward_frozen_before_first_call (λ _, 0) 512 Z (λ s : Z, s)
           midpoint_draw 0%Z two_batches (new_linear true true) 0%nat
           (vector_blob [1; 2])).
  - reflexivity.
  - split; reflexivity.
  - lia.
  - split_and!; reflexivity.
  - reflexivity.
Defined.

Lemma Linear_forward_reads_bound_input_witness :
  forward 0%nat (forwarded_linear false) two_inputs
  = forward 1%nat (forwarded_linear false) two_inputs.
Proof.
  apply (Linear_forward_reads_bound_input (λ _, 0) 512 Z (λ s : Z, s) midpoint_draw 0%Z
           two_inputs (forwarded_linear false) 0%nat 1%nat
           (vector_blob [1; 2]) (vector_blob [3; 4]) (scalar_blob 5) 0%nat);
    reflexivity.
Defined.

Lemma forwarded_linear_bound gradient_stop :
  Linear_bound two_inputs (forwarded_linear gradient_stop) (vector_blob [1; 2]).
Proof.
  exists (scalar_blob 5), (scalar_blob 7),
         (scalar_blob 0), (scalar_blob 0),
         (scalar_blob 0), (scalar_blob 0),
         0%nat, (mkBlob 2 1 1 1 [12; 17] [12; 17]).
  unfold materialised. split_and!; try reflexivity; split; reflexivity.
Defined.

Lemma Linear_backward_gradients_witness :
  ∃ L' q,
    Linear_backward (λ _, 0) 1%nat (forwarded_linear false) None two_inputs
    = Ok (L', Some q) two_inputs ∧
    heap two_inputs !! q = Some (vector_blob [3; 4]) ∧
    Linear_bound two_inputs L' (vector_blob [1; 2]) ∧
    Linear_grads two_inputs L' (Some q) (vector_blob [1; 2]) (vector_blob [3; 4]) ∧
    Linear_parameter_gradients L' (vector_blob [1; 2]) (vector_blob [3; 4]) ∧
    (gradient_stop_ (linear_base (forwarded_linear false)) = false →
     Linear_input_gradient L' (vector_blob [1; 2]) (vector_blob [3; 4])) ∧
    parameters (linear_base L') = parameters (linear_base (forwarded_linear false)) ∧
    output_size_ L' = output_size_ (forwarded_linear false) ∧
    input_size_ L' = input_size_ (forwarded_linear false).
Proof.
  apply (Linear_backward_gradients (λ _, 0) two_inputs (forwarded_linear false) None
           1%nat (vector_blob [1; 2]) (vector_blob [3; 4]) (vector_blob [3; 4])).
  - apply forwarded_linear_bound.
  - reflexivity.
  - reflexivity.
  - left. split; [split_and!; reflexivity|reflexivity].
  - split; reflexivity.
  - reflexivity.
Defined.

Lemma Linear_backward_gradient_stop_witness :
  ∃ L' q,
    Linear_backward (λ _, 0) 1%nat (forwarded_linear true) None two_inputs
    = Ok (L', Some q) two_inputs ∧
    Linear_parameter_gradients L' (vector_blob [1; 2]) (vector_blob [3; 4]) ∧
    grad_input_ (linear_base L')
    = Some (default (Blob_of_shape (λ _, 0) (Blob_shape (vector_blob [1; 2])))
              (grad_input_ (linear_base (forwarded_linear true)))).
Proof.
  apply (Linear_backward_gradient_stop (λ _, 0) two_inputs (forwarded_linear true) None
           1%nat (vector_blob [1; 2]) (vector_blob [3; 4]) (vector_blob [3; 4])).
  - apply forwarded_linear_bound.
  - reflexivity.
  - reflexivity.
  - left. split; [split_and!; reflexivity|reflexivity].
  - split; reflexivity.
  - reflexivity.
  - reflexivity.
Defined.

Lemma Linear_backward_then_update_witness :
  ∃ L' q w' b',
    Linear_backward (λ _, 0) 1%nat (forwarded_linear false) None two_inputs
    = Ok (L', q) two_inputs ∧
    weights_ (update_weights_biases (1 / 10) (linear_base L')) = Some w' ∧
    biases_ (update_weights_biases (1 / 10) (linear_base L')) = Some b' ∧
    (∀ l j, (l < input_size_ (forwarded_linear false))%nat →
            (j < output_size_ (forwarded_linear false))%nat →
       d_ptr_ w' !!! (l + j * input_size_ (forwarded_linear false))%nat
       = d_ptr_ (scalar_blob 5) !!! (l + j * input_size_ (forwarded_linear false))%nat
         - 1 / 10
           * sum_n (λ n, d_ptr_ (vector_blob [1; 2])
                           !!! (l + n * input_size_ (forwarded_linear false))%nat
                         * d_ptr_ (vector_blob [3; 4])
                             !!! (j + n * output_size_ (forwarded_linear false))%nat)
               (blob_n (vector_blob [1; 2]))) ∧
    (∀ j, (j < output_size_ (forwarded_linear false))%nat →
       d_ptr_ b' !!! j
       = d_ptr_ (scalar_blob 7) !!! j
         - 1 / 10
           * sum_n (λ n, d_ptr_ (vector_blob [3; 4])
                           !!! (j + n * output_size_ (forwarded_linear false))%nat)
               (blob_n (vector_blob [1; 2]))).
Proof.
  apply (Linear_backward_then_update (λ _, 0) two_inputs (forwarded_linear false) None
           1%nat (vector_blob [1; 2]) (vector_blob [3; 4]) (vector_blob [3; 4])
           (scalar_blob 5) (scalar_blob 7) (1 / 10)).
  - apply forwarded_linear_bound.
  - reflexivity.
  - reflexivity.
  - left. split; [split_and!; reflexivity|reflexivity].
  - split; reflexivity.
  - reflexivity.
  - reflexivity.
  - reflexivity.
Defined.

Lemma init_weight_bias_effects_witness :
  init_weight_bias Z (λ s : Z, s) midpoint_draw 0 (new_layer "relu" false false) two_batches
  = Ok (new_layer "relu" false false) two_batches ∧
  ∃ L' W',
    init_weight_bias Z (λ s : Z, s) midpoint_draw 0 (trained_base false) two_batches
    = Ok L' W' ∧
    stdout W' = stdout two_batches ++ [".. initialized " +:+ "fc" +:+ " layer .."] ∧
    rd_calls W' = S (rd_calls two_batches) ∧
    heap W' = heap two_batches ∧ files W' = files two_batches ∧
    write_denied W' = write_denied two_batches ∧
    random_device W' = random_device two_batches.
Proof.
  split.
  - apply (proj1 (init_weight_bias_effects Z (λ s : Z, s) midpoint_draw two_batches
                    (new_layer "relu" false false) 0%Z)).
    left. reflexivity.
  - apply (proj2 (init_weight_bias_effects Z (λ s : Z, s) midpoint_draw two_batches
                    (trained_base false) 0%Z)
             (scalar_blob 5) (scalar_blob 7) (scalar_blob 0) (scalar_blob 0)
             (scalar_blob 0) (scalar_blob 0) 0%nat (vector_blob [1; 2])).
    unfold materialised. split_and!; try reflexivity; split; reflexivity.
Defined.

Lemma Conv2D_forward_reads_bound_input_witness :
  conv_forward 0%nat (trained_conv false) two_inputs
  = conv_forward 1%nat (trained_conv false) two_inputs.
Proof.
  apply (Conv2D_forward_reads_bound_input (λ _, 0) Z (λ s : Z, s) midpoint_draw 0%Z
           (λ _ _ _ _ _ _ _ _ _ _ _ y, y) (λ _ _ _ y, y)
           (λ _ _ _ _ _, [0%nat]) (λ _ _ _ _ _, [0%nat]) (λ _ _ _ _ _, [0%nat])
           (λ _ _ _ _, 0%nat) (λ _ _ _ _, 0%nat) (λ _ _ _ _, 0%nat)
           (λ _ _ _ _ _, 0%nat) (λ _ _ _ _ _, 0%nat) (λ _ _ _ _ _, 0%nat) 8 10 9 8
           two_inputs (trained_conv false) 0%nat 1%nat
           (vector_blob [1; 2]) (vector_blob [3; 4]) (scalar_blob 5) 0%nat);
    reflexivity.
Defined.

Lemma Softmax_forward_distribution_witness :
  ∃ L1 out,
    Softmax_forward (λ _, 0) 0%nat (new_layer "softmax" false false) toy_growing_batches
    = Ok L1 toy_growing_batches ∧ output_ L1 = Some out ∧
    ∀ n p, (n < blob_n toy_logits)%nat →
           (p < blob_h toy_logits * blob_w toy_logits)%nat →
      let cell c := (n * (blob_c toy_logits * (blob_h toy_logits * blob_w toy_logits))
                     + c * (blob_h toy_logits * blob_w toy_logits) + p)%nat in
      (∀ c, (c < blob_c toy_logits)%nat → 0 < d_ptr_ out !!! cell c) ∧
      ((0 < blob_c toy_logits)%nat →
       sum_n (λ c, d_ptr_ out !!! cell c) (blob_c toy_logits) = 1).
Proof.
  apply (Softmax_forward_distribution (λ _, 0) toy_growing_batches
           (new_layer "softmax" false false) 0%nat toy_logits).
  - reflexivity.
  - split; reflexivity.
  - unfold Softmax_ready. simpl. split_and!; intros; discriminate.
Defined.

Lemma forwarded_linear_affine gradient_stop :
  Linear_output_affine (forwarded_linear gradient_stop) (vector_blob [1; 2]).
Proof.
  exists (scalar_blob 5), (scalar_blob 7), (mkBlob 2 1 1 1 [12; 17] [12; 17]).
  split_and!; try reflexivity.
  intros n j Hn Hj. simpl in Hn, Hj.
  assert (j = 0%nat) as -> by lia.
  assert (n = 0 ∨ n = 1)%nat as [-> | ->] by lia;
    unfold sum_n; simpl; lra.
Defined.

Lemma Linear_forward_idempotent_witness :
  forward 1%nat (forwarded_linear false) two_inputs
  = Ok (forwarded_linear false) two_inputs.
Proof.
  apply (Linear_forward_idempotent (λ _, 0) 512 Z (λ s : Z, s) midpoint_draw 0%Z
           two_inputs (forwarded_linear false) 1%nat
           (vector_blob [1; 2]) (vector_blob [3; 4])).
  - apply forwarded_linear_bound.
  - apply forwarded_linear_affine.
  - reflexivity.
  - reflexivity.
Defined.
